(** * XmindTestCase: the document loader ([xmind_loader.py])

    A shallow embedding of the loader of [.xmind] archives: the values the
    JSON decoder hands to the program, the process-wide result cache, the
    archive validation, the topic normalizer and the [load] operation of
    [XmindFileLoader], followed by the properties stated about them.

    Conventions.
    - Python values are the inductive [pyval]; a [dict] is an association
      list in insertion order (the decoder never yields a repeated key, and
      [dict_get] reads the first binding).
    - A [str] is held as its UTF-8 encoding; [len] and iteration go by
      code points ([code_points]).
    - Exceptions are the inductive [exn], one constructor per class the
      program raises or can meet; the human-readable message is dropped.
    - Code that touches the file system, the clock, the entropy source or a
      module global runs in the state-and-exception monad [M World]; methods
      of [XmindFileLoader] run in [M Proc], which adds the receiver [self].
    - Values are contents, not objects, wherever only contents are read.
      The normalizer appends to a list it was handed; module [Heap] reads
      it a second time over a store of list and dict objects, to see what
      happens to the objects themselves.
    - Logging calls are not modelled. *)

From Stdlib Require Import List String Ascii ZArith NArith Bool Arith Lia RelationClasses.
From Stdlib Require Import Permutation.
From Stdlib Require Import Floats.SpecFloat DecimalString.
From Stdlib Require DecimalZ DecimalPos.
Import ListNotations.
Local Open Scope string_scope.
Local Open Scope list_scope.

Set Warnings "-register-all".

(* ===================================================================== *)
(** * Python values *)
(* ===================================================================== *)

Inductive pyval : Type :=
| PyNone
| PyBool (b : bool)
| PyInt (z : Z)
| PyFloat (f : spec_float)
| PyStr (s : string)
| PyList (xs : list pyval)
| PyDict (kvs : list (string * pyval)).

(** [bool(v)]: the truth value Python gives to [v]. *)
Definition truthy (v : pyval) : bool :=
  match v with
  | PyNone => false
  | PyBool b => b
  | PyInt z => negb (Z.eqb z 0)
  | PyFloat (S754_zero _) => false
  | PyFloat _ => true
  | PyStr s => negb (String.eqb s "")
  | PyList xs => match xs with [] => false | _ => true end
  | PyDict kvs => match kvs with [] => false | _ => true end
  end.

Definition is_str (v : pyval) : bool := match v with PyStr _ => true | _ => false end.
Definition is_list (v : pyval) : bool := match v with PyList _ => true | _ => false end.
Definition is_dict (v : pyval) : bool := match v with PyDict _ => true | _ => false end.

(** Nesting depth, the measure the recursive traversals descend on. *)
Fixpoint depth (v : pyval) : nat :=
  match v with
  | PyList xs => S (fold_right (fun x acc => Nat.max (depth x) acc) 0 xs)
  | PyDict kvs =>
      S (fold_right (fun kv acc => Nat.max (match kv with (_, x) => depth x end) acc) 0 kvs)
  | _ => 0
  end.

(** ** Dictionaries in insertion order *)

Section Dict.
Context {V : Type}.

Fixpoint dict_get (d : list (string * V)) (k : string) : option V :=
  match d with
  | [] => None
  | (k', v) :: d' => if String.eqb k' k then Some v else dict_get d' k
  end.

Definition dict_mem (d : list (string * V)) (k : string) : bool :=
  match dict_get d k with Some _ => true | None => false end.

(** [del d[k]] for a key that is present. *)
Fixpoint dict_del (d : list (string * V)) (k : string) : list (string * V) :=
  match d with
  | [] => []
  | (k', v) :: d' => if String.eqb k' k then d' else (k', v) :: dict_del d' k
  end.

(** [d[k] = v]: an existing key keeps its place, a new one goes last. *)
Fixpoint dict_set (d : list (string * V)) (k : string) (v : V) : list (string * V) :=
  match d with
  | [] => [(k, v)]
  | (k', v') :: d' =>
      if String.eqb k' k then (k, v) :: d' else (k', v') :: dict_set d' k v
  end.

Definition dict_keys (d : list (string * V)) : list string := map fst d.
End Dict.

(** [d.get(k)] and [d.get(k, default)] on a Python dict. *)
Definition py_get (d : list (string * pyval)) (k : string) : pyval :=
  match dict_get d k with Some v => v | None => PyNone end.

Definition py_get_default (d : list (string * pyval)) (k : string) (dflt : pyval) : pyval :=
  match dict_get d k with Some v => v | None => dflt end.

(* ===================================================================== *)
(** * Exceptions and the monad of effects *)
(* ===================================================================== *)

(** The exception classes of the program.  [XmindLoadError] keeps its
    machine-readable [error_type]; every class derives from [Exception]. *)
Inductive exn : Type :=
| XmindLoadError (error_type : string)
| FileNotFoundError
| ValueError
| JSONDecodeError
| UnicodeDecodeError
| BadZipFile
| RuntimeError
| AttributeError
| TypeError
| KeyError
| IsADirectoryError
| PermissionError
| OSError.

Definition is_XmindLoadError (e : exn) : bool :=
  match e with XmindLoadError _ => true | _ => false end.

Inductive outcome (A : Type) : Type :=
| Return (a : A)
| Raise (e : exn).
Arguments Return {A} a.
Arguments Raise {A} e.

(** A computation over a state [S]: it ends with a value or an exception,
    and the state it leaves behind is kept in both cases. *)
Definition M (S A : Type) : Type := S -> outcome A * S.

Definition ret {S A} (a : A) : M S A := fun s => (Return a, s).
Definition raise {S A} (e : exn) : M S A := fun s => (Raise e, s).

Definition bind {S A B} (m : M S A) (k : A -> M S B) : M S B :=
  fun s => match m s with
           | (Return a, s') => k a s'
           | (Raise e, s') => (Raise e, s')
           end.

(** [try: m  except Exception as e: h e]. *)
Definition try_except {S A} (m : M S A) (h : exn -> M S A) : M S A :=
  fun s => match m s with
           | (Return a, s') => (Return a, s')
           | (Raise e, s') => h e s'
           end.

Definition gets {S A} (f : S -> A) : M S A := fun s => (Return (f s), s).
Definition modify {S} (f : S -> S) : M S unit := fun s => (Return tt, f s).

Declare Scope py_scope.
Delimit Scope py_scope with py.
Notation "x <- m ;; k" := (bind m (fun x => k))
  (at level 61, m at next level, right associativity) : py_scope.
Notation "m ;; k" := (bind m (fun _ => k))
  (at level 61, right associativity) : py_scope.
Local Open Scope py_scope.

(** [for x in xs: acc.append(f x)], stopping at the first exception. *)
Fixpoint mapM {S A B} (f : A -> M S B) (xs : list A) : M S (list B) :=
  match xs with
  | [] => ret []
  | x :: xs' => y <- f x ;; ys <- mapM f xs' ;; ret (y :: ys)
  end.

(* ===================================================================== *)
(** * Strings: the few operations of [str] the program calls *)
(* ===================================================================== *)

(** [c.lower()] for one character (the characters of [".xmind"] have no
    other pre-image under Unicode lower-casing than their ASCII capitals). *)
Definition ascii_lower (c : ascii) : ascii :=
  let n := nat_of_ascii c in
  if andb (Nat.leb 65 n) (Nat.leb n 90) then ascii_of_nat (n + 32) else c.

Fixpoint lower (s : string) : string :=
  match s with
  | EmptyString => EmptyString
  | String c s' => String (ascii_lower c) (lower s')
  end.

(** [s.endswith(suffix)]. *)
Definition endswith (s suffix : string) : bool :=
  let n := String.length s in
  let k := String.length suffix in
  andb (Nat.leb k n) (String.eqb (substring (n - k) k s) suffix).

(** [s.replace(old, new)] for a one-character [old]. *)
Fixpoint replace (old : ascii) (new : string) (s : string) : string :=
  match s with
  | EmptyString => EmptyString
  | String c s' =>
      if Ascii.eqb c old then new ++ replace old new s'
      else String c (replace old new s')
  end.

(** The code points of a string, each as the string of its UTF-8 bytes:
    a byte [10xxxxxx] continues the code point begun before it. *)
Definition utf8_continuation (c : ascii) : bool :=
  let n := nat_of_ascii c in andb (Nat.leb 128 n) (Nat.ltb n 192).

Definition starts_in_code_point (s : string) : bool :=
  match s with
  | String c _ => utf8_continuation c
  | EmptyString => false
  end.

Fixpoint code_points (s : string) : list string :=
  match s with
  | EmptyString => []
  | String c s' =>
      match code_points s' with
      | p :: ps =>
          if starts_in_code_point p then String c p :: ps
          else String c EmptyString :: p :: ps
      | [] => [String c EmptyString]
      end
  end.

(** [needle in haystack] on strings. *)
Definition str_contains (needle haystack : string) : bool :=
  match index 0 needle haystack with Some _ => true | None => false end.

(* ===================================================================== *)
(** * The [uuid] module: [str(uuid.uuid4())] *)
(* ===================================================================== *)

Module Uuid.

Definition hex_digit (n : N) : ascii :=
  nth (N.to_nat n)
    ["0"; "1"; "2"; "3"; "4"; "5"; "6"; "7"; "8"; "9"; "a"; "b"; "c"; "d"; "e"; "f"]%char
    "0"%char.

(** ['%0<width>x' % n], most significant digit first. *)
Fixpoint hex (width : nat) (n : N) : string :=
  match width with
  | O => EmptyString
  | S w => hex w (N.div n 16) ++ String (hex_digit (N.modulo n 16)) EmptyString
  end.

(** [uuid4()]: sixteen random bytes read as a number, with the variant
    and version fields forced as RFC 4122 asks. *)
Definition uuid4_int (random_bytes : N) : N :=
  let i := N.modulo random_bytes (2 ^ 128) in
  let i := N.ldiff i (N.shiftl 49152 48) in
  let i := N.lor i (N.shiftl 32768 48) in
  let i := N.ldiff i (N.shiftl 61440 64) in
  N.lor i (N.shiftl 4 76).

(** [str(u)]: the 8-4-4-4-12 form. *)
Definition str (u : N) : string :=
  let h := hex 32 u in
  substring 0 8 h ++ "-" ++ substring 8 4 h ++ "-" ++ substring 12 4 h
    ++ "-" ++ substring 16 4 h ++ "-" ++ substring 20 12 h.

End Uuid.

(** [str(uuid.uuid4()).replace('-', '')[:26]], from sixteen random bytes. *)
Definition fresh_topic_id (random_bytes : N) : string :=
  substring 0 26 (replace "-"%char "" (Uuid.str (Uuid.uuid4_int random_bytes))).


(* ===================================================================== *)
(** * The world outside the program *)
(* ===================================================================== *)

(** An entry of a directory, by what [open] and [json.load] make of it. *)
Inductive file_content : Type :=
| Json (v : pyval)          (* a file of well-formed JSON text, decoded *)
| NotJson                   (* a file of UTF-8 text that is not JSON: JSONDecodeError *)
| NotUtf8                   (* a file of bytes that are not UTF-8: UnicodeDecodeError *)
| Folder.                   (* a directory: [open] raises IsADirectoryError *)

(** A zip archive as [zipfile.ZipFile] presents it: the member names as
    they are stored, and what [extractall] does.  [written] lists the
    entries [extractall] writes at the top of the target directory, in the
    order it writes them, up to the point where it returns or raises: a
    member stored under a folder shows as that folder, and an entry written
    twice is left as it was written last. *)
Record Archive : Type := {
  testzip : option string;                     (* first member with a bad CRC *)
  namelist : list string;                      (* the member names, in archive order *)
  written : list (string * file_content);      (* what [extractall] writes, in order *)
  extractall_error : option exn                (* what [extractall] raises, if anything *)
}.

(** A path that exists: what [os.stat] says of it, what opening it for
    reading raises, if anything ([IsADirectoryError] for a directory,
    [PermissionError] for a file that may not be read), and the archive it
    holds when [zipfile.ZipFile] finds one ([None]: [BadZipFile]). *)
Record File : Type := {
  st_mtime : spec_float;
  st_size : Z;
  open_error : option exn;
  zip : option Archive
}.

(** An entry of the module global [_file_cache]. *)
Record cache_entry : Type := {
  data : pyval;
  timestamp : Z
}.

(** Calls into the operating system, in the order they are made. *)
Inductive event : Type :=
| EvStat (path : string)
| EvExists (path : string)
| EvGetsize (path : string)
| EvZipOpen (path : string)
| EvMkdtemp (dir : nat)
| EvMkdtempFailed
| EvExtractall (path : string) (dir : nat)
| EvListdir (dir : nat)
| EvExistsDir (dir : nat)
| EvExistsIn (dir : nat) (name : string)
| EvRead (dir : nat) (name : string)
| EvRmtree (dir : nat).

(** The state a load runs against.  Temporary directories are named by the
    number [tempfile.mkdtemp] draws, and [mkdtemp_error] says for which
    draws the creation fails, and how; [listdir_rank] is the order in which
    the file system lists names (any order is the order of some ranking);
    the clock and the entropy source are streams read at a cursor;
    [time.time()] readings are integers (ticks), which is all the program
    asks of them: an order. *)
Record World : Type := {
  fs : string -> option File;
  tmp_dirs : list (nat * list (string * file_content));
  tmp_next : nat;
  mkdtemp_error : nat -> option exn;
  rmtree_fails : nat -> bool;
  listdir_rank : string -> nat;
  clock : nat -> Z;
  clock_pos : nat;
  urandom : nat -> N;
  urandom_pos : nat;
  _file_cache : list (string * cache_entry);
  _cache_max_size : nat;
  trace : list event
}.

(** The module as it stands right after import, in a given environment. *)
Definition module_init (files : string -> option File)
    (mk : nat -> option exn) (fails : nat -> bool) (rank : string -> nat)
    (clk : nat -> Z) (rnd : nat -> N) : World :=
  {| fs := files; tmp_dirs := []; tmp_next := 0; mkdtemp_error := mk;
     rmtree_fails := fails; listdir_rank := rank;
     clock := clk; clock_pos := 0; urandom := rnd; urandom_pos := 0;
     _file_cache := []; _cache_max_size := 100; trace := [] |}.

Definition set_tmp_dirs (w : World) (ds : list (nat * list (string * file_content))) : World :=
  {| fs := fs w; tmp_dirs := ds; tmp_next := tmp_next w; mkdtemp_error := mkdtemp_error w;
     rmtree_fails := rmtree_fails w; listdir_rank := listdir_rank w;
     clock := clock w; clock_pos := clock_pos w; urandom := urandom w;
     urandom_pos := urandom_pos w; _file_cache := _file_cache w;
     _cache_max_size := _cache_max_size w; trace := trace w |}.

Definition set_tmp_next (w : World) (n : nat) : World :=
  {| fs := fs w; tmp_dirs := tmp_dirs w; tmp_next := n; mkdtemp_error := mkdtemp_error w;
     rmtree_fails := rmtree_fails w; listdir_rank := listdir_rank w;
     clock := clock w; clock_pos := clock_pos w; urandom := urandom w;
     urandom_pos := urandom_pos w; _file_cache := _file_cache w;
     _cache_max_size := _cache_max_size w; trace := trace w |}.

Definition set_clock_pos (w : World) (n : nat) : World :=
  {| fs := fs w; tmp_dirs := tmp_dirs w; tmp_next := tmp_next w; mkdtemp_error := mkdtemp_error w;
     rmtree_fails := rmtree_fails w; listdir_rank := listdir_rank w;
     clock := clock w; clock_pos := n; urandom := urandom w;
     urandom_pos := urandom_pos w; _file_cache := _file_cache w;
     _cache_max_size := _cache_max_size w; trace := trace w |}.

Definition set_urandom_pos (w : World) (n : nat) : World :=
  {| fs := fs w; tmp_dirs := tmp_dirs w; tmp_next := tmp_next w; mkdtemp_error := mkdtemp_error w;
     rmtree_fails := rmtree_fails w; listdir_rank := listdir_rank w;
     clock := clock w; clock_pos := clock_pos w; urandom := urandom w;
     urandom_pos := n; _file_cache := _file_cache w;
     _cache_max_size := _cache_max_size w; trace := trace w |}.

Definition set_file_cache (w : World) (c : list (string * cache_entry)) : World :=
  {| fs := fs w; tmp_dirs := tmp_dirs w; tmp_next := tmp_next w; mkdtemp_error := mkdtemp_error w;
     rmtree_fails := rmtree_fails w; listdir_rank := listdir_rank w;
     clock := clock w; clock_pos := clock_pos w; urandom := urandom w;
     urandom_pos := urandom_pos w; _file_cache := c;
     _cache_max_size := _cache_max_size w; trace := trace w |}.

Definition set_trace (w : World) (t : list event) : World :=
  {| fs := fs w; tmp_dirs := tmp_dirs w; tmp_next := tmp_next w; mkdtemp_error := mkdtemp_error w;
     rmtree_fails := rmtree_fails w; listdir_rank := listdir_rank w;
     clock := clock w; clock_pos := clock_pos w; urandom := urandom w;
     urandom_pos := urandom_pos w; _file_cache := _file_cache w;
     _cache_max_size := _cache_max_size w; trace := t |}.

(** Temporary directories by number. *)
Definition dir_files (ds : list (nat * list (string * file_content))) (d : nat)
    : option (list (string * file_content)) :=
  match find (fun p => Nat.eqb (fst p) d) ds with
  | Some p => Some (snd p)
  | None => None
  end.

Definition dir_exists (ds : list (nat * list (string * file_content))) (d : nat) : bool :=
  existsb (fun p => Nat.eqb (fst p) d) ds.

(** The entries of a directory after [writes] were written into it, one
    after the other: a name written again is replaced. *)
Definition write_all (files writes : list (string * file_content))
    : list (string * file_content) :=
  fold_left (fun d kv => dict_set d (fst kv) (snd kv)) writes files.

Definition dir_extract (ds : list (nat * list (string * file_content))) (d : nat)
    (writes : list (string * file_content)) : list (nat * list (string * file_content)) :=
  map (fun p => if Nat.eqb (fst p) d then (d, write_all (snd p) writes) else p) ds.

(** The names of a directory in the order of a ranking: the one of least
    rank first, names of equal rank as they come. *)
Fixpoint insert_by_rank (rank : string -> nat) (x : string) (xs : list string)
    : list string :=
  match xs with
  | [] => [x]
  | y :: ys =>
      if Nat.leb (rank x) (rank y) then x :: y :: ys
      else y :: insert_by_rank rank x ys
  end.

Definition listing (rank : string -> nat) (names : list string) : list string :=
  fold_right (insert_by_rank rank) [] names.

Definition dir_remove (ds : list (nat * list (string * file_content))) (d : nat)
    : list (nat * list (string * file_content)) :=
  filter (fun p => negb (Nat.eqb (fst p) d)) ds.

(** ** System and library calls *)

Definition emit (e : event) : M World unit :=
  modify (fun w => set_trace w (trace w ++ [e])).

Definition os_stat (path : string) : M World File :=
  emit (EvStat path) ;;
  f <- gets (fun w => fs w path) ;;
  match f with Some file => ret file | None => raise FileNotFoundError end.

Definition os_path_exists (path : string) : M World bool :=
  emit (EvExists path) ;;
  f <- gets (fun w => fs w path) ;;
  ret (match f with Some _ => true | None => false end).

Definition os_path_getsize (path : string) : M World Z :=
  emit (EvGetsize path) ;;
  f <- gets (fun w => fs w path) ;;
  match f with Some file => ret (st_size file) | None => raise FileNotFoundError end.

(** [zipfile.ZipFile(path, 'r')]: the path is opened for reading, then
    looked at as an archive. *)
Definition ZipFile (path : string) : M World Archive :=
  emit (EvZipOpen path) ;;
  f <- gets (fun w => fs w path) ;;
  match f with
  | Some file =>
      match open_error file with
      | Some e => raise e
      | None => match zip file with Some a => ret a | None => raise BadZipFile end
      end
  | None => raise FileNotFoundError
  end.

(** [tempfile.mkdtemp(prefix='xmind_extract_')]: a directory that did not
    exist, created empty; or nothing created, and an exception. *)
Definition mkdtemp : M World nat :=
  d <- gets tmp_next ;;
  modify (fun w => set_tmp_next w (S d)) ;;
  err <- gets (fun w => mkdtemp_error w d) ;;
  match err with
  | Some e => emit EvMkdtempFailed ;; raise e
  | None =>
      modify (fun w => set_tmp_dirs w (tmp_dirs w ++ [(d, [])])) ;;
      emit (EvMkdtemp d) ;;
      ret d
  end.

(** [zip_ref.extractall(dir)]: the entries are written into [dir]; when
    the extraction breaks off, what was written stays. *)
Definition extractall (path : string) (a : Archive) (dir : nat) : M World unit :=
  emit (EvExtractall path dir) ;;
  modify (fun w => set_tmp_dirs w (dir_extract (tmp_dirs w) dir (written a))) ;;
  match extractall_error a with
  | Some e => raise e
  | None => ret tt
  end.

(** [os.listdir(dir)]: the names at the top of [dir], in the order of the
    file system. *)
Definition os_listdir (dir : nat) : M World (list string) :=
  emit (EvListdir dir) ;;
  ds <- gets tmp_dirs ;;
  rank <- gets listdir_rank ;;
  match dir_files ds dir with
  | Some files => ret (listing rank (map fst files))
  | None => raise FileNotFoundError
  end.

Definition os_path_exists_dir (dir : nat) : M World bool :=
  emit (EvExistsDir dir) ;;
  ds <- gets tmp_dirs ;;
  ret (dir_exists ds dir).

(** [os.path.exists(os.path.join(dir, name))]. *)
Definition os_path_exists_in (dir : nat) (name : string) : M World bool :=
  emit (EvExistsIn dir name) ;;
  ds <- gets tmp_dirs ;;
  ret (match dir_files ds dir with
       | Some files => dict_mem files name
       | None => false
       end).

(** [with open(os.path.join(dir, name), 'r', encoding='utf-8') as f:
       json.load(f)]. *)
Definition json_load (dir : nat) (name : string) : M World pyval :=
  emit (EvRead dir name) ;;
  ds <- gets tmp_dirs ;;
  match dir_files ds dir with
  | None => raise FileNotFoundError
  | Some files =>
      match dict_get files name with
      | None => raise FileNotFoundError
      | Some (Json v) => ret v
      | Some NotJson => raise JSONDecodeError
      | Some NotUtf8 => raise UnicodeDecodeError
      | Some Folder => raise IsADirectoryError
      end
  end.

Definition shutil_rmtree (dir : nat) : M World unit :=
  emit (EvRmtree dir) ;;
  fails <- gets (fun w => rmtree_fails w dir) ;;
  if fails then raise OSError
  else modify (fun w => set_tmp_dirs w (dir_remove (tmp_dirs w) dir)).

Definition time_time : M World Z :=
  t <- gets (fun w => clock w (clock_pos w)) ;;
  modify (fun w => set_clock_pos w (S (clock_pos w))) ;;
  ret t.

(** The sixteen random bytes behind one [uuid.uuid4()]. *)
Definition os_urandom16 : M World N :=
  r <- gets (fun w => urandom w (urandom_pos w)) ;;
  modify (fun w => set_urandom_pos w (S (urandom_pos w))) ;;
  ret r.

(** [if b: raise e]. *)
Definition raise_if {S} (b : bool) (e : exn) : M S unit :=
  if b then raise e else ret tt.

(** [min(xs, key=f)]: the first element whose key is least; [None] stands
    for the [ValueError] on an empty sequence. *)
Definition py_min {A} (xs : list A) (f : A -> Z) : option A :=
  match xs with
  | [] => None
  | x :: xs' => Some (fold_left (fun best y => if Z.ltb (f y) (f best) then y else best) xs' x)
  end.

(** [str(n)] for an [int]. *)
Definition int_str (z : Z) : string := NilZero.string_of_int (Z.to_int z).

(** [str(x)] for a [float]: the shortest decimal that reads back as [x].
    The embedding takes it as given. *)
Class PyFloatStr : Type := float_str : spec_float -> string.

(* ===================================================================== *)
(** * The result cache *)
(* ===================================================================== *)

Section Cache.
Context {float_repr : PyFloatStr}.

Definition _get_file_cache_key (file_path : string) : M World string :=
  try_except
    (stat <- os_stat file_path ;;
     ret (file_path ++ "_" ++ float_str (st_mtime stat) ++ "_" ++ int_str (st_size stat))%string)
    (fun _ => ret file_path).

(** [None] is Python's [None]: no entry under the key. *)
Definition _get_cached_data (file_path : string) : M World (option cache_entry) :=
  cache_key <- _get_file_cache_key file_path ;;
  cache <- gets _file_cache ;;
  ret (dict_get cache cache_key).

Definition _set_cached_data (file_path : string) (d : pyval) : M World unit :=
  cache <- gets _file_cache ;;
  max_size <- gets _cache_max_size ;;
  (if Nat.leb max_size (List.length cache) then
     match py_min (dict_keys cache)
             (fun k => match dict_get cache k with
                       | Some e => timestamp e
                       | None => 0%Z
                       end) with
     | None => raise ValueError
     | Some oldest_key =>
         modify (fun w => set_file_cache w (dict_del (_file_cache w) oldest_key))
     end
   else ret tt) ;;
  cache_key <- _get_file_cache_key file_path ;;
  now <- time_time ;;
  modify (fun w => set_file_cache w
                     (dict_set (_file_cache w) cache_key {| data := d; timestamp := now |})).

Definition _clear_cache : M World unit :=
  modify (fun w => set_file_cache w []).

End Cache.

(* ===================================================================== *)
(** * Archive validation *)
(* ===================================================================== *)

Definition validate_xmind_file (xmind_file : string) : M World bool :=
  try_except
    (found <- os_path_exists xmind_file ;;
     raise_if (negb found) FileNotFoundError ;;
     raise_if (negb (endswith (lower xmind_file) ".xmind")) ValueError ;;
     file_size <- os_path_getsize xmind_file ;;
     raise_if (Z.eqb file_size 0) ValueError ;;
     zip_ref <- ZipFile xmind_file ;;
     raise_if (match testzip zip_ref with Some _ => true | None => false end) BadZipFile ;;
     let file_list := namelist zip_ref in
     raise_if (negb (existsb (String.eqb "content.json") file_list)) ValueError ;;
     ret true)
    (fun _ => ret false).

(* ===================================================================== *)
(** * Dynamic operations on values *)
(* ===================================================================== *)

Section Dynamic.
Context {S : Type}.

(** ["k" in v]. *)
Definition py_contains_str (k : string) (v : pyval) : M S bool :=
  match v with
  | PyDict d => ret (dict_mem d k)
  | PyList xs =>
      ret (existsb (fun x => match x with PyStr s => String.eqb s k | _ => false end) xs)
  | PyStr s => ret (str_contains k s)
  | _ => raise TypeError
  end.

(** [v["k"]]. *)
Definition py_getitem_str (k : string) (v : pyval) : M S pyval :=
  match v with
  | PyDict d => match dict_get d k with Some x => ret x | None => raise KeyError end
  | _ => raise TypeError
  end.

(** The items [for x in v] runs over. *)
Definition py_iter (v : pyval) : M S (list pyval) :=
  match v with
  | PyList xs => ret xs
  | PyDict d => ret (map (fun kv => PyStr (fst kv)) d)
  | PyStr s => ret (map PyStr (code_points s))
  | _ => raise TypeError
  end.

(** [len(v)]. *)
Definition py_len (v : pyval) : M S nat :=
  match v with
  | PyList xs => ret (List.length xs)
  | PyDict d => ret (List.length d)
  | PyStr s => ret (List.length (code_points s))
  | _ => raise TypeError
  end.
End Dynamic.

(* ===================================================================== *)
(** * [ContentJsonParser] *)
(* ===================================================================== *)

Module ContentJsonParser.

Definition _validate_content_structure (content_data : pyval) : M World unit :=
  match content_data with
  | PyList xs => raise_if (Nat.eqb (List.length xs) 0) ValueError
  | PyDict d =>
      match dict_get d "sheets" with
      | None => raise ValueError
      | Some (PyList sheets) => raise_if (Nat.eqb (List.length sheets) 0) ValueError
      | Some _ => raise ValueError
      end
  | _ => raise ValueError
  end.

(** [metadata.json] is read when present; a failure is only logged. *)
Definition _load_additional_data (extract_dir : nat) : M World unit :=
  found <- os_path_exists_in extract_dir "metadata.json" ;;
  if found then
    try_except (json_load extract_dir "metadata.json" ;; ret tt) (fun _ => ret tt)
  else ret tt.

Definition parse_content_json (extract_dir : nat) : M World pyval :=
  found <- os_path_exists_in extract_dir "content.json" ;;
  raise_if (negb found) FileNotFoundError ;;
  try_except
    (content_data <- json_load extract_dir "content.json" ;;
     _validate_content_structure content_data ;;
     _load_additional_data extract_dir ;;
     ret content_data)
    (fun e => match e with
              | JSONDecodeError => raise ValueError
              | _ => raise RuntimeError
              end).

End ContentJsonParser.

(* ===================================================================== *)
(** * [DataFormatConverter] *)
(* ===================================================================== *)

Module DataFormatConverter.

(** [a or b]. *)
Definition py_or (a b : pyval) : pyval := if truthy a then a else b.

(** One turn of the loop over [raw_markers]. *)
Definition marker_step (markers : list pyval) (m : pyval) : list pyval :=
  match m with
  | PyDict d =>
      let mid := py_or (py_get d "markerId") (py_get d "id") in
      if is_str mid then markers ++ [mid] else markers
  | PyStr _ => markers ++ [m]
  | _ => markers
  end.

(** The topic built when [topic_data] is missing or empty. *)
Definition empty_topic (topic_id : string) : pyval :=
  PyDict [("id", PyStr topic_id); ("link", PyNone); ("title", PyNone);
          ("note", PyNone); ("label", PyNone); ("comment", PyNone);
          ("markers", PyList []); ("topics", PyList [])].

(** The body of [_convert_topic]; [self_convert_topic] is the method
    itself, called on each attached child. *)
Definition convert_topic_body (self_convert_topic : pyval -> M World pyval)
    (topic_data : pyval) : M World pyval :=
  if negb (truthy topic_data) then
    r <- os_urandom16 ;;
    ret (empty_topic (fresh_topic_id r))
  else
    match topic_data with
    | PyDict d =>
        let title := py_get d "title" in
        let note := py_get d "note" in
        let note :=
          if negb (truthy note) then
            match py_get d "notes" with
            | PyDict notes =>
                match py_get notes "plain" with
                | PyDict plain => py_get plain "content"
                | _ => note
                end
            | _ => note
            end
          else note in
        let label := py_get d "label" in
        let comment := py_get d "comment" in
        let raw_markers := py_get_default d "markers" (PyList []) in
        let markers :=
          match raw_markers with
          | PyList ms => fold_left marker_step ms []
          | _ => []
          end in
        let topics :=
          match py_get d "topics" with
          | PyList ts => ts
          | _ => []
          end in
        converted <-
          match py_get d "children" with
          | PyDict children =>
              match py_get children "attached" with
              | PyList attached => mapM self_convert_topic attached
              | _ => ret []
              end
          | _ => ret []
          end ;;
        ret (PyDict [("id", py_get_default d "id" (PyStr ""));
                     ("link", py_get d "link");
                     ("title", title);
                     ("note", note);
                     ("label", label);
                     ("comment", comment);
                     ("markers", PyList markers);
                     ("topics", PyList (topics ++ converted))])
    | _ => raise AttributeError
    end.

(** The recursion, tied by the number of nested calls still allowed. *)
Fixpoint _convert_topic_rec (fuel : nat) (topic_data : pyval) : M World pyval :=
  match fuel with
  | O => raise RuntimeError
  | Datatypes.S fuel' => convert_topic_body (_convert_topic_rec fuel') topic_data
  end.

(** [_convert_topic]: the nesting of [topic_data] bounds the calls it
    needs ([_convert_topic_unfold] below: it is a fixed point of the body). *)
Definition _convert_topic (topic_data : pyval) : M World pyval :=
  _convert_topic_rec (Datatypes.S (depth topic_data)) topic_data.

Definition _convert_topics (topics_data : pyval) : M World pyval :=
  if negb (truthy topics_data) then ret (PyList [])
  else
    items <- py_iter topics_data ;;
    result <- mapM _convert_topic items ;;
    ret (PyList result).

Definition convert_to_xmind_format (content_data : pyval) : M World pyval :=
  if negb (truthy content_data) then ret (PyList [])
  else
    match content_data with
    | PyList sheets =>
        result <-
          mapM (fun sheet =>
                  match sheet with
                  | PyDict s =>
                      topic <- _convert_topic
                                 (py_get_default s "topic"
                                    (py_get_default s "rootTopic" (PyDict []))) ;;
                      ret (PyDict [("id", py_get_default s "id" (PyStr ""));
                                   ("title", py_get s "title");
                                   ("topic", topic)])
                  | _ => raise AttributeError
                  end) sheets ;;
        ret (PyList result)
    | _ =>
        has_sheets <- py_contains_str "sheets" content_data ;;
        if negb has_sheets then ret (PyList [])
        else
          sheets <- py_getitem_str "sheets" content_data ;;
          items <- py_iter sheets ;;
          result <-
            mapM (fun sheet =>
                    match sheet with
                    | PyDict s =>
                        topic <- _convert_topic (py_get_default s "topic" (PyDict [])) ;;
                        ret (PyDict [("id", py_get_default s "id" (PyStr ""));
                                     ("title", py_get s "title");
                                     ("topic", topic)])
                    | _ => raise AttributeError
                    end) items ;;
          ret (PyList result)
    end.

End DataFormatConverter.

(* ===================================================================== *)
(** * The loader object and its debugger *)
(* ===================================================================== *)

(** The entries of [debug_info] that a load writes. *)
Record DebugInfo : Type := {
  start_time : option Z;
  file_size : Z;
  extract_time : Z;
  parse_time : Z;
  extracted_files : list string;
  content_structure : nat * nat * nat   (* sheet_count, topic_count, max_depth *)
}.

Record Debugger : Type := {
  enable_debug : bool;
  debug_info : DebugInfo
}.

(** The fields of an [XmindFileLoader]; [temp_dir = None] and
    [content_data = PyNone] are Python's [None]. *)
Record Loader : Type := {
  xmind_file : string;
  temp_dir : option nat;
  content_data : pyval;
  debugger : Debugger
}.

(** A method call: the world, and the object the method runs on. *)
Record Proc : Type := {
  world : World;
  self : Loader
}.

(** A computation on the world, run from inside a method. *)
Definition liftW {A} (m : M World A) : M Proc A :=
  fun p => match m (world p) with
           | (r, w') => (r, {| world := w'; self := self p |})
           end.

Definition set_self (f : Loader -> Loader) : M Proc unit :=
  modify (fun p => {| world := world p; self := f (self p) |}).

Definition set_temp_dir (d : option nat) : M Proc unit :=
  set_self (fun l => {| xmind_file := xmind_file l; temp_dir := d;
                        content_data := content_data l; debugger := debugger l |}).

Definition set_content_data (v : pyval) : M Proc unit :=
  set_self (fun l => {| xmind_file := xmind_file l; temp_dir := temp_dir l;
                        content_data := v; debugger := debugger l |}).

Definition set_debug_info (f : DebugInfo -> DebugInfo) : M Proc unit :=
  set_self (fun l => {| xmind_file := xmind_file l; temp_dir := temp_dir l;
                        content_data := content_data l;
                        debugger := {| enable_debug := enable_debug (debugger l);
                                       debug_info := f (debug_info (debugger l)) |} |}).

Module XmindLoaderDebugger.

(** [XmindLoaderDebugger(enable_debug)]. *)
Definition __init__ (enable : bool) : Debugger :=
  {| enable_debug := enable;
     debug_info := {| start_time := None; file_size := 0; extract_time := 0;
                      parse_time := 0; extracted_files := [];
                      content_structure := (0, 0, 0) |} |}.

Section Statistics.
Context {S : Type}.

(** The body of [_count_topics(topic, depth)], which yields the pair
    (count, max_depth); [self_count_topics] is the method itself. *)
Definition count_topics_body (self_count_topics : pyval -> nat -> M S (nat * nat))
    (topic : pyval) (dep : nat) : M S (nat * nat) :=
  has_topics <- py_contains_str "topics" topic ;;
  subs <- (if has_topics then py_getitem_str "topics" topic else ret PyNone) ;;
  if andb has_topics (truthy subs) then
    items <- py_iter subs ;;
    fold_left
      (fun acc sub_topic =>
         stats <- acc ;;
         sub_stats <- self_count_topics sub_topic (Datatypes.S dep) ;;
         ret (fst stats + fst sub_stats, Nat.max (snd stats) (snd sub_stats)))
      items (ret (1, dep))
  else ret (1, dep).

Fixpoint _count_topics_rec (fuel : nat) (topic : pyval) (dep : nat) : M S (nat * nat) :=
  match fuel with
  | O => raise RuntimeError
  | Datatypes.S fuel' => count_topics_body (_count_topics_rec fuel') topic dep
  end.

(** [_count_topics]: the nesting of [topic] bounds the calls it needs
    ([_count_topics_unfold] below: it is a fixed point of the body). *)
Definition _count_topics (topic : pyval) (dep : nat) : M S (nat * nat) :=
  _count_topics_rec (Datatypes.S (depth topic)) topic dep.

Definition _analyze_content_structure (content : pyval) : M S (nat * nat * nat) :=
  has_sheets <- (if truthy content then py_contains_str "sheets" content
                 else ret false) ;;
  if has_sheets then
    sheets <- py_getitem_str "sheets" content ;;
    sheet_count <- py_len sheets ;;
    items <- py_iter sheets ;;
    fold_left
      (fun acc sheet =>
         structure <- acc ;;
         has_topic <- py_contains_str "topic" sheet ;;
         if has_topic then
           topic <- py_getitem_str "topic" sheet ;;
           topic_stats <- _count_topics topic 0 ;;
           ret (fst (fst structure),
                snd (fst structure) + fst topic_stats,
                Nat.max (snd structure) (snd topic_stats))
         else ret structure)
      items (ret (sheet_count, 0, 0))
  else ret (0, 0, 0).
End Statistics.

(** The methods below run on [self.debugger] of the loader in [Proc]. *)

Definition start_debug (file : string) : M Proc unit :=
  enabled <- gets (fun p => enable_debug (debugger (self p))) ;;
  if negb enabled then ret tt
  else
    now <- liftW time_time ;;
    set_debug_info (fun i =>
      {| start_time := Some now; file_size := file_size i;
         extract_time := extract_time i; parse_time := parse_time i;
         extracted_files := extracted_files i;
         content_structure := content_structure i |}) ;;
    size <- liftW (os_path_getsize file) ;;
    set_debug_info (fun i =>
      {| start_time := start_time i; file_size := size;
         extract_time := extract_time i; parse_time := parse_time i;
         extracted_files := extracted_files i;
         content_structure := content_structure i |}).

Definition log_extract_time (start : Z) (files : list string) : M Proc unit :=
  enabled <- gets (fun p => enable_debug (debugger (self p))) ;;
  if negb enabled then ret tt
  else
    now <- liftW time_time ;;
    set_debug_info (fun i =>
      {| start_time := start_time i; file_size := file_size i;
         extract_time := now - start; parse_time := parse_time i;
         extracted_files := files;
         content_structure := content_structure i |}).

Definition log_parse_time (start : Z) (content : pyval) : M Proc unit :=
  enabled <- gets (fun p => enable_debug (debugger (self p))) ;;
  if negb enabled then ret tt
  else
    now <- liftW time_time ;;
    set_debug_info (fun i =>
      {| start_time := start_time i; file_size := file_size i;
         extract_time := extract_time i; parse_time := now - start;
         extracted_files := extracted_files i;
         content_structure := content_structure i |}) ;;
    structure <- _analyze_content_structure content ;;
    set_debug_info (fun i =>
      {| start_time := start_time i; file_size := file_size i;
         extract_time := extract_time i; parse_time := parse_time i;
         extracted_files := extracted_files i;
         content_structure := structure |}).

End XmindLoaderDebugger.

(* ===================================================================== *)
(** * [XmindFileLoader] *)
(* ===================================================================== *)

Module XmindFileLoader.
Section Methods.
Context {float_repr : PyFloatStr}.

(** [XmindFileLoader(xmind_file, enable_debug=False)]. *)
Definition __init__ (file : string) (enable : bool) : Loader :=
  {| xmind_file := file; temp_dir := None; content_data := PyNone;
     debugger := XmindLoaderDebugger.__init__ enable |}.

Definition _extract_xmind_file : M Proc nat :=
  try_except
    (d <- liftW mkdtemp ;;
     set_temp_dir (Some d) ;;
     file <- gets (fun p => xmind_file (self p)) ;;
     zip_ref <- liftW (ZipFile file) ;;
     liftW (extractall file zip_ref d) ;;
     ret d)
    (fun e => match e with
              | BadZipFile => raise (XmindLoadError "BAD_ZIP_FILE")
              | _ => raise (XmindLoadError "EXTRACTION_FAILED")
              end).

Definition _cleanup : M Proc unit :=
  dir <- gets (fun p => temp_dir (self p)) ;;
  match dir with
  | None => ret tt
  | Some d =>
      found <- liftW (os_path_exists_dir d) ;;
      if found then try_except (liftW (shutil_rmtree d)) (fun _ => ret tt)
      else ret tt
  end.

Definition load (debug : bool) : M Proc pyval :=
  (if debug then
     file <- gets (fun p => xmind_file (self p)) ;;
     XmindLoaderDebugger.start_debug file
   else ret tt) ;;
  file <- gets (fun p => xmind_file (self p)) ;;
  cached_data <- liftW (_get_cached_data file) ;;
  match cached_data with
  | Some entry =>
      set_content_data (data entry) ;;
      gets (fun p => content_data (self p))
  | None =>
      try_except
        (file <- gets (fun p => xmind_file (self p)) ;;
         valid <- liftW (validate_xmind_file file) ;;
         raise_if (negb valid) (XmindLoadError "FILE_VALIDATION") ;;
         extract_start <- liftW time_time ;;
         extract_dir <- _extract_xmind_file ;;
         dir_found <- liftW (os_path_exists_dir extract_dir) ;;
         files <- (if dir_found then liftW (os_listdir extract_dir) else ret []) ;;
         (if debug then XmindLoaderDebugger.log_extract_time extract_start files
          else ret tt) ;;
         parse_start <- liftW time_time ;;
         content <- liftW (ContentJsonParser.parse_content_json extract_dir) ;;
         (if debug then XmindLoaderDebugger.log_parse_time parse_start content
          else ret tt) ;;
         converted <- liftW (DataFormatConverter.convert_to_xmind_format content) ;;
         set_content_data converted ;;
         file <- gets (fun p => xmind_file (self p)) ;;
         result <- gets (fun p => content_data (self p)) ;;
         liftW (_set_cached_data file result) ;;
         _cleanup ;;
         gets (fun p => content_data (self p)))
        (fun e =>
           if is_XmindLoadError e then _cleanup ;; raise e
           else _cleanup ;; raise (XmindLoadError "LOAD_FAILED"))
  end.

(** [self.content_data if self.content_data else []]. *)
Definition getData (l : Loader) : pyval :=
  if truthy (content_data l) then content_data l else PyList [].

(** The finalizer. *)
Definition __del__ : M Proc unit := _cleanup.

End Methods.
End XmindFileLoader.

(* ===================================================================== *)
(** * [XmindWorkbookWrapper] and the module's [load] *)
(* ===================================================================== *)

Module XmindWorkbookWrapper.

Record t : Type := { _data : pyval }.

Definition getData (w : t) : pyval := _data w.

(** [len(self._data) if self._data else 0]; [len] of a number raises. *)
Definition __len__ {S} (w : t) : M S nat :=
  if truthy (_data w) then py_len (_data w) else ret 0.

End XmindWorkbookWrapper.

Section ModuleLoad.
Context {float_repr : PyFloatStr}.

(** [load(xmind_file, enable_debug=False)]: a loader of its own (whose
    debugger is off, as its constructor's default has it), one call of
    its [load], and the wrapper around what came back. *)
Definition load (file : string) (debug : bool) : M World XmindWorkbookWrapper.t :=
  fun w =>
    let loader := XmindFileLoader.__init__ file false in
    match XmindFileLoader.load debug {| world := w; self := loader |} with
    | (Return result, p) => (Return {| XmindWorkbookWrapper._data := result |}, world p)
    | (Raise e, p) => (Raise e, world p)
    end.
End ModuleLoad.

(* ===================================================================== *)
(** * The normalizer on objects with identity *)
(* ===================================================================== *)

(** Above, a list or a dict is its contents.  In the interpreter it is an
    object: two names can hold the same list, and [append] changes it for
    both.  Here the normalizer is read again with that in view, to see what
    it does to the objects it is given. *)
Module Heap.

Definition ref := nat.

(** What a name holds: an immutable value, or a reference to a list or a
    dict. *)
Inductive value : Type :=
| VNone
| VBool (b : bool)
| VInt (z : Z)
| VFloat (f : spec_float)
| VStr (s : string)
| VRef (r : ref).

Inductive object : Type :=
| OList (items : list value)
| ODict (items : list (string * value)).

(** The objects, each at the index that is its reference, and the system. *)
Record Store : Type := { objects : list object; sys : World }.

Definition set_objects (s : Store) (os : list object) : Store :=
  {| objects := os; sys := sys s |}.

Definition liftS {A} (m : M World A) : M Store A :=
  fun s => let (o, w) := m (sys s) in (o, {| objects := objects s; sys := w |}).

Fixpoint update {A} (xs : list A) (i : nat) (x : A) : list A :=
  match xs, i with
  | [], _ => []
  | _ :: xs', O => x :: xs'
  | y :: xs', S i' => y :: update xs' i' x
  end.

(** A list display [[...]] or a dict display [{...}]: a new object. *)
Definition new (o : object) : M Store value :=
  r <- gets (fun s => List.length (objects s)) ;;
  modify (fun s => set_objects s (objects s ++ [o])) ;;
  ret (VRef r).

(** The object behind a reference.  References come from [new], so the
    object is there; a reference to nothing ends the run. *)
Definition deref (r : ref) : M Store object :=
  o <- gets (fun s => nth_error (objects s) r) ;;
  match o with Some x => ret x | None => raise RuntimeError end.

(** [bool(v)]. *)
Definition truthy (v : value) : M Store bool :=
  match v with
  | VNone => ret false
  | VBool b => ret b
  | VInt z => ret (negb (Z.eqb z 0))
  | VFloat (S754_zero _) => ret false
  | VFloat _ => ret true
  | VStr s => ret (negb (String.eqb s ""))
  | VRef r =>
      o <- deref r ;;
      ret (match o with
           | OList [] => false
           | ODict [] => false
           | _ => true
           end)
  end.

Definition is_str (v : value) : bool := match v with VStr _ => true | _ => false end.

(** [isinstance(v, list)]. *)
Definition isinstance_list (v : value) : M Store bool :=
  match v with
  | VRef r => o <- deref r ;; ret (match o with OList _ => true | ODict _ => false end)
  | _ => ret false
  end.

(** [isinstance(v, dict)]. *)
Definition isinstance_dict (v : value) : M Store bool :=
  match v with
  | VRef r => o <- deref r ;; ret (match o with ODict _ => true | OList _ => false end)
  | _ => ret false
  end.

(** [v.get(k, default)]: a dict has the method, nothing else here does. *)
Definition get (v : value) (k : string) (default : value) : M Store value :=
  match v with
  | VRef r =>
      o <- deref r ;;
      match o with
      | ODict d => ret (match dict_get d k with Some x => x | None => default end)
      | OList _ => raise AttributeError
      end
  | _ => raise AttributeError
  end.

(** [l.append(x)]: the list object itself changes. *)
Definition append (l : value) (x : value) : M Store unit :=
  match l with
  | VRef r =>
      o <- deref r ;;
      match o with
      | OList items => modify (fun s => set_objects s (update (objects s) r (OList (items ++ [x]))))
      | ODict _ => raise AttributeError
      end
  | _ => raise AttributeError
  end.

(** ["k" in v]. *)
Definition contains (k : string) (v : value) : M Store bool :=
  match v with
  | VRef r =>
      o <- deref r ;;
      ret (match o with
           | ODict d => dict_mem d k
           | OList xs =>
               existsb (fun x => match x with VStr s => String.eqb s k | _ => false end) xs
           end)
  | VStr s => ret (str_contains k s)
  | _ => raise TypeError
  end.

(** [v["k"]]. *)
Definition getitem (k : string) (v : value) : M Store value :=
  match v with
  | VRef r =>
      o <- deref r ;;
      match o with
      | ODict d => match dict_get d k with Some x => ret x | None => raise KeyError end
      | OList _ => raise TypeError
      end
  | _ => raise TypeError
  end.

Fixpoint for_each {A} (body : A -> M Store unit) (xs : list A) : M Store unit :=
  match xs with
  | [] => ret tt
  | x :: xs' => body x ;; for_each body xs'
  end.

(** [for x in l: body x] over the list object [r]: the iterator keeps an
    index, and reads the list as it is at each turn.  [turns] bounds the
    number of turns. *)
Fixpoint for_list (turns : nat) (r : ref) (i : nat) (body : value -> M Store unit)
    : M Store unit :=
  match turns with
  | O => raise RuntimeError
  | S turns' =>
      o <- deref r ;;
      match o with
      | OList items =>
          match nth_error items i with
          | Some x => body x ;; for_list turns' r (S i) body
          | None => ret tt
          end
      | ODict _ => raise TypeError
      end
  end.

(** [for x in v: body x]: over the items of a list, the keys of a dict,
    the characters of a string. *)
Definition for_in (turns : nat) (v : value) (body : value -> M Store unit) : M Store unit :=
  match v with
  | VRef r =>
      o <- deref r ;;
      match o with
      | OList _ => for_list turns r 0 body
      | ODict d => for_each body (map (fun kv => VStr (fst kv)) d)
      end
  | VStr s =>
      for_each body (map VStr (code_points s))
  | _ => raise TypeError
  end.

(** [json.load]: every array and every object of the document becomes an
    object of its own. *)
Fixpoint json_load_value (v : pyval) : M Store value :=
  match v with
  | PyNone => ret VNone
  | PyBool b => ret (VBool b)
  | PyInt z => ret (VInt z)
  | PyFloat f => ret (VFloat f)
  | PyStr s => ret (VStr s)
  | PyList xs =>
      items <- (fix elements (xs : list pyval) : M Store (list value) :=
                  match xs with
                  | [] => ret []
                  | x :: xs' =>
                      a <- json_load_value x ;;
                      rest <- elements xs' ;;
                      ret (a :: rest)
                  end) xs ;;
      new (OList items)
  | PyDict kvs =>
      items <- (fix members (kvs : list (string * pyval)) : M Store (list (string * value)) :=
                  match kvs with
                  | [] => ret []
                  | (k, x) :: kvs' =>
                      a <- json_load_value x ;;
                      rest <- members kvs' ;;
                      ret ((k, a) :: rest)
                  end) kvs ;;
      new (ODict items)
  end.

(** The contents behind a value, read [fuel] references deep. *)
Fixpoint contents (fuel : nat) (os : list object) (v : value) : option pyval :=
  match v with
  | VNone => Some PyNone
  | VBool b => Some (PyBool b)
  | VInt z => Some (PyInt z)
  | VFloat f => Some (PyFloat f)
  | VStr s => Some (PyStr s)
  | VRef r =>
      match fuel with
      | O => None
      | S fuel' =>
          match nth_error os r with
          | None => None
          | Some (OList items) =>
              option_map PyList
                (fold_right
                   (fun x acc =>
                      match contents fuel' os x, acc with
                      | Some a, Some rest => Some (a :: rest)
                      | _, _ => None
                      end) (Some []) items)
          | Some (ODict items) =>
              option_map PyDict
                (fold_right
                   (fun kx acc =>
                      match contents fuel' os (snd kx), acc with
                      | Some a, Some rest => Some ((fst kx, a) :: rest)
                      | _, _ => None
                      end) (Some []) items)
          end
      end
  end.

Module DataFormatConverter.

(** [_convert_topic], with [self._convert_topic] bounded to [fuel] nested
    calls and each loop to [fuel] turns. *)
Fixpoint _convert_topic (fuel : nat) (topic_data : value) : M Store value :=
  match fuel with
  | O => raise RuntimeError
  | S fuel' =>
      present <- truthy topic_data ;;
      if negb present then
        r <- liftS os_urandom16 ;;
        markers <- new (OList []) ;;
        topics <- new (OList []) ;;
        new (ODict [("id", VStr (fresh_topic_id r)); ("link", VNone); ("title", VNone);
                    ("note", VNone); ("label", VNone); ("comment", VNone);
                    ("markers", markers); ("topics", topics)])
      else
        title <- get topic_data "title" VNone ;;
        note <- get topic_data "note" VNone ;;
        has_note <- truthy note ;;
        note <-
          (if negb has_note then
             notes <- get topic_data "notes" VNone ;;
             notes_is_dict <- isinstance_dict notes ;;
             if notes_is_dict then
               plain <- get notes "plain" VNone ;;
               plain_is_dict <- isinstance_dict plain ;;
               if plain_is_dict then get plain "content" VNone else ret note
             else ret note
           else ret note) ;;
        label <- get topic_data "label" VNone ;;
        comment <- get topic_data "comment" VNone ;;
        no_markers <- new (OList []) ;;
        raw_markers <- get topic_data "markers" no_markers ;;
        markers <- new (OList []) ;;
        raw_is_list <- isinstance_list raw_markers ;;
        (if raw_is_list then
           for_in fuel' raw_markers
             (fun m =>
                m_is_dict <- isinstance_dict m ;;
                if m_is_dict then
                  marker_id <- get m "markerId" VNone ;;
                  has_marker_id <- truthy marker_id ;;
                  mid <- (if has_marker_id then ret marker_id else get m "id" VNone) ;;
                  if is_str mid then append markers mid else ret tt
                else if is_str m then append markers m
                else ret tt)
         else ret tt) ;;
        topics <- get topic_data "topics" VNone ;;
        topics_is_list <- isinstance_list topics ;;
        topics <- (if negb topics_is_list then new (OList []) else ret topics) ;;
        children <- get topic_data "children" VNone ;;
        children_is_dict <- isinstance_dict children ;;
        (if children_is_dict then
           attached <- get children "attached" VNone ;;
           attached_is_list <- isinstance_list attached ;;
           if attached_is_list then
             for_in fuel' attached
               (fun child =>
                  converted <- _convert_topic fuel' child ;;
                  append topics converted)
           else ret tt
         else ret tt) ;;
        id <- get topic_data "id" (VStr "") ;;
        link <- get topic_data "link" VNone ;;
        new (ODict [("id", id); ("link", link); ("title", title); ("note", note);
                    ("label", label); ("comment", comment);
                    ("markers", markers); ("topics", topics)])
  end.

Definition convert_to_xmind_format (fuel : nat) (content_data : value) : M Store value :=
  result <- new (OList []) ;;
  present <- truthy content_data ;;
  if negb present then ret result
  else
    is_list <- isinstance_list content_data ;;
    if is_list then
      for_in fuel content_data
        (fun sheet =>
           id <- get sheet "id" (VStr "") ;;
           title <- get sheet "title" VNone ;;
           no_topic <- new (ODict []) ;;
           root_topic <- get sheet "rootTopic" no_topic ;;
           topic_data <- get sheet "topic" root_topic ;;
           topic <- _convert_topic fuel topic_data ;;
           converted_sheet <- new (ODict [("id", id); ("title", title); ("topic", topic)]) ;;
           append result converted_sheet) ;;
      ret result
    else
      has_sheets <- contains "sheets" content_data ;;
      if negb has_sheets then ret result
      else
        sheets <- getitem "sheets" content_data ;;
        for_in fuel sheets
          (fun sheet =>
             id <- get sheet "id" (VStr "") ;;
             title <- get sheet "title" VNone ;;
             no_topic <- new (ODict []) ;;
             topic_data <- get sheet "topic" no_topic ;;
             topic <- _convert_topic fuel topic_data ;;
             converted_sheet <- new (ODict [("id", id); ("title", title); ("topic", topic)]) ;;
             append result converted_sheet) ;;
        ret result.

End DataFormatConverter.

(** The store before anything is loaded. *)
Definition empty_store (w : World) : Store := {| objects := []; sys := w |}.

End Heap.

(* ===================================================================== *)
(** * Vocabulary of the properties *)
(* ===================================================================== *)

(** The kind under which [_extract_xmind_file] reports an exception. *)
Definition extraction_error_kind (e : exn) : string :=
  match e with
  | BadZipFile => "BAD_ZIP_FILE"
  | _ => "EXTRACTION_FAILED"
  end.

(** [r[k]] on a result that is a dict ([PyNone] otherwise). *)
Definition py_field (r : pyval) (k : string) : pyval :=
  match r with
  | PyDict d => py_get d k
  | _ => PyNone
  end.

(** The list under ["topics"] of a raw topic, when there is one. *)
Definition legacy_children (d : list (string * pyval)) : list pyval :=
  match py_get d "topics" with
  | PyList ts => ts
  | _ => []
  end.

(** The list under ["children"]["attached"] of a raw topic, when there is one. *)
Definition attached_children (d : list (string * pyval)) : list pyval :=
  match py_get d "children" with
  | PyDict children =>
      match py_get children "attached" with
      | PyList attached => attached
      | _ => []
      end
  | _ => []
  end.

(** Marker normalization as the specification words it: a plain string is
    kept, an object gives its identifier (the ["markerId"] entry when it has
    one, else the ["id"] entry) when that is a string, anything else is
    dropped. *)
Definition marker_spec (m : pyval) : option pyval :=
  match m with
  | PyStr s => Some (PyStr s)
  | PyDict d =>
      let ident := if truthy (py_get d "markerId") then py_get d "markerId"
                   else py_get d "id" in
      match ident with
      | PyStr s => Some (PyStr s)
      | _ => None
      end
  | _ => None
  end.

Definition markers_spec (raw_markers : pyval) : list pyval :=
  match raw_markers with
  | PyList ms =>
      flat_map (fun m => match marker_spec m with Some x => [x] | None => [] end) ms
  | _ => []
  end.

(** ** The cache *)

(** The last [n] elements of a list. *)
Definition lastn {A} (n : nat) (l : list A) : list A := skipn (List.length l - n) l.

(** The timestamps of the entries grow (weakly) along the dict. *)
Fixpoint timestamps_sorted (c : list (string * cache_entry)) : Prop :=
  match c with
  | [] => True
  | (_, e) :: c' =>
      (forall k' e', In (k', e') c' -> (timestamp e <= timestamp e')%Z) /\ timestamps_sorted c'
  end.

(** The clock never runs backwards. *)
Definition clock_monotone (w : World) : Prop :=
  forall i j, i <= j -> (clock w i <= clock w j)%Z.

Section CacheVocabulary.
Context {float_repr : PyFloatStr}.

(** The key [_get_file_cache_key] computes for [file_path] in [w]. *)
Definition fingerprint (w : World) (file_path : string) : string :=
  match fs w file_path with
  | Some stat =>
      (file_path ++ "_" ++ float_str (st_mtime stat) ++ "_" ++ int_str (st_size stat))%string
  | None => file_path
  end.

(** The cache after the eviction step of [_set_cached_data]. *)
Definition evicted (w : World) : list (string * cache_entry) :=
  let cache := _file_cache w in
  if Nat.leb (_cache_max_size w) (List.length cache) then
    match py_min (dict_keys cache)
            (fun k => match dict_get cache k with
                      | Some e => timestamp e
                      | None => 0%Z
                      end) with
    | Some oldest_key => dict_del cache oldest_key
    | None => cache
    end
  else cache.

(** What holds of the cache between operations on a monotone clock: the
    keys are distinct, the entries are in the order of their timestamps,
    no timestamp is ahead of the clock, and the capacity is respected. *)
Definition cache_ok (w : World) : Prop :=
  NoDup (dict_keys (_file_cache w))
  /\ timestamps_sorted (_file_cache w)
  /\ (forall k e, In (k, e) (_file_cache w) -> (timestamp e <= clock w (clock_pos w))%Z)
  /\ List.length (_file_cache w) <= _cache_max_size w.

(** A use of the cache: a lookup, or the insertion of a result. *)
Inductive cache_op : Type :=
| Lookup (file_path : string)
| Insert (file_path : string) (d : pyval).

Definition run_op (op : cache_op) : M World unit :=
  match op with
  | Lookup file_path => _get_cached_data file_path ;; ret tt
  | Insert file_path d => _set_cached_data file_path d
  end.

Fixpoint run_ops (ops : list cache_op) : M World unit :=
  match ops with
  | [] => ret tt
  | op :: ops' => run_op op ;; run_ops ops'
  end.

(** The fingerprints a sequence of operations inserts, in order. *)
Fixpoint inserted (w : World) (ops : list cache_op) : list string :=
  match ops with
  | [] => []
  | Lookup _ :: ops' => inserted w ops'
  | Insert file_path _ :: ops' => fingerprint w file_path :: inserted w ops'
  end.
End CacheVocabulary.

(** ** What a computation changes *)

(** Every run of [m] takes a state to one related by [R], whether it
    returns or raises. *)
Definition preserves {S A} (R : S -> S -> Prop) (m : M S A) : Prop :=
  forall s, R s (snd (m s)).

(** From a state in [P], the outcome and final state of [m] are in [Q]. *)
Definition hoare {S A} (P : S -> Prop) (m : M S A) (Q : outcome A -> S -> Prop) : Prop :=
  forall s, P s -> Q (fst (m s)) (snd (m s)).

(** [m] never raises. *)
Definition returns {S A} (m : M S A) : Prop :=
  forall s, exists a, fst (m s) = Return a.

Definition rel_and {S} (R1 R2 : S -> S -> Prop) : S -> S -> Prop :=
  fun s s' => R1 s s' /\ R2 s s'.

Definition on_world (R : World -> World -> Prop) : Proc -> Proc -> Prop :=
  fun p p' => R (world p) (world p').

Definition on_self (R : Loader -> Loader -> Prop) : Proc -> Proc -> Prop :=
  fun p p' => R (self p) (self p').

(** The environment stays what it was: the files, the behaviour of
    [rmtree], the clock and entropy streams, the capacity, and the
    behaviour of [mkdtemp] and [listdir]. *)
Definition same_env (w w' : World) : Prop :=
  fs w' = fs w /\ rmtree_fails w' = rmtree_fails w /\ clock w' = clock w
  /\ urandom w' = urandom w /\ _cache_max_size w' = _cache_max_size w
  /\ mkdtemp_error w' = mkdtemp_error w /\ listdir_rank w' = listdir_rank w.

Definition same_cache (w w' : World) : Prop := _file_cache w' = _file_cache w.

(** The temporary directories, and the supply of their names. *)
Definition same_dirs (w w' : World) : Prop :=
  tmp_dirs w' = tmp_dirs w /\ tmp_next w' = tmp_next w.

(** The trace only grows, and by events in [P]. *)
Definition trace_grows (P : event -> Prop) (w w' : World) : Prop :=
  exists evs, trace w' = trace w ++ evs /\ Forall P evs.

(** An event that neither creates nor removes a temporary directory. *)
Definition quiet_event (e : event) : Prop :=
  match e with
  | EvMkdtemp _ | EvRmtree _ => False
  | _ => True
  end.

(** No temporary directory appears or disappears, and the trace says so. *)
Definition quiet (w w' : World) : Prop :=
  (forall d, dir_exists (tmp_dirs w') d = dir_exists (tmp_dirs w) d)
  /\ trace_grows quiet_event w w'.

(** Nothing but the cursor into the entropy stream moves. *)
Definition only_entropy (w w' : World) : Prop :=
  same_env w w' /\ same_cache w w' /\ same_dirs w w'
  /\ tmp_next w' = tmp_next w /\ clock_pos w' = clock_pos w /\ trace w' = trace w.

Definition same_temp_dir (l l' : Loader) : Prop := temp_dir l' = temp_dir l.
Definition same_content_data (l l' : Loader) : Prop := content_data l' = content_data l.
Definition same_xmind_file (l l' : Loader) : Prop := xmind_file l' = xmind_file l.
Definition same_debug_flag (l l' : Loader) : Prop :=
  enable_debug (debugger l') = enable_debug (debugger l).

(** ** The life of the extraction directory during one load *)




(** ** Why a load fails *)

(** The conditions under which [validate_xmind_file] answers [False]. *)
Inductive validation_failure (w : World) (path : string) : Prop :=
| NoSuchFile :
    fs w path = None -> validation_failure w path
| WrongExtension :
    endswith (lower path) ".xmind" = false -> validation_failure w path
| ZeroSize (f : File) :
    fs w path = Some f -> st_size f = 0%Z -> validation_failure w path
| Unopenable (f : File) (e : exn) :
    fs w path = Some f -> open_error f = Some e -> validation_failure w path
| NotAnArchive (f : File) :
    fs w path = Some f -> zip f = None -> validation_failure w path
| CorruptMember (f : File) (a : Archive) (name : string) :
    fs w path = Some f -> zip f = Some a -> testzip a = Some name ->
    validation_failure w path
| NoPayloadEntry (f : File) (a : Archive) :
    fs w path = Some f -> zip f = Some a ->
    existsb (String.eqb "content.json") (namelist a) = false ->
    validation_failure w path.

(** The verdict of the validation, as a function of the file system. *)
Definition archive_ok (w : World) (path : string) : bool :=
  match fs w path with
  | None => false
  | Some f =>
      andb (endswith (lower path) ".xmind")
        (andb (negb (Z.eqb (st_size f) 0))
           match open_error f, zip f with
           | None, Some a =>
               andb (match testzip a with Some _ => false | None => true end)
                 (existsb (String.eqb "content.json") (namelist a))
           | _, _ => false
           end)
  end.

(** The two shapes [_validate_content_structure] accepts. *)
Definition schema_ok (root : pyval) : bool :=
  match root with
  | PyList (_ :: _) => true
  | PyDict d =>
      match dict_get d "sheets" with
      | Some (PyList (_ :: _)) => true
      | _ => false
      end
  | _ => false
  end.

(** A payload [parse_content_json] refuses: not UTF-8, not JSON, JSON of
    neither shape, or not a file at all. *)
Definition payload_rejected (c : file_content) : bool :=
  match c with
  | Json root => negb (schema_ok root)
  | NotJson => true
  | NotUtf8 => true
  | Folder => true
  end.

(** What [parse_content_json] raises on a payload it refuses: the
    [ValueError] that stands for a [JSONDecodeError], the [RuntimeError]
    that stands for anything else. *)
Definition parse_error (c : file_content) : exn :=
  match c with NotJson => ValueError | _ => RuntimeError end.

(** The debugger runs on this call: [enable_debug] was passed to [load] and
    the loader was constructed with it. *)
Definition instrumented (debug : bool) (l : Loader) : bool :=
  andb debug (enable_debug (debugger l)).

(** ** Strings *)

(** No character of [s] is [c]. *)
Fixpoint avoids (c : ascii) (s : string) : bool :=
  match s with
  | EmptyString => true
  | String c' s' => andb (negb (Ascii.eqb c' c)) (avoids c s')
  end.

(** ** What the normalizer does to the objects it is given *)

(** From [s] to [s']: every object is still there, no dict has changed,
    and a list has at most gained items at its end. *)
Definition lists_grow (s s' : Heap.Store) : Prop :=
  forall r o, nth_error (Heap.objects s) r = Some o ->
    match o with
    | Heap.ODict d => nth_error (Heap.objects s') r = Some (Heap.ODict d)
    | Heap.OList xs =>
        exists ys, nth_error (Heap.objects s') r = Some (Heap.OList (xs ++ ys))
    end.

(** The same, and of the system only the cursor in the entropy stream
    has moved: no file, directory, clock or cache was touched. *)
Definition tame (s s' : Heap.Store) : Prop :=
  lists_grow s s' /\ only_entropy (Heap.sys s) (Heap.sys s').

(** The raw topic [t] of [s] has a child list of its own, and at least one
    attached child: [t] is a dict whose ["topics"] is the list object [lt],
    holding [ts], and whose ["children"]["attached"] is a list that is not
    empty. *)
Definition has_both_child_lists (s : Heap.Store) (t lt : Heap.ref)
    (ts : list Heap.value) : Prop :=
  exists d lc dc la c cs,
    nth_error (Heap.objects s) t = Some (Heap.ODict d)
    /\ dict_get d "topics" = Some (Heap.VRef lt)
    /\ nth_error (Heap.objects s) lt = Some (Heap.OList ts)
    /\ dict_get d "children" = Some (Heap.VRef lc)
    /\ nth_error (Heap.objects s) lc = Some (Heap.ODict dc)
    /\ dict_get dc "attached" = Some (Heap.VRef la)
    /\ nth_error (Heap.objects s) la = Some (Heap.OList (c :: cs)).

(** The list object [lt], which held [ts], holds more. *)
Definition has_gained (lt : Heap.ref) (ts : list Heap.value) (s : Heap.Store) : Prop :=
  exists extra,
    extra <> [] /\ nth_error (Heap.objects s) lt = Some (Heap.OList (ts ++ extra)).

(** ** The shape of a normalized topic *)

(** The note of a raw topic: its ["note"] when that is truthy, else the
    text under ["notes"]["plain"]["content"] when both levels are objects,
    else the (falsy) ["note"] itself. *)
Definition note_spec (d : list (string * pyval)) : pyval :=
  let note := py_get d "note" in
  if truthy note then note
  else
    match py_get d "notes" with
    | PyDict notes =>
        match py_get notes "plain" with
        | PyDict plain => py_get plain "content"
        | _ => note
        end
    | _ => note
    end.

(** The topic assembled from the raw object [d] and the converted
    attached children. *)
Definition normalized_topic (d : list (string * pyval)) (converted : list pyval) : pyval :=
  PyDict [("id", py_get_default d "id" (PyStr ""));
          ("link", py_get d "link");
          ("title", py_get d "title");
          ("note", note_spec d);
          ("label", py_get d "label");
          ("comment", py_get d "comment");
          ("markers", PyList (markers_spec (py_get_default d "markers" (PyList []))));
          ("topics", PyList (legacy_children d ++ converted))].

(** A dict with the eight keys of a topic, in their order, whose markers
    are a list of strings and whose children are a list. *)
Definition topic_shaped (r : pyval) : Prop :=
  exists id link title note label comment markers topics,
    r = PyDict [("id", id); ("link", link); ("title", title); ("note", note);
                ("label", label); ("comment", comment);
                ("markers", PyList markers); ("topics", PyList topics)]
    /\ Forall (fun m => is_str m = true) markers.

(** A dict with the three keys of a sheet, whose topic is topic-shaped. *)
Definition sheet_shaped (r : pyval) : Prop :=
  exists id title topic,
    r = PyDict [("id", id); ("title", title); ("topic", topic)] /\ topic_shaped topic.

(** What [_convert_topic] accepts: nothing at all (a falsy value), or a
    non-empty object all of whose attached children it accepts. *)
Inductive convertible : pyval -> Prop :=
| convertible_falsy (t : pyval) :
    truthy t = false -> convertible t
| convertible_object (kv : string * pyval) (d : list (string * pyval)) :
    (forall c, In c (attached_children (kv :: d)) -> convertible c) ->
    convertible (PyDict (kv :: d)).

(** The sheet assembled from the raw sheet [s] and its converted topic. *)
Definition normalized_sheet (s : list (string * pyval)) (topic : pyval) : pyval :=
  PyDict [("id", py_get_default s "id" (PyStr "")); ("title", py_get s "title");
          ("topic", topic)].

(** The sheets of a payload that [_validate_content_structure] lets
    through: the payload itself when it is a list, its ["sheets"] when it
    is an object. *)
Definition raw_sheets (content : pyval) : list pyval :=
  match content with
  | PyList sheets => sheets
  | PyDict d =>
      match dict_get d "sheets" with
      | Some (PyList sheets) => sheets
      | _ => []
      end
  | _ => []
  end.

(** [out] is the normalized form of the raw sheet [sheet]. *)
Definition sheet_of (sheet out : pyval) : Prop :=
  exists s topic, sheet = PyDict s /\ out = normalized_sheet s topic /\ topic_shaped topic.

(** ** Identifiers *)

(** A lower-case hexadecimal digit. *)
Definition is_hex_digit (c : ascii) : bool :=
  existsb (Ascii.eqb c)
    ["0"; "1"; "2"; "3"; "4"; "5"; "6"; "7"; "8"; "9"; "a"; "b"; "c"; "d"; "e"; "f"]%char.

(** Every character of [s] is one. *)
Fixpoint all_hex (s : string) : bool :=
  match s with
  | EmptyString => true
  | String c s' => andb (is_hex_digit c) (all_hex s')
  end.

(** The bits of sixteen random bytes that reach the identifier made of
    them: the UUID without its last six hexadecimal digits. *)
Definition id_bits (random_bytes : N) : N :=
  N.shiftr (Uuid.uuid4_int random_bytes) 24.

(** The identifiers the normalizer has synthesized in [out], the result of
    converting [raw], in the order of the conversion: the identifier of
    [out] itself when [raw] is missing or empty, and otherwise those of the
    converted attached children, which follow the legacy children in
    [out]'s list. *)
Fixpoint synthesized_rec (fuel : nat) (raw out : pyval) : list pyval :=
  match fuel with
  | O => []
  | S fuel' =>
      if negb (truthy raw) then [py_field out "id"]
      else
        match raw, py_field out "topics" with
        | PyDict d, PyList ts =>
            flat_map (fun ab => synthesized_rec fuel' (fst ab) (snd ab))
              (combine (attached_children d) (skipn (List.length (legacy_children d)) ts))
        | _, _ => []
        end
  end.

(** The nesting of [raw] bounds the depth of the walk. *)
Definition synthesized_ids (raw out : pyval) : list pyval :=
  synthesized_rec (S (depth raw)) raw out.

(** The raw topic the normalizer converts for a raw sheet. *)
Definition raw_sheet_topic (content sheet : pyval) : pyval :=
  match sheet with
  | PyDict s =>
      match content with
      | PyList _ => py_get_default s "topic" (py_get_default s "rootTopic" (PyDict []))
      | _ => py_get_default s "topic" (PyDict [])
      end
  | _ => PyNone
  end.

(** The identifiers synthesized in the document [doc] made from [content]. *)
Definition document_synthesized_ids (content doc : pyval) : list pyval :=
  match doc with
  | PyList sheets =>
      flat_map (fun ab => synthesized_ids (raw_sheet_topic content (fst ab))
                            (py_field (snd ab) "topic"))
        (combine (raw_sheets content) sheets)
  | _ => []
  end.

(** The identifiers made of the [k] draws that follow the cursor of [w]. *)
Definition drawn_ids (w : World) (k : nat) : list pyval :=
  map (fun q => PyStr (fresh_topic_id (urandom w q))) (seq (urandom_pos w) k).

(** ** The entropy source *)

(** The stream of random bytes and the cursor into it are what they were. *)
Definition same_entropy (w w' : World) : Prop :=
  urandom w' = urandom w /\ urandom_pos w' = urandom_pos w.

(** The outcome of [m], and the entropy it leaves, depend on nothing in
    the world but the entropy it finds. *)
Definition entropy_determined {A} (m : M World A) : Prop :=
  forall w1 w2, same_entropy w1 w2 ->
    fst (m w1) = fst (m w2) /\ same_entropy (snd (m w1)) (snd (m w2)).

(** ** The parser *)

(** The outcome of [parse_content_json], read off the extraction
    directory. *)
Definition parse_outcome (w : World) (d : nat) : outcome pyval :=
  match dir_files (tmp_dirs w) d with
  | None => Raise FileNotFoundError
  | Some ms =>
      match dict_get ms "content.json" with
      | None => Raise FileNotFoundError
      | Some (Json root) => if schema_ok root then Return root else Raise RuntimeError
      | Some NotJson => Raise ValueError
      | Some NotUtf8 => Raise RuntimeError
      | Some Folder => Raise RuntimeError
      end
  end.

(** ** What a computation can raise *)

(** Every exception [m] raises is in [P]. *)
Definition raises_in {S A} (P : exn -> Prop) (m : M S A) : Prop :=
  forall s e, fst (m s) = Raise e -> P e.

(** An exception that is not an [XmindLoadError]. *)
Definition plain_error (e : exn) : Prop := is_XmindLoadError e = false.

(** The error kinds [load] raises. *)
Definition load_error_kind (e : exn) : Prop :=
  e = XmindLoadError "FILE_VALIDATION" \/ e = XmindLoadError "BAD_ZIP_FILE"
  \/ e = XmindLoadError "EXTRACTION_FAILED" \/ e = XmindLoadError "LOAD_FAILED".

(** ** Two computations side by side *)

(** From every state in [I], [m1] and [m2] do the same. *)
Definition agree {S A} (I : S -> Prop) (m1 m2 : M S A) : Prop :=
  forall s, I s -> m1 s = m2 s.

(** [m] keeps the states in [I]. *)
Definition keeps {S A} (I : S -> Prop) (m : M S A) : Prop :=
  forall s, I s -> I (snd (m s)).

(** The debugger of the loader is switched off. *)
Definition debugger_off (p : Proc) : Prop := enable_debug (debugger (self p)) = false.


(** ** The debugger's statistics *)

(** The sheets that carry a ["topic"]. *)
Definition sheets_with_topic (sheets : list pyval) : nat :=
  List.length
    (filter (fun s => match s with PyDict sd => dict_mem sd "topic" | _ => false end)
       sheets).

(** A raw sheet as a modern archive has it: an object whose ["topic"],
    when there is one, is an object with no ["topics"] of its own (its
    children are under ["children"]["attached"]). *)
Definition modern_sheet (s : pyval) : Prop :=
  exists sd,
    s = PyDict sd
    /\ match dict_get sd "topic" with
       | None => True
       | Some (PyDict t) => dict_mem t "topics" = false
       | Some _ => False
       end.

(** The debugger of the loader is what it was: switch and records. *)
Definition same_debugger (l l' : Loader) : Prop := debugger l' = debugger l.
(** ** Sample inputs *)

Definition sample_float_str : PyFloatStr := fun _ => "0.0".

Definition sample_archive (payload : file_content) : Archive :=
  {| testzip := None; namelist := ["content.json"];
     written := [("content.json", payload)]; extractall_error := None |}.

Definition sample_file (payload : file_content) : File :=
  {| st_mtime := S754_zero false; st_size := 2048; open_error := None;
     zip := Some (sample_archive payload) |}.

(** A file system that lists names in the order of their length. *)
Definition sample_rank : string -> nat := String.length.

(** A world with nothing in it but the clock and the entropy source. *)
Definition bare_world : World :=
  module_init (fun _ => None) (fun _ => None) (fun _ => false) sample_rank
    (fun n => Z.of_nat n) (fun n => N.of_nat n).

(** The same, with the module global [_cache_max_size] set to [n]. *)
Definition bare_world_with_capacity (n : nat) : World :=
  {| fs := fun _ => None; tmp_dirs := []; tmp_next := 0; mkdtemp_error := fun _ => None;
     rmtree_fails := fun _ => false; listdir_rank := sample_rank;
     clock := fun n => Z.of_nat n; clock_pos := 0; urandom := fun n => N.of_nat n;
     urandom_pos := 0; _file_cache := []; _cache_max_size := n; trace := [] |}.

(** A world whose only file is [doc.xmind], a sound archive of [payload]. *)
Definition world_with (payload : file_content) : World :=
  module_init (fun p => if String.eqb p "doc.xmind" then Some (sample_file payload) else None)
    (fun _ => None) (fun _ => false) sample_rank (fun n => Z.of_nat n) (fun n => N.of_nat n).

(** A world whose only file is [f], at [path]. *)
Definition world_of (path : string) (f : File) : World :=
  module_init (fun p => if String.eqb p path then Some f else None)
    (fun _ => None) (fun _ => false) sample_rank (fun n => Z.of_nat n) (fun n => N.of_nat n).

(** A topic that has a child of each kind: one under ["topics"], one
    under ["children"]["attached"]. *)
Definition sample_topic : pyval :=
  PyDict [("id", PyStr "t"); ("title", PyStr "T");
          ("topics", PyList [PyDict [("id", PyStr "a")]]);
          ("children", PyDict [("attached", PyList [PyDict [("id", PyStr "c")]])])].

(** A document in the legacy layout, with [sample_topic] as its root. *)
Definition sample_document : pyval :=
  PyList [PyDict [("id", PyStr "s1"); ("title", PyStr "Sheet 1");
                  ("topic", sample_topic)]].

(** A document in the modern layout with a little of everything: notes,
    markers of every kind, children under both keys, two levels deep. *)
Definition sample_rich_document : pyval :=
  PyDict
    [("sheets",
      PyList
        [PyDict
           [("id", PyStr "s1"); ("title", PyStr "Sheet 1");
            ("topic",
             PyDict
               [("id", PyStr "r"); ("title", PyStr "Root");
                ("notes", PyDict [("plain", PyDict [("content", PyStr "remember")])]);
                ("markers",
                 PyList [PyStr "flag-red";
                         PyDict [("markerId", PyStr "priority-1")];
                         PyDict [("id", PyStr "star")];
                         PyInt 7]);
                ("children",
                 PyDict
                   [("attached",
                     PyList
                       [PyDict
                          [("id", PyStr "m"); ("title", PyStr "Middle");
                           ("topics", PyList [PyDict [("id", PyStr "old")]]);
                           ("children",
                            PyDict [("attached",
                                     PyList [PyDict [("id", PyStr "leaf")];
                                             PyDict []])])];
                        PyDict [("title", PyStr "No id")]])])])];
         PyDict [("id", PyStr "s2"); ("title", PyNone)]])].

(** What [sample_topic] is converted to. *)
Definition sample_topic_converted : pyval :=
  PyDict [("id", PyStr "t"); ("link", PyNone); ("title", PyStr "T"); ("note", PyNone);
          ("label", PyNone); ("comment", PyNone); ("markers", PyList []);
          ("topics",
           PyList [PyDict [("id", PyStr "a")];
                   PyDict [("id", PyStr "c"); ("link", PyNone); ("title", PyNone);
                           ("note", PyNone); ("label", PyNone); ("comment", PyNone);
                           ("markers", PyList []); ("topics", PyList [])]])].

(** What the object loaded from [sample_topic] holds once it was
    converted: a second item under ["topics"]. *)
Definition sample_topic_afterwards : pyval :=
  PyDict [("id", PyStr "t"); ("title", PyStr "T");
          ("topics",
           PyList [PyDict [("id", PyStr "a")];
                   PyDict [("id", PyStr "c"); ("link", PyNone); ("title", PyNone);
                           ("note", PyNone); ("label", PyNone); ("comment", PyNone);
                           ("markers", PyList []); ("topics", PyList [])]]);
          ("children", PyDict [("attached", PyList [PyDict [("id", PyStr "c")]])])].

(* ===================================================================== *)
(** * Properties *)
(* ===================================================================== *)

(** ** Values and their depth *)

Lemma depth_In (x : pyval) (xs : list pyval) :
  In x xs -> depth x < depth (PyList xs).
Proof.
  simpl. induction xs as [|y ys IH]; simpl; [tauto|].
  intros [->|H]; [lia|]. specialize (IH H). lia.
Qed.

Lemma depth_dict_get (d : list (string * pyval)) (k : string) (v : pyval) :
  dict_get d k = Some v -> depth v < depth (PyDict d).
Proof.
  simpl. induction d as [|[k' v'] d IH]; simpl; [discriminate|].
  destruct (String.eqb k' k).
  - intros [= ->]. lia.
  - intros H. specialize (IH H). lia.
Qed.

Lemma depth_py_get (d : list (string * pyval)) (k : string) :
  depth (py_get d k) < depth (PyDict d).
Proof.
  unfold py_get. destruct (dict_get d k) eqn:E.
  - eapply depth_dict_get; eauto.
  - simpl. lia.
Qed.

(** ** The monad *)

Lemma mapM_ext_in {S A B} (f g : A -> M S B) (xs : list A) :
  (forall x, In x xs -> f x = g x) -> mapM f xs = mapM g xs.
Proof.
  induction xs as [|x xs IH]; simpl; intros H; [reflexivity|].
  rewrite (H x (or_introl eq_refl)), IH; [reflexivity|].
  intros y Hy. apply H. now right.
Qed.

(** ** The recursion of [_convert_topic] is well founded *)

Module ConvertTopicFacts.
Import DataFormatConverter.

Lemma convert_topic_body_ext (f g : pyval -> M World pyval) (t : pyval) :
  (forall c, depth c < depth t -> f c = g c) ->
  convert_topic_body f t = convert_topic_body g t.
Proof.
  intros H. unfold convert_topic_body.
  destruct (negb (truthy t)); [reflexivity|].
  destruct t as [| | | | | |d]; try reflexivity.
  pose proof (depth_py_get d "children") as Hc.
  destruct (py_get d "children") as [| | | | | |children]; try reflexivity.
  pose proof (depth_py_get children "attached") as Ha.
  destruct (py_get children "attached") as [| | | | |attached|]; try reflexivity.
  rewrite (mapM_ext_in f g attached); [reflexivity|].
  intros c Hin. apply H. pose proof (depth_In c attached Hin). lia.
Qed.

Lemma _convert_topic_rec_fuel (n m : nat) (t : pyval) :
  depth t < n -> depth t < m -> _convert_topic_rec n t = _convert_topic_rec m t.
Proof.
  revert m t. induction n as [|n IH]; intros [|m] t Hn Hm; try lia.
  simpl. apply convert_topic_body_ext. intros c Hc. apply IH; lia.
Qed.

(** [_convert_topic] satisfies the recursive equation of the source. *)
Lemma _convert_topic_unfold (t : pyval) :
  _convert_topic t = convert_topic_body _convert_topic t.
Proof.
  unfold _convert_topic at 1. simpl.
  apply convert_topic_body_ext. intros c Hc.
  unfold _convert_topic. apply _convert_topic_rec_fuel; lia.
Qed.

End ConvertTopicFacts.

(** ** Strings and identifiers *)

Module StringFacts.

Lemma length_append (a b : string) :
  String.length (a ++ b) = String.length a + String.length b.
Proof. induction a as [|c a IH]; simpl; [reflexivity|now rewrite IH]. Qed.

Lemma length_substring (s : string) :
  forall n m, n + m <= String.length s -> String.length (substring n m s) = m.
Proof.
  induction s as [|c s IH]; intros [|n] [|m]; simpl; intros H; try lia.
  - rewrite IH; lia.
  - apply IH. lia.
  - apply IH. lia.
Qed.

Lemma avoids_append (c : ascii) (a b : string) :
  avoids c (a ++ b) = andb (avoids c a) (avoids c b).
Proof.
  induction a as [|x a IH]; simpl; [reflexivity|].
  rewrite IH. now rewrite andb_assoc.
Qed.

Lemma avoids_substring (c : ascii) (s : string) :
  avoids c s = true -> forall n m, avoids c (substring n m s) = true.
Proof.
  induction s as [|x s IH]; intros H [|n] [|m]; simpl in *; try reflexivity;
    apply andb_true_iff in H as [Hx Hs]; auto.
  rewrite Hx. simpl. auto.
Qed.

Lemma replace_avoids (old : ascii) (new s : string) :
  avoids old s = true -> replace old new s = s.
Proof.
  induction s as [|x s IH]; simpl; [reflexivity|].
  intros H. apply andb_true_iff in H as [Hx Hs].
  apply negb_true_iff in Hx. rewrite Hx, IH; auto.
Qed.

Lemma replace_append (old : ascii) (new a b : string) :
  replace old new (a ++ b) = (replace old new a ++ replace old new b)%string.
Proof.
  induction a as [|x a IH]; simpl; [reflexivity|].
  destruct (Ascii.eqb x old); rewrite IH; simpl; [|reflexivity].
  generalize (replace old new a) (replace old new b). clear.
  intros u v. induction new as [|y new IH]; simpl; [reflexivity|now rewrite IH].
Qed.

Lemma hex_digit_not_dash (n : N) : Ascii.eqb (Uuid.hex_digit n) "-" = false.
Proof.
  unfold Uuid.hex_digit.
  generalize (N.to_nat n). intros k.
  do 16 (destruct k as [|k]; [reflexivity|]).
  destruct k; reflexivity.
Qed.

Lemma hex_avoids_dash (w : nat) : forall n, avoids "-" (Uuid.hex w n) = true.
Proof.
  induction w as [|w IH]; intros n; simpl; [reflexivity|].
  rewrite avoids_append, IH. simpl. now rewrite hex_digit_not_dash.
Qed.

Lemma length_hex (w : nat) : forall n, String.length (Uuid.hex w n) = w.
Proof.
  induction w as [|w IH]; intros n; simpl; [reflexivity|].
  rewrite length_append, IH. simpl. lia.
Qed.

(** Without its dashes, [str(u)] has 32 characters. *)
Lemma length_uuid_hex (u : N) :
  String.length (replace "-" "" (Uuid.str u)) = 32.
Proof.
  unfold Uuid.str.
  pose proof (hex_avoids_dash 32 u) as Hav.
  pose proof (length_hex 32 u) as Hlen.
  set (h := Uuid.hex 32 u) in *. clearbody h.
  repeat rewrite replace_append.
  repeat (rewrite (replace_avoids "-" "" (substring _ _ h))
            by (apply avoids_substring; exact Hav)).
  change (replace "-" "" "-") with "".
  repeat rewrite length_append.
  repeat (rewrite length_substring by (rewrite Hlen; lia)).
  reflexivity.
Qed.

(** The synthesized identifier has 26 characters. *)
Lemma length_fresh_topic_id (r : N) : String.length (fresh_topic_id r) = 26.
Proof.
  unfold fresh_topic_id. apply length_substring.
  rewrite length_uuid_hex. lia.
Qed.

Lemma length_nonempty (s : string) (n : nat) : String.length s = S n -> s <> "".
Proof. intros L ->. discriminate. Qed.

Lemma fresh_topic_id_nonempty (r : N) : fresh_topic_id r <> "".
Proof. exact (@length_nonempty (fresh_topic_id r) 25 (length_fresh_topic_id r)). Qed.

End StringFacts.

(** ** The topic normalizer *)

Module NormalizerFacts.
Import DataFormatConverter ConvertTopicFacts.

Lemma mapM_Forall2 {S A B} (f : A -> M S B) (xs : list A) :
  forall s ys s', mapM f xs s = (Return ys, s') ->
  Forall2 (fun x y => exists s1 s2, f x s1 = (Return y, s2)) xs ys.
Proof.
  induction xs as [|x xs IH]; simpl; intros s ys s' H.
  - unfold ret in H. injection H as <- _. constructor.
  - unfold bind in H. destruct (f x s) as [[y|e] s1] eqn:Ex; [|discriminate].
    destruct (mapM f xs s1) as [[zs|e] s2] eqn:Exs; [|discriminate].
    unfold ret in H. injection H as <- _.
    constructor; [eauto|]. eapply IH; eauto.
Qed.

Lemma fold_marker_step (ms : list pyval) :
  forall acc, fold_left marker_step ms acc = acc ++ markers_spec (PyList ms).
Proof.
  induction ms as [|m ms IH]; intros acc; simpl.
  - now rewrite app_nil_r.
  - rewrite IH. simpl in *.
    destruct m as [| | | |s| |d]; simpl; try reflexivity.
    + now rewrite <- app_assoc.
    + unfold py_or.
      destruct (truthy (py_get d "markerId"));
        [destruct (py_get d "markerId")|destruct (py_get d "id")];
        simpl; try reflexivity; now rewrite <- app_assoc.
Qed.

(** What [_convert_topic] does with a non-empty object: it converts the
    attached children in order, then assembles the topic. *)
Lemma _convert_topic_dict (kv : string * pyval) (d : list (string * pyval)) (w : World) :
  let t := kv :: d in
  match mapM _convert_topic (attached_children t) w with
  | (Return converted, w') =>
      exists r, _convert_topic (PyDict t) w = (Return (PyDict r), w') /\
                py_get r "id" = py_get_default t "id" (PyStr "") /\
                py_get r "title" = py_get t "title" /\
                py_get r "markers" = PyList (markers_spec (py_get_default t "markers" (PyList []))) /\
                py_get r "topics" = PyList (legacy_children t ++ converted)
  | (Raise e, w') => _convert_topic (PyDict t) w = (Raise e, w')
  end.
Proof.
  intros t. rewrite _convert_topic_unfold.
  unfold convert_topic_body, attached_children, legacy_children.
  change (negb (truthy (PyDict t))) with false. cbv iota.
  assert (Hm : match py_get_default t "markers" (PyList []) with
               | PyList ms => fold_left marker_step ms []
               | _ => []
               end = markers_spec (py_get_default t "markers" (PyList []))).
  { destruct (py_get_default t "markers" (PyList [])); try reflexivity.
    now rewrite fold_marker_step. }
  rewrite Hm. clear Hm.
  set (conv := match py_get t "children" with
               | PyDict children =>
                   match py_get children "attached" with
                   | PyList attached => mapM _convert_topic attached
                   | _ => ret []
                   end
               | _ => ret []
               end).
  assert (Hc : conv = mapM _convert_topic
                        match py_get t "children" with
                        | PyDict children =>
                            match py_get children "attached" with
                            | PyList attached => attached
                            | _ => []
                            end
                        | _ => []
                        end).
  { unfold conv. destruct (py_get t "children"); try reflexivity.
    destruct (py_get kvs "attached"); reflexivity. }
  rewrite Hc. clear Hc conv.
  set (attached := match py_get t "children" with
                   | PyDict children =>
                       match py_get children "attached" with
                       | PyList attached => attached
                       | _ => []
                       end
                   | _ => []
                   end).
  destruct (mapM _convert_topic attached w) as [[converted|e] w'] eqn:E.
  - eexists. split; [unfold bind; rewrite E; reflexivity|]. repeat split.
  - unfold bind. rewrite E. reflexivity.
Qed.

(** A falsy value gives the placeholder topic, with the next random draw
    as the source of its identifier. *)
Lemma _convert_topic_falsy (t : pyval) (w : World) :
  truthy t = false ->
  _convert_topic t w =
    (Return (empty_topic (fresh_topic_id (urandom w (urandom_pos w)))),
     set_urandom_pos w (S (urandom_pos w))).
Proof.
  intros H. rewrite _convert_topic_unfold. unfold convert_topic_body.
  rewrite H. reflexivity.
Qed.

(** A truthy value that is not an object has no [get]. *)
Lemma _convert_topic_not_dict (t : pyval) (w : World) :
  truthy t = true -> is_dict t = false ->
  _convert_topic t w = (Raise AttributeError, w).
Proof.
  intros H D. rewrite _convert_topic_unfold. unfold convert_topic_body.
  rewrite H. destruct t; try reflexivity; discriminate.
Qed.

End NormalizerFacts.

(** ** The recursion of [_count_topics] is well founded *)

Module CountTopicsFacts.
Import XmindLoaderDebugger.

Section WithState.
Context {St : Type}.

Lemma fold_left_ext_in {A B} (f g : B -> A -> B) (xs : list A) :
  (forall acc x, In x xs -> f acc x = g acc x) ->
  forall acc, fold_left f xs acc = fold_left g xs acc.
Proof.
  induction xs as [|x xs IH]; simpl; intros H acc; [reflexivity|].
  rewrite (H acc x (or_introl eq_refl)). apply IH.
  intros acc' y Hy. apply H. now right.
Qed.

Lemma ret_bind {A B} (a : A) (k : A -> M St B) : bind (ret a) k = k a.
Proof. reflexivity. Qed.

Lemma count_topics_body_ext (f g : pyval -> nat -> M St (nat * nat)) (t : pyval) (dep : nat) :
  (forall c dep', depth c < depth t -> f c dep' = g c dep') ->
  count_topics_body f t dep = count_topics_body g t dep.
Proof.
  intros H. unfold count_topics_body.
  destruct t as [| | | |str|xs|d]; try reflexivity.
  - simpl. destruct (str_contains "topics" str); reflexivity.
  - simpl. destruct (existsb _ xs); reflexivity.
  - simpl. destruct (dict_mem d "topics") eqn:Em; [|reflexivity].
    rewrite !ret_bind. cbv beta iota.
    destruct (dict_get d "topics") as [subs|] eqn:Eg; [|reflexivity].
    pose proof (depth_dict_get d "topics" subs Eg) as Hsub.
    rewrite !ret_bind. simpl andb. destruct (truthy subs); [|reflexivity].
    destruct subs as [| | | |str|xs|d']; try reflexivity.
    + simpl. apply fold_left_ext_in. intros acc x Hin.
      rewrite (H x (S dep)); [reflexivity|].
      apply in_map_iff in Hin. destruct Hin as (c & <- & _). simpl in *. lia.
    + simpl. apply fold_left_ext_in. intros acc x Hin.
      rewrite (H x (S dep)); [reflexivity|].
      pose proof (depth_In x xs Hin). lia.
    + simpl. apply fold_left_ext_in. intros acc x Hin.
      rewrite (H x (S dep)); [reflexivity|].
      apply in_map_iff in Hin. destruct Hin as (kv & <- & _). simpl in *. lia.
Qed.

Lemma _count_topics_rec_fuel (n m : nat) (t : pyval) (dep : nat) :
  depth t < n -> depth t < m ->
  @_count_topics_rec St n t dep = _count_topics_rec m t dep.
Proof.
  revert m t dep. induction n as [|n IH]; intros [|m] t dep Hn Hm; try lia.
  simpl. apply count_topics_body_ext. intros c dep' Hc. apply IH; lia.
Qed.

(** [_count_topics] satisfies the recursive equation of the source. *)
Lemma _count_topics_unfold (t : pyval) (dep : nat) :
  @_count_topics St t dep = count_topics_body _count_topics t dep.
Proof.
  unfold _count_topics at 1. simpl.
  apply count_topics_body_ext. intros c dep' Hc.
  unfold _count_topics. apply _count_topics_rec_fuel; lia.
Qed.

End WithState.
End CountTopicsFacts.

(* ===================================================================== *)
(** * The normalizer: identifiers, children, markers, sheets *)
(* ===================================================================== *)

Module NormalizerClaims.
Import DataFormatConverter ConvertTopicFacts NormalizerFacts.

(** *** Identifiers *)

(** C1, as stated, fails: a valid modern-schema archive whose root topic
    carries a title but no id loads successfully, and the topic of the
    returned document has the empty string as its id. *)
Lemma C1_counterexample_empty_topic_id :
  let payload :=
    PyDict [("sheets",
             PyList [PyDict [("id", PyStr "s1"); ("title", PyStr "Sheet 1");
                             ("topic", PyDict [("title", PyStr "Root")])]])] in
  exists sheet,
    fst (load (float_repr := sample_float_str) "doc.xmind" false
           (world_with (Json payload)))
      = Return {| XmindWorkbookWrapper._data := PyList [sheet] |}
    /\ py_field (py_field sheet "topic") "title" = PyStr "Root"
    /\ py_field (py_field sheet "topic") "id" = PyStr "".
Proof.
  cbv zeta. eexists.
  split; [vm_compute; reflexivity|]. split; reflexivity.
Qed.

(** *** Children *)

(** C2, as stated, fails: with legacy children [[A; B]] and attached
    children [[C]], the children of the result are [A] and [B] exactly as
    they were in the source, followed by [C] normalized; [A], which has an
    attached child of its own, is not what normalizing it would give. *)
Lemma C2_counterexample_legacy_not_normalized :
  let A := PyDict [("id", PyStr "a");
                   ("children", PyDict [("attached", PyList [PyDict [("id", PyStr "z")]])])] in
  let B := PyDict [("id", PyStr "b")] in
  let C := PyDict [("id", PyStr "c")] in
  let T := PyDict [("id", PyStr "t"); ("topics", PyList [A; B]);
                   ("children", PyDict [("attached", PyList [C])])] in
  exists r A' C',
    fst (_convert_topic T bare_world) = Return r
    /\ fst (_convert_topic A bare_world) = Return A'
    /\ fst (_convert_topic C bare_world) = Return C'
    /\ py_field r "topics" = PyList [A; B; C']
    /\ py_field A' "topics" <> py_field A "topics".
Proof.
  cbv zeta. eexists. eexists. eexists.
  split; [vm_compute; reflexivity|].
  split; [vm_compute; reflexivity|].
  split; [vm_compute; reflexivity|].
  split; [reflexivity|]. vm_compute. discriminate.
Qed.

(** C2 (amended): for a raw topic with a legacy list under ["topics"] and
    a list under ["children"]["attached"], the children of the result are
    the legacy elements, kept as they are in the source (they are not
    normalized), followed by the attached elements, each normalized by
    [_convert_topic], in source order and with nothing removed; the
    conversion fails exactly when that of an attached child does. *)
Theorem C2_children_concatenation
    (d children : list (string * pyval)) (legacy attached : list pyval) (w : World) :
  py_get d "topics" = PyList legacy ->
  py_get d "children" = PyDict children ->
  py_get children "attached" = PyList attached ->
  match _convert_topic (PyDict d) w with
  | (Return r, w') =>
      exists converted,
        mapM _convert_topic attached w = (Return converted, w')
        /\ py_field r "topics" = PyList (legacy ++ converted)
        /\ Forall2 (fun c n => exists w1 w2, _convert_topic c w1 = (Return n, w2))
             attached converted
  | (Raise e, w') => mapM _convert_topic attached w = (Raise e, w')
  end.
Proof.
  intros Ht Hc Ha.
  destruct d as [|kv d]; [discriminate|].
  pose proof (_convert_topic_dict kv d w) as H. cbv zeta in H.
  assert (Hatt : attached_children (kv :: d) = attached).
  { unfold attached_children. now rewrite Hc, Ha. }
  assert (Hleg : legacy_children (kv :: d) = legacy).
  { unfold legacy_children. now rewrite Ht. }
  rewrite Hatt, Hleg in H.
  destruct (mapM _convert_topic attached w) as [[converted|e] w'] eqn:Em.
  - destruct H as (r & Hr & _ & _ & _ & Htop). rewrite Hr.
    exists converted. split; [reflexivity|]. split; [exact Htop|].
    eapply mapM_Forall2; eauto.
  - rewrite H. reflexivity.
Qed.

Lemma C2_children_concatenation_witness :
  let A := PyDict [("id", PyStr "a")] in
  let B := PyDict [("id", PyStr "b")] in
  let C := PyDict [("id", PyStr "c")] in
  let d := [("id", PyStr "t"); ("topics", PyList [A; B]);
            ("children", PyDict [("attached", PyList [C])])] in
  match _convert_topic (PyDict d) bare_world with
  | (Return r, w') =>
      exists converted,
        mapM _convert_topic [C] bare_world = (Return converted, w')
        /\ py_field r "topics" = PyList ([A; B] ++ converted)
        /\ Forall2 (fun c n => exists w1 w2, _convert_topic c w1 = (Return n, w2))
             [C] converted
  | (Raise e, w') => mapM _convert_topic [C] bare_world = (Raise e, w')
  end.
Proof.
  cbv zeta.
  apply (C2_children_concatenation
           [("id", PyStr "t");
            ("topics", PyList [PyDict [("id", PyStr "a")]; PyDict [("id", PyStr "b")]]);
            ("children", PyDict [("attached", PyList [PyDict [("id", PyStr "c")]])])]
           [("attached", PyList [PyDict [("id", PyStr "c")]])]
           [PyDict [("id", PyStr "a")]; PyDict [("id", PyStr "b")]]
           [PyDict [("id", PyStr "c")]]
           bare_world); reflexivity.
Defined.

(** *** Markers *)

(** C8: for a raw topic (a non-empty object), the markers of the result
    are the raw ["markers"] list filtered in order: plain strings kept,
    objects replaced by their identifier (["markerId"], else ["id"]) when
    it is a string, everything else dropped; a raw value that is not a
    list gives no marker.  Every marker of the result is a string. *)
Theorem C8_markers_normalized (kv : string * pyval) (d : list (string * pyval)) (w : World) :
  let raw_markers := py_get_default (kv :: d) "markers" (PyList []) in
  match mapM _convert_topic (attached_children (kv :: d)) w with
  | (Return _, w') =>
      exists r, _convert_topic (PyDict (kv :: d)) w = (Return r, w')
                /\ py_field r "markers" = PyList (markers_spec raw_markers)
  | (Raise e, w') => _convert_topic (PyDict (kv :: d)) w = (Raise e, w')
  end
  /\ Forall (fun m => is_str m = true) (markers_spec raw_markers)
  /\ (forall ms, raw_markers = PyList ms -> Forall (fun m => is_str m = true) ms ->
                 markers_spec raw_markers = ms).
Proof.
  cbv zeta. split; [|split].
  - pose proof (_convert_topic_dict kv d w) as H. cbv zeta in H.
    destruct (mapM _convert_topic (attached_children (kv :: d)) w) as [[c|e] w'];
      [|exact H].
    destruct H as (r & Hr & _ & _ & Hm & _). exists (PyDict r). split; assumption.
  - generalize (py_get_default (kv :: d) "markers" (PyList [])). intros raw.
    destruct raw as [| | | | |ms|]; simpl; try constructor.
    induction ms as [|m ms IH]; simpl; [constructor|].
    apply Forall_app. split; [|exact IH].
    destruct m as [| | | |s| |m]; simpl; try constructor; try reflexivity; try constructor.
    destruct (truthy (py_get m "markerId"));
      [destruct (py_get m "markerId")|destruct (py_get m "id")];
      repeat constructor.
  - intros ms -> Hall. simpl.
    induction Hall as [|m ms Hm _ IH]; simpl; [reflexivity|].
    rewrite IH. destruct m; try discriminate. reflexivity.
Qed.

(** *** Sheets *)

(** C7, on the failing input: a sheet that keeps its topic under
    ["rootTopic"] is normalized from that field when the payload is a list
    of sheets, but when the same sheet sits in the ["sheets"] list of an
    object payload the field is not consulted, and the sheet gets the
    synthesized placeholder topic instead of its own. *)
Theorem C7_root_topic_ignored_under_sheets :
  let topic := PyDict [("id", PyStr "r"); ("title", PyStr "Root")] in
  let sheet := PyDict [("id", PyStr "s1"); ("title", PyStr "Sheet 1");
                       ("rootTopic", topic)] in
  exists in_list in_object,
    fst (convert_to_xmind_format (PyList [sheet]) bare_world) = Return (PyList [in_list])
    /\ py_field (py_field in_list "topic") "title" = PyStr "Root"
    /\ py_field (py_field in_list "topic") "id" = PyStr "r"
    /\ fst (convert_to_xmind_format (PyDict [("sheets", PyList [sheet])]) bare_world)
         = Return (PyList [in_object])
    /\ py_field in_object "topic"
         = empty_topic (fresh_topic_id (urandom bare_world 0))
    /\ py_field (py_field in_object "topic") "title" = PyNone.
Proof.
  cbv zeta. eexists. eexists.
  split; [vm_compute; reflexivity|].
  split; [reflexivity|]. split; [reflexivity|].
  split; [vm_compute; reflexivity|].
  split; [vm_compute; reflexivity|]. reflexivity.
Qed.

End NormalizerClaims.

(* ===================================================================== *)
(** * The cache: eviction by age of insertion *)
(* ===================================================================== *)

Module CacheFacts.

(** *** Dictionaries *)

Lemma dict_get_In {V} (d : list (string * V)) (k : string) (v : V) :
  dict_get d k = Some v -> In (k, v) d.
Proof.
  induction d as [|[k' v'] d IH]; simpl; [discriminate|].
  destruct (String.eqb_spec k' k) as [->|Hne].
  - intros [= ->]. now left.
  - intros H. right. auto.
Qed.

Lemma dict_get_NoDup {V} (d : list (string * V)) (k : string) (v : V) :
  NoDup (dict_keys d) -> In (k, v) d -> dict_get d k = Some v.
Proof.
  induction d as [|[k' v'] d IH]; simpl; [tauto|].
  intros Hnd [H|H]; inversion Hnd as [|? ? Hnotin Hnd']; subst.
  - injection H as -> ->. now rewrite String.eqb_refl.
  - destruct (String.eqb_spec k' k) as [->|Hne]; [|auto].
    exfalso. apply Hnotin. unfold dict_keys. apply in_map_iff.
    exists (k, v). split; [reflexivity|assumption].
Qed.

Lemma dict_get_None {V} (d : list (string * V)) (k : string) :
  dict_get d k = None <-> ~ In k (dict_keys d).
Proof.
  induction d as [|[k' v'] d IH]; simpl; [tauto|].
  destruct (String.eqb_spec k' k) as [->|Hne].
  - split; [discriminate|]. intros H. exfalso. apply H. now left.
  - rewrite IH. tauto.
Qed.

Lemma dict_set_new {V} (d : list (string * V)) (k : string) (v : V) :
  ~ In k (dict_keys d) -> dict_set d k v = d ++ [(k, v)].
Proof.
  induction d as [|[k' v'] d IH]; simpl; [reflexivity|].
  intros H. destruct (String.eqb_spec k' k) as [->|Hne].
  - exfalso. apply H. now left.
  - rewrite IH; [reflexivity|]. tauto.
Qed.

Lemma dict_set_length {V} (d : list (string * V)) (k : string) (v : V) :
  List.length (dict_set d k v) <= S (List.length d).
Proof.
  induction d as [|[k' v'] d IH]; simpl; [lia|].
  destruct (String.eqb k' k); simpl; lia.
Qed.

Lemma dict_get_set {V} (d : list (string * V)) (k : string) (v : V) :
  dict_get (dict_set d k v) k = Some v.
Proof.
  induction d as [|[k' v'] d IH]; simpl.
  - now rewrite String.eqb_refl.
  - destruct (String.eqb k' k) eqn:E; simpl.
    + now rewrite String.eqb_refl.
    + now rewrite E.
Qed.

Lemma dict_del_length {V} (d : list (string * V)) (k : string) :
  In k (dict_keys d) -> S (List.length (dict_del d k)) = List.length d.
Proof.
  induction d as [|[k' v'] d IH]; simpl; [tauto|].
  destruct (String.eqb_spec k' k) as [->|Hne]; [reflexivity|].
  intros [H|H]; [contradiction|]. simpl. now rewrite IH.
Qed.

(** *** [min] *)

Lemma fold_min_spec {A} (f : A -> Z) (xs : list A) :
  forall x0,
    let m := fold_left (fun best y => if Z.ltb (f y) (f best) then y else best) xs x0 in
    In m (x0 :: xs) /\ (forall y, In y (x0 :: xs) -> (f m <= f y)%Z).
Proof.
  induction xs as [|x xs IH]; intros x0; simpl.
  - split; [now left|]. intros y [->|[]]. lia.
  - destruct (Z.ltb_spec (f x) (f x0)) as [Hlt|Hge].
    + destruct (IH x) as [Hin Hmin]. simpl in *. split.
      * destruct Hin as [<-|Hin]; [right; now left|right; now right].
      * intros y [<-|[<-|Hy]].
        -- specialize (Hmin x (or_introl eq_refl)). lia.
        -- apply Hmin. now left.
        -- apply Hmin. now right.
    + destruct (IH x0) as [Hin Hmin]. simpl in *. split.
      * destruct Hin as [<-|Hin]; [now left|right; now right].
      * intros y [<-|[<-|Hy]].
        -- apply Hmin. now left.
        -- specialize (Hmin x0 (or_introl eq_refl)). lia.
        -- apply Hmin. now right.
Qed.

Lemma py_min_spec {A} (f : A -> Z) (xs : list A) (m : A) :
  py_min xs f = Some m -> In m xs /\ (forall y, In y xs -> (f m <= f y)%Z).
Proof.
  destruct xs as [|x0 xs]; simpl; [discriminate|].
  intros [= <-]. apply (fold_min_spec f xs x0).
Qed.

(** With keys that never beat the first one, [min] returns the first. *)
Lemma py_min_head {A} (f : A -> Z) (x0 : A) (xs : list A) :
  (forall y, In y xs -> (f x0 <= f y)%Z) -> py_min (x0 :: xs) f = Some x0.
Proof.
  simpl. intros H. f_equal.
  induction xs as [|x xs IH]; simpl; [reflexivity|].
  destruct (Z.ltb_spec (f x) (f x0)) as [Hlt|Hge].
  - specialize (H x (or_introl eq_refl)). lia.
  - apply IH. intros y Hy. apply H. now right.
Qed.

(** *** Last elements *)

Lemma lastn_all {A} (n : nat) (l : list A) : List.length l <= n -> lastn n l = l.
Proof.
  intros H. unfold lastn. replace (List.length l - n) with 0 by lia. reflexivity.
Qed.

Lemma lastn_app {A} (n : nat) (a b : list A) :
  lastn n (lastn n a ++ b) = lastn n (a ++ b).
Proof.
  unfold lastn.
  rewrite !length_app, length_skipn, !skipn_app, skipn_skipn, length_skipn.
  f_equal; f_equal; lia.
Qed.

End CacheFacts.

Module CacheRuns.
Import CacheFacts.
Section WithFloatStr.
Context {float_repr : PyFloatStr}.

Lemma _get_file_cache_key_run (file_path : string) (w : World) :
  _get_file_cache_key file_path w
    = (Return (fingerprint w file_path), set_trace w (trace w ++ [EvStat file_path])).
Proof.
  unfold _get_file_cache_key, fingerprint, try_except, os_stat, bind, emit, modify, gets.
  simpl. destruct (fs w file_path); reflexivity.
Qed.

(** A lookup reads the cache and leaves it as it is. *)
Lemma _get_cached_data_run (file_path : string) (w : World) :
  _get_cached_data file_path w
    = (Return (dict_get (_file_cache w) (fingerprint w file_path)),
       set_trace w (trace w ++ [EvStat file_path])).
Proof.
  unfold _get_cached_data, bind. rewrite _get_file_cache_key_run. reflexivity.
Qed.

(** An insertion, when the capacity is positive: one eviction at most,
    one [stat], one reading of the clock, one assignment. *)
Lemma _set_cached_data_run (file_path : string) (d : pyval) (w : World) :
  0 < _cache_max_size w ->
  _set_cached_data file_path d w
    = (Return tt,
       set_file_cache
         (set_clock_pos (set_trace w (trace w ++ [EvStat file_path])) (S (clock_pos w)))
         (dict_set (evicted w) (fingerprint w file_path)
            {| data := d; timestamp := clock w (clock_pos w) |})).
Proof.
  intros Hpos. unfold _set_cached_data, evicted.
  unfold bind at 1. unfold gets at 1. unfold bind at 1. unfold gets at 1.
  cbv zeta.
  destruct (Nat.leb_spec (_cache_max_size w) (List.length (_file_cache w))) as [Hfull|Hroom].
  - destruct (py_min _ _) as [oldest|] eqn:Emin.
    + unfold bind, modify. rewrite _get_file_cache_key_run.
      unfold time_time, bind, gets, modify. destruct w; reflexivity.
    + exfalso. destruct (_file_cache w); simpl in *; [lia|discriminate].
  - unfold bind, ret. rewrite _get_file_cache_key_run.
    unfold time_time, bind, gets, modify, ret. destruct w; reflexivity.
Qed.

End WithFloatStr.
End CacheRuns.

Module CacheClaims.
Import CacheFacts CacheRuns.
Section WithFloatStr.
Context {float_repr : PyFloatStr}.

Lemma evicted_at_capacity (w : World) :
  NoDup (dict_keys (_file_cache w)) ->
  0 < _cache_max_size w ->
  _cache_max_size w <= List.length (_file_cache w) ->
  exists oldest e_old,
    In (oldest, e_old) (_file_cache w)
    /\ (forall k e, In (k, e) (_file_cache w) -> (timestamp e_old <= timestamp e)%Z)
    /\ evicted w = dict_del (_file_cache w) oldest
    /\ S (List.length (evicted w)) = List.length (_file_cache w).
Proof.
  intros Hnd Hpos Hfull. unfold evicted. cbv zeta.
  destruct (Nat.leb_spec (_cache_max_size w) (List.length (_file_cache w))); [|lia].
  set (c := _file_cache w) in *.
  destruct (py_min (dict_keys c) _) as [m|] eqn:Emin.
  - apply py_min_spec in Emin as [Hin Hmin].
    unfold dict_keys in Hin. apply in_map_iff in Hin as ([k e] & Hk & Hin).
    simpl in Hk. subst k.
    exists m, e. split; [assumption|]. split; [|split; [reflexivity|]].
    + intros k e' Hin'.
      assert (Hk : In k (dict_keys c)).
      { unfold dict_keys. apply in_map_iff. exists (k, e'). auto. }
      specialize (Hmin k Hk). simpl in Hmin.
      rewrite (dict_get_NoDup c m e Hnd Hin) in Hmin.
      rewrite (dict_get_NoDup c k e' Hnd Hin') in Hmin. exact Hmin.
    + apply dict_del_length. unfold dict_keys. apply in_map_iff.
      exists (m, e). auto.
  - destruct c; simpl in *; [lia|discriminate].
Qed.

Lemma evicted_length (w : World) :
  0 < _cache_max_size w ->
  List.length (_file_cache w) <= _cache_max_size w ->
  List.length (evicted w) < _cache_max_size w.
Proof.
  intros Hpos Hle. unfold evicted. cbv zeta.
  destruct (Nat.leb_spec (_cache_max_size w) (List.length (_file_cache w))); [|lia].
  destruct (py_min (dict_keys (_file_cache w)) _) as [m|] eqn:Emin.
  - apply py_min_spec in Emin as [Hin _].
    pose proof (dict_del_length (_file_cache w) m Hin). lia.
  - destruct (_file_cache w); simpl in *; [lia|discriminate].
Qed.

Lemma timestamps_sorted_snoc (c : list (string * cache_entry)) (k : string) (e : cache_entry) :
  timestamps_sorted c ->
  (forall k' e', In (k', e') c -> (timestamp e' <= timestamp e)%Z) ->
  timestamps_sorted (c ++ [(k, e)]).
Proof.
  induction c as [|[k0 e0] c IH]; simpl; intros Hs Hb.
  - split; [intros ? ? []|exact I].
  - destruct Hs as [Hhead Htail]. split.
    + intros k' e' Hin. apply in_app_iff in Hin as [Hin|[[= <- <-]|[]]].
      * eauto.
      * apply (Hb k0 e0). now left.
    + apply IH; [assumption|]. intros k' e' Hin. apply (Hb k' e'). now right.
Qed.

(** On an ordered cache that is full, the evicted entry is the first. *)
Lemma evicted_sorted (w : World) :
  cache_ok w ->
  0 < _cache_max_size w ->
  evicted w = if Nat.leb (_cache_max_size w) (List.length (_file_cache w))
              then tl (_file_cache w) else _file_cache w.
Proof.
  intros (Hnd & Hs & _ & _) Hpos. unfold evicted. cbv zeta.
  destruct (Nat.leb_spec (_cache_max_size w) (List.length (_file_cache w))); [|reflexivity].
  destruct (_file_cache w) as [|[k0 e0] c] eqn:Ec; [simpl in *; lia|].
  simpl dict_keys. rewrite py_min_head.
  - simpl. now rewrite String.eqb_refl.
  - intros y Hy. simpl. rewrite String.eqb_refl.
    destruct (String.eqb_spec k0 y) as [->|Hne]; [lia|].
    unfold dict_keys in Hy. apply in_map_iff in Hy as ([k e] & Hk & Hin).
    simpl in Hk. subst k.
    simpl in Hnd. inversion Hnd as [|? ? _ Hnd']. subst.
    rewrite (dict_get_NoDup c y e Hnd' Hin).
    destruct Hs as [Hhead _]. eauto.
Qed.

(** Inserting a fingerprint that is not in the cache keeps the cache in
    order and leaves in it the newest [_cache_max_size] keys. *)
Lemma insert_new_fifo (file_path : string) (d : pyval) (w : World) :
  cache_ok w -> clock_monotone w -> 0 < _cache_max_size w ->
  ~ In (fingerprint w file_path) (dict_keys (_file_cache w)) ->
  let w' := snd (_set_cached_data file_path d w) in
  _set_cached_data file_path d w = (Return tt, w')
  /\ dict_keys (_file_cache w')
     = lastn (_cache_max_size w) (dict_keys (_file_cache w) ++ [fingerprint w file_path])
  /\ cache_ok w'
  /\ fs w' = fs w /\ clock w' = clock w /\ _cache_max_size w' = _cache_max_size w.
Proof.
  intros Hok Hmono Hpos Hnew. cbv zeta.
  rewrite (_set_cached_data_run file_path d w Hpos). simpl snd.
  split; [reflexivity|].
  rewrite (evicted_sorted w Hok Hpos).
  destruct Hok as (Hnd & Hs & Hb & Hlen).
  set (key := fingerprint w file_path) in *.
  set (e := {| data := d; timestamp := clock w (clock_pos w) |}).
  destruct w as [fs0 tmp0 next0 mk0 fails0 rk0 clk pos rnd rpos c max tr].
  simpl in *.
  assert (Hstep : (clk pos <= clk (S pos))%Z) by (apply Hmono; lia).
  destruct (Nat.leb_spec max (List.length c)) as [Hfull|Hroom].
  - destruct c as [|[k0 e0] c]; [simpl in *; lia|]. simpl in *.
    assert (Hnew' : ~ In key (dict_keys c)) by tauto.
    rewrite (dict_set_new c key e Hnew').
    inversion Hnd as [|? ? Hk0 Hnd']. subst.
    split; [|split; [|auto]].
    + unfold lastn, dict_keys. rewrite map_app. simpl List.length.
      rewrite length_app, length_map. simpl List.length.
      replace (S (List.length c + 1) - max) with 1 by lia.
      reflexivity.
    + unfold cache_ok. simpl. repeat split.
      * unfold dict_keys. rewrite map_app. simpl.
        apply NoDup_app; [assumption|repeat constructor; intros []|].
        intros x Hx [<-|[]]. contradiction.
      * apply timestamps_sorted_snoc; [tauto|].
        intros k' e' Hin. simpl. apply (Hb k' e'). now right.
      * intros k e1 Hin. apply in_app_iff in Hin as [Hin|[[= <- <-]|[]]].
        -- specialize (Hb k e1 (or_intror Hin)). lia.
        -- simpl. lia.
      * rewrite length_app. simpl. lia.
  - rewrite (dict_set_new c key e Hnew).
    split; [|split; [|auto]].
    + unfold dict_keys. rewrite map_app. simpl.
      rewrite lastn_all; [reflexivity|]. rewrite length_app, length_map. simpl. lia.
    + unfold cache_ok. simpl. repeat split.
      * unfold dict_keys. rewrite map_app. simpl.
        apply NoDup_app; [assumption|repeat constructor; intros []|].
        intros x Hx [<-|[]]. contradiction.
      * apply timestamps_sorted_snoc; [assumption|].
        intros k' e' Hin. simpl. eauto.
      * intros k e1 Hin. apply in_app_iff in Hin as [Hin|[[= <- <-]|[]]].
        -- specialize (Hb k e1 Hin). lia.
        -- simpl. lia.
      * rewrite length_app. simpl. lia.
Qed.

Lemma fingerprint_ext (w w' : World) (file_path : string) :
  fs w' = fs w -> fingerprint w' file_path = fingerprint w file_path.
Proof. intros H. unfold fingerprint. now rewrite H. Qed.

Lemma inserted_ext (w w' : World) (ops : list cache_op) :
  fs w' = fs w -> inserted w' ops = inserted w ops.
Proof.
  intros H. induction ops as [|[f|f d] ops IH]; simpl; [reflexivity|assumption|].
  now rewrite IH, (fingerprint_ext w w' f H).
Qed.

Lemma NoDup_skipn_app {A} (n : nat) (a b : list A) :
  NoDup (a ++ b) -> NoDup (skipn n a ++ b).
Proof.
  revert a. induction n as [|n IH]; intros a H; [exact H|].
  destruct a as [|x a]; [exact H|]. simpl. apply IH.
  simpl in H. now inversion H.
Qed.

(** Any run of lookups and insertions of distinct new fingerprints ends
    well, and the cache then holds the newest [_cache_max_size] of the keys
    it had and was given, in order of insertion. *)
Lemma run_ops_fifo (ops : list cache_op) :
  forall w,
    cache_ok w -> clock_monotone w -> 0 < _cache_max_size w ->
    NoDup (dict_keys (_file_cache w) ++ inserted w ops) ->
    exists w',
      run_ops ops w = (Return tt, w')
      /\ dict_keys (_file_cache w')
         = lastn (_cache_max_size w) (dict_keys (_file_cache w) ++ inserted w ops)
      /\ cache_ok w'.
Proof.
  induction ops as [|[f|f d] ops IH]; intros w Hok Hmono Hpos Hnd.
  - exists w. simpl. rewrite app_nil_r. split; [reflexivity|]. split; [|assumption].
    destruct Hok as (_ & _ & _ & Hlen). rewrite lastn_all; [reflexivity|].
    unfold dict_keys. now rewrite length_map.
  - simpl in *. unfold bind at 1. unfold bind at 1.
    rewrite _get_cached_data_run. unfold ret at 1.
    set (w1 := set_trace w (trace w ++ [EvStat f])).
    destruct (IH w1) as (w' & Hrun & Hkeys & Hok').
    + destruct w; exact Hok.
    + destruct w; exact Hmono.
    + destruct w; exact Hpos.
    + rewrite (inserted_ext w w1 ops) by (destruct w; reflexivity).
      destruct w; exact Hnd.
    + exists w'. split; [exact Hrun|]. split; [|exact Hok'].
      rewrite Hkeys. rewrite (inserted_ext w w1 ops) by (destruct w; reflexivity).
      destruct w; reflexivity.
  - simpl in *.
    assert (Hnew : ~ In (fingerprint w f) (dict_keys (_file_cache w))).
    { intros Hin. apply NoDup_remove_2 in Hnd. apply Hnd.
      apply in_app_iff. now left. }
    destruct (insert_new_fifo f d w Hok Hmono Hpos Hnew)
      as (Hrun1 & Hkeys1 & Hok1 & Hfs & Hclk & Hmax).
    set (w1 := snd (_set_cached_data f d w)) in *.
    destruct (IH w1) as (w' & Hrun & Hkeys & Hok').
    + exact Hok1.
    + unfold clock_monotone. rewrite Hclk. exact Hmono.
    + lia.
    + rewrite Hkeys1, (inserted_ext w w1 ops Hfs). unfold lastn.
      apply NoDup_skipn_app. rewrite <- app_assoc. exact Hnd.
    + exists w'. unfold bind. rewrite Hrun1. split; [exact Hrun|].
      split; [|exact Hok'].
      rewrite Hkeys, Hkeys1, Hmax, (inserted_ext w w1 ops Hfs).
      rewrite lastn_app. now rewrite <- app_assoc.
Qed.

(** C5: the cache evicts by age of insertion.  In a world whose capacity
    [_cache_max_size] is positive and whose cache, as every Python dict,
    has distinct keys:
    - a lookup returns the entry under the fingerprint and changes nothing
      in the cache, timestamps included;
    - an insertion into a cache that holds the capacity (or more) deletes
      exactly one entry, one whose timestamp is least, before it assigns
      the new one;
    - an insertion into a cache within the capacity leaves it within the
      capacity;
    - starting from the empty cache on a clock that never runs backwards,
      any interleaving of lookups with insertions of distinct fingerprints
      leaves the newest [_cache_max_size] of them, in order; with one more
      than the capacity the first inserted is the one that is gone. *)
Theorem C5_eviction_by_insertion_age (w : World) :
  0 < _cache_max_size w ->
  NoDup (dict_keys (_file_cache w)) ->
  (forall file_path,
      _get_cached_data file_path w
        = (Return (dict_get (_file_cache w) (fingerprint w file_path)),
           set_trace w (trace w ++ [EvStat file_path]))
      /\ _file_cache (snd (_get_cached_data file_path w)) = _file_cache w)
  /\ (forall file_path d,
         _cache_max_size w <= List.length (_file_cache w) ->
         exists oldest e_old w',
           In (oldest, e_old) (_file_cache w)
           /\ (forall k e, In (k, e) (_file_cache w) ->
                           (timestamp e_old <= timestamp e)%Z)
           /\ _set_cached_data file_path d w = (Return tt, w')
           /\ _file_cache w'
              = dict_set (dict_del (_file_cache w) oldest) (fingerprint w file_path)
                  {| data := d; timestamp := clock w (clock_pos w) |}
           /\ List.length (_file_cache w') <= List.length (_file_cache w))
  /\ (forall file_path d,
         List.length (_file_cache w) <= _cache_max_size w ->
         List.length (_file_cache (snd (_set_cached_data file_path d w)))
           <= _cache_max_size w)
  /\ (forall ops,
         _file_cache w = [] -> clock_monotone w -> NoDup (inserted w ops) ->
         exists w',
           run_ops ops w = (Return tt, w')
           /\ dict_keys (_file_cache w') = lastn (_cache_max_size w) (inserted w ops)
           /\ List.length (_file_cache w') <= _cache_max_size w
           /\ (forall first rest,
                  inserted w ops = first :: rest ->
                  List.length rest = _cache_max_size w ->
                  dict_keys (_file_cache w') = rest
                  /\ dict_get (_file_cache w') first = None)).
Proof.
  intros Hpos Hnd. split; [|split; [|split]].
  - intros f. rewrite _get_cached_data_run. split; [reflexivity|].
    destruct w; reflexivity.
  - intros f d Hfull.
    destruct (evicted_at_capacity w Hnd Hpos Hfull)
      as (oldest & e_old & Hin & Hmin & Hev & Hlen).
    eexists oldest, e_old, _. split; [exact Hin|]. split; [exact Hmin|].
    split; [apply (_set_cached_data_run f d w Hpos)|].
    split.
    + rewrite <- Hev. destruct w; reflexivity.
    + match goal with |- List.length (_file_cache ?x) <= _ =>
        replace (_file_cache x)
          with (dict_set (evicted w) (fingerprint w f)
                  {| data := d; timestamp := clock w (clock_pos w) |})
          by (destruct w; reflexivity)
      end.
      pose proof (dict_set_length (evicted w) (fingerprint w f)
                    {| data := d; timestamp := clock w (clock_pos w) |}). lia.
  - intros f d Hle. rewrite (_set_cached_data_run f d w Hpos). simpl snd.
    match goal with |- List.length (_file_cache ?x) <= _ =>
      replace (_file_cache x)
        with (dict_set (evicted w) (fingerprint w f)
                {| data := d; timestamp := clock w (clock_pos w) |})
        by (destruct w; reflexivity)
    end.
    pose proof (dict_set_length (evicted w) (fingerprint w f)
                  {| data := d; timestamp := clock w (clock_pos w) |}).
    pose proof (evicted_length w Hpos Hle). lia.
  - intros ops Hempty Hmono Hdistinct.
    assert (Hok : cache_ok w).
    { unfold cache_ok. rewrite Hempty. simpl. repeat split; try constructor.
      - intros k e []. - lia. }
    destruct (run_ops_fifo ops w Hok Hmono Hpos) as (w' & Hrun & Hkeys & Hok').
    { rewrite Hempty. exact Hdistinct. }
    rewrite Hempty in Hkeys. simpl in Hkeys.
    exists w'. split; [exact Hrun|]. split; [exact Hkeys|].
    assert (Hlen' : List.length (_file_cache w') <= _cache_max_size w).
    { replace (List.length (_file_cache w')) with (List.length (dict_keys (_file_cache w')))
        by (unfold dict_keys; apply length_map).
      rewrite Hkeys. unfold lastn. rewrite length_skipn. lia. }
    split; [exact Hlen'|].
    intros first rest Hins Hrest.
    assert (Hk : dict_keys (_file_cache w') = rest).
    { rewrite Hkeys, Hins. unfold lastn. simpl List.length.
      replace (S (List.length rest) - _cache_max_size w) with 1 by lia. reflexivity. }
    split; [exact Hk|].
    apply dict_get_None. rewrite Hk. rewrite Hins in Hdistinct.
    now inversion Hdistinct.
Qed.

End WithFloatStr.

(** C5 at work: capacity 2, three distinct files inserted with lookups
    of the first in between; the first is gone, the other two remain. *)
Lemma C5_eviction_witness :
  let w := bare_world_with_capacity 2 in
  let ops := [Insert "a.xmind" (PyList [PyInt 1]); Lookup "a.xmind";
              Insert "b.xmind" (PyList [PyInt 2]); Lookup "a.xmind";
              Insert "c.xmind" (PyList [PyInt 3])] in
  exists w',
    run_ops (float_repr := sample_float_str) ops w = (Return tt, w')
    /\ dict_keys (_file_cache w') = ["b.xmind"; "c.xmind"]
    /\ dict_get (_file_cache w') "a.xmind" = None.
Proof.
  cbv zeta.
  assert (Hpos : 0 < _cache_max_size (bare_world_with_capacity 2)) by (simpl; lia).
  assert (Hnd : NoDup (dict_keys (_file_cache (bare_world_with_capacity 2))))
    by (simpl; constructor).
  destruct (C5_eviction_by_insertion_age (float_repr := sample_float_str)
              (bare_world_with_capacity 2) Hpos Hnd) as (_ & _ & _ & Hfifo).
  destruct (Hfifo [Insert "a.xmind" (PyList [PyInt 1]); Lookup "a.xmind";
                   Insert "b.xmind" (PyList [PyInt 2]); Lookup "a.xmind";
                   Insert "c.xmind" (PyList [PyInt 3])])
    as (w' & Hrun & _ & _ & Hlast).
  - reflexivity.
  - intros i j Hij. simpl. lia.
  - simpl. repeat constructor; simpl; intuition discriminate.
  - exists w'. split; [exact Hrun|].
    apply (Hlast "a.xmind" ["b.xmind"; "c.xmind"]); reflexivity.
Defined.

End CacheClaims.

(* ===================================================================== *)
(** * Reasoning about effects *)
(* ===================================================================== *)

Module Effects.

(** *** The monad *)

Lemma bind_run {S A B} (m : M S A) (k : A -> M S B) (s : S) :
  bind m k s = match m s with
               | (Return a, s') => k a s'
               | (Raise e, s') => (Raise e, s')
               end.
Proof. reflexivity. Qed.

Lemma bind_Return {S A B} (m : M S A) (k : A -> M S B) (s s' : S) (a : A) :
  m s = (Return a, s') -> bind m k s = k a s'.
Proof. intros H. unfold bind. now rewrite H. Qed.

Lemma bind_Raise {S A B} (m : M S A) (k : A -> M S B) (s s' : S) (e : exn) :
  m s = (Raise e, s') -> bind m k s = (Raise e, s').
Proof. intros H. unfold bind. now rewrite H. Qed.

(** *** Preservation *)

Section Preserves.
Context {S : Type} (R : S -> S -> Prop) {R_pre : PreOrder R}.

Lemma preserves_ret {A} (a : A) : preserves R (ret a).
Proof. intros s. simpl. reflexivity. Qed.

Lemma preserves_raise {A} (e : exn) : preserves R (@raise S A e).
Proof. intros s. simpl. reflexivity. Qed.

Lemma preserves_gets {A} (f : S -> A) : preserves R (gets f).
Proof. intros s. simpl. reflexivity. Qed.

Lemma preserves_raise_if (b : bool) (e : exn) : preserves R (raise_if b e).
Proof. intros s. destruct b; simpl; reflexivity. Qed.

Lemma preserves_modify (f : S -> S) : (forall s, R s (f s)) -> preserves R (modify f).
Proof. intros H s. apply H. Qed.

Lemma preserves_bind {A B} (m : M S A) (k : A -> M S B) :
  preserves R m -> (forall a, preserves R (k a)) -> preserves R (bind m k).
Proof.
  intros Hm Hk s. unfold bind. specialize (Hm s).
  destruct (m s) as [[a|e] s1]; simpl in *; [|exact Hm].
  etransitivity; [exact Hm|apply Hk].
Qed.

Lemma preserves_try_except {A} (m : M S A) (h : exn -> M S A) :
  preserves R m -> (forall e, preserves R (h e)) -> preserves R (try_except m h).
Proof.
  intros Hm Hh s. unfold try_except. specialize (Hm s).
  destruct (m s) as [[a|e] s1]; simpl in *; [exact Hm|].
  etransitivity; [exact Hm|apply Hh].
Qed.

Lemma preserves_mapM {A B} (f : A -> M S B) (xs : list A) :
  (forall x, In x xs -> preserves R (f x)) -> preserves R (mapM f xs).
Proof.
  induction xs as [|x xs IH]; intros H; simpl.
  - apply preserves_ret.
  - apply preserves_bind; [apply H; now left|]. intros y.
    apply preserves_bind; [apply IH; intros z Hz; apply H; now right|].
    intros ys. apply preserves_ret.
Qed.

Lemma preserves_fold_left {A B} (step : M S B -> A -> M S B) (xs : list A) :
  (forall acc x, preserves R acc -> preserves R (step acc x)) ->
  forall acc, preserves R acc -> preserves R (fold_left step xs acc).
Proof.
  intros Hstep. induction xs as [|x xs IH]; intros acc Hacc; simpl; auto.
Qed.

End Preserves.

#[global] Instance rel_and_preorder {S} (R1 R2 : S -> S -> Prop)
  {P1 : PreOrder R1} {P2 : PreOrder R2} : PreOrder (rel_and R1 R2).
Proof.
  split.
  - intros s. split; reflexivity.
  - intros a b c [H1 H2] [H3 H4]. split; etransitivity; eauto.
Qed.

#[global] Instance on_world_preorder (R : World -> World -> Prop) {P : PreOrder R} :
  PreOrder (on_world R).
Proof.
  split.
  - intros p. unfold on_world. reflexivity.
  - intros a b c H1 H2. unfold on_world in *. etransitivity; eauto.
Qed.

#[global] Instance on_self_preorder (R : Loader -> Loader -> Prop) {P : PreOrder R} :
  PreOrder (on_self R).
Proof.
  split.
  - intros p. unfold on_self. reflexivity.
  - intros a b c H1 H2. unfold on_self in *. etransitivity; eauto.
Qed.

Lemma preserves_and {S A} (R1 R2 : S -> S -> Prop) (m : M S A) :
  preserves R1 m -> preserves R2 m -> preserves (rel_and R1 R2) m.
Proof. intros H1 H2 s. split; [apply H1|apply H2]. Qed.

Lemma preserves_liftW_world {A} (R : World -> World -> Prop) (m : M World A) :
  preserves R m -> preserves (on_world R) (liftW m).
Proof.
  intros H p. unfold on_world, liftW. specialize (H (world p)).
  destruct (m (world p)) as [r w']. exact H.
Qed.

Lemma preserves_liftW_self {A} (R : Loader -> Loader -> Prop) {P : PreOrder R}
    (m : M World A) :
  preserves (on_self R) (liftW m).
Proof.
  intros p. unfold on_self, liftW. destruct (m (world p)) as [r w']. simpl. reflexivity.
Qed.

Lemma preserves_set_self_world (R : World -> World -> Prop) {P : PreOrder R}
    (f : Loader -> Loader) :
  preserves (on_world R) (set_self f).
Proof. intros p. unfold on_world. simpl. reflexivity. Qed.

Lemma preserves_set_self_self (R : Loader -> Loader -> Prop) (f : Loader -> Loader) :
  (forall l, R l (f l)) -> preserves (on_self R) (set_self f).
Proof. intros H p. unfold on_self. simpl. apply H. Qed.

(** *** The relations are preorders *)

#[global] Instance same_env_preorder : PreOrder same_env.
Proof.
  split.
  - intros w. unfold same_env. tauto.
  - intros a b c (H1 & H2 & H3 & H4 & H5 & H6 & H7) (G1 & G2 & G3 & G4 & G5 & G6 & G7).
    unfold same_env. repeat split; congruence.
Qed.

#[global] Instance same_cache_preorder : PreOrder same_cache.
Proof. split; [intros w; reflexivity|intros a b c; unfold same_cache; congruence]. Qed.

#[global] Instance same_dirs_preorder : PreOrder same_dirs.
Proof.
  split; [intros w; split; reflexivity|].
  intros a b c [H1 H2] [G1 G2]. unfold same_dirs. split; congruence.
Qed.

#[global] Instance trace_grows_preorder (P : event -> Prop) : PreOrder (trace_grows P).
Proof.
  split.
  - intros w. exists []. split; [now rewrite app_nil_r|constructor].
  - intros a b c (e1 & H1 & F1) (e2 & H2 & F2). exists (e1 ++ e2).
    split; [now rewrite H2, H1, app_assoc|now apply Forall_app].
Qed.

#[global] Instance quiet_preorder : PreOrder quiet.
Proof.
  split.
  - intros w. split; [reflexivity|reflexivity].
  - intros a b c [H1 T1] [H2 T2]. split.
    + intros d. now rewrite H2, H1.
    + etransitivity; eauto.
Qed.

#[global] Instance only_entropy_preorder : PreOrder only_entropy.
Proof.
  split.
  - intros w. unfold only_entropy. repeat split; reflexivity.
  - intros a b c (E1 & C1 & D1 & N1 & K1 & T1) (E2 & C2 & D2 & N2 & K2 & T2).
    unfold only_entropy. split; [etransitivity; eauto|].
    split; [etransitivity; eauto|]. split; [etransitivity; eauto|].
    repeat split; congruence.
Qed.

#[global] Instance same_temp_dir_preorder : PreOrder same_temp_dir.
Proof. split; [intros l; reflexivity|intros a b c; unfold same_temp_dir; congruence]. Qed.

#[global] Instance same_content_data_preorder : PreOrder same_content_data.
Proof.
  split; [intros l; reflexivity|intros a b c; unfold same_content_data; congruence].
Qed.

#[global] Instance same_xmind_file_preorder : PreOrder same_xmind_file.
Proof.
  split; [intros l; reflexivity|intros a b c; unfold same_xmind_file; congruence].
Qed.

#[global] Instance same_debug_flag_preorder : PreOrder same_debug_flag.
Proof.
  split; [intros l; reflexivity|intros a b c; unfold same_debug_flag; congruence].
Qed.

End Effects.

(* ===================================================================== *)
(** * What each operation changes *)
(* ===================================================================== *)

Module Frames.
Import Effects.

Lemma dir_exists_dir_extract (ds : list (nat * list (string * file_content))) (d d' : nat)
    (writes : list (string * file_content)) :
  dir_exists (dir_extract ds d writes) d' = dir_exists ds d'.
Proof.
  unfold dir_exists, dir_extract. induction ds as [|[n fl] ds IH]; simpl; [reflexivity|].
  rewrite IH. destruct (Nat.eqb_spec n d) as [->|Hne]; reflexivity.
Qed.

(** Writing into a directory that was just created. *)
Lemma dir_files_dir_extract_new (ds : list (nat * list (string * file_content))) (d : nat)
    (writes : list (string * file_content)) :
  dir_exists ds d = false ->
  dir_files (dir_extract (ds ++ [(d, [])]) d writes) d = Some (write_all [] writes).
Proof.
  unfold dir_exists, dir_files, dir_extract.
  induction ds as [|[n fl] ds IH]; simpl.
  - intros _. now rewrite !Nat.eqb_refl.
  - destruct (Nat.eqb_spec n d) as [->|Hne]; simpl; [discriminate|].
    intros H. destruct (Nat.eqb_spec n d); [contradiction|]. now apply IH.
Qed.

Lemma dir_exists_dir_remove (ds : list (nat * list (string * file_content))) (d d' : nat) :
  dir_exists (dir_remove ds d) d' = andb (negb (Nat.eqb d' d)) (dir_exists ds d').
Proof.
  unfold dir_exists, dir_remove. induction ds as [|[n fl] ds IH]; simpl.
  - now rewrite andb_false_r.
  - destruct (Nat.eqb_spec n d) as [->|Hne]; simpl.
    + rewrite IH. destruct (Nat.eqb_spec d d') as [->|Hne'].
      * now rewrite Nat.eqb_refl.
      * reflexivity.
    + rewrite IH. destruct (Nat.eqb_spec n d') as [->|Hne'].
      * destruct (Nat.eqb_spec d' d); [contradiction|reflexivity].
      * reflexivity.
Qed.

Create HintDb pres.

(** Splits a preservation goal along the structure of the computation;
    single state updates are closed by computation on the record. *)
Ltac world_leaf :=
  let w := fresh "w" in
  intros w; destruct w;
  first
    [ solve [unfold same_env; simpl; repeat split; reflexivity]
    | solve [unfold same_cache; reflexivity]
    | solve [unfold same_dirs; simpl; split; reflexivity]
    | solve [unfold only_entropy, same_env, same_cache, same_dirs; simpl;
             repeat split; reflexivity]
    | solve [split;
             [intro; simpl;
              first [reflexivity | apply dir_exists_dir_extract]
             |first [ exists []; split; [simpl; now rewrite app_nil_r|constructor]
                    | eexists; split; [simpl; reflexivity|repeat constructor] ]]] ].

Ltac self_leaf :=
  let l := fresh "l" in intros l; destruct l; reflexivity.

Ltac pres_gen extra :=
  unfold emit, py_contains_str, py_getitem_str, py_iter, py_len,
    set_temp_dir, set_content_data, set_debug_info;
  repeat first
    [ solve [auto with pres nocore]
    | solve [typeclasses eauto]
    | extra
    | apply preserves_ret
    | apply preserves_raise
    | apply preserves_gets
    | apply preserves_raise_if
    | match goal with |- preserves (rel_and _ _) _ => apply preserves_and end
    | apply preserves_bind; [..|intro]
    | apply preserves_try_except; [..|intro]
    | apply preserves_mapM; [..|intros ? ?]
    | match goal with
      | |- preserves (on_world _) (liftW _) => apply preserves_liftW_world
      | |- preserves (on_self _) (liftW _) => apply preserves_liftW_self
      | |- preserves (on_world _) (set_self _) => apply preserves_set_self_world
      | |- preserves (on_self _) (set_self _) => apply preserves_set_self_self; self_leaf
      end
    | apply preserves_modify; world_leaf
    | match goal with
      | |- preserves _ (if ?b then _ else _) => destruct b
      | |- preserves _ (match ?x with _ => _ end) => destruct x
      end ].

Ltac pres := pres_gen fail.

(** *** Calls into the system *)

Lemma env_emit e : preserves same_env (emit e).
Proof. pres. Qed.
#[export] Hint Resolve env_emit : pres.
Lemma env_os_stat p : preserves same_env (os_stat p).
Proof. unfold os_stat. pres. Qed.
#[export] Hint Resolve env_os_stat : pres.
Lemma env_os_path_exists p : preserves same_env (os_path_exists p).
Proof. unfold os_path_exists. pres. Qed.
#[export] Hint Resolve env_os_path_exists : pres.
Lemma env_os_path_getsize p : preserves same_env (os_path_getsize p).
Proof. unfold os_path_getsize. pres. Qed.
#[export] Hint Resolve env_os_path_getsize : pres.
Lemma env_ZipFile p : preserves same_env (ZipFile p).
Proof. unfold ZipFile. pres. Qed.
#[export] Hint Resolve env_ZipFile : pres.
Lemma env_mkdtemp : preserves same_env (mkdtemp).
Proof. unfold mkdtemp. pres. Qed.
#[export] Hint Resolve env_mkdtemp : pres.
Lemma env_extractall p a d : preserves same_env (extractall p a d).
Proof. unfold extractall. pres. Qed.
#[export] Hint Resolve env_extractall : pres.
Lemma env_os_listdir d : preserves same_env (os_listdir d).
Proof. unfold os_listdir. pres. Qed.
#[export] Hint Resolve env_os_listdir : pres.
Lemma env_os_path_exists_dir d : preserves same_env (os_path_exists_dir d).
Proof. unfold os_path_exists_dir. pres. Qed.
#[export] Hint Resolve env_os_path_exists_dir : pres.
Lemma env_os_path_exists_in d n : preserves same_env (os_path_exists_in d n).
Proof. unfold os_path_exists_in. pres. Qed.
#[export] Hint Resolve env_os_path_exists_in : pres.
Lemma env_json_load d n : preserves same_env (json_load d n).
Proof. unfold json_load. pres. Qed.
#[export] Hint Resolve env_json_load : pres.
Lemma env_shutil_rmtree d : preserves same_env (shutil_rmtree d).
Proof. unfold shutil_rmtree. pres. Qed.
#[export] Hint Resolve env_shutil_rmtree : pres.
Lemma env_time_time : preserves same_env (time_time).
Proof. unfold time_time. pres. Qed.
#[export] Hint Resolve env_time_time : pres.
Lemma env_os_urandom16 : preserves same_env (os_urandom16).
Proof. unfold os_urandom16. pres. Qed.
#[export] Hint Resolve env_os_urandom16 : pres.

Lemma cache_emit e : preserves same_cache (emit e).
Proof. pres. Qed.
#[export] Hint Resolve cache_emit : pres.
Lemma cache_os_stat p : preserves same_cache (os_stat p).
Proof. unfold os_stat. pres. Qed.
#[export] Hint Resolve cache_os_stat : pres.
Lemma cache_os_path_exists p : preserves same_cache (os_path_exists p).
Proof. unfold os_path_exists. pres. Qed.
#[export] Hint Resolve cache_os_path_exists : pres.
Lemma cache_os_path_getsize p : preserves same_cache (os_path_getsize p).
Proof. unfold os_path_getsize. pres. Qed.
#[export] Hint Resolve cache_os_path_getsize : pres.
Lemma cache_ZipFile p : preserves same_cache (ZipFile p).
Proof. unfold ZipFile. pres. Qed.
#[export] Hint Resolve cache_ZipFile : pres.
Lemma cache_mkdtemp : preserves same_cache (mkdtemp).
Proof. unfold mkdtemp. pres. Qed.
#[export] Hint Resolve cache_mkdtemp : pres.
Lemma cache_extractall p a d : preserves same_cache (extractall p a d).
Proof. unfold extractall. pres. Qed.
#[export] Hint Resolve cache_extractall : pres.
Lemma cache_os_listdir d : preserves same_cache (os_listdir d).
Proof. unfold os_listdir. pres. Qed.
#[export] Hint Resolve cache_os_listdir : pres.
Lemma cache_os_path_exists_dir d : preserves same_cache (os_path_exists_dir d).
Proof. unfold os_path_exists_dir. pres. Qed.
#[export] Hint Resolve cache_os_path_exists_dir : pres.
Lemma cache_os_path_exists_in d n : preserves same_cache (os_path_exists_in d n).
Proof. unfold os_path_exists_in. pres. Qed.
#[export] Hint Resolve cache_os_path_exists_in : pres.
Lemma cache_json_load d n : preserves same_cache (json_load d n).
Proof. unfold json_load. pres. Qed.
#[export] Hint Resolve cache_json_load : pres.
Lemma cache_shutil_rmtree d : preserves same_cache (shutil_rmtree d).
Proof. unfold shutil_rmtree. pres. Qed.
#[export] Hint Resolve cache_shutil_rmtree : pres.
Lemma cache_time_time : preserves same_cache (time_time).
Proof. unfold time_time. pres. Qed.
#[export] Hint Resolve cache_time_time : pres.
Lemma cache_os_urandom16 : preserves same_cache (os_urandom16).
Proof. unfold os_urandom16. pres. Qed.
#[export] Hint Resolve cache_os_urandom16 : pres.

Lemma dirs_emit e : preserves same_dirs (emit e).
Proof. pres. Qed.
#[export] Hint Resolve dirs_emit : pres.
Lemma dirs_os_stat p : preserves same_dirs (os_stat p).
Proof. unfold os_stat. pres. Qed.
#[export] Hint Resolve dirs_os_stat : pres.
Lemma dirs_os_path_exists p : preserves same_dirs (os_path_exists p).
Proof. unfold os_path_exists. pres. Qed.
#[export] Hint Resolve dirs_os_path_exists : pres.
Lemma dirs_os_path_getsize p : preserves same_dirs (os_path_getsize p).
Proof. unfold os_path_getsize. pres. Qed.
#[export] Hint Resolve dirs_os_path_getsize : pres.
Lemma dirs_ZipFile p : preserves same_dirs (ZipFile p).
Proof. unfold ZipFile. pres. Qed.
#[export] Hint Resolve dirs_ZipFile : pres.
Lemma dirs_os_listdir d : preserves same_dirs (os_listdir d).
Proof. unfold os_listdir. pres. Qed.
#[export] Hint Resolve dirs_os_listdir : pres.
Lemma dirs_os_path_exists_dir d : preserves same_dirs (os_path_exists_dir d).
Proof. unfold os_path_exists_dir. pres. Qed.
#[export] Hint Resolve dirs_os_path_exists_dir : pres.
Lemma dirs_os_path_exists_in d n : preserves same_dirs (os_path_exists_in d n).
Proof. unfold os_path_exists_in. pres. Qed.
#[export] Hint Resolve dirs_os_path_exists_in : pres.
Lemma dirs_json_load d n : preserves same_dirs (json_load d n).
Proof. unfold json_load. pres. Qed.
#[export] Hint Resolve dirs_json_load : pres.
Lemma dirs_time_time : preserves same_dirs (time_time).
Proof. unfold time_time. pres. Qed.
#[export] Hint Resolve dirs_time_time : pres.
Lemma dirs_os_urandom16 : preserves same_dirs (os_urandom16).
Proof. unfold os_urandom16. pres. Qed.
#[export] Hint Resolve dirs_os_urandom16 : pres.

Lemma quiet_os_stat p : preserves quiet (os_stat p).
Proof. unfold os_stat. pres. Qed.
#[export] Hint Resolve quiet_os_stat : pres.
Lemma quiet_os_path_exists p : preserves quiet (os_path_exists p).
Proof. unfold os_path_exists. pres. Qed.
#[export] Hint Resolve quiet_os_path_exists : pres.
Lemma quiet_os_path_getsize p : preserves quiet (os_path_getsize p).
Proof. unfold os_path_getsize. pres. Qed.
#[export] Hint Resolve quiet_os_path_getsize : pres.
Lemma quiet_ZipFile p : preserves quiet (ZipFile p).
Proof. unfold ZipFile. pres. Qed.
#[export] Hint Resolve quiet_ZipFile : pres.
Lemma quiet_extractall p a d : preserves quiet (extractall p a d).
Proof. unfold extractall. pres. Qed.
#[export] Hint Resolve quiet_extractall : pres.
Lemma quiet_os_listdir d : preserves quiet (os_listdir d).
Proof. unfold os_listdir. pres. Qed.
#[export] Hint Resolve quiet_os_listdir : pres.
Lemma quiet_os_path_exists_dir d : preserves quiet (os_path_exists_dir d).
Proof. unfold os_path_exists_dir. pres. Qed.
#[export] Hint Resolve quiet_os_path_exists_dir : pres.
Lemma quiet_os_path_exists_in d n : preserves quiet (os_path_exists_in d n).
Proof. unfold os_path_exists_in. pres. Qed.
#[export] Hint Resolve quiet_os_path_exists_in : pres.
Lemma quiet_json_load d n : preserves quiet (json_load d n).
Proof. unfold json_load. pres. Qed.
#[export] Hint Resolve quiet_json_load : pres.
Lemma quiet_time_time : preserves quiet (time_time).
Proof. unfold time_time. pres. Qed.
#[export] Hint Resolve quiet_time_time : pres.
Lemma quiet_os_urandom16 : preserves quiet (os_urandom16).
Proof. unfold os_urandom16. pres. Qed.
#[export] Hint Resolve quiet_os_urandom16 : pres.

Lemma quiet_emit e : quiet_event e -> preserves quiet (emit e).
Proof.
  intros H w. destruct w. split; [reflexivity|].
  exists [e]. split; [reflexivity|]. now constructor.
Qed.

(** *** Relations that follow from one another *)

Lemma preserves_weaken {S A} (R R' : S -> S -> Prop) (m : M S A) :
  (forall s s', R s s' -> R' s s') -> preserves R m -> preserves R' m.
Proof. intros H Hm s. apply H, Hm. Qed.

Lemma only_entropy_quiet (w w' : World) : only_entropy w w' -> quiet w w'.
Proof.
  intros (_ & _ & [D _] & _ & _ & T). split.
  - intros d. now rewrite D.
  - exists []. split; [now rewrite app_nil_r|constructor].
Qed.

(** *** The cache functions and the validation *)

Section WithFloatStr.
Context {float_repr : PyFloatStr}.

Lemma env_get_file_cache_key p : preserves same_env (_get_file_cache_key p).
Proof. unfold _get_file_cache_key. pres. Qed.
#[local] Hint Resolve env_get_file_cache_key : pres.
Lemma cache_get_file_cache_key p : preserves same_cache (_get_file_cache_key p).
Proof. unfold _get_file_cache_key. pres. Qed.
#[local] Hint Resolve cache_get_file_cache_key : pres.
Lemma dirs_get_file_cache_key p : preserves same_dirs (_get_file_cache_key p).
Proof. unfold _get_file_cache_key. pres. Qed.
#[local] Hint Resolve dirs_get_file_cache_key : pres.
Lemma quiet_get_file_cache_key p : preserves quiet (_get_file_cache_key p).
Proof. unfold _get_file_cache_key. pres. Qed.
#[local] Hint Resolve quiet_get_file_cache_key : pres.
Lemma env_get_cached_data p : preserves same_env (_get_cached_data p).
Proof. unfold _get_cached_data. pres. Qed.
#[local] Hint Resolve env_get_cached_data : pres.
Lemma cache_get_cached_data p : preserves same_cache (_get_cached_data p).
Proof. unfold _get_cached_data. pres. Qed.
#[local] Hint Resolve cache_get_cached_data : pres.
Lemma dirs_get_cached_data p : preserves same_dirs (_get_cached_data p).
Proof. unfold _get_cached_data. pres. Qed.
#[local] Hint Resolve dirs_get_cached_data : pres.
Lemma quiet_get_cached_data p : preserves quiet (_get_cached_data p).
Proof. unfold _get_cached_data. pres. Qed.
#[local] Hint Resolve quiet_get_cached_data : pres.
Lemma env_set_cached_data p v : preserves same_env (_set_cached_data p v).
Proof. unfold _set_cached_data. pres. Qed.
#[local] Hint Resolve env_set_cached_data : pres.
Lemma dirs_set_cached_data p v : preserves same_dirs (_set_cached_data p v).
Proof. unfold _set_cached_data. pres. Qed.
#[local] Hint Resolve dirs_set_cached_data : pres.
Lemma quiet_set_cached_data p v : preserves quiet (_set_cached_data p v).
Proof. unfold _set_cached_data. pres. Qed.
#[local] Hint Resolve quiet_set_cached_data : pres.

End WithFloatStr.

#[export] Hint Resolve env_get_file_cache_key : pres.
#[export] Hint Resolve cache_get_file_cache_key : pres.
#[export] Hint Resolve dirs_get_file_cache_key : pres.
#[export] Hint Resolve quiet_get_file_cache_key : pres.
#[export] Hint Resolve env_get_cached_data : pres.
#[export] Hint Resolve cache_get_cached_data : pres.
#[export] Hint Resolve dirs_get_cached_data : pres.
#[export] Hint Resolve quiet_get_cached_data : pres.
#[export] Hint Resolve env_set_cached_data : pres.
#[export] Hint Resolve dirs_set_cached_data : pres.
#[export] Hint Resolve quiet_set_cached_data : pres.

Lemma env_validate_xmind_file p : preserves same_env (validate_xmind_file p).
Proof. unfold validate_xmind_file. pres. Qed.
#[export] Hint Resolve env_validate_xmind_file : pres.
Lemma cache_validate_xmind_file p : preserves same_cache (validate_xmind_file p).
Proof. unfold validate_xmind_file. pres. Qed.
#[export] Hint Resolve cache_validate_xmind_file : pres.
Lemma dirs_validate_xmind_file p : preserves same_dirs (validate_xmind_file p).
Proof. unfold validate_xmind_file. pres. Qed.
#[export] Hint Resolve dirs_validate_xmind_file : pres.
Lemma quiet_validate_xmind_file p : preserves quiet (validate_xmind_file p).
Proof. unfold validate_xmind_file. pres. Qed.
#[export] Hint Resolve quiet_validate_xmind_file : pres.

Lemma env__validate_content_structure v : preserves same_env (ContentJsonParser._validate_content_structure v).
Proof. unfold ContentJsonParser._validate_content_structure. pres. Qed.
#[export] Hint Resolve env__validate_content_structure : pres.
Lemma cache__validate_content_structure v : preserves same_cache (ContentJsonParser._validate_content_structure v).
Proof. unfold ContentJsonParser._validate_content_structure. pres. Qed.
#[export] Hint Resolve cache__validate_content_structure : pres.
Lemma dirs__validate_content_structure v : preserves same_dirs (ContentJsonParser._validate_content_structure v).
Proof. unfold ContentJsonParser._validate_content_structure. pres. Qed.
#[export] Hint Resolve dirs__validate_content_structure : pres.
Lemma quiet__validate_content_structure v : preserves quiet (ContentJsonParser._validate_content_structure v).
Proof. unfold ContentJsonParser._validate_content_structure. pres. Qed.
#[export] Hint Resolve quiet__validate_content_structure : pres.

Lemma env__load_additional_data d : preserves same_env (ContentJsonParser._load_additional_data d).
Proof. unfold ContentJsonParser._load_additional_data. pres. Qed.
#[export] Hint Resolve env__load_additional_data : pres.
Lemma cache__load_additional_data d : preserves same_cache (ContentJsonParser._load_additional_data d).
Proof. unfold ContentJsonParser._load_additional_data. pres. Qed.
#[export] Hint Resolve cache__load_additional_data : pres.
Lemma dirs__load_additional_data d : preserves same_dirs (ContentJsonParser._load_additional_data d).
Proof. unfold ContentJsonParser._load_additional_data. pres. Qed.
#[export] Hint Resolve dirs__load_additional_data : pres.
Lemma quiet__load_additional_data d : preserves quiet (ContentJsonParser._load_additional_data d).
Proof. unfold ContentJsonParser._load_additional_data. pres. Qed.
#[export] Hint Resolve quiet__load_additional_data : pres.

Lemma env_parse_content_json d : preserves same_env (ContentJsonParser.parse_content_json d).
Proof. unfold ContentJsonParser.parse_content_json. pres. Qed.
#[export] Hint Resolve env_parse_content_json : pres.
Lemma cache_parse_content_json d : preserves same_cache (ContentJsonParser.parse_content_json d).
Proof. unfold ContentJsonParser.parse_content_json. pres. Qed.
#[export] Hint Resolve cache_parse_content_json : pres.
Lemma dirs_parse_content_json d : preserves same_dirs (ContentJsonParser.parse_content_json d).
Proof. unfold ContentJsonParser.parse_content_json. pres. Qed.
#[export] Hint Resolve dirs_parse_content_json : pres.
Lemma quiet_parse_content_json d : preserves quiet (ContentJsonParser.parse_content_json d).
Proof. unfold ContentJsonParser.parse_content_json. pres. Qed.
#[export] Hint Resolve quiet_parse_content_json : pres.

(** *** The normalizer draws random bytes and does nothing else *)

Lemma only_entropy_os_urandom16 : preserves only_entropy os_urandom16.
Proof. unfold os_urandom16. pres. Qed.
#[export] Hint Resolve only_entropy_os_urandom16 : pres.

Lemma only_entropy__convert_topic_rec (fuel : nat) :
  forall t, preserves only_entropy (DataFormatConverter._convert_topic_rec fuel t).
Proof.
  induction fuel as [|fuel IH]; intros t; simpl.
  - pres.
  - unfold DataFormatConverter.convert_topic_body. pres.
Qed.

Lemma only_entropy__convert_topic (t : pyval) :
  preserves only_entropy (DataFormatConverter._convert_topic t).
Proof. apply only_entropy__convert_topic_rec. Qed.
#[export] Hint Resolve only_entropy__convert_topic : pres.

Lemma only_entropy_convert_to_xmind_format (v : pyval) :
  preserves only_entropy (DataFormatConverter.convert_to_xmind_format v).
Proof. unfold DataFormatConverter.convert_to_xmind_format. pres. Qed.
#[export] Hint Resolve only_entropy_convert_to_xmind_format : pres.

Lemma env_convert_to_xmind_format (v : pyval) :
  preserves same_env (DataFormatConverter.convert_to_xmind_format v).
Proof.
  apply (preserves_weaken only_entropy); [|auto with pres]. now intros s s' (H & _).
Qed.
Lemma cache_convert_to_xmind_format (v : pyval) :
  preserves same_cache (DataFormatConverter.convert_to_xmind_format v).
Proof.
  apply (preserves_weaken only_entropy); [|auto with pres]. now intros s s' (_ & H & _).
Qed.
Lemma dirs_convert_to_xmind_format (v : pyval) :
  preserves same_dirs (DataFormatConverter.convert_to_xmind_format v).
Proof.
  apply (preserves_weaken only_entropy); [|auto with pres]. now intros s s' (_ & _ & H & _).
Qed.
Lemma quiet_convert_to_xmind_format (v : pyval) :
  preserves quiet (DataFormatConverter.convert_to_xmind_format v).
Proof.
  apply (preserves_weaken only_entropy); [|auto with pres]. apply only_entropy_quiet.
Qed.
#[export] Hint Resolve env_convert_to_xmind_format cache_convert_to_xmind_format
  dirs_convert_to_xmind_format quiet_convert_to_xmind_format : pres.

(** *** The statistics of the debugger touch no state *)

Section Statistics.
Context {S : Type} (R : S -> S -> Prop) {R_pre : PreOrder R}.

Lemma pure__count_topics_rec (fuel : nat) :
  forall t dep, preserves R (XmindLoaderDebugger._count_topics_rec fuel t dep).
Proof.
  induction fuel as [|fuel IH]; intros t dep; simpl.
  - pres.
  - unfold XmindLoaderDebugger.count_topics_body. pres.
    apply preserves_fold_left; try solve [typeclasses eauto]; [|pres].
    intros acc x Hacc. pres.
Qed.

Lemma pure__count_topics (t : pyval) (dep : nat) :
  preserves R (XmindLoaderDebugger._count_topics t dep).
Proof. apply pure__count_topics_rec. Qed.

Lemma pure__analyze_content_structure (v : pyval) :
  preserves R (XmindLoaderDebugger._analyze_content_structure v).
Proof.
  pose proof pure__count_topics as Hcount.
  unfold XmindLoaderDebugger._analyze_content_structure. pres.
  apply preserves_fold_left; try solve [typeclasses eauto]; [|pres].
  intros acc x Hacc. pres.
Qed.

End Statistics.

End Frames.

(* ===================================================================== *)
(** * The methods of the loader: what they change *)
(* ===================================================================== *)

Module LoaderFrames.
Import Effects Frames.

(** No temporary directory created or removed, [self.temp_dir] untouched. *)
Abbreviation proc_quiet := (rel_and (on_world quiet) (on_self same_temp_dir)).

(** The environment, the file the loader is for and its debug switch. *)
Abbreviation proc_env :=
  (rel_and (on_world same_env) (rel_and (on_self same_xmind_file) (on_self same_debug_flag))).

Ltac pres_proc :=
  unfold XmindLoaderDebugger.start_debug, XmindLoaderDebugger.log_extract_time,
    XmindLoaderDebugger.log_parse_time;
  pres_gen ltac:(apply pure__analyze_content_structure).

Section WithFloatStr.
Context {float_repr : PyFloatStr}.


Lemma env_start_debug f : preserves proc_env (XmindLoaderDebugger.start_debug f).
Proof. pres_proc. Qed.
Lemma env_log_extract_time s fl :
  preserves proc_env (XmindLoaderDebugger.log_extract_time s fl).
Proof. pres_proc. Qed.
Lemma env_log_parse_time s v :
  preserves proc_env (XmindLoaderDebugger.log_parse_time s v).
Proof. pres_proc. Qed.
Lemma env__extract_xmind_file : preserves proc_env XmindFileLoader._extract_xmind_file.
Proof. unfold XmindFileLoader._extract_xmind_file. pres_proc. Qed.
Lemma env__cleanup : preserves proc_env XmindFileLoader._cleanup.
Proof. unfold XmindFileLoader._cleanup. pres_proc. Qed.
Lemma env_load debug : preserves proc_env (XmindFileLoader.load debug).
Proof.
  pose proof env_start_debug. pose proof env_log_extract_time.
  pose proof env_log_parse_time. pose proof env__extract_xmind_file.
  pose proof env__cleanup.
  unfold XmindFileLoader.load. pres_proc.
Qed.

End WithFloatStr.
End LoaderFrames.

(** *** Triples *)

Module Triples.
Import Effects.

Section Rules.
Context {S : Type}.

Lemma hoare_conseq {A} (P P' : S -> Prop) (Q Q' : outcome A -> S -> Prop) (m : M S A) :
  hoare P m Q -> (forall s, P' s -> P s) -> (forall o s, Q o s -> Q' o s) ->
  hoare P' m Q'.
Proof. intros H HP HQ s Hs. apply HQ, H, HP, Hs. Qed.

Lemma hoare_ret {A} (P : S -> Prop) (Q : outcome A -> S -> Prop) (a : A) :
  (forall s, P s -> Q (Return a) s) -> hoare P (ret a) Q.
Proof. intros H s Hs. apply H, Hs. Qed.

Lemma hoare_raise {A} (P : S -> Prop) (Q : outcome A -> S -> Prop) (e : exn) :
  (forall s, P s -> Q (Raise e) s) -> hoare P (raise e) Q.
Proof. intros H s Hs. apply H, Hs. Qed.


Lemma hoare_bind {A B} (P : S -> Prop) (Q1 : outcome A -> S -> Prop)
    (Q : outcome B -> S -> Prop) (m : M S A) (k : A -> M S B) :
  hoare P m Q1 ->
  (forall e s, Q1 (Raise e) s -> Q (Raise e) s) ->
  (forall a, hoare (Q1 (Return a)) (k a) Q) ->
  hoare P (bind m k) Q.
Proof.
  intros Hm Hr Hk s Hs. specialize (Hm s Hs). unfold bind.
  destruct (m s) as [[a|e] s1]; simpl in *.
  - apply Hk, Hm.
  - apply Hr, Hm.
Qed.

Lemma hoare_try_except {A} (P : S -> Prop) (Q1 Q : outcome A -> S -> Prop)
    (m : M S A) (h : exn -> M S A) :
  hoare P m Q1 ->
  (forall a s, Q1 (Return a) s -> Q (Return a) s) ->
  (forall e, hoare (Q1 (Raise e)) (h e) Q) ->
  hoare P (try_except m h) Q.
Proof.
  intros Hm Hr Hh s Hs. specialize (Hm s Hs). unfold try_except.
  destruct (m s) as [[a|e] s1]; simpl in *.
  - apply Hr, Hm.
  - apply Hh, Hm.
Qed.


(** An assertion that survives every [R]-step survives [m]. *)
Lemma hoare_stable {A} (R : S -> S -> Prop) (I : S -> Prop)
    (Q : outcome A -> S -> Prop) (m : M S A) :
  preserves R m ->
  (forall s s', I s -> R s s' -> I s') ->
  (forall o s, I s -> Q o s) ->
  hoare I m Q.
Proof. intros Hm Hst HQ s Hs. apply HQ, (Hst s), Hm. exact Hs. Qed.

Lemma hoare_bind_stable {A B} (R : S -> S -> Prop) (I : S -> Prop)
    (Q : outcome B -> S -> Prop) (m : M S A) (k : A -> M S B) :
  preserves R m ->
  (forall s s', I s -> R s s' -> I s') ->
  (forall e s, I s -> Q (Raise e) s) ->
  (forall a, hoare I (k a) Q) ->
  hoare I (bind m k) Q.
Proof.
  intros Hm Hst Hr Hk.
  apply (hoare_bind I (fun _ => I)); [|exact Hr|exact Hk].
  apply (hoare_stable R); auto.
Qed.

(** The same, for a step whose value is known. *)
Lemma hoare_bind_value {A B} (R : S -> S -> Prop) (I : S -> Prop)
    (Q : outcome B -> S -> Prop) (m : M S A) (k : A -> M S B) (v : A) :
  preserves R m ->
  (forall s s', I s -> R s s' -> I s') ->
  (forall s, I s -> fst (m s) = Return v) ->
  hoare I (k v) Q ->
  hoare I (bind m k) Q.
Proof.
  intros Hm Hst Hv Hk s Hs. unfold bind.
  specialize (Hm s). specialize (Hv s Hs). specialize (Hst s _ Hs Hm).
  destruct (m s) as [[a|e] s1]; simpl in *; [|discriminate].
  injection Hv as ->. apply Hk, Hst.
Qed.

(** The same, for a step that returns some value. *)
Lemma hoare_bind_returns {A B} (R : S -> S -> Prop) (I : S -> Prop)
    (Q : outcome B -> S -> Prop) (m : M S A) (k : A -> M S B) :
  preserves R m ->
  (forall s s', I s -> R s s' -> I s') ->
  (forall s, I s -> exists a, fst (m s) = Return a) ->
  (forall a, hoare I (k a) Q) ->
  hoare I (bind m k) Q.
Proof.
  intros Hm Hst Hv Hk s Hs. unfold bind.
  specialize (Hm s). destruct (Hv s Hs) as [v Hv']. specialize (Hst s _ Hs Hm).
  destruct (m s) as [[a|e] s1]; simpl in *; [|discriminate].
  apply Hk, Hst.
Qed.

(** The same, for a step that raises. *)
Lemma hoare_bind_raises {A B} (R : S -> S -> Prop) (I : S -> Prop)
    (Q : outcome B -> S -> Prop) (m : M S A) (k : A -> M S B) (e : exn) :
  preserves R m ->
  (forall s s', I s -> R s s' -> I s') ->
  (forall s, I s -> fst (m s) = Raise e) ->
  (forall s, I s -> Q (Raise e) s) ->
  hoare I (bind m k) Q.
Proof.
  intros Hm Hst Hv HQ s Hs. unfold bind.
  specialize (Hm s). specialize (Hv s Hs). specialize (Hst s _ Hs Hm).
  destruct (m s) as [[a|e'] s1]; simpl in *; [discriminate|].
  injection Hv as ->. apply HQ, Hst.
Qed.

End Rules.
End Triples.

(* ===================================================================== *)
(** * The temporary directory is released on every path *)
(* ===================================================================== *)

Module Cleanup.
Import Effects Frames LoaderFrames Triples.

#[local] Arguments dir_exists : simpl never.
#[local] Arguments dir_remove : simpl never.

(** The steps of a load that leave the temporary directories alone. *)
Abbreviation calm := (rel_and proc_quiet (on_world same_env)).





Section WithFloatStr.
Context {float_repr : PyFloatStr}.

(** What [_cleanup] does: it never raises, creates nothing, removes at most
    the directory of [self.temp_dir], and asks [rmtree] for it whenever it
    exists. *)
Lemma _cleanup_effect (p : Proc) :
  let p' := snd (XmindFileLoader._cleanup p) in
  fst (XmindFileLoader._cleanup p) = Return tt
  /\ self p' = self p
  /\ same_env (world p) (world p')
  /\ same_cache (world p) (world p')
  /\ exists evs,
       trace (world p') = trace (world p) ++ evs
       /\ (forall d, ~ In (EvMkdtemp d) evs)
       /\ (forall d, dir_exists (tmp_dirs (world p')) d = true ->
                     dir_exists (tmp_dirs (world p)) d = true)
       /\ (forall d, dir_exists (tmp_dirs (world p)) d = true ->
                     (temp_dir (self p) = Some d -> rmtree_fails (world p) d = true) ->
                     dir_exists (tmp_dirs (world p')) d = true)
       /\ (forall t, temp_dir (self p) = Some t ->
                     dir_exists (tmp_dirs (world p)) t = true ->
                     In (EvRmtree t) evs
                     /\ (rmtree_fails (world p) t = false ->
                         dir_exists (tmp_dirs (world p')) t = false)).
Proof.
  destruct p as [w l].
  destruct l as [xf [t|] cd dbg]; destruct w as [fs0 ds nx mk fails rk clk cp ur up c mx tr];
    unfold XmindFileLoader._cleanup, bind, gets, liftW, os_path_exists_dir, try_except,
      shutil_rmtree, bind, emit, modify, gets, ret, raise; cbn.
  - destruct (dir_exists ds t) eqn:Ex; cbn.
    + destruct (fails t) eqn:Ef; cbn.
      * repeat split.
        exists [EvExistsDir t; EvRmtree t]. rewrite <- app_assoc. simpl.
        split; [reflexivity|]. split; [intros d [H|[H|[]]]; discriminate|].
        split; [auto|]. split; [auto|]. intros t' [= <-] _. split; [right; now left|].
        intros Hf. congruence.
      * repeat split.
        exists [EvExistsDir t; EvRmtree t]. rewrite <- app_assoc. simpl.
        split; [reflexivity|]. split; [intros d [H|[H|[]]]; discriminate|].
        split; [|split].
        -- intros d. rewrite dir_exists_dir_remove. intros H.
           now apply andb_true_iff in H as [_ H].
        -- intros d Hx Hkeep. rewrite dir_exists_dir_remove, Hx, andb_true_r.
           destruct (Nat.eqb_spec d t) as [->|Hne]; [|reflexivity].
           specialize (Hkeep eq_refl). congruence.
        -- intros t' [= <-] _. split; [right; now left|].
           intros _. rewrite dir_exists_dir_remove, Nat.eqb_refl. reflexivity.
    + repeat split. exists [EvExistsDir t]. simpl.
      split; [reflexivity|]. split; [intros d [H|[]]; discriminate|].
      split; [auto|]. split; [auto|]. intros t' [= <-] Hx. congruence.
  - repeat split. exists []. rewrite app_nil_r. simpl.
    split; [reflexivity|]. split; [intros d []|]. split; [auto|]. split; [auto|].
    intros t' [=].
Qed.





End WithFloatStr.


End Cleanup.

(* ===================================================================== *)
(** * What a load leaves in the loader and in the cache *)
(* ===================================================================== *)

Module LoadResults.
Import Effects Frames LoaderFrames Triples Cleanup CacheFacts CacheRuns CacheClaims.

(** The steps of a load that do not assign [self.content_data]. *)
Abbreviation keeps_data :=
  (rel_and (on_self same_content_data) (on_world same_env)).

Section WithFloatStr.
Context {float_repr : PyFloatStr}.

(** The end of a successful load: the result is stored in the loader and
    in the cache, the directory is cleaned, the result is returned. *)
Lemma store_and_return (converted : pyval) (p : Proc) :
  0 < _cache_max_size (world p) ->
  exists p' e,
    (set_content_data converted ;;
     file <- gets (fun p => xmind_file (self p)) ;;
     result <- gets (fun p => content_data (self p)) ;;
     liftW (_set_cached_data file result) ;;
     XmindFileLoader._cleanup ;;
     gets (fun p => content_data (self p))) p = (Return converted, p')
    /\ content_data (self p') = converted
    /\ xmind_file (self p') = xmind_file (self p)
    /\ dict_get (_file_cache (world p'))
         (fingerprint (world p') (xmind_file (self p'))) = Some e
    /\ data e = converted.
Proof.
  intros Hpos. destruct p as [w l].
  unfold set_content_data, set_self.
  rewrite bind_run. cbn [modify fst snd world self].
  rewrite bind_run. cbn [gets fst snd world self xmind_file content_data].
  rewrite bind_run. cbn [gets fst snd world self xmind_file content_data].
  rewrite bind_run. unfold liftW at 1. cbn [world self].
  rewrite (_set_cached_data_run (xmind_file l) converted w Hpos).
  rewrite bind_run.
  match goal with |- context [XmindFileLoader._cleanup ?s] => set (p2 := s) end.
  destruct (_cleanup_effect p2) as (Hret & Hself & Henv & Hcache & _).
  destruct (XmindFileLoader._cleanup p2) as [o p3]. simpl in Hret, Hself, Henv, Hcache.
  subst o.
  exists p3, {| data := converted; timestamp := clock w (clock_pos w) |}.
  unfold gets. rewrite Hself. cbn [self world content_data xmind_file fst snd].
  split; [reflexivity|]. split; [reflexivity|]. split; [reflexivity|].
  split; [|reflexivity].
  unfold same_cache in Hcache. rewrite Hcache. destruct Henv as (Hfs & _).
  rewrite (fingerprint_ext _ _ _ Hfs).
  replace (fingerprint _ (xmind_file l)) with (fingerprint w (xmind_file l))
    by (destruct w; reflexivity).
  replace (_file_cache _) with
    (dict_set (evicted w) (fingerprint w (xmind_file l))
       {| data := converted; timestamp := clock w (clock_pos w) |})
    by (destruct w; reflexivity).
  apply dict_get_set.
Qed.

Lemma keeps_data__extract_xmind_file :
  preserves keeps_data XmindFileLoader._extract_xmind_file.
Proof. unfold XmindFileLoader._extract_xmind_file. pres_proc. Qed.

Lemma keeps_data__cleanup : preserves keeps_data XmindFileLoader._cleanup.
Proof. unfold XmindFileLoader._cleanup. pres_proc. Qed.

(** One step of [load] that does not assign [self.content_data]. *)
Ltac data_step I :=
  apply (hoare_bind_stable keeps_data I); [ pres_proc | | | intro ].

(** How a load ends.  When it returns, what it returns is in
    [self.content_data] and in the cache, under the fingerprint of the
    loader's file; when it raises, [self.content_data] is what it was. *)
Lemma load_outcome (debug : bool) (p0 : Proc) :
  0 < _cache_max_size (world p0) ->
  match XmindFileLoader.load debug p0 with
  | (Return doc, p') =>
      content_data (self p') = doc
      /\ exists e,
           dict_get (_file_cache (world p'))
             (fingerprint (world p') (xmind_file (self p'))) = Some e
           /\ data e = doc
  | (Raise _, p') => content_data (self p') = content_data (self p0)
  end.
Proof.
  intros Hpos.
  set (K := fun s : Proc => content_data (self s) = content_data (self p0)
                            /\ 0 < _cache_max_size (world s)).
  set (Q := fun (o : outcome pyval) (s : Proc) =>
              match o with
              | Return doc =>
                  content_data (self s) = doc
                  /\ exists e,
                       dict_get (_file_cache (world s))
                         (fingerprint (world s) (xmind_file (self s))) = Some e
                       /\ data e = doc
              | Raise _ => content_data (self s) = content_data (self p0)
              end).
  assert (Kstep : forall s s', K s -> keeps_data s s' -> K s').
  { intros s s' [Hc Hm] [Hc' (_ & _ & _ & _ & Hm' & _)].
    unfold on_self, same_content_data in Hc'. split; congruence. }
  assert (H : hoare K (XmindFileLoader.load debug) Q).
  2:{ specialize (H p0 (conj eq_refl Hpos)).
      destruct (XmindFileLoader.load debug p0) as [[doc|e] p']; exact H. }
  pose proof keeps_data__extract_xmind_file. pose proof keeps_data__cleanup.
  unfold XmindFileLoader.load.
  data_step K; [exact Kstep|intros e s [Hs _]; exact Hs|].
  apply (hoare_bind _ (fun o s => K s /\ o = Return (xmind_file (self s)))).
  { intros s Hs. split; [exact Hs|reflexivity]. }
  { intros e s [_ Hs]. discriminate. }
  intros file.
  apply (hoare_bind _ (fun o s =>
           K s /\ o = Return (dict_get (_file_cache (world s))
                                (fingerprint (world s) (xmind_file (self s)))))).
  { intros [w l] [[Hc Hm] [= ->]]. unfold liftW. rewrite _get_cached_data_run.
    cbn [fst snd world self] in *. split.
    - split; [exact Hc|]. destruct w; exact Hm.
    - destruct w; reflexivity. }
  { intros e s [_ Hs]. discriminate. }
  intros [entry|].
  - intros [w l] [[Hc Hm] [= Hentry]]. cbn. split; [reflexivity|].
    exists entry. split; [|reflexivity]. cbn in Hentry. now rewrite <- Hentry.
  - apply (hoare_conseq (fun s => K s) _ Q Q); [|intros s [Hs _]; exact Hs|auto].
    apply (hoare_try_except _
             (fun o s => match o with Return _ => Q o s | Raise _ => K s end)).
    + do 12 (data_step K; [exact Kstep|intros e s Hs; exact Hs|]).
      intros s [Hc Hm].
      match goal with
      | |- context [set_content_data ?c] =>
          destruct (store_and_return c s Hm) as (p' & e & Hrun & Hcd & _ & Hget & Hdata)
      end.
      rewrite Hrun. cbn [fst snd]. split; [exact Hcd|]. exists e. split; assumption.
    + intros r s Hs. exact Hs.
    + intros e. destruct (is_XmindLoadError e).
      * data_step K; [exact Kstep|intros e' s [Hs _]; exact Hs|].
        apply hoare_raise. intros s [Hs _]. exact Hs.
      * data_step K; [exact Kstep|intros e' s [Hs _]; exact Hs|].
        apply hoare_raise. intros s [Hs _]. exact Hs.
Qed.

(** A load that finds its fingerprint in the cache: it asks the system
    for the file's [stat] (and its size, when the debugger runs), returns
    the cached document, and does nothing else. *)
Lemma load_hit (debug : bool) (w : World) (l : Loader) (e : cache_entry) :
  dict_get (_file_cache w) (fingerprint w (xmind_file l)) = Some e ->
  (andb debug (enable_debug (debugger l)) = true -> fs w (xmind_file l) <> None) ->
  exists p',
    XmindFileLoader.load debug {| world := w; self := l |} = (Return (data e), p')
    /\ content_data (self p') = data e
    /\ _file_cache (world p') = _file_cache w
    /\ tmp_dirs (world p') = tmp_dirs w
    /\ trace (world p')
       = trace w
         ++ (if andb debug (enable_debug (debugger l))
             then [EvGetsize (xmind_file l)] else [])
         ++ [EvStat (xmind_file l)].
Proof.
  intros Hget Hfile.
  destruct w as [fs0 ds nx mk fails rk clk cp ur up c mx tr].
  destruct l as [xf td cd [en di]].
  unfold fingerprint in Hget. cbn in Hget, Hfile.
  unfold XmindFileLoader.load, XmindLoaderDebugger.start_debug, _get_cached_data,
    _get_file_cache_key, os_stat, os_path_getsize, time_time, set_debug_info,
    set_content_data, set_self, liftW, try_except, bind, gets, modify, emit, ret, raise.
  destruct debug, en; cbn in *.
  - destruct (fs0 xf) as [f|] eqn:Ef; [|exfalso; now apply Hfile].
    cbn. rewrite Ef. cbn. rewrite Hget. cbn. eexists. split; [reflexivity|]. cbn.
    repeat split. now rewrite <- app_assoc.
  - destruct (fs0 xf) as [f|] eqn:Ef; cbn; rewrite Hget; cbn;
      eexists; (split; [reflexivity|]); cbn; repeat split.
  - destruct (fs0 xf) as [f|] eqn:Ef; cbn; rewrite Hget; cbn;
      eexists; (split; [reflexivity|]); cbn; repeat split.
  - destruct (fs0 xf) as [f|] eqn:Ef; cbn; rewrite Hget; cbn;
      eexists; (split; [reflexivity|]); cbn; repeat split.
Qed.

(** C6: when a load has returned a document, a later load of the same path
    by any loader, made while the file's entry in the file system and the
    cache are what the first load left, is a cache hit: it returns the
    same document, and all it asks of the system is the file's [stat] (and
    its size, when the debugger runs): no validation, no temporary
    directory, no extraction, no parsing.  The capacity of the cache is
    taken positive, as it is in the source. *)
Theorem C6_second_load_is_cache_hit
    (debug : bool) (p p1 : Proc) (doc : pyval)
    (debug2 : bool) (w2 : World) (l2 : Loader) :
  0 < _cache_max_size (world p) ->
  XmindFileLoader.load debug p = (Return doc, p1) ->
  xmind_file l2 = xmind_file (self p) ->
  fs w2 (xmind_file l2) = fs (world p1) (xmind_file l2) ->
  _file_cache w2 = _file_cache (world p1) ->
  fs w2 (xmind_file l2) <> None ->
  exists p2,
    XmindFileLoader.load debug2 {| world := w2; self := l2 |} = (Return doc, p2)
    /\ content_data (self p2) = doc
    /\ _file_cache (world p2) = _file_cache w2
    /\ tmp_dirs (world p2) = tmp_dirs w2
    /\ trace (world p2)
       = trace w2
         ++ (if andb debug2 (enable_debug (debugger l2))
             then [EvGetsize (xmind_file l2)] else [])
         ++ [EvStat (xmind_file l2)].
Proof.
  intros Hpos Hload Hfile Hfs Hcache Hexists.
  pose proof (load_outcome debug p Hpos) as Hout. rewrite Hload in Hout.
  destruct Hout as (_ & e & Hget & Hdata).
  pose proof (env_load debug p) as [_ [Hxf _]].
  rewrite Hload in Hxf. unfold on_self, same_xmind_file in Hxf. simpl in Hxf.
  assert (Hget2 : dict_get (_file_cache w2) (fingerprint w2 (xmind_file l2)) = Some e).
  { rewrite Hcache. rewrite <- Hget. f_equal.
    unfold fingerprint. rewrite Hfs, Hxf, Hfile. reflexivity. }
  destruct (load_hit debug2 w2 l2 e Hget2 (fun _ => Hexists)) as (p2 & Hrun & H).
  exists p2. rewrite <- Hdata. split; [exact Hrun|exact H].
Qed.

(** C10: [getData] never hands out [None].  On a loader that was just
    constructed it gives the empty list; a load that raises leaves
    [self.content_data], hence [getData], as it was, so it still gives the
    empty list after a failed first load; and the wrapper's [len] is 0 for
    data that is [None], the empty list or any other falsy value.  The
    capacity of the cache is taken positive, as it is in the source. *)
Theorem C10_no_data_is_the_empty_list
    (file : string) (enable debug : bool) (w : World) :
  let fresh := XmindFileLoader.__init__ file enable in
  XmindFileLoader.getData fresh = PyList []
  /\ (forall l, XmindFileLoader.getData l <> PyNone)
  /\ (0 < _cache_max_size w ->
      forall p e p',
        world p = w ->
        XmindFileLoader.load debug p = (Raise e, p') ->
        XmindFileLoader.getData (self p') = XmindFileLoader.getData (self p))
  /\ (0 < _cache_max_size w ->
      forall e p',
        XmindFileLoader.load debug {| world := w; self := fresh |} = (Raise e, p') ->
        XmindFileLoader.getData (self p') = PyList [])
  /\ (forall d, truthy d = false ->
      forall s : World,
        XmindWorkbookWrapper.__len__ {| XmindWorkbookWrapper._data := d |} s
          = (Return 0, s)).
Proof.
  cbv zeta.
  assert (Hkeep : 0 < _cache_max_size w ->
            forall p e p', world p = w ->
              XmindFileLoader.load debug p = (Raise e, p') ->
              XmindFileLoader.getData (self p') = XmindFileLoader.getData (self p)).
  { intros Hpos p e p' Hw Hload. subst w.
    pose proof (load_outcome debug p Hpos) as Hout. rewrite Hload in Hout.
    unfold XmindFileLoader.getData. now rewrite Hout. }
  split; [reflexivity|]. split.
  { intros l. unfold XmindFileLoader.getData.
    destruct (truthy (content_data l)) eqn:E; [|discriminate].
    intros H. rewrite H in E. discriminate. }
  split; [exact Hkeep|]. split.
  { intros Hpos e p' Hload.
    rewrite (Hkeep Hpos {| world := w; self := XmindFileLoader.__init__ file enable |}
               e p' eq_refl Hload). reflexivity. }
  intros d Hd s. unfold XmindWorkbookWrapper.__len__. simpl. now rewrite Hd.
Qed.

End WithFloatStr.

(** C10 at work: a fresh loader for a file that does not exist. *)
Lemma C10_failed_load_witness :
  let p := {| world := bare_world; self := XmindFileLoader.__init__ "missing.xmind" false |} in
  exists e p',
    XmindFileLoader.load (float_repr := sample_float_str) false p = (Raise e, p')
    /\ XmindFileLoader.getData (self p') = PyList [].
Proof.
  cbv zeta.
  destruct (XmindFileLoader.load (float_repr := sample_float_str) false
              {| world := bare_world;
                 self := XmindFileLoader.__init__ "missing.xmind" false |})
    as [o p'] eqn:Hload.
  assert (Ho : exists e, o = Raise e).
  { assert (E : fst (XmindFileLoader.load (float_repr := sample_float_str) false
                       {| world := bare_world;
                          self := XmindFileLoader.__init__ "missing.xmind" false |}) = o)
      by now rewrite Hload.
    vm_compute in E. eexists. symmetry. exact E. }
  destruct Ho as [e ->]. exists e, p'. split; [reflexivity|].
  destruct (C10_no_data_is_the_empty_list (float_repr := sample_float_str)
              "missing.xmind" false false bare_world) as (_ & _ & _ & Hfresh & _).
  apply (Hfresh ltac:(simpl; lia) e p' Hload).
Defined.

(** C6 at work: [doc.xmind] loaded twice through the module's [load]. *)
Lemma C6_second_load_witness :
  let payload := PyList [PyDict [("id", PyStr "s1"); ("title", PyStr "Sheet 1");
                                 ("rootTopic", PyDict [("id", PyStr "r")])]] in
  let p := {| world := world_with (Json payload);
              self := XmindFileLoader.__init__ "doc.xmind" false |} in
  let first := XmindFileLoader.load (float_repr := sample_float_str) false p in
  let l2 := XmindFileLoader.__init__ "doc.xmind" false in
  exists doc p2,
    fst first = Return doc
    /\ XmindFileLoader.load (float_repr := sample_float_str) false
         {| world := world (snd first); self := l2 |} = (Return doc, p2)
    /\ trace (world p2) = trace (world (snd first)) ++ [EvStat "doc.xmind"].
Proof.
  cbv zeta.
  set (payload := PyList [PyDict [("id", PyStr "s1"); ("title", PyStr "Sheet 1");
                                  ("rootTopic", PyDict [("id", PyStr "r")])]]).
  set (p := {| world := world_with (Json payload);
               self := XmindFileLoader.__init__ "doc.xmind" false |}).
  destruct (XmindFileLoader.load (float_repr := sample_float_str) false p)
    as [o p1] eqn:Hload.
  assert (Ho : exists doc, o = Return doc).
  { assert (E : fst (XmindFileLoader.load (float_repr := sample_float_str) false p) = o)
      by now rewrite Hload.
    vm_compute in E. eexists. symmetry. exact E. }
  destruct Ho as [doc ->].
  assert (Hfs : fs (world p1) = fs (world p)).
  { pose proof (env_load (float_repr := sample_float_str) false p) as [(Hfs & _) _].
    rewrite Hload in Hfs. exact Hfs. }
  destruct (C6_second_load_is_cache_hit (float_repr := sample_float_str)
              false p p1 doc false (world p1)
              (XmindFileLoader.__init__ "doc.xmind" false))
    as (p2 & Hrun & _ & _ & _ & Htr).
  - simpl. lia.
  - exact Hload.
  - reflexivity.
  - reflexivity.
  - reflexivity.
  - rewrite Hfs. simpl. discriminate.
  - exists doc, p2. simpl. split; [reflexivity|]. split; [exact Hrun|exact Htr].
Defined.

End LoadResults.

(* ===================================================================== *)
(** * The error kinds of a failed load *)
(* ===================================================================== *)

Module ErrorKinds.
Import Effects Frames LoaderFrames Triples Cleanup CacheFacts CacheRuns CacheClaims.

#[local] Arguments dir_exists : simpl never.
#[local] Arguments dir_files : simpl never.

Lemma fst_liftW {A} (m : M World A) (p : Proc) : fst (liftW m p) = fst (m (world p)).
Proof. unfold liftW. now destruct (m (world p)). Qed.

(** *** The validation *)

Section Verdict.
#[local] Arguments existsb : simpl never.
#[local] Arguments String.eqb : simpl never.

Lemma validate_verdict (path : string) (w : World) :
  fst (validate_xmind_file path w) = Return (archive_ok w path).
Proof.
  unfold validate_xmind_file, archive_ok, try_except, bind, os_path_exists,
    os_path_getsize, ZipFile, raise_if, emit, modify, gets, ret, raise.
  destruct w as [fs0 ds nx mk fails rk clk cp ur up c mx tr]. cbn.
  destruct (fs0 path) as [f|] eqn:Ef; cbn; [|reflexivity].
  destruct (endswith (lower path) ".xmind"); cbn; [|reflexivity].
  rewrite ?Ef; cbn.
  destruct (Z.eqb (st_size f) 0); cbn; [reflexivity|].
  rewrite ?Ef; cbn.
  destruct (open_error f) as [e|]; cbn; [reflexivity|].
  destruct (zip f) as [a|]; cbn; [|reflexivity].
  destruct (testzip a); cbn; [reflexivity|].
  destruct (existsb (String.eqb "content.json") (namelist a)); reflexivity.
Qed.

End Verdict.

Lemma validation_failure_verdict (w : World) (path : string) :
  validation_failure w path <-> archive_ok w path = false.
Proof.
  unfold archive_ok. split.
  - intros [H|H|f H1 H2|f e H1 H2|f H1 H2|f a n H1 H2 H3|f a H1 H2 H3];
      try rewrite H; try rewrite H1; try rewrite H2; try rewrite H3;
      try reflexivity.
    + destruct (fs w path); [|reflexivity]. reflexivity.
    + rewrite Z.eqb_refl. simpl. now rewrite andb_false_r.
    + now rewrite !andb_false_r.
    + destruct (open_error f); now rewrite !andb_false_r.
    + destruct (open_error f); simpl; now rewrite !andb_false_r.
    + destruct (open_error f); simpl; now rewrite !andb_false_r.
  - destruct (fs w path) as [f|] eqn:Ef; [|intros _; now apply NoSuchFile].
    destruct (endswith (lower path) ".xmind") eqn:Ee;
      [|intros _; now apply WrongExtension].
    destruct (Z.eqb_spec (st_size f) 0) as [Hz|Hz];
      [intros _; now apply (ZeroSize w path f)|].
    destruct (open_error f) as [e|] eqn:Eo;
      [intros _; now apply (Unopenable w path f e)|].
    destruct (zip f) as [a|] eqn:Ez; [|intros _; now apply (NotAnArchive w path f)].
    destruct (testzip a) as [n|] eqn:Et;
      [intros _; now apply (CorruptMember w path f a n)|].
    simpl. intros H. now apply (NoPayloadEntry w path f a).
Qed.

Lemma archive_ok_ext (w w' : World) (path : string) :
  fs w' = fs w -> archive_ok w' path = archive_ok w path.
Proof. intros H. unfold archive_ok. now rewrite H. Qed.

(** *** The parser *)

Lemma parse_error_kind (c : file_content) : is_XmindLoadError (parse_error c) = false.
Proof. now destruct c. Qed.

Lemma parse_rejects (d : nat) (w : World) (ms : list (string * file_content))
    (c : file_content) :
  dir_files (tmp_dirs w) d = Some ms ->
  dict_get ms "content.json" = Some c ->
  payload_rejected c = true ->
  fst (ContentJsonParser.parse_content_json d w) = Raise (parse_error c).
Proof.
  intros Hd Hc Hrej.
  unfold ContentJsonParser.parse_content_json, os_path_exists_in, json_load,
    try_except, bind, raise_if, emit, modify, gets, ret, raise.
  destruct w as [fs0 ds nx mk fails rk clk cp ur up ch mx tr]. cbn in *.
  rewrite Hd. unfold dict_mem. rewrite Hc. cbn. rewrite Hd, Hc.
  destruct c as [root| | |]; cbn; [|reflexivity|reflexivity|reflexivity].
  unfold ContentJsonParser._validate_content_structure.
  destruct root as [| | | | |[|x xs]|dd]; cbn in *; try discriminate;
    try reflexivity.
  destruct (dict_get dd "sheets") as [[| | | | |[|y ys]|]|]; cbn in *;
    try discriminate; reflexivity.
Qed.

(** *** The steps of a load *)

Section WithFloatStr.
Context {float_repr : PyFloatStr}.

(** The steps that leave the files, the cache, and the loader's file and
    debug switch alone. *)
Abbreviation same_inputs := (rel_and proc_env (on_world same_cache)).

(** The steps that also leave the temporary directories alone. *)
Abbreviation same_tree := (rel_and proc_env (on_world same_dirs)).

Lemma time_time_returns (s : Proc) : exists t, fst (liftW time_time s) = Return t.
Proof. destruct s as [w l]. eexists. reflexivity. Qed.

Lemma start_debug_returns (file : string) (s : Proc) :
  (enable_debug (debugger (self s)) = true -> fs (world s) file <> None) ->
  exists u, fst (XmindLoaderDebugger.start_debug file s) = Return u.
Proof.
  destruct s as [w [xf td cd [en di]]].
  destruct w as [fs0 ds nx mk fails rk clk cp ur up c mx tr]. cbn. intros H.
  unfold XmindLoaderDebugger.start_debug, os_path_getsize, time_time, set_debug_info,
    set_self, liftW, bind, gets, modify, emit, ret, raise.
  destruct en; cbn; [|eexists; reflexivity].
  destruct (fs0 file) as [f|] eqn:Ef; [|exfalso; now apply H].
  cbn. rewrite ?Ef. cbn. eexists; reflexivity.
Qed.

Lemma log_extract_time_returns (start : Z) (files : list string) (s : Proc) :
  exists u, fst (XmindLoaderDebugger.log_extract_time start files s) = Return u.
Proof.
  destruct s as [w [xf td cd [en di]]].
  unfold XmindLoaderDebugger.log_extract_time, time_time, set_debug_info,
    set_self, liftW, bind, gets, modify, ret.
  destruct en; cbn; eexists; reflexivity.
Qed.

(** The two [except] clauses of [load]: an [XmindLoadError] goes on as it
    is, anything else becomes [LOAD_FAILED]. *)
Lemma load_handler (e : exn) (s : Proc) :
  fst ((if is_XmindLoadError e then XmindFileLoader._cleanup ;; raise e
        else XmindFileLoader._cleanup ;; raise (XmindLoadError "LOAD_FAILED"))
         (s : Proc) : outcome pyval * Proc)
  = Raise (if is_XmindLoadError e then e else XmindLoadError "LOAD_FAILED").
Proof.
  destruct (_cleanup_effect s) as (Hret & _).
  destruct (is_XmindLoadError e); rewrite bind_run;
    destruct (XmindFileLoader._cleanup s) as [o s']; simpl in Hret; subst o;
    reflexivity.
Qed.

(** An extraction that goes through: the directory is the next one, and
    what the archive writes is in it. *)
Lemma _extract_xmind_file_ok (s : Proc) (f : File) (a : Archive) :
  fs (world s) (xmind_file (self s)) = Some f ->
  open_error f = None ->
  zip f = Some a ->
  extractall_error a = None ->
  mkdtemp_error (world s) (tmp_next (world s)) = None ->
  dir_exists (tmp_dirs (world s)) (tmp_next (world s)) = false ->
  fst (XmindFileLoader._extract_xmind_file s) = Return (tmp_next (world s))
  /\ dir_files (tmp_dirs (world (snd (XmindFileLoader._extract_xmind_file s))))
       (tmp_next (world s)) = Some (write_all [] (written a)).
Proof.
  destruct s as [w [xf td cd dbg]].
  destruct w as [fs0 ds nx mk fails rk clk cp ur up c mx tr]. cbn.
  intros Hf Ho Hz He Hmk Hnew.
  unfold XmindFileLoader._extract_xmind_file, mkdtemp, ZipFile, extractall,
    set_temp_dir, set_self, liftW, try_except, bind, gets, modify, emit, ret, raise.
  cbn. rewrite Hmk. cbn. rewrite Hf. cbn. rewrite Ho. cbn. rewrite Hz. cbn.
  rewrite He. cbn.
  split; [reflexivity|]. now apply dir_files_dir_extract_new.
Qed.

(** A load that misses the cache and whose file does not pass the
    validation raises [FILE_VALIDATION], whatever made the validation
    fail. *)
Lemma load_invalid_file (debug : bool) (p0 : Proc) :
  dict_get (_file_cache (world p0)) (fingerprint (world p0) (xmind_file (self p0))) = None ->
  (instrumented debug (self p0) = true -> fs (world p0) (xmind_file (self p0)) <> None) ->
  archive_ok (world p0) (xmind_file (self p0)) = false ->
  fst (XmindFileLoader.load debug p0) = Raise (XmindLoadError "FILE_VALIDATION").
Proof.
  intros Hmiss Hdbg Hbad.
  set (I := fun s : Proc =>
              fs (world s) = fs (world p0)
              /\ xmind_file (self s) = xmind_file (self p0)
              /\ enable_debug (debugger (self s)) = enable_debug (debugger (self p0))
              /\ _file_cache (world s) = _file_cache (world p0)).
  set (Q := fun (o : outcome pyval) (_ : Proc) =>
              o = Raise (XmindLoadError "FILE_VALIDATION")).
  assert (Istep : forall s s', I s -> same_inputs s s' -> I s').
  { intros s s' (H1 & H2 & H3 & H4) [[(E1 & _) [E2 E3]] E4].
    unfold on_self, on_world, same_xmind_file, same_debug_flag, same_cache in *.
    repeat split; congruence. }
  assert (H : hoare I (XmindFileLoader.load debug) Q).
  2:{ apply (H p0). repeat split. }
  pose proof env__cleanup.
  unfold XmindFileLoader.load.
  apply (hoare_bind_returns same_inputs I); [pres_proc|exact Istep| |intros _].
  { intros s (H1 & H2 & H3 & _). destruct debug; [|eexists; reflexivity].
    rewrite bind_run. cbn [gets fst snd].
    apply start_debug_returns. intros Hen. rewrite H1, H2. apply Hdbg.
    unfold instrumented. now rewrite <- H3, Hen. }
  apply (hoare_bind_value same_inputs I _ _ _ (xmind_file (self p0)));
    [pres_proc|exact Istep| |].
  { intros s (_ & H2 & _). unfold gets. simpl. now rewrite H2. }
  apply (hoare_bind_value same_inputs I _ _ _ None); [pres_proc|exact Istep| |].
  { intros s (H1 & _ & _ & H4). rewrite fst_liftW, _get_cached_data_run. simpl.
    rewrite H4, (fingerprint_ext _ _ _ H1). now rewrite Hmiss. }
  cbv beta iota.
  apply (hoare_try_except I Q Q).
  - apply (hoare_bind_value same_inputs I _ _ _ (xmind_file (self p0)));
      [pres_proc|exact Istep| |].
    { intros s (_ & H2 & _). unfold gets. simpl. now rewrite H2. }
    apply (hoare_bind_value same_inputs I _ _ _ false); [pres_proc|exact Istep| |].
    { intros s (H1 & _). rewrite fst_liftW, validate_verdict.
      now rewrite (archive_ok_ext _ _ _ H1), Hbad. }
    apply (hoare_bind_raises same_inputs I _ _ _ (XmindLoadError "FILE_VALIDATION"));
      [pres_proc|exact Istep| |].
    + intros s _. reflexivity.
    + intros s _. reflexivity.
  - intros a s Hs. exact Hs.
  - intros e s Hs. unfold Q in Hs. injection Hs as ->. unfold Q.
    now rewrite load_handler.
Qed.

(** A file that passes the validation can be opened. *)
Lemma archive_ok_open (w : World) (path : string) (f : File) :
  archive_ok w path = true -> fs w path = Some f -> open_error f = None.
Proof.
  unfold archive_ok. intros H Hf. rewrite Hf in H.
  destruct (open_error f); [|reflexivity].
  now rewrite !andb_false_r in H.
Qed.

(** The steps that leave the inputs and the temporary directories alone. *)
Abbreviation same_inputs_tree := (rel_and same_inputs (on_world same_dirs)).

(** A load that misses the cache, whose file passes the validation and is
    extracted, and whose payload the parser refuses, raises [LOAD_FAILED],
    whatever made the parser refuse it. *)
Lemma load_invalid_payload (debug : bool) (p0 : Proc) (f : File) (a : Archive)
    (c : file_content) :
  dict_get (_file_cache (world p0)) (fingerprint (world p0) (xmind_file (self p0))) = None ->
  fs (world p0) (xmind_file (self p0)) = Some f ->
  archive_ok (world p0) (xmind_file (self p0)) = true ->
  zip f = Some a ->
  mkdtemp_error (world p0) (tmp_next (world p0)) = None ->
  dir_exists (tmp_dirs (world p0)) (tmp_next (world p0)) = false ->
  extractall_error a = None ->
  dict_get (write_all [] (written a)) "content.json" = Some c ->
  payload_rejected c = true ->
  fst (XmindFileLoader.load debug p0) = Raise (XmindLoadError "LOAD_FAILED").
Proof.
  intros Hmiss Hf Hok Hz Hmk Hnew He Hc Hrej.
  pose proof (archive_ok_open _ _ _ Hok Hf) as Hopen.
  set (I := fun s : Proc =>
              fs (world s) = fs (world p0)
              /\ xmind_file (self s) = xmind_file (self p0)
              /\ enable_debug (debugger (self s)) = enable_debug (debugger (self p0))
              /\ _file_cache (world s) = _file_cache (world p0)
              /\ mkdtemp_error (world s) = mkdtemp_error (world p0)
              /\ tmp_dirs (world s) = tmp_dirs (world p0)
              /\ tmp_next (world s) = tmp_next (world p0)).
  set (J := fun (d : nat) (s : Proc) =>
              dir_files (tmp_dirs (world s)) d = Some (write_all [] (written a))).
  set (Q1 := fun (o : outcome pyval) (_ : Proc) => o = Raise (parse_error c)).
  set (Q := fun (o : outcome pyval) (_ : Proc) =>
              o = Raise (XmindLoadError "LOAD_FAILED")).
  assert (Istep : forall s s', I s -> same_inputs_tree s s' -> I s').
  { intros s s' (H1 & H2 & H3 & H4 & H5 & H6 & H7)
      [[[(E1 & _ & _ & _ & _ & E5 & _) [E2 E3]] E4] [E6 E7]].
    unfold on_self, on_world, same_xmind_file, same_debug_flag, same_cache in *.
    repeat split; congruence. }
  assert (Jstep : forall d s s', J d s -> same_tree s s' -> J d s').
  { intros d s s' Hd [_ [E _]]. unfold J in *. now rewrite E. }
  assert (H : hoare I (XmindFileLoader.load debug) Q).
  2:{ apply (H p0). repeat split. }
  pose proof env__cleanup. pose proof env__extract_xmind_file.
  unfold XmindFileLoader.load.
  apply (hoare_bind_returns same_inputs_tree I); [pres_proc|exact Istep| |intros _].
  { intros s (H1 & H2 & H3 & _). destruct debug; [|eexists; reflexivity].
    rewrite bind_run. cbn [gets fst snd].
    apply start_debug_returns. intros _. rewrite H1, H2, Hf. discriminate. }
  apply (hoare_bind_value same_inputs_tree I _ _ _ (xmind_file (self p0)));
    [pres_proc|exact Istep| |].
  { intros s (_ & H2 & _). unfold gets. simpl. now rewrite H2. }
  apply (hoare_bind_value same_inputs_tree I _ _ _ None); [pres_proc|exact Istep| |].
  { intros s (H1 & _ & _ & H4 & _). rewrite fst_liftW, _get_cached_data_run. simpl.
    rewrite H4, (fingerprint_ext _ _ _ H1). now rewrite Hmiss. }
  cbv beta iota.
  apply (hoare_try_except I Q1 Q).
  - apply (hoare_bind_value same_inputs_tree I _ _ _ (xmind_file (self p0)));
      [pres_proc|exact Istep| |].
    { intros s (_ & H2 & _). unfold gets. simpl. now rewrite H2. }
    apply (hoare_bind_value same_inputs_tree I _ _ _ true); [pres_proc|exact Istep| |].
    { intros s (H1 & _). rewrite fst_liftW, validate_verdict.
      now rewrite (archive_ok_ext _ _ _ H1), Hok. }
    apply (hoare_bind_value same_inputs_tree I _ _ _ tt); [pres_proc|exact Istep| |].
    { intros s _. reflexivity. }
    apply (hoare_bind_returns same_inputs_tree I); [pres_proc|exact Istep| |intros t0].
    { intros s _. apply time_time_returns. }
    apply (hoare_bind I (fun o s => exists d, o = Return d /\ J d s)).
    { intros s (H1 & H2 & _ & _ & H5 & H6 & H7).
      assert (Hfs : fs (world s) (xmind_file (self s)) = Some f) by now rewrite H1, H2.
      assert (Hmk' : mkdtemp_error (world s) (tmp_next (world s)) = None)
        by now rewrite H5, H7.
      assert (Hnew' : dir_exists (tmp_dirs (world s)) (tmp_next (world s)) = false)
        by now rewrite H6, H7.
      destruct (_extract_xmind_file_ok s f a Hfs Hopen Hz He Hmk' Hnew') as [Hr Hd].
      exists (tmp_next (world s)). split; [exact Hr|exact Hd]. }
    { intros e s (d & Hd & _). discriminate. }
    intros d.
    apply (hoare_conseq (J d) _ Q1 Q1); [|intros s (d' & [= <-] & Hd); exact Hd|auto].
    apply (hoare_bind_returns same_tree (J d)); [pres_proc|exact (Jstep d)| |intros found].
    { intros [w l] _. eexists. reflexivity. }
    apply (hoare_bind_returns same_tree (J d)); [pres_proc|exact (Jstep d)| |intros files].
    { intros [w l] Hd. unfold J in Hd. simpl in Hd. destruct found; [|eexists; reflexivity].
      unfold liftW, os_listdir, bind, gets, emit, modify, ret.
      destruct w as [fs0 ds nx mk fails rk clk cp ur up ch mx tr]. cbn in *.
      rewrite Hd. eexists. reflexivity. }
    apply (hoare_bind_returns same_tree (J d)); [pres_proc|exact (Jstep d)| |intros _].
    { intros s _. destruct debug; [apply log_extract_time_returns|eexists; reflexivity]. }
    apply (hoare_bind_returns same_tree (J d)); [pres_proc|exact (Jstep d)| |intros start].
    { intros s _. apply time_time_returns. }
    apply (hoare_bind_raises same_tree (J d) _ _ _ (parse_error c));
      [pres_proc|exact (Jstep d)| |].
    + intros s Hd. rewrite fst_liftW. exact (parse_rejects d _ _ c Hd Hc Hrej).
    + intros s _. reflexivity.
  - intros r s Hs. unfold Q1 in Hs. discriminate.
  - intros e s Hs. unfold Q1 in Hs. injection Hs as ->. unfold Q.
    now rewrite load_handler, parse_error_kind.
Qed.

(** C3 (amended): a load that misses the cache reports every
    failure of the validation (no such file, wrong extension, zero size,
    a path that cannot be opened, not an archive, a corrupt member, no
    [content.json] among the names) with the one kind [FILE_VALIDATION];
    and when the file passes the validation and is extracted, a payload
    the parser refuses (the roots [{}] and [[]] among them) is reported
    with the kind [LOAD_FAILED], which is not [FILE_VALIDATION].  The
    payload is the [content.json] the extraction has left in the
    directory: of two entries of that name it is the one written last.
    When the debugger runs it asks for the size of the file before
    anything else, so the file is then taken to exist. *)
Theorem C3_failures_have_two_kinds (debug : bool) (p : Proc) :
  let file := xmind_file (self p) in
  dict_get (_file_cache (world p)) (fingerprint (world p) file) = None ->
  (instrumented debug (self p) = true -> fs (world p) file <> None) ->
  (validation_failure (world p) file ->
   fst (XmindFileLoader.load debug p) = Raise (XmindLoadError "FILE_VALIDATION"))
  /\ (forall f a c,
        ~ validation_failure (world p) file ->
        fs (world p) file = Some f ->
        zip f = Some a ->
        mkdtemp_error (world p) (tmp_next (world p)) = None ->
        dir_exists (tmp_dirs (world p)) (tmp_next (world p)) = false ->
        extractall_error a = None ->
        dict_get (write_all [] (written a)) "content.json" = Some c ->
        payload_rejected c = true ->
        fst (XmindFileLoader.load debug p) = Raise (XmindLoadError "LOAD_FAILED"))
  /\ payload_rejected (Json (PyDict [])) = true
  /\ payload_rejected (Json (PyList [])) = true
  /\ XmindLoadError "LOAD_FAILED" <> XmindLoadError "FILE_VALIDATION".
Proof.
  cbv zeta. intros Hmiss Hdbg. split; [|split; [|repeat split; discriminate]].
  - intros Hbad. apply load_invalid_file; [exact Hmiss|exact Hdbg|].
    now apply validation_failure_verdict.
  - intros f a c Hgood Hf Hz Hmk Hnew He Hc Hrej.
    apply (load_invalid_payload debug p f a c); try assumption.
    destruct (archive_ok (world p) (xmind_file (self p))) eqn:E; [reflexivity|].
    exfalso. apply Hgood. now apply validation_failure_verdict.
Qed.

End WithFloatStr.

(** C3 as stated does not hold: seven paths that fail the validation for
    seven different reasons are all reported with the same kind, and the
    payloads [{}] and [[]] with the kind of any other failure. *)
Lemma C3_counterexample_shared_error_kind :
  let result path w :=
    fst (XmindFileLoader.load (float_repr := sample_float_str) false
           {| world := w; self := XmindFileLoader.__init__ path false |}) in
  let file size z :=
    {| st_mtime := S754_zero false; st_size := size; open_error := None; zip := z |} in
  let folder :=
    {| st_mtime := S754_zero false; st_size := 4096;
       open_error := Some IsADirectoryError; zip := None |} in
  let archive corrupt names :=
    {| testzip := corrupt; namelist := names;
       written := map (fun n => (n, Json (PyDict []))) names;
       extractall_error := None |} in
  let missing := result "missing.xmind" bare_world in
  let wrong_extension :=
    result "notes.txt" (world_of "notes.txt" (sample_file (Json (PyList [])))) in
  let zero_size := result "empty.xmind" (world_of "empty.xmind" (file 0%Z None)) in
  let a_folder := result "folder.xmind" (world_of "folder.xmind" folder) in
  let not_an_archive := result "text.xmind" (world_of "text.xmind" (file 2048%Z None)) in
  let corrupt_member :=
    result "corrupt.xmind"
      (world_of "corrupt.xmind"
         (file 2048%Z (Some (archive (Some "content.json") ["content.json"])))) in
  let no_payload :=
    result "bare.xmind"
      (world_of "bare.xmind" (file 2048%Z (Some (archive None ["metadata.json"])))) in
  let not_json := result "doc.xmind" (world_with NotJson) in
  let empty_object := result "doc.xmind" (world_with (Json (PyDict []))) in
  let empty_array := result "doc.xmind" (world_with (Json (PyList []))) in
  missing = Raise (XmindLoadError "FILE_VALIDATION")
  /\ wrong_extension = missing
  /\ zero_size = missing
  /\ a_folder = missing
  /\ not_an_archive = missing
  /\ corrupt_member = missing
  /\ no_payload = missing
  /\ not_json = Raise (XmindLoadError "LOAD_FAILED")
  /\ empty_object = not_json
  /\ empty_array = not_json.
Proof. vm_compute. repeat split. Qed.

(** C3 at work: a missing file, and an archive that holds two entries
    named [content.json], a sound document and then the payload [{}]. *)
Lemma C3_failures_witness :
  let twice :=
    {| testzip := None; namelist := ["content.json"; "content.json"];
       written := [("content.json", Json sample_document);
                   ("content.json", Json (PyDict []))];
       extractall_error := None |} in
  let file :=
    {| st_mtime := S754_zero false; st_size := 2048; open_error := None;
       zip := Some twice |} in
  fst (XmindFileLoader.load (float_repr := sample_float_str) false
         {| world := bare_world; self := XmindFileLoader.__init__ "missing.xmind" false |})
    = Raise (XmindLoadError "FILE_VALIDATION")
  /\ fst (XmindFileLoader.load (float_repr := sample_float_str) false
            {| world := world_of "doc.xmind" file;
               self := XmindFileLoader.__init__ "doc.xmind" false |})
       = Raise (XmindLoadError "LOAD_FAILED").
Proof.
  cbv zeta. split.
  - destruct (C3_failures_have_two_kinds (float_repr := sample_float_str) false
                {| world := bare_world;
                   self := XmindFileLoader.__init__ "missing.xmind" false |})
      as (Hbad & _).
    + reflexivity.
    + intros H. discriminate H.
    + apply Hbad. apply NoSuchFile. reflexivity.
  - set (twice :=
           {| testzip := None; namelist := ["content.json"; "content.json"];
              written := [("content.json", Json sample_document);
                          ("content.json", Json (PyDict []))];
              extractall_error := None |}).
    set (file :=
           {| st_mtime := S754_zero false; st_size := 2048; open_error := None;
              zip := Some twice |}).
    destruct (C3_failures_have_two_kinds (float_repr := sample_float_str) false
                {| world := world_of "doc.xmind" file;
                   self := XmindFileLoader.__init__ "doc.xmind" false |})
      as (_ & Hpayload & _).
    + reflexivity.
    + intros H. discriminate H.
    + apply (Hpayload file twice (Json (PyDict []))).
      * intros H. apply validation_failure_verdict in H. vm_compute in H. discriminate H.
      * reflexivity.
      * reflexivity.
      * reflexivity.
      * reflexivity.
      * reflexivity.
      * reflexivity.
      * reflexivity.
Defined.

End ErrorKinds.

(* ===================================================================== *)
(** * The normalizer and the objects it is given *)
(* ===================================================================== *)

Module HeapFacts.
Import Effects Frames Heap.

Lemma nth_error_update_eq {A} (xs : list A) (i : nat) (x y : A) :
  nth_error xs i = Some y -> nth_error (update xs i x) i = Some x.
Proof.
  revert i. induction xs as [|z xs IH]; intros [|i]; simpl; try discriminate; auto.
Qed.

Lemma nth_error_update_neq {A} (xs : list A) (i j : nat) (x : A) :
  i <> j -> nth_error (update xs i x) j = nth_error xs j.
Proof.
  revert i j. induction xs as [|z xs IH]; intros [|i] [|j] H; simpl; try reflexivity.
  - contradiction.
  - apply IH. congruence.
Qed.

#[global] Instance lists_grow_preorder : PreOrder lists_grow.
Proof.
  split.
  - intros s r [xs|d] H; [exists []; now rewrite app_nil_r|exact H].
  - intros a b c Hab Hbc r o H. specialize (Hab r o H). destruct o as [xs|d].
    + destruct Hab as [ys Hb]. destruct (Hbc r _ Hb) as [zs Hc].
      exists (ys ++ zs). now rewrite app_assoc.
    + exact (Hbc r _ Hab).
Qed.

Lemma lists_grow_same_objects (s s' : Store) : objects s' = objects s -> lists_grow s s'.
Proof.
  intros E r o H. rewrite E. destruct o as [xs|d]; [exists []; now rewrite app_nil_r|exact H].
Qed.

#[global] Instance tame_preorder : PreOrder tame.
Proof.
  split.
  - intros s. split; reflexivity.
  - intros a b c [H1 H2] [H3 H4]. split; etransitivity; eauto.
Qed.

(** *** The operations on objects *)

Lemma tame_new (o : object) : preserves tame (new o).
Proof.
  intros s. unfold new, bind, gets, modify, ret, set_objects. simpl. split; [|reflexivity].
  intros r o' H. simpl.
  assert (E : nth_error (objects s ++ [o]) r = Some o').
  { rewrite nth_error_app1; [exact H|]. apply nth_error_Some. congruence. }
  destruct o' as [xs|d]; [exists []; now rewrite app_nil_r|exact E].
Qed.
#[export] Hint Resolve tame_new : pres.

Lemma tame_deref (r : ref) : preserves tame (deref r).
Proof. unfold deref. pres. Qed.
#[export] Hint Resolve tame_deref : pres.

Lemma tame_append (l x : value) : preserves tame (append l x).
Proof.
  intros s. destruct l as [| | | | |r]; try reflexivity.
  unfold append, deref, bind, gets, modify, ret, raise, set_objects. simpl.
  destruct (nth_error (objects s) r) as [[items|d]|] eqn:E; simpl; try reflexivity.
  split; [|reflexivity]. intros r' o H. simpl.
  destruct (Nat.eq_dec r r') as [<-|Hne].
  - rewrite E in H. injection H as <-. exists [x]. now apply nth_error_update_eq with (y := OList items).
  - rewrite nth_error_update_neq by exact Hne.
    destruct o as [xs|d]; [exists []; now rewrite app_nil_r|exact H].
Qed.
#[export] Hint Resolve tame_append : pres.

Lemma tame_liftS_os_urandom16 : preserves tame (liftS os_urandom16).
Proof.
  intros [os w0]. split; [now apply lists_grow_same_objects|].
  exact (only_entropy_os_urandom16 w0).
Qed.
#[export] Hint Resolve tame_liftS_os_urandom16 : pres.

Lemma tame_truthy (v : value) : preserves tame (truthy v).
Proof. unfold truthy. pres. Qed.
#[export] Hint Resolve tame_truthy : pres.

Lemma tame_isinstance_list (v : value) : preserves tame (isinstance_list v).
Proof. unfold isinstance_list. pres. Qed.
#[export] Hint Resolve tame_isinstance_list : pres.

Lemma tame_isinstance_dict (v : value) : preserves tame (isinstance_dict v).
Proof. unfold isinstance_dict. pres. Qed.
#[export] Hint Resolve tame_isinstance_dict : pres.

Lemma tame_get (v : value) (k : string) (default : value) : preserves tame (get v k default).
Proof. unfold get. pres. Qed.
#[export] Hint Resolve tame_get : pres.

Lemma tame_contains (k : string) (v : value) : preserves tame (contains k v).
Proof. unfold contains. pres. Qed.
#[export] Hint Resolve tame_contains : pres.

Lemma tame_getitem (k : string) (v : value) : preserves tame (getitem k v).
Proof. unfold getitem. pres. Qed.
#[export] Hint Resolve tame_getitem : pres.

(** *** The loops *)

Lemma tame_for_each {A} (body : A -> M Store unit) (xs : list A) :
  (forall x, preserves tame (body x)) -> preserves tame (for_each body xs).
Proof. intros H. induction xs as [|x xs IH]; simpl; pres. Qed.

Lemma tame_for_list (turns : nat) (r : ref) (i : nat) (body : value -> M Store unit) :
  (forall x, preserves tame (body x)) -> preserves tame (for_list turns r i body).
Proof.
  intros H. revert i. induction turns as [|turns IH]; intros i; simpl; pres.
Qed.

Lemma tame_for_in (turns : nat) (v : value) (body : value -> M Store unit) :
  (forall x, preserves tame (body x)) -> preserves tame (for_in turns v body).
Proof.
  intros H. pose proof (tame_for_list turns) as Hl.
  pose proof (@tame_for_each value body) as He.
  unfold for_in. pres.
Qed.

(** *** The normalizer *)

(** Whatever it is given, [_convert_topic] changes no dict and takes
    nothing from a list, and of the system it only reads the entropy. *)
Lemma tame__convert_topic (fuel : nat) (topic_data : value) :
  preserves tame (DataFormatConverter._convert_topic fuel topic_data).
Proof.
  revert topic_data. induction fuel as [|fuel IH]; intros topic_data; simpl; [pres|].
  pres_gen ltac:(apply tame_for_in; intro).
Qed.

Lemma tame_convert_to_xmind_format (fuel : nat) (content_data : value) :
  preserves tame (DataFormatConverter.convert_to_xmind_format fuel content_data).
Proof.
  pose proof (tame__convert_topic fuel).
  unfold DataFormatConverter.convert_to_xmind_format.
  pres_gen ltac:(apply tame_for_in; intro).
Qed.

End HeapFacts.

(* ===================================================================== *)
(** * The normalizer appends to the child list of its input *)
(* ===================================================================== *)

Module Mutation.
Import Effects Frames Triples Heap HeapFacts.

(** *** Reading an object that is known *)

Lemma deref_at (s : Store) (r : ref) (o : object) :
  nth_error (objects s) r = Some o -> deref r s = (Return o, s).
Proof. intros H. unfold deref, bind, gets. now rewrite H. Qed.

Lemma truthy_dict (s : Store) (r : ref) (d : list (string * value)) :
  nth_error (objects s) r = Some (ODict d) -> d <> [] ->
  fst (truthy (VRef r) s) = Return true.
Proof.
  intros H Hd. unfold truthy. rewrite bind_run, (deref_at _ _ _ H).
  destruct d; [contradiction|reflexivity].
Qed.

Lemma get_dict (s : Store) (r : ref) (d : list (string * value)) (k : string)
    (default x : value) :
  nth_error (objects s) r = Some (ODict d) -> dict_get d k = Some x ->
  fst (get (VRef r) k default s) = Return x.
Proof. intros H Hk. unfold get. rewrite bind_run, (deref_at _ _ _ H). simpl. now rewrite Hk. Qed.

Lemma isinstance_dict_dict (s : Store) (r : ref) (d : list (string * value)) :
  nth_error (objects s) r = Some (ODict d) ->
  fst (isinstance_dict (VRef r) s) = Return true.
Proof. intros H. unfold isinstance_dict. now rewrite bind_run, (deref_at _ _ _ H). Qed.

Lemma isinstance_list_list (s : Store) (r : ref) (xs : list value) :
  nth_error (objects s) r = Some (OList xs) ->
  fst (isinstance_list (VRef r) s) = Return true.
Proof. intros H. unfold isinstance_list. now rewrite bind_run, (deref_at _ _ _ H). Qed.

(** An [append] to a list that is there: the list has one more item. *)
Lemma append_at (s : Store) (r : ref) (xs : list value) (x : value) :
  nth_error (objects s) r = Some (OList xs) ->
  fst (append (VRef r) x s) = Return tt
  /\ nth_error (objects (snd (append (VRef r) x s))) r = Some (OList (xs ++ [x])).
Proof.
  intros H. unfold append. rewrite bind_run, (deref_at _ _ _ H). simpl.
  split; [reflexivity|]. now apply nth_error_update_eq with (y := OList xs).
Qed.

Lemma has_gained_tame (lt : ref) (ts : list value) (s s' : Store) :
  has_gained lt ts s -> tame s s' -> has_gained lt ts s'.
Proof.
  intros (extra & Hne & H) [Hg _]. destruct (Hg _ _ H) as [ys Hys].
  exists (extra ++ ys). split.
  - destruct extra; [contradiction|discriminate].
  - now rewrite app_assoc.
Qed.

(** *** The walk through [_convert_topic] *)

Ltac tame_pres :=
  pres_gen ltac:(first [apply tame_for_in; intro | apply tame_for_list; intro
                       | apply tame__convert_topic]).

Section Walk.
Variables (s0 : Store) (t lt lc la : ref) (d dc : list (string * value)).
Variables (ts cs : list value) (c : value).
Hypothesis Ht : nth_error (objects s0) t = Some (ODict d).
Hypothesis Htopics : dict_get d "topics" = Some (VRef lt).
Hypothesis Hlt : nth_error (objects s0) lt = Some (OList ts).
Hypothesis Hchildren : dict_get d "children" = Some (VRef lc).
Hypothesis Hlc : nth_error (objects s0) lc = Some (ODict dc).
Hypothesis Hattached : dict_get dc "attached" = Some (VRef la).
Hypothesis Hla : nth_error (objects s0) la = Some (OList (c :: cs)).

Lemma later_t (s : Store) : tame s0 s -> nth_error (objects s) t = Some (ODict d).
Proof. intros [H _]. exact (H _ _ Ht). Qed.

Lemma later_lc (s : Store) : tame s0 s -> nth_error (objects s) lc = Some (ODict dc).
Proof. intros [H _]. exact (H _ _ Hlc). Qed.

Lemma later_lt (s : Store) :
  tame s0 s -> exists ys, nth_error (objects s) lt = Some (OList (ts ++ ys)).
Proof. intros [H _]. exact (H _ _ Hlt). Qed.

Lemma later_la (s : Store) :
  tame s0 s -> exists ys, nth_error (objects s) la = Some (OList (c :: cs ++ ys)).
Proof. intros [H _]. exact (H _ _ Hla). Qed.

Lemma tame_step (s s' : Store) : tame s0 s -> tame s s' -> tame s0 s'.
Proof. intros H1 H2. etransitivity; eassumption. Qed.

(** When the run goes on, the list [lt] has gained items. *)
Abbreviation gains :=
  (fun o s => match o with Return _ => has_gained lt ts s | Raise _ => True end).

(** One turn of the loop over the attached children: the converted child
    lands in the list [lt]. *)
Lemma attach_gains (fuel : nat) (child : value) :
  hoare (tame s0)
    (converted <- DataFormatConverter._convert_topic fuel child ;;
     append (VRef lt) converted)
    gains.
Proof.
  apply (hoare_bind_stable tame (tame s0));
    [tame_pres|exact tame_step|intros; exact I|intros converted].
  intros s Hs. destruct (later_lt s Hs) as [ys Hys].
  destruct (append_at s lt _ converted Hys) as [Hr Hl]. rewrite Hr.
  exists (ys ++ [converted]). split.
  - destruct ys; discriminate.
  - now rewrite app_assoc.
Qed.

(** The loop over the attached children: its first turn is on [c]. *)
Lemma attached_loop_gains (turns fuel : nat) :
  hoare (tame s0)
    (for_in turns (VRef la)
       (fun child =>
          converted <- DataFormatConverter._convert_topic fuel child ;;
          append (VRef lt) converted))
    gains.
Proof.
  intros s Hs. destruct (later_la s Hs) as [ys Hys].
  unfold for_in. rewrite bind_run, (deref_at _ _ _ Hys).
  destruct turns as [|turns]; [exact I|].
  cbn [for_list]. rewrite bind_run, (deref_at _ _ _ Hys). cbn [nth_error].
  revert s Hs ys Hys.
  assert (H : hoare (tame s0)
                ((converted <- DataFormatConverter._convert_topic fuel c ;;
                  append (VRef lt) converted) ;;
                 for_list turns la 1
                   (fun child =>
                      converted <- DataFormatConverter._convert_topic fuel child ;;
                      append (VRef lt) converted))
                gains).
  2:{ intros s Hs _ _. exact (H s Hs). }
  apply (hoare_bind _ gains).
  - apply attach_gains.
  - intros e s _. exact I.
  - intros _. apply (hoare_stable tame); [tame_pres|apply has_gained_tame|].
    intros [r|e] s Hs; [exact Hs|exact I].
Qed.

(** [_convert_topic] on the topic [t]: when it returns, the list [lt]
    of its input has gained items. *)
Lemma _convert_topic_gains (fuel : nat) :
  hoare (tame s0) (DataFormatConverter._convert_topic fuel (VRef t)) gains.
Proof.
  destruct fuel as [|fuel]; [intros s _; exact I|].
  assert (Hd : d <> []) by (intros ->; discriminate).
  cbn [DataFormatConverter._convert_topic].
  apply (hoare_bind_value tame (tame s0) _ _ _ true); [tame_pres|exact tame_step| |].
  { intros s Hs. apply (truthy_dict s t d (later_t s Hs) Hd). }
  cbn [negb].
  do 11 (apply (hoare_bind_stable tame (tame s0));
           [tame_pres|exact tame_step|intros; exact I|intro]).
  apply (hoare_bind_value tame (tame s0) _ _ _ (VRef lt)); [tame_pres|exact tame_step| |].
  { intros s Hs. apply (get_dict s t d _ _ _ (later_t s Hs) Htopics). }
  apply (hoare_bind_value tame (tame s0) _ _ _ true); [tame_pres|exact tame_step| |].
  { intros s Hs. destruct (later_lt s Hs) as [ys Hys].
    apply (isinstance_list_list s lt _ Hys). }
  cbn [negb].
  apply (hoare_bind_value tame (tame s0) _ _ _ (VRef lt)); [tame_pres|exact tame_step| |].
  { intros s Hs. reflexivity. }
  apply (hoare_bind_value tame (tame s0) _ _ _ (VRef lc)); [tame_pres|exact tame_step| |].
  { intros s Hs. apply (get_dict s t d _ _ _ (later_t s Hs) Hchildren). }
  apply (hoare_bind_value tame (tame s0) _ _ _ true); [tame_pres|exact tame_step| |].
  { intros s Hs. apply (isinstance_dict_dict s lc dc (later_lc s Hs)). }
  apply (hoare_bind _ gains).
  - apply (hoare_bind_value tame (tame s0) _ _ _ (VRef la)); [tame_pres|exact tame_step| |].
    { intros s Hs. apply (get_dict s lc dc _ _ _ (later_lc s Hs) Hattached). }
    apply (hoare_bind_value tame (tame s0) _ _ _ true); [tame_pres|exact tame_step| |].
    { intros s Hs. destruct (later_la s Hs) as [ys Hys].
      apply (isinstance_list_list s la _ Hys). }
    apply attached_loop_gains.
  - intros e s _. exact I.
  - intros _.
    do 2 (apply (hoare_bind_stable tame (has_gained lt ts));
            [tame_pres|apply has_gained_tame|intros; exact I|intro]).
    apply (hoare_stable tame); [tame_pres|apply has_gained_tame|].
    intros [r|e] s Hs; [exact Hs|exact I].
Qed.

End Walk.
(** C9, as the code has it.  When the raw topic has a list under
    ["topics"] and a list that is not empty under ["children"]["attached"],
    a call of [_convert_topic] that returns has appended to the topic's own
    ["topics"] list: the input is not what it was.  That is all it does to
    what it was given: no dict has changed, no list has lost an item, and
    of the system only the entropy was read. *)
Theorem C9_attached_children_extend_the_input_list
    (fuel : nat) (s s' : Store) (t lt : ref) (ts : list value) (out : value) :
  has_both_child_lists s t lt ts ->
  DataFormatConverter._convert_topic fuel (VRef t) s = (Return out, s') ->
  has_gained lt ts s' /\ tame s s'.
Proof.
  intros (d & lc & dc & la & c & cs & Ht & Htopics & Hlt & Hchildren & Hlc & Hattached & Hla)
    Hrun.
  split.
  - pose proof (_convert_topic_gains s t lt lc la d dc ts cs c
                  Ht Htopics Hlt Hchildren Hlc Hattached Hla fuel s) as H.
    rewrite Hrun in H. apply H. reflexivity.
  - pose proof (tame__convert_topic fuel (VRef t) s) as H. now rewrite Hrun in H.
Qed.

(** C9 at work: [sample_topic], loaded and normalized. *)
Lemma C9_extended_list_witness :
  let s := snd (json_load_value sample_topic (empty_store bare_world)) in
  exists out s',
    DataFormatConverter._convert_topic 3 (VRef 5) s = (Return out, s')
    /\ nth_error (objects s) 1 = Some (OList [VRef 0])
    /\ has_gained 1 [VRef 0] s'.
Proof.
  cbv zeta. do 2 eexists. split; [vm_compute; reflexivity|]. split; [reflexivity|].
  refine (proj1 (C9_attached_children_extend_the_input_list 3
                   (snd (json_load_value sample_topic (empty_store bare_world)))
                   _ 5 1 [VRef 0] _ _ _)).
  - exists [("id", VStr "t"); ("title", VStr "T"); ("topics", VRef 1); ("children", VRef 4)],
      4, [("attached", VRef 3)], 3, (VRef 2), [].
    repeat split; reflexivity.
  - vm_compute. reflexivity.
Defined.

End Mutation.

Module MutationSample.

(** The mutation seen from outside, on [sample_document]: after
    [convert_to_xmind_format] the document that was loaded reads
    differently, its root topic having a second item under ["topics"];
    the result is the one computed on contents alone. *)
Lemma normalizing_changes_the_document (n : nat) :
  exists content s1 out s2,
    Heap.json_load_value sample_document (Heap.empty_store bare_world) = (Return content, s1)
    /\ Heap.contents 8 (Heap.objects s1) content = Some sample_document
    /\ Heap.DataFormatConverter.convert_to_xmind_format (3 + n) content s1 = (Return out, s2)
    /\ Heap.contents 8 (Heap.objects s2) content
       = Some (PyList [PyDict [("id", PyStr "s1"); ("title", PyStr "Sheet 1");
                               ("topic", sample_topic_afterwards)]])
    /\ sample_topic_afterwards <> sample_topic
    /\ Heap.contents 8 (Heap.objects s2) out
       = Some (PyList [PyDict [("id", PyStr "s1"); ("title", PyStr "Sheet 1");
                               ("topic", sample_topic_converted)]])
    /\ fst (DataFormatConverter.convert_to_xmind_format sample_document bare_world)
       = Return (PyList [PyDict [("id", PyStr "s1"); ("title", PyStr "Sheet 1");
                                 ("topic", sample_topic_converted)]]).
Proof.
  do 4 eexists. split; [reflexivity|]. split; [reflexivity|].
  split; [vm_compute; reflexivity|]. split; [reflexivity|].
  split; [discriminate|]. split; reflexivity.
Qed.

(** On [sample_rich_document] too, the result read from the objects is
    the result computed on contents, and the system is left the same. *)
Lemma normalizing_objects_agrees_with_contents (n : nat) :
  exists content s1 out s2 result,
    Heap.json_load_value sample_rich_document (Heap.empty_store bare_world)
      = (Return content, s1)
    /\ Heap.DataFormatConverter.convert_to_xmind_format (8 + n) content s1 = (Return out, s2)
    /\ DataFormatConverter.convert_to_xmind_format sample_rich_document bare_world
       = (Return result, Heap.sys s2)
    /\ Heap.contents 12 (Heap.objects s2) out = Some result.
Proof.
  do 5 eexists. split; [vm_compute; reflexivity|]. split; [vm_compute; reflexivity|].
  split; vm_compute; reflexivity.
Qed.

End MutationSample.

(* ===================================================================== *)
(** * More about the normalizer *)
(* ===================================================================== *)

Module NormalizerShape.
Import DataFormatConverter ConvertTopicFacts NormalizerFacts.

(** *** Markers *)

Lemma markers_spec_strings (raw : pyval) :
  Forall (fun m => is_str m = true) (markers_spec raw).
Proof.
  destruct raw as [| | | | |ms|]; simpl; try constructor.
  induction ms as [|m ms IH]; simpl; [constructor|].
  apply Forall_app. split; [|exact IH].
  destruct m as [| | | |s| |m]; simpl; try constructor; try reflexivity; try constructor.
  destruct (truthy (py_get m "markerId"));
    [destruct (py_get m "markerId")|destruct (py_get m "id")];
    repeat constructor.
Qed.

Lemma markers_spec_of_strings (ms : list pyval) :
  Forall (fun m => is_str m = true) ms -> markers_spec (PyList ms) = ms.
Proof.
  intros Hall. simpl.
  induction Hall as [|m ms Hm _ IH]; simpl; [reflexivity|].
  rewrite IH. destruct m; try discriminate. reflexivity.
Qed.

(** *** The result, in full *)

(** [_convert_topic] on a non-empty object: the attached children are
    converted in order, and the result is assembled from the object and
    them. *)
Lemma _convert_topic_object (kv : string * pyval) (d : list (string * pyval)) (w : World) :
  _convert_topic (PyDict (kv :: d)) w
  = match mapM _convert_topic (attached_children (kv :: d)) w with
    | (Return converted, w') => (Return (normalized_topic (kv :: d) converted), w')
    | (Raise e, w') => (Raise e, w')
    end.
Proof.
  set (t := kv :: d). rewrite _convert_topic_unfold.
  unfold convert_topic_body, attached_children, legacy_children, normalized_topic, note_spec.
  change (negb (truthy (PyDict t))) with false. cbv iota.
  assert (Hm : match py_get_default t "markers" (PyList []) with
               | PyList ms => fold_left marker_step ms []
               | _ => []
               end = markers_spec (py_get_default t "markers" (PyList []))).
  { destruct (py_get_default t "markers" (PyList [])); try reflexivity.
    now rewrite fold_marker_step. }
  rewrite Hm. clear Hm.
  assert (Hc : match py_get t "children" with
               | PyDict children =>
                   match py_get children "attached" with
                   | PyList attached => mapM _convert_topic attached
                   | _ => ret []
                   end
               | _ => ret []
               end
               = mapM _convert_topic
                   match py_get t "children" with
                   | PyDict children =>
                       match py_get children "attached" with
                       | PyList attached => attached
                       | _ => []
                       end
                   | _ => []
                   end).
  { destruct (py_get t "children"); try reflexivity.
    destruct (py_get kvs "attached"); reflexivity. }
  rewrite Hc. clear Hc.
  unfold bind.
  destruct (mapM _convert_topic _ w) as [[converted|e] w']; [|reflexivity].
  unfold ret. do 2 f_equal. unfold normalized_topic.
  destruct (truthy (py_get t "note")); reflexivity.
Qed.

Lemma empty_topic_shaped (id : string) : topic_shaped (empty_topic id).
Proof. unfold empty_topic. do 8 eexists. split; [reflexivity|constructor]. Qed.

Lemma normalized_topic_shaped (d : list (string * pyval)) (converted : list pyval) :
  topic_shaped (normalized_topic d converted).
Proof.
  unfold normalized_topic. do 8 eexists. split; [reflexivity|apply markers_spec_strings].
Qed.

(** Every result of [_convert_topic] has the shape of a topic. *)
Lemma _convert_topic_shaped (t : pyval) (w w' : World) (r : pyval) :
  _convert_topic t w = (Return r, w') -> topic_shaped r.
Proof.
  intros H. destruct (truthy t) eqn:Et.
  - destruct t as [| | | | | |[|kv d]]; try discriminate;
      try (rewrite _convert_topic_not_dict in H by (assumption || reflexivity); discriminate).
    rewrite _convert_topic_object in H.
    destruct (mapM _ _ w) as [[converted|e] w1]; [|discriminate].
    injection H as <- _. apply normalized_topic_shaped.
  - rewrite _convert_topic_falsy in H by exact Et. injection H as <- _.
    apply empty_topic_shaped.
Qed.

(** Converting what has the shape of a topic gives it back, and asks
    nothing of the world. *)
Lemma _convert_topic_of_shaped (r : pyval) (w : World) :
  topic_shaped r -> _convert_topic r w = (Return r, w).
Proof.
  intros (id & link & title & note & label & comment & markers & topics & -> & Hm).
  rewrite _convert_topic_object.
  unfold attached_children, normalized_topic, note_spec, legacy_children,
    py_get, py_get_default. cbn -[markers_spec truthy].
  rewrite (markers_spec_of_strings markers Hm), app_nil_r.
  destruct (truthy note); reflexivity.
Qed.

(** *** Loops that run to their end, and loops that do not *)

Lemma mapM_returns {S A B} (f : A -> M S B) (xs : list A) :
  (forall x, In x xs -> forall s, exists y s', f x s = (Return y, s')) ->
  forall s, exists ys s', mapM f xs s = (Return ys, s').
Proof.
  induction xs as [|x xs IH]; intros H s; simpl.
  - eexists. eexists. reflexivity.
  - destruct (H x (or_introl eq_refl) s) as (y & s1 & Hy).
    destruct (IH (fun z Hz => H z (or_intror Hz)) s1) as (ys & s2 & Hys).
    exists (y :: ys), s2. unfold bind. now rewrite Hy, Hys.
Qed.

Lemma mapM_raises {S A B} (f : A -> M S B) (xs : list A) :
  forall s e s', mapM f xs s = (Raise e, s') ->
  exists x s1 s2, In x xs /\ f x s1 = (Raise e, s2).
Proof.
  induction xs as [|x xs IH]; intros s e s' H; simpl in H; [discriminate|].
  unfold bind in H. destruct (f x s) as [[y|e1] s1] eqn:Ex.
  - destruct (mapM f xs s1) as [[ys|e2] s2] eqn:Exs; [discriminate|].
    injection H as <- <-. destruct (IH _ _ _ Exs) as (z & a & b & Hz & Hf).
    exists z, a, b. split; [now right|exact Hf].
  - injection H as <- <-. exists x, s, s1. split; [now left|exact Ex].
Qed.

Lemma mapM_fixed {S A} (f : A -> M S A) (xs : list A) :
  (forall x, In x xs -> forall s, f x s = (Return x, s)) ->
  forall s, mapM f xs s = (Return xs, s).
Proof.
  induction xs as [|x xs IH]; intros H s; simpl; [reflexivity|].
  unfold bind. rewrite (H x (or_introl eq_refl) s).
  now rewrite (IH (fun z Hz => H z (or_intror Hz)) s).
Qed.

(** *** What the normalizer accepts *)

Lemma convertible_inv (kv : string * pyval) (d : list (string * pyval)) :
  convertible (PyDict (kv :: d)) ->
  forall c, In c (attached_children (kv :: d)) -> convertible c.
Proof. intros H. inversion H as [t Ht|kv' d' Hc]; [discriminate|exact Hc]. Qed.

Lemma depth_attached (d : list (string * pyval)) (c : pyval) :
  In c (attached_children d) -> depth c < depth (PyDict d).
Proof.
  unfold attached_children. intros Hin.
  pose proof (depth_py_get d "children") as Hc.
  destruct (py_get d "children") as [| | | | | |children]; try contradiction.
  pose proof (depth_py_get children "attached") as Ha.
  destruct (py_get children "attached") as [| | | | |attached|]; try contradiction.
  pose proof (depth_In c attached Hin). lia.
Qed.

Lemma _convert_topic_accepts (n : nat) :
  forall t, depth t < n ->
  (convertible t -> forall w, exists r w', _convert_topic t w = (Return r, w'))
  /\ (forall w e w', _convert_topic t w = (Raise e, w') ->
        e = AttributeError /\ ~ convertible t).
Proof.
  induction n as [|n IH]; intros t Hn; [lia|].
  destruct (truthy t) eqn:Et.
  - destruct t as [| | | | | |[|kv d]]; try discriminate.
    1-5: (split;
          [intros Hc; inversion Hc; simpl in *; congruence
          |intros w e w' H;
           rewrite _convert_topic_not_dict in H by (assumption || reflexivity);
           injection H as <- _; split; [reflexivity|];
           intros Hc; inversion Hc; simpl in *; congruence]).
    split.
    + intros Hc w. rewrite _convert_topic_object.
      destruct (mapM_returns _convert_topic (attached_children (kv :: d))) with (s := w)
        as (ys & w' & Hys).
      { intros c Hin s. apply IH.
        - pose proof (depth_attached _ _ Hin). lia.
        - now apply (convertible_inv kv d Hc). }
      rewrite Hys. eauto.
    + intros w e w' H. rewrite _convert_topic_object in H.
      destruct (mapM _convert_topic _ w) as [[ys|e1] w1] eqn:Em; [discriminate|].
      injection H as <- <-.
      destruct (mapM_raises _ _ _ _ _ Em) as (c & s1 & s2 & Hin & Hc).
      assert (Hd : depth c < n) by (pose proof (depth_attached _ _ Hin); lia).
      destruct (proj2 (IH c Hd) _ _ _ Hc) as [-> Hnot].
      split; [reflexivity|]. intros Hconv. apply Hnot.
      now apply (convertible_inv kv d Hconv).
  - split.
    + intros _ w. rewrite _convert_topic_falsy by exact Et. eauto.
    + intros w e w' H. rewrite _convert_topic_falsy in H by exact Et. discriminate.
Qed.

(** *** Sheets *)

(** The body of the loop over the sheets of a list payload. *)
Abbreviation legacy_sheet_step :=
  (fun sheet : pyval =>
     match sheet with
     | PyDict s =>
         topic <- _convert_topic
                    (py_get_default s "topic" (py_get_default s "rootTopic" (PyDict []))) ;;
         ret (PyDict [("id", py_get_default s "id" (PyStr ""));
                      ("title", py_get s "title"); ("topic", topic)])
     | _ => raise AttributeError
     end).

(** The body of the loop over the sheets of an object payload. *)
Abbreviation modern_sheet_step :=
  (fun sheet : pyval =>
     match sheet with
     | PyDict s =>
         topic <- _convert_topic (py_get_default s "topic" (PyDict [])) ;;
         ret (PyDict [("id", py_get_default s "id" (PyStr ""));
                      ("title", py_get s "title"); ("topic", topic)])
     | _ => raise AttributeError
     end).

Lemma legacy_sheet_step_run (sheet : pyval) (w w' : World) (r : pyval) :
  legacy_sheet_step sheet w = (Return r, w') ->
  exists s topic,
    sheet = PyDict s /\ r = normalized_sheet s topic /\ topic_shaped topic.
Proof.
  destruct sheet as [| | | | | |s]; try discriminate.
  unfold bind.
  destruct (_convert_topic _ w) as [[topic|e] w1] eqn:Et; [|discriminate].
  intros [= <- <-]. exists s, topic. split; [reflexivity|]. split; [reflexivity|].
  exact (_convert_topic_shaped _ _ _ _ Et).
Qed.

Lemma modern_sheet_step_run (sheet : pyval) (w w' : World) (r : pyval) :
  modern_sheet_step sheet w = (Return r, w') ->
  exists s topic,
    sheet = PyDict s /\ r = normalized_sheet s topic /\ topic_shaped topic.
Proof.
  destruct sheet as [| | | | | |s]; try discriminate.
  unfold bind.
  destruct (_convert_topic _ w) as [[topic|e] w1] eqn:Et; [|discriminate].
  intros [= <- <-]. exists s, topic. split; [reflexivity|]. split; [reflexivity|].
  exact (_convert_topic_shaped _ _ _ _ Et).
Qed.

Lemma Forall2_weaken {A B} (P Q : A -> B -> Prop) (xs : list A) (ys : list B) :
  (forall x y, P x y -> Q x y) -> Forall2 P xs ys -> Forall2 Q xs ys.
Proof. intros H F. induction F; constructor; auto. Qed.

Lemma Forall2_right {A B} (P : A -> B -> Prop) (Q : B -> Prop) (xs : list A) (ys : list B) :
  (forall x y, P x y -> Q y) -> Forall2 P xs ys -> Forall Q ys.
Proof. intros H F. induction F; constructor; eauto. Qed.

(** What [convert_to_xmind_format] returns is a list of sheets, one for
    each item the loop ran over. *)
Lemma convert_to_xmind_format_sheets (content : pyval) (w w' : World) (r : pyval) :
  convert_to_xmind_format content w = (Return r, w') ->
  exists items rs,
    r = PyList rs /\ Forall2 sheet_of items rs
    /\ (schema_ok content = true -> items = raw_sheets content).
Proof.
  unfold convert_to_xmind_format.
  destruct (truthy content) eqn:Et; simpl.
  2:{ intros [= <- <-]. exists [], []. split; [reflexivity|]. split; [constructor|].
      destruct content as [| | | | |[|x xs]|[|kv d]]; try discriminate; reflexivity. }
  destruct content as [| | | |str|sheets|d]; try discriminate.
  - simpl. destruct (str_contains "sheets" str); simpl; [discriminate|].
    intros [= <- <-]. exists [], []. split; [reflexivity|]. split; [constructor|discriminate].
  - unfold bind. destruct (mapM _ sheets w) as [[rs|e] w1] eqn:Em; [|discriminate].
    intros [= <- <-]. exists sheets, rs. split; [reflexivity|]. split; [|reflexivity].
    apply (Forall2_weaken _ _ _ _ (fun x y H => match H with
             | ex_intro _ s1 (ex_intro _ s2 Hr) => legacy_sheet_step_run x s1 s2 y Hr
             end)).
    exact (mapM_Forall2 _ _ _ _ _ Em).
  - simpl. destruct (dict_mem d "sheets") eqn:Emem; simpl.
    2:{ intros [= <- <-]. exists [], []. split; [reflexivity|]. split; [constructor|].
        unfold dict_mem in Emem. simpl. destruct (dict_get d "sheets"); [discriminate|].
        discriminate. }
    unfold bind.
    destruct (dict_get d "sheets") as [x|] eqn:Eg; simpl; [|discriminate].
    destruct (py_iter x w) as [[items|e] w1] eqn:Ei; [|discriminate].
    destruct (mapM _ items w1) as [[rs|e] w2] eqn:Em; [|discriminate].
    intros [= <- <-]. exists items, rs. split; [reflexivity|]. split.
    + apply (Forall2_weaken _ _ _ _ (fun x y H => match H with
               | ex_intro _ s1 (ex_intro _ s2 Hr) => modern_sheet_step_run x s1 s2 y Hr
               end)).
      exact (mapM_Forall2 _ _ _ _ _ Em).
    + simpl. rewrite ?Eg. destruct x as [| | | | |ss|]; try discriminate.
      intros _. simpl in Ei. now injection Ei as <- _.
Qed.

End NormalizerShape.

Module NormalizerExtras.
Import DataFormatConverter ConvertTopicFacts NormalizerFacts NormalizerShape.

(** X1: normalizing is idempotent on topics.  Whatever [_convert_topic]
    returns, converting that again returns the very same topic, and the
    second conversion draws nothing from the entropy source. *)
Theorem X1_convert_topic_idempotent (t r : pyval) (w w' : World) :
  _convert_topic t w = (Return r, w') ->
  forall w2, _convert_topic r w2 = (Return r, w2).
Proof.
  intros H w2. apply _convert_topic_of_shaped. exact (_convert_topic_shaped _ _ _ _ H).
Qed.

(** X1 at work on a sample input. *)
Lemma X1_convert_topic_idempotent_witness :
  exists r w',
    _convert_topic sample_topic bare_world = (Return r, w')
    /\ _convert_topic r bare_world = (Return r, bare_world).
Proof.
  do 2 eexists. split; [vm_compute; reflexivity|].
  apply (X1_convert_topic_idempotent sample_topic _ bare_world bare_world).
  vm_compute. reflexivity.
Defined.

(** X2: the canonical shape of what the normalizer returns.  A topic that
    [_convert_topic] returns is a dict with exactly the keys id, link,
    title, note, label, comment, markers, topics, in this order, whose
    markers are a list of strings and whose topics are a list; a document
    that [convert_to_xmind_format] returns is a list of dicts with exactly
    the keys id, title, topic, each topic being of that shape. *)
Theorem X2_normalized_shape (v r : pyval) (w w' : World) :
  (_convert_topic v w = (Return r, w') -> topic_shaped r)
  /\ (convert_to_xmind_format v w = (Return r, w') ->
      exists sheets, r = PyList sheets /\ Forall sheet_shaped sheets).
Proof.
  split.
  - apply _convert_topic_shaped.
  - intros H. destruct (convert_to_xmind_format_sheets _ _ _ _ H) as (items & rs & -> & F & _).
    exists rs. split; [reflexivity|].
    apply (Forall2_right _ _ _ _ (fun x y (Hxy : sheet_of x y) =>
             match Hxy with
             | ex_intro _ s (ex_intro _ topic (conj _ (conj Hy Ht))) =>
                 ex_intro _ _ (ex_intro _ _ (ex_intro _ topic (conj Hy Ht)))
             end) F).
Qed.

(** X2 at work on a sample input. *)
Lemma X2_normalized_shape_witness :
  exists r w',
    convert_to_xmind_format sample_document bare_world = (Return r, w')
    /\ exists sheets, r = PyList sheets /\ Forall sheet_shaped sheets.
Proof.
  do 2 eexists. split; [vm_compute; reflexivity|].
  eapply (proj2 (X2_normalized_shape sample_document _ bare_world _)).
  vm_compute. reflexivity.
Defined.

(** X3: the scalar fields of a normalized topic.  For a raw topic that is
    a non-empty object, the result carries the raw [link], [title],
    [label] and [comment] unchanged ([None] when absent), and its note is
    the raw [note] when that is truthy, otherwise the text under
    [notes.plain.content] when [notes] and [notes.plain] are objects,
    otherwise the raw (falsy) [note] itself. *)
Theorem X3_object_topic_fields (kv : string * pyval) (d : list (string * pyval)) (w : World) :
  let t := kv :: d in
  match mapM _convert_topic (attached_children t) w with
  | (Return _, w') =>
      exists r,
        _convert_topic (PyDict t) w = (Return r, w')
        /\ py_field r "link" = py_get t "link"
        /\ py_field r "title" = py_get t "title"
        /\ py_field r "label" = py_get t "label"
        /\ py_field r "comment" = py_get t "comment"
        /\ py_field r "note" = note_spec t
  | (Raise e, w') => _convert_topic (PyDict t) w = (Raise e, w')
  end
  /\ (truthy (py_get t "note") = true -> note_spec t = py_get t "note")
  /\ (forall notes plain,
        truthy (py_get t "note") = false ->
        py_get t "notes" = PyDict notes -> py_get notes "plain" = PyDict plain ->
        note_spec t = py_get plain "content")
  /\ (truthy (py_get t "note") = false -> is_dict (py_get t "notes") = false ->
      note_spec t = py_get t "note").
Proof.
  cbv zeta. split; [|split; [|split]].
  - rewrite _convert_topic_object.
    destruct (mapM _convert_topic _ w) as [[converted|e] w']; [|reflexivity].
    eexists. split; [reflexivity|]. repeat split.
  - intros H. unfold note_spec. now rewrite H.
  - intros notes plain H Hn Hp. unfold note_spec. now rewrite H, Hn, Hp.
  - intros H Hn. unfold note_spec. rewrite H.
    destruct (py_get (kv :: d) "notes"); try reflexivity; discriminate.
Qed.

(** X4: what makes the normalizer fail.  [_convert_topic] returns exactly
    on the values it accepts: a falsy value (which gives the placeholder
    topic), or a non-empty object whose attached children are all
    accepted.  On anything else, that is when the value or one of the
    attached descendants is a non-empty string or list, a number or
    [True], it raises, and what it raises is always [AttributeError]. *)
Theorem X4_convert_topic_accepts (t : pyval) (w : World) :
  (convertible t <-> exists r w', _convert_topic t w = (Return r, w'))
  /\ (forall e w', _convert_topic t w = (Raise e, w') -> e = AttributeError).
Proof.
  destruct (_convert_topic_accepts (S (depth t)) t (Nat.lt_succ_diag_r _)) as [Hyes Hno].
  split; [split|].
  - intros Hc. apply Hyes, Hc.
  - intros (r & w' & Hr).
    destruct (_convert_topic t w) as [[r0|e] w0] eqn:E; [|discriminate].
    clear Hr. revert r0 w0 E.
    assert (Hdec : forall n t0, depth t0 < n ->
              forall w1 r1 w2, _convert_topic t0 w1 = (Return r1, w2) -> convertible t0).
    { induction n as [|n IH]; intros t0 Hn w1 r1 w2 Hrun; [lia|].
      destruct (truthy t0) eqn:Et; [|now apply convertible_falsy].
      destruct t0 as [| | | | | |[|kv d]]; try discriminate;
        try (rewrite _convert_topic_not_dict in Hrun by (assumption || reflexivity);
             discriminate).
      apply convertible_object. intros c Hin.
      rewrite _convert_topic_object in Hrun.
      destruct (mapM _convert_topic _ w1) as [[ys|e] w3] eqn:Em; [|discriminate].
      pose proof (mapM_Forall2 _ _ _ _ _ Em) as F.
      assert (Hc : exists y s1 s2, _convert_topic c s1 = (Return y, s2)).
      { clear -F Hin. induction F as [|x y xs ys Hxy F IH]; [contradiction|].
        destruct Hin as [->|Hin]; [|now apply IH].
        destruct Hxy as (s1 & s2 & Hxy). eauto. }
      destruct Hc as (y & s1 & s2 & Hc).
      apply (IH c) with (w1 := s1) (r1 := y) (w2 := s2); [|exact Hc].
      pose proof (depth_attached _ _ Hin). lia. }
    intros r0 w0 E. exact (Hdec _ t (Nat.lt_succ_diag_r _) _ _ _ E).
  - intros e w' H. exact (proj1 (Hno _ _ _ H)).
Qed.

(** X5: one normalized sheet per sheet.  For a payload that passes the
    structure check (a non-empty list, or an object with a non-empty list
    under [sheets]), the document returned has one entry for each raw
    sheet, in order; each raw sheet is an object, and its entry carries
    the sheet's [id] (the empty string when absent), its [title] ([None]
    when absent) and a topic in canonical shape.  So the document is never
    empty. *)
Theorem X5_sheets_normalized_in_order (content r : pyval) (w w' : World) :
  schema_ok content = true ->
  convert_to_xmind_format content w = (Return r, w') ->
  exists sheets,
    r = PyList sheets
    /\ Forall2 sheet_of (raw_sheets content) sheets
    /\ List.length sheets = List.length (raw_sheets content)
    /\ sheets <> [].
Proof.
  intros Hok H.
  destruct (convert_to_xmind_format_sheets _ _ _ _ H) as (items & rs & -> & F & Hitems).
  rewrite (Hitems Hok) in F. exists rs. split; [reflexivity|]. split; [exact F|].
  pose proof (Forall2_length F) as Hlen. split; [now symmetry|].
  intros ->. simpl in Hlen.
  destruct content as [| | | | |[|x xs]|d]; try discriminate.
  simpl in Hok, Hlen. destruct (dict_get d "sheets") as [[| | | | |[|y ys]|]|]; discriminate.
Qed.

(** X5 at work on a sample input. *)
Lemma X5_sheets_normalized_witness :
  exists sheets w',
    convert_to_xmind_format sample_rich_document bare_world = (Return (PyList sheets), w')
    /\ List.length sheets = 2.
Proof.
  destruct (convert_to_xmind_format sample_rich_document bare_world) as [o w'] eqn:Hrun.
  assert (Ho : exists r, o = Return r).
  { assert (E : fst (convert_to_xmind_format sample_rich_document bare_world) = o)
      by now rewrite Hrun.
    vm_compute in E. eexists. symmetry. exact E. }
  destruct Ho as [r ->].
  destruct (X5_sheets_normalized_in_order sample_rich_document r bare_world w' eq_refl Hrun)
    as (sheets & -> & _ & Hlen & _).
  exists sheets, w'. split; [reflexivity|exact Hlen].
Defined.

(** X6: normalizing is idempotent on documents.  Whatever
    [convert_to_xmind_format] returns, converting that again returns the
    very same document and leaves the world as it is. *)
Theorem X6_convert_to_xmind_format_idempotent (content r : pyval) (w w' : World) :
  convert_to_xmind_format content w = (Return r, w') ->
  forall w2, convert_to_xmind_format r w2 = (Return r, w2).
Proof.
  intros H w2.
  destruct (convert_to_xmind_format_sheets _ _ _ _ H) as (items & rs & -> & F & _).
  unfold convert_to_xmind_format.
  destruct rs as [|r0 rs]; [reflexivity|].
  change (negb (truthy (PyList (r0 :: rs)))) with false. cbv iota.
  unfold bind. rewrite mapM_fixed; [reflexivity|].
  intros x Hin s.
  assert (Hx : exists sh, sheet_of sh x).
  { clear -F Hin. induction F as [|a b xs ys Hab F IH]; [contradiction|].
    destruct Hin as [->|Hin]; [eauto|now apply IH]. }
  destruct Hx as (sh & sd & topic & _ & -> & Ht).
  unfold normalized_sheet, py_get_default, py_get. cbn -[_convert_topic].
  unfold bind. rewrite (_convert_topic_of_shaped topic s Ht). reflexivity.
Qed.

(** X6 at work on a sample input. *)
Lemma X6_convert_to_xmind_format_idempotent_witness :
  exists r w',
    convert_to_xmind_format sample_rich_document bare_world = (Return r, w')
    /\ convert_to_xmind_format r bare_world = (Return r, bare_world).
Proof.
  do 2 eexists. split; [vm_compute; reflexivity|].
  eapply (X6_convert_to_xmind_format_idempotent sample_rich_document _ bare_world _).
  vm_compute. reflexivity.
Defined.

End NormalizerExtras.

(* ===================================================================== *)
(** * The normalizer and the entropy source *)
(* ===================================================================== *)

Module Entropy.
Import Effects Frames DataFormatConverter.

#[global] Instance same_entropy_preorder : PreOrder same_entropy.
Proof.
  split.
  - intros w. split; reflexivity.
  - intros a b c [H1 H2] [H3 H4]. split; congruence.
Qed.

(** *** Nothing but [os.urandom] moves the cursor *)

Ltac entropy_leaf :=
  apply preserves_modify;
  let w := fresh "w" in intros w; destruct w; split; reflexivity.

Ltac entropy_pres := pres_gen entropy_leaf.

Lemma entropy_emit e : preserves same_entropy (emit e).
Proof. unfold emit. entropy_pres. Qed.
#[export] Hint Resolve entropy_emit : pres.
Lemma entropy_os_stat p : preserves same_entropy (os_stat p).
Proof. unfold os_stat. entropy_pres. Qed.
#[export] Hint Resolve entropy_os_stat : pres.
Lemma entropy_os_path_exists p : preserves same_entropy (os_path_exists p).
Proof. unfold os_path_exists. entropy_pres. Qed.
#[export] Hint Resolve entropy_os_path_exists : pres.
Lemma entropy_os_path_getsize p : preserves same_entropy (os_path_getsize p).
Proof. unfold os_path_getsize. entropy_pres. Qed.
#[export] Hint Resolve entropy_os_path_getsize : pres.
Lemma entropy_ZipFile p : preserves same_entropy (ZipFile p).
Proof. unfold ZipFile. entropy_pres. Qed.
#[export] Hint Resolve entropy_ZipFile : pres.
Lemma entropy_mkdtemp : preserves same_entropy mkdtemp.
Proof. unfold mkdtemp. entropy_pres. Qed.
#[export] Hint Resolve entropy_mkdtemp : pres.
Lemma entropy_extractall p a d : preserves same_entropy (extractall p a d).
Proof. unfold extractall. entropy_pres. Qed.
#[export] Hint Resolve entropy_extractall : pres.
Lemma entropy_os_listdir d : preserves same_entropy (os_listdir d).
Proof. unfold os_listdir. entropy_pres. Qed.
#[export] Hint Resolve entropy_os_listdir : pres.
Lemma entropy_os_path_exists_dir d : preserves same_entropy (os_path_exists_dir d).
Proof. unfold os_path_exists_dir. entropy_pres. Qed.
#[export] Hint Resolve entropy_os_path_exists_dir : pres.
Lemma entropy_os_path_exists_in d n : preserves same_entropy (os_path_exists_in d n).
Proof. unfold os_path_exists_in. entropy_pres. Qed.
#[export] Hint Resolve entropy_os_path_exists_in : pres.
Lemma entropy_json_load d n : preserves same_entropy (json_load d n).
Proof. unfold json_load. entropy_pres. Qed.
#[export] Hint Resolve entropy_json_load : pres.
Lemma entropy_shutil_rmtree d : preserves same_entropy (shutil_rmtree d).
Proof. unfold shutil_rmtree. entropy_pres. Qed.
#[export] Hint Resolve entropy_shutil_rmtree : pres.
Lemma entropy_time_time : preserves same_entropy time_time.
Proof. unfold time_time. entropy_pres. Qed.
#[export] Hint Resolve entropy_time_time : pres.

Section WithFloatStr.
Context {float_repr : PyFloatStr}.

Lemma entropy_get_file_cache_key p : preserves same_entropy (_get_file_cache_key p).
Proof. unfold _get_file_cache_key. entropy_pres. Qed.
Lemma entropy_get_cached_data p : preserves same_entropy (_get_cached_data p).
Proof. pose proof entropy_get_file_cache_key. unfold _get_cached_data. entropy_pres. Qed.
Lemma entropy_set_cached_data p v : preserves same_entropy (_set_cached_data p v).
Proof. pose proof entropy_get_file_cache_key. unfold _set_cached_data. entropy_pres. Qed.

End WithFloatStr.

Lemma entropy_validate_xmind_file p : preserves same_entropy (validate_xmind_file p).
Proof. unfold validate_xmind_file. entropy_pres. Qed.
#[export] Hint Resolve entropy_validate_xmind_file : pres.

Lemma entropy_parse_content_json d :
  preserves same_entropy (ContentJsonParser.parse_content_json d).
Proof.
  unfold ContentJsonParser.parse_content_json, ContentJsonParser._load_additional_data,
    ContentJsonParser._validate_content_structure.
  entropy_pres.
Qed.
#[export] Hint Resolve entropy_parse_content_json : pres.

(** *** The normalizer reads nothing else *)

Lemma determined_ret {A} (a : A) : entropy_determined (ret a).
Proof. intros w1 w2 H. split; [reflexivity|exact H]. Qed.

Lemma determined_raise {A} (e : exn) : entropy_determined (@raise World A e).
Proof. intros w1 w2 H. split; [reflexivity|exact H]. Qed.

Lemma determined_bind {A B} (m : M World A) (k : A -> M World B) :
  entropy_determined m -> (forall a, entropy_determined (k a)) ->
  entropy_determined (bind m k).
Proof.
  intros Hm Hk w1 w2 H. unfold bind. destruct (Hm w1 w2 H) as [Ho Hs].
  destruct (m w1) as [[a|e] s1], (m w2) as [[a'|e'] s2]; simpl in *; try discriminate.
  - injection Ho as <-. apply Hk, Hs.
  - injection Ho as <-. split; [reflexivity|exact Hs].
Qed.

Lemma determined_mapM {A B} (f : A -> M World B) (xs : list A) :
  (forall x, In x xs -> entropy_determined (f x)) -> entropy_determined (mapM f xs).
Proof.
  induction xs as [|x xs IH]; intros H; simpl.
  - apply determined_ret.
  - apply determined_bind; [apply H; now left|]. intros y.
    apply determined_bind; [apply IH; intros z Hz; apply H; now right|].
    intros ys. apply determined_ret.
Qed.

Lemma determined_os_urandom16 : entropy_determined os_urandom16.
Proof.
  intros w1 w2 [Hu Hp]. destruct w1, w2. simpl in Hu, Hp. subst.
  unfold os_urandom16, bind, gets, modify, ret, same_entropy. simpl.
  repeat split.
Qed.

Ltac determined :=
  repeat first
    [ assumption
    | apply determined_ret
    | apply determined_raise
    | apply determined_os_urandom16
    | apply determined_bind; [|intro]
    | apply determined_mapM; intros ? ?
    | match goal with
      | |- entropy_determined (if ?b then _ else _) => destruct b
      | |- entropy_determined (match ?x with _ => _ end) => destruct x
      end ].

Lemma determined__convert_topic_rec (fuel : nat) :
  forall t, entropy_determined (_convert_topic_rec fuel t).
Proof.
  induction fuel as [|fuel IH]; intros t; simpl; [apply determined_raise|].
  unfold convert_topic_body. determined; apply IH.
Qed.

Lemma determined__convert_topic (t : pyval) : entropy_determined (_convert_topic t).
Proof. apply determined__convert_topic_rec. Qed.

Lemma determined_convert_to_xmind_format (v : pyval) :
  entropy_determined (convert_to_xmind_format v).
Proof.
  pose proof determined__convert_topic as H.
  unfold convert_to_xmind_format, py_contains_str, py_getitem_str, py_iter.
  determined; apply H.
Qed.

(** X7: the normalizer asks nothing of the system but random bytes.  The
    outcome of [convert_to_xmind_format] is decided by the document and by
    the entropy it finds: in two worlds with the same entropy stream and
    cursor it ends the same way.  And it leaves the files, the temporary
    directories, the cache, the clock and the trace of system calls
    exactly as they were; only the cursor in the entropy stream can have
    moved. *)
Theorem X7_normalizer_reads_only_entropy (content : pyval) (w1 w2 : World) :
  same_entropy w1 w2 ->
  fst (convert_to_xmind_format content w1) = fst (convert_to_xmind_format content w2)
  /\ only_entropy w1 (snd (convert_to_xmind_format content w1)).
Proof.
  intros H. split.
  - exact (proj1 (determined_convert_to_xmind_format content w1 w2 H)).
  - apply only_entropy_convert_to_xmind_format.
Qed.

(** X7 at work on a sample input. *)
Lemma X7_normalizer_reads_only_entropy_witness :
  fst (convert_to_xmind_format sample_rich_document bare_world)
  = fst (convert_to_xmind_format sample_rich_document (world_with NotJson))
  /\ only_entropy bare_world
       (snd (convert_to_xmind_format sample_rich_document bare_world)).
Proof.
  apply (X7_normalizer_reads_only_entropy sample_rich_document bare_world
           (world_with NotJson)).
  split; reflexivity.
Defined.

End Entropy.

(* ===================================================================== *)
(** * A load that goes through *)
(* ===================================================================== *)

Module LoadSuccess.
Import Effects Frames LoaderFrames Triples Cleanup CacheFacts CacheRuns CacheClaims.
Import ErrorKinds LoadResults Entropy NormalizerShape.

#[local] Arguments dir_exists : simpl never.
#[local] Arguments dir_files : simpl never.

(** *** The parser *)

Lemma parse_content_json_run (d : nat) (w : World) :
  fst (ContentJsonParser.parse_content_json d w) = parse_outcome w d.
Proof.
  unfold parse_outcome, ContentJsonParser.parse_content_json,
    ContentJsonParser._load_additional_data, os_path_exists_in, json_load,
    try_except, bind, raise_if, emit, modify, gets, ret, raise.
  destruct w as [fs0 ds nx mk fails rk clk cp ur up ch mx tr]. cbn.
  destruct (dir_files ds d) as [ms|] eqn:Ed; cbn; [|reflexivity].
  unfold dict_mem. destruct (dict_get ms "content.json") as [c|] eqn:Ec; cbn; [|reflexivity].
  rewrite ?Ed, ?Ec. cbn.
  destruct c as [root| | |]; cbn; [|reflexivity|reflexivity|reflexivity].
  unfold ContentJsonParser._validate_content_structure.
  destruct root as [| | | | |[|x xs]|dd]; cbn; try reflexivity.
  - rewrite ?Ed. destruct (dict_get ms "metadata.json") as [[m| | |]|] eqn:Em; cbn;
      rewrite ?Ed; cbn; rewrite ?Em; cbn; reflexivity.
  - destruct (dict_get dd "sheets") as [[| | | | |[|y ys]|]|]; cbn; try reflexivity.
    rewrite ?Ed. destruct (dict_get ms "metadata.json") as [[m| | |]|] eqn:Em; cbn;
      rewrite ?Ed; cbn; rewrite ?Em; cbn; reflexivity.
Qed.

(** *** The walk *)

Section WithFloatStr.
Context {float_repr : PyFloatStr}.

(** The steps that leave alone the files, the loader's file and debug
    switch, the entropy and the cache. *)
Abbreviation steady :=
  (rel_and proc_env (rel_and (on_world same_entropy) (on_world same_cache))).

(** The steps that also leave the temporary directories alone. *)
Abbreviation steady_tree := (rel_and steady (on_world same_dirs)).

Lemma steady__extract_xmind_file : preserves steady XmindFileLoader._extract_xmind_file.
Proof. unfold XmindFileLoader._extract_xmind_file. pres_proc. Qed.

Lemma log_parse_time_returns (start : Z) (content : pyval) (s : Proc) :
  (enable_debug (debugger (self s)) = true ->
   forall s' : Proc,
     exists st, fst (XmindLoaderDebugger._analyze_content_structure content s') = Return st) ->
  exists u, fst (XmindLoaderDebugger.log_parse_time start content s) = Return u.
Proof.
  destruct s as [w [xf td cd [en di]]]. cbn [self debugger enable_debug]. intros H.
  unfold XmindLoaderDebugger.log_parse_time, time_time, set_debug_info, set_self, liftW,
    bind, gets, modify, ret.
  destruct en; cbn -[XmindLoaderDebugger._analyze_content_structure];
    [|eexists; reflexivity].
  match goal with
  | |- context [XmindLoaderDebugger._analyze_content_structure content ?s0] =>
      destruct (H eq_refl s0) as [st Hst];
      destruct (XmindLoaderDebugger._analyze_content_structure content s0) as [o s1]
  end.
  simpl in Hst. subst o. eexists. reflexivity.
Qed.

(** *** What the debugger records *)

#[global] Instance same_debugger_preorder : PreOrder same_debugger.
Proof.
  split; [intros l; reflexivity|].
  intros a b c H1 H2. unfold same_debugger in *. congruence.
Qed.

Lemma debugger__extract_xmind_file :
  preserves (on_self same_debugger) XmindFileLoader._extract_xmind_file.
Proof. unfold XmindFileLoader._extract_xmind_file. pres_proc. Qed.

Lemma debugger__cleanup : preserves (on_self same_debugger) XmindFileLoader._cleanup.
Proof. unfold XmindFileLoader._cleanup. pres_proc. Qed.

Lemma start_debug_records (file : string) (s : Proc) (f : File) :
  enable_debug (debugger (self s)) = true ->
  fs (world s) file = Some f ->
  file_size (debug_info (debugger (self (snd (XmindLoaderDebugger.start_debug file s)))))
  = st_size f.
Proof.
  destruct s as [w [xf td cd [en di]]].
  destruct w as [fs0 ds nx mk fails rk clk cp ur up c mx tr]. cbn. intros -> Hf.
  unfold XmindLoaderDebugger.start_debug, os_path_getsize, time_time, set_debug_info,
    set_self, liftW, bind, gets, modify, emit, ret, raise.
  cbn. rewrite ?Hf. reflexivity.
Qed.

Lemma log_extract_time_records (start : Z) (files : list string) (s : Proc) :
  enable_debug (debugger (self s)) = true ->
  let i := debug_info (debugger (self s)) in
  let i' := debug_info (debugger (self (snd (XmindLoaderDebugger.log_extract_time
                                                start files s)))) in
  file_size i' = file_size i /\ extracted_files i' = files.
Proof.
  destruct s as [w [xf td cd [en di]]]. cbn. intros ->.
  unfold XmindLoaderDebugger.log_extract_time, time_time, set_debug_info,
    set_self, liftW, bind, gets, modify, ret.
  cbn. split; reflexivity.
Qed.

Lemma log_parse_time_records (start : Z) (content : pyval) (s : Proc) :
  enable_debug (debugger (self s)) = true ->
  (forall s' : Proc,
     exists st, fst (XmindLoaderDebugger._analyze_content_structure content s') = Return st) ->
  let i := debug_info (debugger (self s)) in
  let i' := debug_info (debugger (self (snd (XmindLoaderDebugger.log_parse_time
                                                start content s)))) in
  file_size i' = file_size i /\ extracted_files i' = extracted_files i
  /\ exists s' : Proc,
       fst (XmindLoaderDebugger._analyze_content_structure content s')
       = Return (content_structure i').
Proof.
  destruct s as [w [xf td cd [en di]]]. cbn [self debugger enable_debug debug_info].
  intros -> H. cbv zeta.
  unfold XmindLoaderDebugger.log_parse_time, time_time, set_debug_info, set_self, liftW,
    bind, gets, modify, ret.
  cbn -[XmindLoaderDebugger._analyze_content_structure].
  match goal with
  | |- context [XmindLoaderDebugger._analyze_content_structure content ?s0] =>
      destruct (H s0) as [st Hst];
      pose proof (pure__analyze_content_structure (on_self same_debugger) content s0) as Hd;
      destruct (XmindLoaderDebugger._analyze_content_structure content s0) as [o s1] eqn:E
  end.
  simpl in Hst. subst o. unfold on_self, same_debugger in Hd.
  cbn [fst snd self debugger debug_info file_size extracted_files content_structure] in *.
  rewrite Hd. cbn. split; [reflexivity|]. split; [reflexivity|].
  eexists. rewrite E. reflexivity.
Qed.

Lemma dir_files_exists (ds : list (nat * list (string * file_content))) (d : nat)
    (ms : list (string * file_content)) :
  dir_files ds d = Some ms -> dir_exists ds d = true.
Proof.
  unfold dir_files, dir_exists. induction ds as [|x ds IH]; simpl; [discriminate|].
  destruct (Nat.eqb (fst x) d); [reflexivity|exact IH].
Qed.

(** One step of a walk, with the assertion it starts from and the one it
    leaves. *)
Lemma hoare_bind_step {S A B} (I I' : S -> Prop) (Q : outcome B -> S -> Prop)
    (m : M S A) (k : A -> M S B) :
  (forall s, I s -> exists a, fst (m s) = Return a /\ I' (snd (m s))) ->
  (forall a, hoare I' (k a) Q) ->
  hoare I (bind m k) Q.
Proof.
  intros Hm Hk s Hs. unfold bind. destruct (Hm s Hs) as (a & Ha & HI').
  destruct (m s) as [[a'|e] s1]; simpl in *; [|discriminate].
  apply Hk, HI'.
Qed.

(** A load that misses the cache, of a sound archive whose payload the
    parser accepts and the normalizer converts: what it returns, and what
    its debugger has recorded when it runs. *)
Lemma load_walk (debug : bool) (p0 : Proc) (f : File) (a : Archive) (root doc : pyval) :
  0 < _cache_max_size (world p0) ->
  dict_get (_file_cache (world p0)) (fingerprint (world p0) (xmind_file (self p0))) = None ->
  fs (world p0) (xmind_file (self p0)) = Some f ->
  archive_ok (world p0) (xmind_file (self p0)) = true ->
  zip f = Some a ->
  mkdtemp_error (world p0) (tmp_next (world p0)) = None ->
  dir_exists (tmp_dirs (world p0)) (tmp_next (world p0)) = false ->
  extractall_error a = None ->
  dict_get (write_all [] (written a)) "content.json" = Some (Json root) ->
  schema_ok root = true ->
  (instrumented debug (self p0) = true ->
   forall s' : Proc,
     exists st, fst (XmindLoaderDebugger._analyze_content_structure root s') = Return st) ->
  fst (DataFormatConverter.convert_to_xmind_format root (world p0)) = Return doc ->
  let p' := snd (XmindFileLoader.load debug p0) in
  fst (XmindFileLoader.load debug p0) = Return doc
  /\ content_data (self p') = doc
  /\ (instrumented debug (self p0) = true ->
      file_size (debug_info (debugger (self p'))) = st_size f
      /\ extracted_files (debug_info (debugger (self p')))
         = listing (listdir_rank (world p0)) (map fst (write_all [] (written a)))
      /\ exists s' : Proc,
           fst (XmindLoaderDebugger._analyze_content_structure root s')
           = Return (content_structure (debug_info (debugger (self p'))))).
Proof.
  intros Hpos Hmiss Hf Hok Hz Hmk Hnew He Hc Hschema Hstats Hconv. cbv zeta.
  pose proof (archive_ok_open _ _ _ Hok Hf) as Hopen.
  set (names := listing (listdir_rank (world p0)) (map fst (write_all [] (written a)))).
  set (on := instrumented debug (self p0) = true).
  set (Dsize := fun s : Proc =>
                  on -> file_size (debug_info (debugger (self s))) = st_size f).
  set (Dfiles := fun s : Proc =>
                   on -> extracted_files (debug_info (debugger (self s))) = names).
  set (Dstruct := fun s : Proc =>
                    on -> exists s' : Proc,
                      fst (XmindLoaderDebugger._analyze_content_structure root s')
                      = Return (content_structure (debug_info (debugger (self s))))).
  set (I := fun s : Proc => steady_tree p0 s).
  set (I1 := fun s : Proc => steady_tree p0 s /\ Dsize s).
  set (T := fun (d : nat) (s : Proc) =>
              steady p0 s
              /\ dir_files (tmp_dirs (world s)) d = Some (write_all [] (written a))).
  set (J1 := fun (d : nat) (s : Proc) => T d s /\ Dsize s).
  set (J2 := fun (d : nat) (s : Proc) => T d s /\ Dsize s /\ Dfiles s).
  set (J3 := fun (d : nat) (s : Proc) => T d s /\ Dsize s /\ Dfiles s /\ Dstruct s).
  set (Q := fun (o : outcome pyval) (s : Proc) =>
              o = Return doc /\ content_data (self s) = doc
              /\ (on -> file_size (debug_info (debugger (self s))) = st_size f
                        /\ extracted_files (debug_info (debugger (self s))) = names
                        /\ exists s' : Proc,
                             fst (XmindLoaderDebugger._analyze_content_structure root s')
                             = Return (content_structure
                                         (debug_info (debugger (self s)))))).
  assert (Istep : forall s s', I s -> steady_tree s s' -> I s').
  { intros s s' H1 H2. unfold I. etransitivity; eassumption. }
  assert (Tstep : forall d s s', T d s -> steady_tree s s' -> T d s').
  { intros d s s' [H1 Hd] [H2 [E _]]. split; [etransitivity; eassumption|].
    unfold on_world in E. now rewrite E. }
  assert (Dkeep : forall s s', on_self same_debugger s s' ->
            (Dsize s -> Dsize s') /\ (Dfiles s -> Dfiles s') /\ (Dstruct s -> Dstruct s')).
  { intros s s' E. unfold on_self, same_debugger in E.
    unfold Dsize, Dfiles, Dstruct. rewrite E. auto. }
  assert (I1step : forall s s',
            I1 s -> rel_and steady_tree (on_self same_debugger) s s' -> I1 s').
  { intros s s' [H1 H2] [R1 R2]. split; [now apply (Istep s)|].
    now apply (proj1 (Dkeep s s' R2)). }
  assert (J1step : forall d s s',
            J1 d s -> rel_and steady_tree (on_self same_debugger) s s' -> J1 d s').
  { intros d s s' [H1 H2] [R1 R2]. split; [now apply (Tstep d s)|].
    now apply (proj1 (Dkeep s s' R2)). }
  assert (J2step : forall d s s',
            J2 d s -> rel_and steady_tree (on_self same_debugger) s s' -> J2 d s').
  { intros d s s' (H1 & H2 & H3) [R1 R2]. destruct (Dkeep s s' R2) as (K1 & K2 & _).
    split; [now apply (Tstep d s)|]. auto. }
  assert (J3step : forall d s s',
            J3 d s -> rel_and steady_tree (on_self same_debugger) s s' -> J3 d s').
  { intros d s s' (H1 & H2 & H3 & H4) [R1 R2]. destruct (Dkeep s s' R2) as (K1 & K2 & K3).
    split; [now apply (Tstep d s)|]. auto. }
  assert (Ifs : forall s, steady p0 s -> fs (world s) = fs (world p0)).
  { intros s [[(H & _) _] _]. exact H. }
  assert (Irank : forall s, steady p0 s -> listdir_rank (world s) = listdir_rank (world p0)).
  { intros s [[(_ & _ & _ & _ & _ & _ & H) _] _]. exact H. }
  assert (Imk : forall s, steady p0 s -> mkdtemp_error (world s) = mkdtemp_error (world p0)).
  { intros s [[(_ & _ & _ & _ & _ & H & _) _] _]. exact H. }
  assert (Ifile : forall s, steady p0 s -> xmind_file (self s) = xmind_file (self p0)).
  { intros s [[_ [H _]] _]. exact H. }
  assert (Iflag : forall s, steady p0 s ->
            enable_debug (debugger (self s)) = enable_debug (debugger (self p0))).
  { intros s [[_ [_ H]] _]. exact H. }
  assert (Hon : on -> debug = true /\ enable_debug (debugger (self p0)) = true).
  { unfold on, instrumented. intros H. now apply andb_true_iff in H. }
  assert (H : hoare I (XmindFileLoader.load debug) Q).
  2:{ apply (H p0). unfold I. reflexivity. }
  pose proof steady__extract_xmind_file. pose proof debugger__extract_xmind_file.
  unfold XmindFileLoader.load.
  (* start_debug *)
  apply (hoare_bind_step I I1).
  { intros s Hs. pose proof (proj1 Hs) as Hs0.
    assert (Hret : exists u,
              fst ((if debug then
                      file <- gets (fun p => xmind_file (self p)) ;;
                      XmindLoaderDebugger.start_debug file
                    else ret tt) s) = Return u).
    { destruct debug; [|eexists; reflexivity].
      rewrite bind_run. cbn [gets fst snd].
      apply start_debug_returns. intros _.
      rewrite (Ifs s Hs0), (Ifile s Hs0), Hf. discriminate. }
    destruct Hret as [u Hu]. exists u. split; [exact Hu|]. split.
    - assert (Hpres : preserves steady_tree
                (if debug then
                   file <- gets (fun p => xmind_file (self p)) ;;
                   XmindLoaderDebugger.start_debug file
                 else ret tt)) by pres_proc.
      exact (Istep s _ Hs (Hpres s)).
    - intros Hinst. destruct (Hon Hinst) as [-> Hen].
      rewrite bind_run. cbn [gets fst snd].
      apply start_debug_records; [now rewrite (Iflag s Hs0)|].
      now rewrite (Ifs s Hs0), (Ifile s Hs0). }
  intros _.
  apply (hoare_bind_value (rel_and steady_tree (on_self same_debugger)) I1 _ _ _
           (xmind_file (self p0))); [pres_proc|exact I1step| |].
  { intros s [[Hs _] _]. unfold gets. simpl. now rewrite (Ifile s Hs). }
  apply (hoare_bind_value (rel_and steady_tree (on_self same_debugger)) I1 _ _ _ None);
    [pres_proc|exact I1step| |].
  { intros s [[Hs _] _]. rewrite fst_liftW, _get_cached_data_run. simpl.
    destruct Hs as [[(Hfs & _) _] [_ Hcache]]. unfold on_world, same_cache in Hcache.
    rewrite Hcache, (fingerprint_ext _ _ _ Hfs). now rewrite Hmiss. }
  cbv beta iota.
  apply (hoare_try_except I1 Q Q).
  2:{ intros r s Hs. exact Hs. }
  2:{ intros e s [Hs _]. discriminate. }
  apply (hoare_bind_value (rel_and steady_tree (on_self same_debugger)) I1 _ _ _
           (xmind_file (self p0))); [pres_proc|exact I1step| |].
  { intros s [[Hs _] _]. unfold gets. simpl. now rewrite (Ifile s Hs). }
  apply (hoare_bind_value (rel_and steady_tree (on_self same_debugger)) I1 _ _ _ true);
    [pres_proc|exact I1step| |].
  { intros s [[Hs _] _]. rewrite fst_liftW, validate_verdict.
    now rewrite (archive_ok_ext _ _ _ (Ifs s Hs)), Hok. }
  apply (hoare_bind_value (rel_and steady_tree (on_self same_debugger)) I1 _ _ _ tt);
    [pres_proc|exact I1step| |].
  { intros s _. reflexivity. }
  apply (hoare_bind_returns (rel_and steady_tree (on_self same_debugger)) I1);
    [pres_proc|exact I1step| |intros t0].
  { intros s _. apply time_time_returns. }
  (* the extraction *)
  apply (hoare_bind I1 (fun o s => exists d, o = Return d /\ J1 d s)).
  { intros s [[Hs [Hdirs Hnext]] HD]. unfold on_world in Hdirs, Hnext.
    assert (Hfs : fs (world s) (xmind_file (self s)) = Some f)
      by now rewrite (Ifs s Hs), (Ifile s Hs).
    assert (Hmk' : mkdtemp_error (world s) (tmp_next (world s)) = None)
      by now rewrite (Imk s Hs), Hnext.
    assert (Hnew' : dir_exists (tmp_dirs (world s)) (tmp_next (world s)) = false)
      by now rewrite Hdirs, Hnext.
    destruct (_extract_xmind_file_ok s f a Hfs Hopen Hz He Hmk' Hnew') as [Hr Hd].
    exists (tmp_next (world s)). split; [exact Hr|]. split; [split; [|exact Hd]|].
    - etransitivity; [exact Hs|]. apply steady__extract_xmind_file.
    - exact (proj1 (Dkeep _ _ (debugger__extract_xmind_file s)) HD). }
  { intros e s (d & Hd & _). discriminate. }
  intros d.
  apply (hoare_conseq (J1 d) _ Q Q); [|intros s (d' & [= <-] & Hd); exact Hd|auto].
  apply (hoare_bind_value (rel_and steady_tree (on_self same_debugger)) (J1 d) _ _ _ true);
    [pres_proc|exact (J1step d)| |].
  { intros [w l] [[_ Hd] _]. simpl in Hd.
    unfold liftW, os_path_exists_dir, bind, gets, emit, modify, ret.
    destruct w as [fs0 ds nx mk fails rk clk cp ur up ch mx tr]. cbn in *.
    now rewrite (dir_files_exists _ _ _ Hd). }
  apply (hoare_bind_value (rel_and steady_tree (on_self same_debugger)) (J1 d) _ _ _
           names); [pres_proc|exact (J1step d)| |].
  { intros [w l] [[Hs Hd] _]. pose proof (Irank _ Hs) as Hrk. simpl in Hd, Hrk.
    unfold liftW, os_listdir, bind, gets, emit, modify, ret.
    destruct w as [fs0 ds nx mk fails rk clk cp ur up ch mx tr]. cbn in *.
    rewrite Hd. cbn. unfold names. now rewrite Hrk. }
  (* log_extract_time *)
  apply (hoare_bind_step (J1 d) (J2 d)).
  { intros s [HT HD].
    assert (Hret : exists u,
              fst ((if debug
                    then XmindLoaderDebugger.log_extract_time t0 names
                    else ret tt) s) = Return u).
    { destruct debug; [apply log_extract_time_returns|eexists; reflexivity]. }
    destruct Hret as [u Hu]. exists u. split; [exact Hu|].
    assert (Hpres : preserves steady_tree
              (if debug
               then XmindLoaderDebugger.log_extract_time t0 names
               else ret tt)) by pres_proc.
    split; [exact (Tstep d s _ HT (Hpres s))|].
    split; intros Hinst; destruct (Hon Hinst) as [-> Hen];
      destruct (log_extract_time_records t0 names s) as [E1 E2];
      try (now rewrite (Iflag s (proj1 HT))).
    - rewrite E1. now apply HD.
    - exact E2. }
  intros _.
  apply (hoare_bind_returns (rel_and steady_tree (on_self same_debugger)) (J2 d));
    [pres_proc|exact (J2step d)| |intros start].
  { intros s _. apply time_time_returns. }
  apply (hoare_bind_value (rel_and steady_tree (on_self same_debugger)) (J2 d) _ _ _ root);
    [pres_proc|exact (J2step d)| |].
  { intros s [[_ Hd] _]. rewrite fst_liftW, parse_content_json_run. unfold parse_outcome.
    now rewrite Hd, Hc, Hschema. }
  (* log_parse_time *)
  apply (hoare_bind_step (J2 d) (J3 d)).
  { intros s (HT & HD & HF).
    assert (Hret : exists u,
              fst ((if debug then XmindLoaderDebugger.log_parse_time start root
                    else ret tt) s) = Return u).
    { destruct debug; [|eexists; reflexivity].
      apply log_parse_time_returns. intros Hen. apply Hstats.
      unfold instrumented. rewrite <- (Iflag s (proj1 HT)), Hen. reflexivity. }
    destruct Hret as [u Hu]. exists u. split; [exact Hu|].
    assert (Hpres : preserves steady_tree
              (if debug then XmindLoaderDebugger.log_parse_time start root
               else ret tt)) by pres_proc.
    split; [exact (Tstep d s _ HT (Hpres s))|].
    assert (Hrec : on ->
              let i := debug_info (debugger (self s)) in
              let i' := debug_info (debugger (self (snd (XmindLoaderDebugger.log_parse_time
                                                            start root s)))) in
              file_size i' = file_size i /\ extracted_files i' = extracted_files i
              /\ exists s' : Proc,
                   fst (XmindLoaderDebugger._analyze_content_structure root s')
                   = Return (content_structure i')).
    { intros Hinst. destruct (Hon Hinst) as [_ Hen].
      apply log_parse_time_records; [now rewrite (Iflag s (proj1 HT))|].
      now apply Hstats. }
    split; [|split]; intros Hinst; destruct (Hrec Hinst) as (E1 & E2 & E3);
      destruct (Hon Hinst) as [-> _].
    - rewrite E1. now apply HD.
    - rewrite E2. now apply HF.
    - exact E3. }
  intros _.
  (* the conversion and the end *)
  apply (hoare_bind _ (fun o s => o = Return doc /\ 0 < _cache_max_size (world s)
                                  /\ Dsize s /\ Dfiles s /\ Dstruct s)).
  { intros s ([Hs _] & HD & HF & HS). split; [|split].
    - rewrite fst_liftW.
      destruct Hs as [_ [Hent _]]. unfold on_world in Hent.
      rewrite <- (proj1 (determined_convert_to_xmind_format root _ _ Hent)).
      exact Hconv.
    - destruct Hs as [[(_ & _ & _ & _ & Hmax & _) _] _].
      pose proof (env_convert_to_xmind_format root (world s)) as (_ & _ & _ & _ & Hmax' & _).
      unfold liftW. destruct (DataFormatConverter.convert_to_xmind_format root (world s)).
      simpl in *. lia.
    - assert (E : on_self same_debugger s
                    (snd (liftW (DataFormatConverter.convert_to_xmind_format root) s))).
      { unfold on_self, same_debugger, liftW.
        destruct (DataFormatConverter.convert_to_xmind_format root (world s)). reflexivity. }
      destruct (Dkeep _ _ E) as (K1 & K2 & K3). auto. }
  { intros e s [Hs _]. discriminate. }
  intros converted s ([= ->] & Hm & HD & HF & HS).
  destruct (store_and_return doc s Hm) as (p' & e & Hrun & Hcd & _).
  assert (Hkeep : preserves (on_self same_debugger)
            (set_content_data doc ;;
             file <- gets (fun p => xmind_file (self p)) ;;
             result <- gets (fun p => content_data (self p)) ;;
             liftW (_set_cached_data file result) ;;
             XmindFileLoader._cleanup ;;
             gets (fun p => content_data (self p)))).
  { pose proof debugger__cleanup. pres_proc. }
  specialize (Hkeep s). rewrite Hrun in Hkeep. cbn [snd] in Hkeep.
  destruct (Dkeep _ _ Hkeep) as (K1 & K2 & K3).
  unfold Q. rewrite Hrun. cbn [fst snd]. split; [reflexivity|]. split; [exact Hcd|].
  intros Hinst. split; [now apply K1|]. split; [now apply K2|now apply K3].
Qed.

(** A load that misses the cache, of a sound archive whose payload the
    parser accepts and the normalizer converts. *)
Lemma load_returns (debug : bool) (p0 : Proc) (f : File) (a : Archive) (root doc : pyval) :
  0 < _cache_max_size (world p0) ->
  dict_get (_file_cache (world p0)) (fingerprint (world p0) (xmind_file (self p0))) = None ->
  fs (world p0) (xmind_file (self p0)) = Some f ->
  archive_ok (world p0) (xmind_file (self p0)) = true ->
  zip f = Some a ->
  mkdtemp_error (world p0) (tmp_next (world p0)) = None ->
  dir_exists (tmp_dirs (world p0)) (tmp_next (world p0)) = false ->
  extractall_error a = None ->
  dict_get (write_all [] (written a)) "content.json" = Some (Json root) ->
  schema_ok root = true ->
  (instrumented debug (self p0) = true ->
   forall s' : Proc,
     exists st, fst (XmindLoaderDebugger._analyze_content_structure root s') = Return st) ->
  fst (DataFormatConverter.convert_to_xmind_format root (world p0)) = Return doc ->
  fst (XmindFileLoader.load debug p0) = Return doc
  /\ content_data (self (snd (XmindFileLoader.load debug p0))) = doc.
Proof.
  intros Hpos Hmiss Hf Hok Hz Hmk Hnew He Hc Hschema Hstats Hconv.
  destruct (load_walk debug p0 f a root doc Hpos Hmiss Hf Hok Hz Hmk Hnew He Hc Hschema
              Hstats Hconv) as (H1 & H2 & _).
  split; assumption.
Qed.

(** *** The listing of a directory *)

Lemma insert_by_rank_perm (rank : string -> nat) (x : string) (xs : list string) :
  Permutation (insert_by_rank rank x xs) (x :: xs).
Proof.
  induction xs as [|y ys IH]; simpl; [reflexivity|].
  destruct (Nat.leb (rank x) (rank y)); [reflexivity|].
  rewrite IH. apply perm_swap.
Qed.

Lemma listing_perm (rank : string -> nat) (names : list string) :
  Permutation (listing rank names) names.
Proof.
  induction names as [|x xs IH]; simpl; [reflexivity|].
  rewrite insert_by_rank_perm. now constructor.
Qed.

Lemma dict_set_keys {V} (d : list (string * V)) (k : string) (v : V) (x : string) :
  In x (dict_keys (dict_set d k v)) <-> x = k \/ In x (dict_keys d).
Proof.
  induction d as [|[k' v'] d IH]; simpl.
  - split; [intros [H|[]]; now left|intros [H|[]]; now left].
  - destruct (String.eqb_spec k' k) as [->|Hne]; simpl.
    + split; [intros [H|H]; [now left|right; now right]|].
      intros [H|[H|H]]; auto.
    + rewrite IH. split; [intros [H|[H|H]]|intros [H|[H|H]]]; auto.
Qed.

Lemma dict_set_NoDup {V} (d : list (string * V)) (k : string) (v : V) :
  NoDup (dict_keys d) -> NoDup (dict_keys (dict_set d k v)).
Proof.
  induction d as [|[k' v'] d IH]; simpl; intros H.
  - constructor; [intros []|constructor].
  - inversion H as [|? ? Hnotin Hnd]; subst.
    destruct (String.eqb_spec k' k) as [->|Hne]; simpl.
    + now constructor.
    + constructor; [|now apply IH].
      change (~ In k' (dict_keys (dict_set d k v))). rewrite dict_set_keys.
      intros [->|Hin]; [now apply Hne|contradiction].
Qed.

(** A directory written into holds each name once. *)
Lemma write_all_NoDup (writes files : list (string * file_content)) :
  NoDup (dict_keys files) -> NoDup (dict_keys (write_all files writes)).
Proof.
  unfold write_all. revert files.
  induction writes as [|[k v] ws IH]; intros files H; simpl; [exact H|].
  apply IH. now apply dict_set_NoDup.
Qed.

(** X8: the outcome of [parse_content_json] is decided by [content.json]
    alone.  With no [content.json] in the directory it raises
    [FileNotFoundError]; text that is not JSON gives [ValueError]; bytes
    that are not UTF-8, an entry that is a folder, and JSON that fails the
    structure check, give [RuntimeError] (the check's own [ValueError] is
    caught and replaced);
    JSON that passes the check is returned as it is.  Whether
    [metadata.json] is there, and whether it can be read, changes nothing.
    The parse writes nothing: files, directories and cache are as before. *)
Theorem X8_parse_content_json_outcome (d : nat) (w : World) :
  fst (ContentJsonParser.parse_content_json d w) = parse_outcome w d
  /\ (forall w2 ms ms2,
        dir_files (tmp_dirs w) d = Some ms ->
        dir_files (tmp_dirs w2) d = Some ms2 ->
        dict_get ms2 "content.json" = dict_get ms "content.json" ->
        fst (ContentJsonParser.parse_content_json d w2)
        = fst (ContentJsonParser.parse_content_json d w))
  /\ same_env w (snd (ContentJsonParser.parse_content_json d w))
  /\ same_dirs w (snd (ContentJsonParser.parse_content_json d w))
  /\ same_cache w (snd (ContentJsonParser.parse_content_json d w)).
Proof.
  split; [apply parse_content_json_run|]. split.
  - intros w2 ms ms2 Hd Hd2 Hsame. rewrite !parse_content_json_run.
    unfold parse_outcome. now rewrite Hd, Hd2, Hsame.
  - split; [apply env_parse_content_json|].
    split; [apply dirs_parse_content_json|apply cache_parse_content_json].
Qed.

(** X9: what a load returns.  When the loader's file is not in the cache,
    passes the validation, is extracted without error into a directory
    [mkdtemp] has created, and the [content.json] that the extraction has
    left there (of two entries of that name, the one written last) decodes
    to [root], passes the structure check and is converted to [doc] by the
    normalizer, then [load] returns [doc], and [doc] is what the loader's
    [content_data] and [getData] give afterwards.  (The capacity of the
    cache is positive, as in the source; when the debugger runs, its
    statistics are taken to go through.) *)
Theorem X9_load_returns_normalized_payload
    (debug : bool) (p : Proc) (f : File) (a : Archive) (root doc : pyval) :
  0 < _cache_max_size (world p) ->
  dict_get (_file_cache (world p)) (fingerprint (world p) (xmind_file (self p))) = None ->
  fs (world p) (xmind_file (self p)) = Some f ->
  archive_ok (world p) (xmind_file (self p)) = true ->
  zip f = Some a ->
  mkdtemp_error (world p) (tmp_next (world p)) = None ->
  dir_exists (tmp_dirs (world p)) (tmp_next (world p)) = false ->
  extractall_error a = None ->
  dict_get (write_all [] (written a)) "content.json" = Some (Json root) ->
  schema_ok root = true ->
  (instrumented debug (self p) = true ->
   forall s' : Proc,
     exists st, fst (XmindLoaderDebugger._analyze_content_structure root s') = Return st) ->
  fst (DataFormatConverter.convert_to_xmind_format root (world p)) = Return doc ->
  let p' := snd (XmindFileLoader.load debug p) in
  fst (XmindFileLoader.load debug p) = Return doc
  /\ content_data (self p') = doc
  /\ XmindFileLoader.getData (self p') = doc.
Proof.
  intros Hpos Hmiss Hf Hok Hz Hmk Hnew He Hc Hschema Hstats Hconv. cbv zeta.
  destruct (load_returns debug p f a root doc Hpos Hmiss Hf Hok Hz Hmk Hnew He Hc Hschema
              Hstats Hconv) as [Hret Hcd].
  split; [exact Hret|]. split; [exact Hcd|].
  unfold XmindFileLoader.getData. rewrite Hcd.
  destruct (DataFormatConverter.convert_to_xmind_format root (world p)) as [o w1] eqn:E.
  simpl in Hconv. subst o.
  destruct (convert_to_xmind_format_sheets _ _ _ _ E) as (items & rs & -> & F & Hitems).
  rewrite (Hitems Hschema) in F.
  destruct rs as [|r0 rs]; [|reflexivity].
  exfalso. inversion F as [Hnil|]. clear -Hnil Hschema.
  destruct root as [| | | | |[|x xs]|d]; try discriminate.
  simpl in *. destruct (dict_get d "sheets") as [[| | | | |[|y ys]|]|]; discriminate.
Qed.

(** X10: the length of what the module's [load] returns is the number of
    sheets.  Under the conditions of a load that goes through, [load]
    (with or without [enable_debug]) returns a wrapper around the
    normalized document, and [len] of the wrapper is the number of sheets
    of the payload, which is at least one.  The payload is the
    [content.json] the extraction has left in the directory. *)
Theorem X10_len_of_loaded_workbook
    (file : string) (debug : bool) (w : World) (f : File) (a : Archive) (root doc : pyval) :
  0 < _cache_max_size w ->
  dict_get (_file_cache w) (fingerprint w file) = None ->
  fs w file = Some f ->
  archive_ok w file = true ->
  zip f = Some a ->
  mkdtemp_error w (tmp_next w) = None ->
  dir_exists (tmp_dirs w) (tmp_next w) = false ->
  extractall_error a = None ->
  dict_get (write_all [] (written a)) "content.json" = Some (Json root) ->
  schema_ok root = true ->
  fst (DataFormatConverter.convert_to_xmind_format root w) = Return doc ->
  fst (load file debug w) = Return {| XmindWorkbookWrapper._data := doc |}
  /\ (forall s : World,
        XmindWorkbookWrapper.__len__ {| XmindWorkbookWrapper._data := doc |} s
        = (Return (List.length (raw_sheets root)), s))
  /\ 1 <= List.length (raw_sheets root).
Proof.
  intros Hpos Hmiss Hf Hok Hz Hmk Hnew He Hc Hschema Hconv.
  destruct (load_returns debug {| world := w; self := XmindFileLoader.__init__ file false |}
              f a root doc Hpos Hmiss Hf Hok Hz Hmk Hnew He Hc Hschema) as [Hret _].
  { unfold instrumented. simpl. rewrite andb_false_r. discriminate. }
  { exact Hconv. }
  assert (Hdoc : exists rs, doc = PyList rs /\ List.length rs = List.length (raw_sheets root)
                            /\ rs <> []).
  { destruct (DataFormatConverter.convert_to_xmind_format root w) as [o w1] eqn:E.
    simpl in Hconv. subst o.
    destruct (convert_to_xmind_format_sheets _ _ _ _ E) as (items & rs & -> & F & Hitems).
    rewrite (Hitems Hschema) in F. exists rs. split; [reflexivity|].
    pose proof (Forall2_length F) as Hlen. split; [now symmetry|].
    intros ->. simpl in Hlen. clear -Hlen Hschema.
    destruct root as [| | | | |[|x xs]|d]; try discriminate.
    simpl in *. destruct (dict_get d "sheets") as [[| | | | |[|y ys]|]|]; discriminate. }
  destruct Hdoc as (rs & -> & Hlen & Hne).
  split; [|split].
  - unfold load.
    destruct (XmindFileLoader.load debug _) as [o p']. simpl in Hret. now subst o.
  - intros s. unfold XmindWorkbookWrapper.__len__. simpl.
    destruct rs as [|r0 rs]; [contradiction|]. simpl. now rewrite <- Hlen.
  - rewrite <- Hlen. destruct rs; [contradiction|simpl; lia].
Qed.

(** X11: what the debugger has recorded after a load that goes through.
    When [load(True)] runs on a loader constructed with [enable_debug],
    under the conditions of a load that goes through, the debugger's
    records hold the size of the file; the names at the top of the
    extraction directory, each once and in the order in which the file
    system lists them (a folder of the archive shows as one name, whatever
    it holds); and the statistics of the payload as it was parsed, that is
    before it was normalized. *)
Theorem X11_debugger_records
    (debug : bool) (p : Proc) (f : File) (a : Archive) (root doc : pyval)
    (st : nat * nat * nat) :
  instrumented debug (self p) = true ->
  0 < _cache_max_size (world p) ->
  dict_get (_file_cache (world p)) (fingerprint (world p) (xmind_file (self p))) = None ->
  fs (world p) (xmind_file (self p)) = Some f ->
  archive_ok (world p) (xmind_file (self p)) = true ->
  zip f = Some a ->
  mkdtemp_error (world p) (tmp_next (world p)) = None ->
  dir_exists (tmp_dirs (world p)) (tmp_next (world p)) = false ->
  extractall_error a = None ->
  dict_get (write_all [] (written a)) "content.json" = Some (Json root) ->
  schema_ok root = true ->
  (forall s' : Proc,
     fst (XmindLoaderDebugger._analyze_content_structure root s') = Return st) ->
  fst (DataFormatConverter.convert_to_xmind_format root (world p)) = Return doc ->
  let i := debug_info (debugger (self (snd (XmindFileLoader.load debug p)))) in
  let top := dict_keys (write_all [] (written a)) in
  fst (XmindFileLoader.load debug p) = Return doc
  /\ file_size i = st_size f
  /\ extracted_files i = listing (listdir_rank (world p)) top
  /\ Permutation (extracted_files i) top
  /\ NoDup (extracted_files i)
  /\ content_structure i = st.
Proof.
  intros Hon Hpos Hmiss Hf Hok Hz Hmk Hnew He Hc Hschema Hstats Hconv. cbv zeta.
  destruct (load_walk debug p f a root doc Hpos Hmiss Hf Hok Hz Hmk Hnew He Hc Hschema
              (fun _ s' => ex_intro _ st (Hstats s')) Hconv)
    as (Hret & _ & Hrec).
  destruct (Hrec Hon) as (H1 & H2 & s' & H3).
  split; [exact Hret|]. split; [exact H1|]. split; [exact H2|].
  rewrite H2. split; [apply listing_perm|]. split.
  - apply (Permutation_NoDup (Permutation_sym (listing_perm _ _))).
    apply write_all_NoDup. constructor.
  - rewrite Hstats in H3. now injection H3.
Qed.

End WithFloatStr.

(** An archive with a folder, [metadata.json], and two entries named
    [content.json]: the payload [{}], then [payload]. *)
Lemma X11_debugger_records_witness :
  let archive :=
    {| testzip := None;
       namelist := ["content.json"; "metadata.json"; "resources/a.png";
                    "resources/b.png"; "content.json"];
       written := [("content.json", Json (PyDict [])); ("metadata.json", NotJson);
                   ("resources", Folder); ("resources", Folder);
                   ("content.json", Json sample_rich_document)];
       extractall_error := None |} in
  let file :=
    {| st_mtime := S754_zero false; st_size := 2048; open_error := None;
       zip := Some archive |} in
  let p := {| world := world_of "doc.xmind" file;
              self := XmindFileLoader.__init__ "doc.xmind" true |} in
  let i := debug_info (debugger (self (snd (XmindFileLoader.load
                                              (float_repr := sample_float_str) true p)))) in
  file_size i = 2048%Z
  /\ extracted_files i = ["resources"; "content.json"; "metadata.json"]
  /\ content_structure i = (2, 1, 0).
Proof.
  cbv zeta.
  set (archive :=
         {| testzip := None;
            namelist := ["content.json"; "metadata.json"; "resources/a.png";
                         "resources/b.png"; "content.json"];
            written := [("content.json", Json (PyDict [])); ("metadata.json", NotJson);
                        ("resources", Folder); ("resources", Folder);
                        ("content.json", Json sample_rich_document)];
            extractall_error := None |}).
  set (file :=
         {| st_mtime := S754_zero false; st_size := 2048; open_error := None;
            zip := Some archive |}).
  destruct (DataFormatConverter.convert_to_xmind_format sample_rich_document
              (world_of "doc.xmind" file)) as [o w1] eqn:E.
  assert (Ho : exists doc, o = Return doc).
  { assert (E' : fst (DataFormatConverter.convert_to_xmind_format sample_rich_document
                        (world_of "doc.xmind" file)) = o) by now rewrite E.
    vm_compute in E'. eexists. symmetry. exact E'. }
  destruct Ho as [doc ->].
  destruct (X11_debugger_records (float_repr := sample_float_str) true
              {| world := world_of "doc.xmind" file;
                 self := XmindFileLoader.__init__ "doc.xmind" true |}
              file archive sample_rich_document doc (2, 1, 0))
    as (_ & H1 & H2 & _ & _ & H3).
  - reflexivity.
  - simpl. lia.
  - reflexivity.
  - reflexivity.
  - vm_compute. reflexivity.
  - reflexivity.
  - reflexivity.
  - reflexivity.
  - reflexivity.
  - reflexivity.
  - reflexivity.
  - intros s'. reflexivity.
  - change (fst (DataFormatConverter.convert_to_xmind_format sample_rich_document
                   (world_of "doc.xmind" file)) = Return doc).
    now rewrite E.
  - split; [exact H1|]. split; [exact H2|exact H3].
Defined.

(** X9 at work: an archive with two entries named [content.json], the
    payload [{}] and then a sound document. *)
Lemma X9_load_returns_witness :
  let archive :=
    {| testzip := None; namelist := ["content.json"; "content.json"];
       written := [("content.json", Json (PyDict []));
                   ("content.json", Json sample_document)];
       extractall_error := None |} in
  let file :=
    {| st_mtime := S754_zero false; st_size := 2048; open_error := None;
       zip := Some archive |} in
  let p := {| world := world_of "doc.xmind" file;
              self := XmindFileLoader.__init__ "doc.xmind" false |} in
  exists doc,
    fst (XmindFileLoader.load (float_repr := sample_float_str) false p) = Return doc
    /\ XmindFileLoader.getData (self (snd (XmindFileLoader.load (float_repr := sample_float_str) false p))) = doc.
Proof.
  cbv zeta.
  set (archive :=
         {| testzip := None; namelist := ["content.json"; "content.json"];
            written := [("content.json", Json (PyDict []));
                        ("content.json", Json sample_document)];
            extractall_error := None |}).
  set (file :=
         {| st_mtime := S754_zero false; st_size := 2048; open_error := None;
            zip := Some archive |}).
  destruct (DataFormatConverter.convert_to_xmind_format sample_document
              (world_of "doc.xmind" file)) as [o w1] eqn:E.
  assert (Ho : exists doc, o = Return doc).
  { assert (E' : fst (DataFormatConverter.convert_to_xmind_format sample_document
                        (world_of "doc.xmind" file)) = o) by now rewrite E.
    vm_compute in E'. eexists. symmetry. exact E'. }
  destruct Ho as [doc ->]. exists doc.
  destruct (X9_load_returns_normalized_payload (float_repr := sample_float_str) false
              {| world := world_of "doc.xmind" file;
                 self := XmindFileLoader.__init__ "doc.xmind" false |}
              file archive sample_document doc) as (H1 & _ & H3).
  - simpl. lia.
  - reflexivity.
  - reflexivity.
  - vm_compute. reflexivity.
  - reflexivity.
  - reflexivity.
  - reflexivity.
  - reflexivity.
  - reflexivity.
  - reflexivity.
  - intros H. discriminate H.
  - change (fst (DataFormatConverter.convert_to_xmind_format sample_document
                   (world_of "doc.xmind" file)) = Return doc).
    now rewrite E.
  - split; assumption.
Defined.

(** X10 at work on a sample input. *)
Lemma X10_len_of_loaded_workbook_witness :
  exists doc,
    fst (load (float_repr := sample_float_str) "doc.xmind" true (world_with (Json sample_rich_document)))
    = Return {| XmindWorkbookWrapper._data := doc |}
    /\ XmindWorkbookWrapper.__len__ {| XmindWorkbookWrapper._data := doc |} bare_world
       = (Return 2, bare_world).
Proof.
  destruct (DataFormatConverter.convert_to_xmind_format sample_rich_document
              (world_with (Json sample_rich_document))) as [o w1] eqn:E.
  assert (Ho : exists doc, o = Return doc).
  { assert (E' : fst (DataFormatConverter.convert_to_xmind_format sample_rich_document
                        (world_with (Json sample_rich_document))) = o) by now rewrite E.
    vm_compute in E'. eexists. symmetry. exact E'. }
  destruct Ho as [doc ->]. exists doc.
  destruct (X10_len_of_loaded_workbook (float_repr := sample_float_str) "doc.xmind" true
              (world_with (Json sample_rich_document))
              (sample_file (Json sample_rich_document))
              (sample_archive (Json sample_rich_document))
              sample_rich_document doc) as (H1 & H2 & _).
  - simpl. lia.
  - reflexivity.
  - reflexivity.
  - vm_compute. reflexivity.
  - reflexivity.
  - reflexivity.
  - reflexivity.
  - reflexivity.
  - reflexivity.
  - reflexivity.
  - now rewrite E.
  - split; [exact H1|]. apply H2.
Defined.

End LoadSuccess.

(* ===================================================================== *)
(** * Synthesized identifiers *)
(* ===================================================================== *)

Module IdentifierFacts.
Import StringFacts.

Lemma append_empty_r (s : string) : (s ++ "")%string = s.
Proof. induction s as [|c s IH]; simpl; [reflexivity|now rewrite IH]. Qed.

Lemma append_assoc (a b c : string) : ((a ++ b) ++ c)%string = (a ++ (b ++ c))%string.
Proof. induction a as [|x a IH]; simpl; [reflexivity|now rewrite IH]. Qed.

Lemma substring_0_append (a b : string) :
  substring 0 (String.length a) (a ++ b) = a.
Proof.
  induction a as [|x a IH]; simpl.
  - destruct b; reflexivity.
  - now rewrite IH.
Qed.

Lemma append_inj (a a' b b' : string) :
  String.length a = String.length a' ->
  (a ++ b)%string = (a' ++ b')%string -> a = a' /\ b = b'.
Proof.
  revert a'. induction a as [|x a IH]; intros [|x' a']; simpl; try discriminate.
  - intros _ H. now split.
  - intros L H. injection L as L. injection H as -> H.
    destruct (IH a' L H) as [-> ->]. now split.
Qed.

(** The dashes taken out of [str(u)], what is left is the 32 digits. *)
Lemma uuid_hex (u : N) : replace "-" "" (Uuid.str u) = Uuid.hex 32 u.
Proof.
  unfold Uuid.str.
  pose proof (hex_avoids_dash 32 u) as Hav.
  pose proof (length_hex 32 u) as Hlen.
  set (h := Uuid.hex 32 u) in *. clearbody h.
  repeat rewrite replace_append.
  repeat (rewrite (replace_avoids "-" "" (substring _ _ h))
            by (apply avoids_substring; exact Hav)).
  change (replace "-" "" "-") with "". clear Hav.
  do 32 (destruct h as [|? h]; [discriminate Hlen|]).
  destruct h; [reflexivity|discriminate Hlen].
Qed.

Lemma hex_split (k w : nat) : forall n,
  Uuid.hex (w + k) n = (Uuid.hex w (n / 16 ^ N.of_nat k) ++ Uuid.hex k n)%string.
Proof.
  induction k as [|k IH]; intros n.
  - rewrite Nat.add_0_r. simpl. now rewrite N.div_1_r, append_empty_r.
  - rewrite Nat.add_succ_r.
    change (Uuid.hex (S (w + k)) n)
      with (Uuid.hex (w + k) (n / 16) ++ String (Uuid.hex_digit (n mod 16)) "")%string.
    change (Uuid.hex (S k) n)
      with (Uuid.hex k (n / 16) ++ String (Uuid.hex_digit (n mod 16)) "")%string.
    rewrite IH, append_assoc, Nat2N.inj_succ, N.pow_succ_r', N.Div0.div_div.
    reflexivity.
Qed.

(** The identifier is the leading 26 digits of the UUID. *)
Lemma fresh_topic_id_hex (r : N) : fresh_topic_id r = Uuid.hex 26 (id_bits r).
Proof.
  unfold fresh_topic_id, id_bits. rewrite uuid_hex.
  change 32 with (26 + 6).
  rewrite (hex_split 6 26 (Uuid.uuid4_int r)).
  rewrite N.shiftr_div_pow2.
  change (16 ^ N.of_nat 6)%N with (2 ^ 24)%N.
  rewrite <- (length_hex 26 (Uuid.uuid4_int r / 2 ^ 24)) at 1.
  apply substring_0_append.
Qed.

Lemma hex_digit_is_hex (n : N) : is_hex_digit (Uuid.hex_digit n) = true.
Proof.
  unfold Uuid.hex_digit. generalize (N.to_nat n). intros k.
  do 16 (destruct k as [|k]; [reflexivity|]).
  destruct k; reflexivity.
Qed.

Lemma all_hex_append (a b : string) : all_hex (a ++ b) = andb (all_hex a) (all_hex b).
Proof.
  induction a as [|x a IH]; simpl; [reflexivity|]. now rewrite IH, andb_assoc.
Qed.

Lemma all_hex_hex (w : nat) : forall n, all_hex (Uuid.hex w n) = true.
Proof.
  induction w as [|w IH]; intros n; simpl; [reflexivity|].
  rewrite all_hex_append, IH. simpl. now rewrite hex_digit_is_hex.
Qed.

Lemma hex_digit_inj (n m : N) :
  (n < 16)%N -> (m < 16)%N -> Uuid.hex_digit n = Uuid.hex_digit m -> n = m.
Proof.
  intros Hn Hm. unfold Uuid.hex_digit. intros H.
  apply N2Nat.inj.
  assert (Ha : N.to_nat n < 16) by lia. assert (Hb : N.to_nat m < 16) by lia.
  revert Ha Hb H. generalize (N.to_nat n) (N.to_nat m). clear. intros a b Ha Hb.
  do 16 (destruct a as [|a];
         [do 16 (destruct b as [|b]; [first [reflexivity|discriminate]|]); lia|]).
  lia.
Qed.

Lemma hex_inj (w : nat) : forall n m,
  (n < 16 ^ N.of_nat w)%N -> (m < 16 ^ N.of_nat w)%N ->
  Uuid.hex w n = Uuid.hex w m -> n = m.
Proof.
  induction w as [|w IH]; intros n m Hn Hm H.
  - simpl in Hn, Hm. lia.
  - simpl in H. rewrite Nat2N.inj_succ, N.pow_succ_r' in Hn, Hm.
    apply append_inj in H as [H1 H2]; [|now rewrite !length_hex].
    injection H2 as H2.
    apply hex_digit_inj in H2; try (apply N.mod_lt; lia).
    apply IH in H1; try (apply N.Div0.div_lt_upper_bound; lia).
    rewrite (N.div_mod n 16), (N.div_mod m 16) by lia. now rewrite H1, H2.
Qed.

Lemma uuid4_int_bound (r : N) : (Uuid.uuid4_int r < 2 ^ 128)%N.
Proof.
  unfold Uuid.uuid4_int. cbv zeta.
  set (i := (r mod 2 ^ 128)%N).
  assert (Hi : (i < 2 ^ 128)%N) by (apply N.mod_lt; lia).
  set (x := N.ldiff _ (N.shiftl 61440 64)).
  assert (Hx : (N.log2 x < 128)%N).
  { eapply N.le_lt_trans; [apply N.log2_le_mono, N.ldiff_le_l|].
    rewrite N.log2_lor. apply N.max_lub_lt; [|vm_compute; reflexivity].
    eapply N.le_lt_trans; [apply N.log2_le_mono, N.ldiff_le_l|].
    destruct (N.eq_dec i 0) as [->|Hne]; [vm_compute; reflexivity|].
    apply N.log2_lt_pow2; lia. }
  apply N.log2_lt_pow2.
  - apply N.neq_0_lt_0. intros H0. apply N.lor_eq_0_iff in H0 as [_ H0]. discriminate H0.
  - rewrite N.log2_lor. apply N.max_lub_lt; [exact Hx|vm_compute; reflexivity].
Qed.

Lemma id_bits_bound (r : N) : (id_bits r < 16 ^ 26)%N.
Proof.
  unfold id_bits. rewrite N.shiftr_div_pow2.
  apply N.Div0.div_lt_upper_bound.
  change (2 ^ 24 * 16 ^ 26)%N with (2 ^ 128)%N. apply uuid4_int_bound.
Qed.

(** Two draws give the same identifier exactly when they agree on the
    bits that reach it. *)
Lemma fresh_topic_id_inj (r1 r2 : N) :
  fresh_topic_id r1 = fresh_topic_id r2 <-> id_bits r1 = id_bits r2.
Proof.
  rewrite !fresh_topic_id_hex. split; [|now intros ->].
  apply (hex_inj 26); apply id_bits_bound.
Qed.

End IdentifierFacts.

Module SynthesizedFacts.
Import DataFormatConverter ConvertTopicFacts NormalizerFacts NormalizerShape IdentifierFacts.

Lemma set_urandom_pos_0 (w : World) : w = set_urandom_pos w (urandom_pos w + 0).
Proof. destruct w. unfold set_urandom_pos. simpl. now rewrite Nat.add_0_r. Qed.

Lemma drawn_ids_app (w : World) (k1 k2 : nat) :
  (drawn_ids w k1 ++ drawn_ids (set_urandom_pos w (urandom_pos w + k1)) k2)%list
  = drawn_ids w (k1 + k2).
Proof.
  unfold drawn_ids. destruct w; simpl. now rewrite seq_app, map_app.
Qed.

Lemma set_urandom_pos_twice (w : World) (k1 k2 : nat) :
  set_urandom_pos (set_urandom_pos w (urandom_pos w + k1))
    (urandom_pos (set_urandom_pos w (urandom_pos w + k1)) + k2)
  = set_urandom_pos w (urandom_pos w + (k1 + k2)).
Proof. destruct w. unfold set_urandom_pos. simpl. now rewrite Nat.add_assoc. Qed.

(** A loop whose every turn draws its identifiers from the cursor on. *)
Lemma mapM_draws {A} (f : A -> M World pyval) (syn : A -> pyval -> list pyval)
    (xs : list A) :
  (forall x, In x xs -> forall w r w', f x w = (Return r, w') ->
     exists k, w' = set_urandom_pos w (urandom_pos w + k) /\ syn x r = drawn_ids w k) ->
  forall w rs w', mapM f xs w = (Return rs, w') ->
    exists k, w' = set_urandom_pos w (urandom_pos w + k)
              /\ flat_map (fun ab => syn (fst ab) (snd ab)) (combine xs rs) = drawn_ids w k.
Proof.
  induction xs as [|x xs IH]; intros Hf w rs w' H; simpl in H.
  - unfold ret in H. injection H as <- <-. exists 0. split; [apply set_urandom_pos_0|reflexivity].
  - unfold bind in H. destruct (f x w) as [[r|e] w1] eqn:Ex; [|discriminate].
    destruct (mapM f xs w1) as [[rs'|e] w2] eqn:Em; [|discriminate].
    unfold ret in H. injection H as <- <-.
    destruct (Hf x (or_introl eq_refl) _ _ _ Ex) as (k1 & -> & H1).
    destruct (IH (fun y Hy => Hf y (or_intror Hy)) _ _ _ Em) as (k2 & -> & H2).
    exists (k1 + k2). split; [apply set_urandom_pos_twice|].
    simpl. rewrite H1, H2. apply drawn_ids_app.
Qed.

Lemma skipn_length_app {A} (xs ys : list A) : skipn (List.length xs) (xs ++ ys) = ys.
Proof. induction xs as [|x xs IH]; simpl; [reflexivity|exact IH]. Qed.

(** The identifiers synthesized by one conversion are those of the draws
    it has taken, in order. *)
Lemma _convert_topic_rec_draws (fuel : nat) :
  forall t w r w', _convert_topic_rec fuel t w = (Return r, w') ->
    exists k, w' = set_urandom_pos w (urandom_pos w + k)
              /\ synthesized_rec fuel t r = drawn_ids w k.
Proof.
  induction fuel as [|fuel IH]; intros t w r w' H; [discriminate|].
  simpl in H. unfold convert_topic_body in H. simpl synthesized_rec.
  destruct (negb (truthy t)) eqn:Et.
  - injection H as <- <-. exists 1. split; [now rewrite Nat.add_1_r|reflexivity].
  - destruct t as [| | | | | |d]; try discriminate.
    unfold attached_children, legacy_children.
    set (conv := match py_get d "children" with
                 | PyDict children =>
                     match py_get children "attached" with
                     | PyList attached => mapM (_convert_topic_rec fuel) attached
                     | _ => ret []
                     end
                 | _ => ret []
                 end) in H.
    unfold bind in H. destruct (conv w) as [[converted|e] w1] eqn:Ec; [|discriminate].
    unfold ret in H. injection H as <- <-.
    cbn [py_field]. unfold py_get at 1. cbn [dict_get String.eqb Ascii.eqb Bool.eqb].
    rewrite skipn_length_app.
    subst conv.
    destruct (py_get d "children") as [| | | | | |children];
      try (injection Ec as <- <-; exists 0; split; [apply set_urandom_pos_0|reflexivity]).
    destruct (py_get children "attached") as [| | | | |attached|];
      try (injection Ec as <- <-; exists 0; split; [apply set_urandom_pos_0|reflexivity]).
    apply (mapM_draws (_convert_topic_rec fuel) (synthesized_rec fuel) attached); [|exact Ec].
    intros x _. apply IH.
Qed.

Lemma _convert_topic_draws (t : pyval) (w : World) (r : pyval) (w' : World) :
  _convert_topic t w = (Return r, w') ->
  exists k, w' = set_urandom_pos w (urandom_pos w + k)
            /\ synthesized_ids t r = drawn_ids w k.
Proof. apply _convert_topic_rec_draws. Qed.

Lemma combine_nil_r {A B} (xs : list A) : combine xs (@nil B) = [].
Proof. destruct xs; reflexivity. Qed.

Lemma legacy_sheet_step_draws (sheets : list pyval) (sheet : pyval) (w : World)
    (r : pyval) (w' : World) :
  legacy_sheet_step sheet w = (Return r, w') ->
  exists k, w' = set_urandom_pos w (urandom_pos w + k)
            /\ synthesized_ids (raw_sheet_topic (PyList sheets) sheet) (py_field r "topic")
               = drawn_ids w k.
Proof.
  destruct sheet as [| | | | | |s]. 1-6: discriminate.
  unfold bind.
  destruct (_convert_topic _ w) as [[topic|e] w1] eqn:Et; [|discriminate].
  intros [= <- <-]. exact (_convert_topic_draws _ _ _ _ Et).
Qed.

Lemma modern_sheet_step_draws (d : list (string * pyval)) (sheet : pyval) (w : World)
    (r : pyval) (w' : World) :
  modern_sheet_step sheet w = (Return r, w') ->
  exists k, w' = set_urandom_pos w (urandom_pos w + k)
            /\ synthesized_ids (raw_sheet_topic (PyDict d) sheet) (py_field r "topic")
               = drawn_ids w k.
Proof.
  destruct sheet as [| | | | | |s]. 1-6: discriminate.
  unfold bind.
  destruct (_convert_topic _ w) as [[topic|e] w1] eqn:Et; [|discriminate].
  intros [= <- <-]. exact (_convert_topic_draws _ _ _ _ Et).
Qed.

(** The items of an object payload's loop are its raw sheets, when the
    loop goes through. *)
Lemma modern_items (x : pyval) (w w1 w2 : World) (items rs : list pyval) :
  py_iter x w = (Return items, w1) ->
  mapM modern_sheet_step items w1 = (Return rs, w2) ->
  w1 = w /\ items = match x with PyList sheets => sheets | _ => [] end.
Proof.
  destruct x as [| | | |s|xs|d']; intros Ei Em. 1-4: discriminate Ei.
  - injection Ei as <- <-. split; [reflexivity|].
    destruct (code_points s) as [|c cs]; [reflexivity|discriminate Em].
  - injection Ei as <- <-. split; reflexivity.
  - injection Ei as <- <-. split; [reflexivity|].
    destruct d' as [|kv d']; [reflexivity|discriminate Em].
Qed.

(** The same for a document. *)
Lemma convert_to_xmind_format_draws (content : pyval) (w : World) (doc : pyval) (w' : World) :
  convert_to_xmind_format content w = (Return doc, w') ->
  exists k, w' = set_urandom_pos w (urandom_pos w + k)
            /\ document_synthesized_ids content doc = drawn_ids w k.
Proof.
  assert (Hnone : forall c, document_synthesized_ids c (PyList []) = drawn_ids w 0).
  { intros c. unfold document_synthesized_ids. now rewrite combine_nil_r. }
  unfold convert_to_xmind_format.
  destruct (truthy content) eqn:Et; simpl.
  2:{ intros [= <- <-]. exists 0. split; [apply set_urandom_pos_0|apply Hnone]. }
  destruct content as [| | | |str|sheets|d]; try discriminate.
  - simpl. destruct (str_contains "sheets" str); simpl; [discriminate|].
    intros [= <- <-]. exists 0. split; [apply set_urandom_pos_0|apply Hnone].
  - unfold bind. destruct (mapM _ sheets w) as [[rs|e] w1] eqn:Em; [|discriminate].
    intros [= <- <-].
    exact (mapM_draws _
             (fun sheet out => synthesized_ids (raw_sheet_topic (PyList sheets) sheet)
                                 (py_field out "topic")) sheets
             (fun x _ => legacy_sheet_step_draws sheets x) _ _ _ Em).
  - simpl. destruct (dict_mem d "sheets") eqn:Emem; simpl.
    2:{ intros [= <- <-]. exists 0. split; [apply set_urandom_pos_0|apply Hnone]. }
    unfold bind.
    destruct (dict_get d "sheets") as [x|] eqn:Eg; simpl; [|discriminate].
    destruct (py_iter x w) as [[items|e] w1] eqn:Ei; [|discriminate].
    destruct (mapM _ items w1) as [[rs|e] w2] eqn:Em; [|discriminate].
    intros [= <- <-].
    destruct (modern_items _ _ _ _ _ _ Ei Em) as [-> Hitems].
    pose proof (mapM_draws _
             (fun sheet out => synthesized_ids (raw_sheet_topic (PyDict d) sheet)
                                 (py_field out "topic")) items
             (fun x _ => modern_sheet_step_draws d x) _ _ _ Em) as (k & Hk & Hids).
    exists k. split; [exact Hk|].
    unfold document_synthesized_ids, raw_sheets. rewrite Eg, <- Hids, Hitems.
    destruct x; reflexivity.
Qed.

Lemma NoDup_map_iff {A B C} (f : A -> B) (g : A -> C) (l : list A) :
  (forall x y, f x = f y <-> g x = g y) ->
  NoDup (map f l) <-> NoDup (map g l).
Proof.
  intros H. induction l as [|x l IH]; simpl; [split; constructor|].
  assert (Hin : In (f x) (map f l) <-> In (g x) (map g l)).
  { rewrite !in_map_iff. split; intros (y & Hy & Hl); exists y; split; auto; now apply H. }
  split; intros Hnd; inversion Hnd; subst; constructor; tauto.
Qed.

(** The identifiers are distinct exactly when the draws are, in the bits
    that reach an identifier. *)
Lemma drawn_ids_NoDup (w : World) (k : nat) :
  NoDup (drawn_ids w k)
  <-> NoDup (map (fun q => id_bits (urandom w q)) (seq (urandom_pos w) k)).
Proof.
  assert (Hstr : forall a b : string, PyStr a = PyStr b <-> a = b).
  { intros a b. split; [now intros [= ->]|now intros ->]. }
  unfold drawn_ids.
  apply (NoDup_map_iff (fun q => PyStr (fresh_topic_id (urandom w q)))
           (fun q => id_bits (urandom w q))).
  intros x y. rewrite Hstr. apply fresh_topic_id_inj.
Qed.

End SynthesizedFacts.

Module Identifiers.
Import DataFormatConverter ConvertTopicFacts NormalizerFacts IdentifierFacts SynthesizedFacts
  LoadSuccess.

Section WithFloatStr.
Context {float_repr : PyFloatStr}.

(** C1 (amended): the identifiers of topics.  What the normalizer puts
    under ["id"]: for a missing or empty raw topic, an identifier it
    synthesizes from sixteen random bytes, 26 lower-case hexadecimal
    digits long (so not empty); for a non-empty object, the raw ["id"]
    value when the key is there and the empty string when it is not:
    nothing is synthesized then.  A non-empty value that is not an object
    is refused with [AttributeError]; an object converts exactly when its
    attached children do.

    Two synthesized identifiers are equal exactly when the two draws agree
    on [id_bits], the leading 26 hexadecimal digits of the UUID made of
    them.  In one document, the synthesized identifiers are those of the
    consecutive draws the conversion takes, one draw each and in the order
    of the conversion; so they are pairwise distinct exactly when these
    draws are pairwise distinct in their [id_bits].  The same holds of the
    document a load returns, with the draws counted from where the entropy
    source stood when the load began.  Draws that differ can give the same
    identifier: the draws 0 and 1 do. *)
Theorem C1_topic_id (t : pyval) (w : World) :
  match t with
  | PyDict (kv :: d) =>
      match mapM _convert_topic (attached_children (kv :: d)) w with
      | (Return _, w') =>
          exists r, _convert_topic t w = (Return r, w') /\
                    py_field r "id" = py_get_default (kv :: d) "id" (PyStr "")
      | (Raise e, w') => _convert_topic t w = (Raise e, w')
      end
  | _ =>
      if truthy t then _convert_topic t w = (Raise AttributeError, w)
      else
        let topic_id := fresh_topic_id (urandom w (urandom_pos w)) in
        _convert_topic t w
          = (Return (empty_topic topic_id), set_urandom_pos w (S (urandom_pos w)))
        /\ py_field (empty_topic topic_id) "id" = PyStr topic_id
        /\ String.length topic_id = 26
        /\ all_hex topic_id = true
  end
  /\ (forall r1 r2 : N, fresh_topic_id r1 = fresh_topic_id r2 <-> id_bits r1 = id_bits r2)
  /\ (forall content doc w',
        convert_to_xmind_format content w = (Return doc, w') ->
        exists k,
          w' = set_urandom_pos w (urandom_pos w + k)
          /\ document_synthesized_ids content doc = drawn_ids w k
          /\ (NoDup (document_synthesized_ids content doc)
              <-> NoDup (map (fun q => id_bits (urandom w q)) (seq (urandom_pos w) k))))
  /\ (forall (debug : bool) (p : Proc) (f : File) (a : Archive) (root doc : pyval),
        0 < _cache_max_size (world p) ->
        dict_get (_file_cache (world p)) (fingerprint (world p) (xmind_file (self p))) = None ->
        fs (world p) (xmind_file (self p)) = Some f ->
        archive_ok (world p) (xmind_file (self p)) = true ->
        zip f = Some a ->
        mkdtemp_error (world p) (tmp_next (world p)) = None ->
        dir_exists (tmp_dirs (world p)) (tmp_next (world p)) = false ->
        extractall_error a = None ->
        dict_get (write_all [] (written a)) "content.json" = Some (Json root) ->
        schema_ok root = true ->
        (instrumented debug (self p) = true ->
         forall s' : Proc,
           exists st, fst (XmindLoaderDebugger._analyze_content_structure root s') = Return st) ->
        fst (convert_to_xmind_format root (world p)) = Return doc ->
        fst (XmindFileLoader.load debug p) = Return doc
        /\ exists k,
             document_synthesized_ids root doc = drawn_ids (world p) k
             /\ (NoDup (document_synthesized_ids root doc)
                 <-> NoDup (map (fun q => id_bits (urandom (world p) q))
                              (seq (urandom_pos (world p)) k))))
  /\ fresh_topic_id 0 = fresh_topic_id 1.
Proof.
  split; [|split; [|split; [|split]]].
  - assert (Hfalsy : truthy t = false ->
              let topic_id := fresh_topic_id (urandom w (urandom_pos w)) in
              _convert_topic t w
                = (Return (empty_topic topic_id), set_urandom_pos w (S (urandom_pos w)))
              /\ py_field (empty_topic topic_id) "id" = PyStr topic_id
              /\ String.length topic_id = 26
              /\ all_hex topic_id = true).
    { intros H. cbv zeta. split; [now apply _convert_topic_falsy|].
      split; [reflexivity|]. split; [apply StringFacts.length_fresh_topic_id|].
      rewrite fresh_topic_id_hex. apply all_hex_hex. }
    destruct t as [| b | z | f | s | xs | [|kv d]];
      try (destruct (truthy _) eqn:E;
           [now apply _convert_topic_not_dict | now apply Hfalsy]).
    pose proof (_convert_topic_dict kv d w) as H. cbv zeta in H.
    destruct (mapM _convert_topic (attached_children (kv :: d)) w) as [[c|e] w'];
      [|exact H].
    destruct H as (r & Hr & Hid & _). exists (PyDict r). split; assumption.
  - exact fresh_topic_id_inj.
  - intros content doc w' H.
    destruct (convert_to_xmind_format_draws _ _ _ _ H) as (k & Hw & Hids).
    exists k. split; [exact Hw|]. split; [exact Hids|].
    rewrite Hids. apply drawn_ids_NoDup.
  - intros debug p f a root doc Hpos Hmiss Hf Hok Hz Hmk Hnew He Hc Hschema Hstats Hconv.
    split.
    + exact (proj1 (load_returns debug p f a root doc Hpos Hmiss Hf Hok Hz
                      Hmk Hnew He Hc Hschema Hstats Hconv)).
    + destruct (convert_to_xmind_format root (world p)) as [o w'] eqn:E.
      simpl in Hconv. subst o.
      destruct (convert_to_xmind_format_draws _ _ _ _ E) as (k & _ & Hids).
      exists k. split; [exact Hids|]. rewrite Hids. apply drawn_ids_NoDup.
  - apply fresh_topic_id_inj. vm_compute. reflexivity.
Qed.

End WithFloatStr.

(** C1 at work: a document of two sheets, the first without a topic, the
    second with a topic whose attached children are [null] and [{}], over
    an entropy source whose draws differ in their leading bits. *)
Lemma C1_topic_id_witness :
  let content :=
    PyList [PyDict [("title", PyStr "A")];
            PyDict [("title", PyStr "B");
                    ("topic",
                     PyDict [("id", PyStr "t");
                             ("children",
                              PyDict [("attached", PyList [PyNone; PyDict []])])])]] in
  let w := module_init (fun _ => None) (fun _ => None) (fun _ => false) sample_rank
             (fun n => Z.of_nat n) (fun q => N.shiftl (N.of_nat q) 100) in
  exists doc w',
    convert_to_xmind_format content w = (Return doc, w')
    /\ List.length (document_synthesized_ids content doc) = 3
    /\ NoDup (document_synthesized_ids content doc).
Proof.
  cbv zeta. do 2 eexists. split; [vm_compute; reflexivity|].
  match goal with
  | |- List.length (document_synthesized_ids ?c ?d) = _ /\ _ =>
      destruct (C1_topic_id (float_repr := sample_float_str) PyNone
                  (module_init (fun _ => None) (fun _ => None) (fun _ => false) sample_rank
                     (fun n => Z.of_nat n) (fun q => N.shiftl (N.of_nat q) 100)))
        as (_ & _ & Hdoc & _);
      destruct (Hdoc c d _ ltac:(vm_compute; reflexivity)) as (k & Hw & Hids & Hiff)
  end.
  apply (f_equal urandom_pos) in Hw. simpl in Hw. subst k.
  split.
  - rewrite Hids. reflexivity.
  - apply Hiff. vm_compute.
    repeat constructor; simpl; intuition discriminate.
Defined.

End Identifiers.

(* ===================================================================== *)
(** * What a load raises *)
(* ===================================================================== *)

Module Raises.
Import Effects Frames LoaderFrames Triples Cleanup CacheFacts CacheRuns CacheClaims.
Import ErrorKinds.

Section Rules.
Context {S : Type} (P : exn -> Prop).

Lemma raises_ret {A} (a : A) : raises_in P (@ret S A a).
Proof. intros s e H. discriminate. Qed.

Lemma raises_gets {A} (f : S -> A) : raises_in P (gets f).
Proof. intros s e H. discriminate. Qed.

Lemma raises_modify (f : S -> S) : raises_in P (modify f).
Proof. intros s e H. discriminate. Qed.

Lemma raises_raise {A} (e : exn) : P e -> raises_in P (@raise S A e).
Proof. intros He s e' [= <-]. exact He. Qed.

Lemma raises_raise_if (b : bool) (e : exn) : P e -> raises_in P (@raise_if S b e).
Proof. intros He s e' H. destruct b; [|discriminate]. injection H as <-. exact He. Qed.

Lemma raises_bind {A B} (m : M S A) (k : A -> M S B) :
  raises_in P m -> (forall a, raises_in P (k a)) -> raises_in P (bind m k).
Proof.
  intros Hm Hk s e. unfold bind. specialize (Hm s).
  destruct (m s) as [[a|e1] s1]; simpl in *.
  - apply Hk.
  - intros [= <-]. now apply Hm.
Qed.

(** Whatever the body raises, what gets out is what the handler raises. *)
Lemma raises_try_except {A} (P1 : exn -> Prop) (m : M S A) (h : exn -> M S A) :
  raises_in P1 m -> (forall e, P1 e -> raises_in P (h e)) ->
  raises_in P (try_except m h).
Proof.
  intros Hm Hh s e. unfold try_except. specialize (Hm s).
  destruct (m s) as [[a|e1] s1]; simpl in *; [discriminate|].
  apply (Hh e1); now apply Hm.
Qed.

Lemma raises_mapM {A B} (f : A -> M S B) (xs : list A) :
  (forall x, raises_in P (f x)) -> raises_in P (mapM f xs).
Proof.
  intros H. induction xs as [|x xs IH]; simpl.
  - apply raises_ret.
  - apply raises_bind; [apply H|]. intros y.
    apply raises_bind; [exact IH|]. intros ys. apply raises_ret.
Qed.

Lemma raises_fold_left {A B} (step : M S B -> A -> M S B) (xs : list A) :
  (forall acc x, raises_in P acc -> raises_in P (step acc x)) ->
  forall acc, raises_in P acc -> raises_in P (fold_left step xs acc).
Proof. intros Hstep. induction xs as [|x xs IH]; intros acc Hacc; simpl; auto. Qed.

End Rules.

Lemma raises_weaken {S A} (P Q : exn -> Prop) (m : M S A) :
  (forall e, P e -> Q e) -> raises_in P m -> raises_in Q m.
Proof. intros H Hm s e He. apply H, (Hm s e He). Qed.

Lemma raises_liftW {A} (P : exn -> Prop) (m : M World A) :
  raises_in P m -> raises_in P (liftW m).
Proof.
  intros H p e. unfold liftW. specialize (H (world p)).
  destruct (m (world p)) as [o w']. exact (H e).
Qed.

(** Splits a goal along the structure of the computation; an exception
    raised in so many words is checked by computation. *)
Ltac raises_gen extra :=
  unfold emit, py_contains_str, py_getitem_str, py_iter, py_len,
    set_temp_dir, set_content_data, set_debug_info, set_self;
  repeat first
    [ assumption
    | solve [auto 2 with nocore]
    | extra
    | apply raises_ret
    | apply raises_gets
    | apply raises_modify
    | apply raises_raise; first [reflexivity | assumption]
    | apply raises_raise_if; first [reflexivity | assumption]
    | apply raises_bind; [|intro]
    | apply raises_mapM; intro
    | apply raises_liftW
    | match goal with
      | |- raises_in _ (if ?b then _ else _) => destruct b
      | |- raises_in _ (match ?x with _ => _ end) => destruct x
      end ].

Ltac raises := raises_gen fail.

(** *** Calls into the system never raise an [XmindLoadError] *)

Lemma plain_os_stat p : raises_in plain_error (os_stat p).
Proof. unfold os_stat. raises. Qed.
Lemma plain_os_path_exists p : raises_in plain_error (os_path_exists p).
Proof. unfold os_path_exists. raises. Qed.
Lemma plain_os_path_getsize p : raises_in plain_error (os_path_getsize p).
Proof. unfold os_path_getsize. raises. Qed.
Lemma plain_os_listdir d : raises_in plain_error (os_listdir d).
Proof. unfold os_listdir. raises. Qed.
Lemma plain_os_path_exists_dir d : raises_in plain_error (os_path_exists_dir d).
Proof. unfold os_path_exists_dir. raises. Qed.
Lemma plain_time_time : raises_in plain_error time_time.
Proof. unfold time_time. raises. Qed.
Lemma plain_os_urandom16 : raises_in plain_error os_urandom16.
Proof. unfold os_urandom16. raises. Qed.

(** [validate_xmind_file] raises nothing at all. *)
Lemma validate_never_raises (P : exn -> Prop) p : raises_in P (validate_xmind_file p).
Proof.
  unfold validate_xmind_file.
  apply (raises_try_except P (fun _ => True)); [intros s e _; exact I|].
  intros e _. apply raises_ret.
Qed.

Lemma plain_parse_content_json d :
  raises_in plain_error (ContentJsonParser.parse_content_json d).
Proof.
  unfold ContentJsonParser.parse_content_json, os_path_exists_in.
  apply raises_bind; [raises|intro]. apply raises_bind; [raises|intro].
  apply (raises_try_except plain_error (fun _ => True)); [intros s e _; exact I|].
  intros e _. destruct e; raises.
Qed.

Lemma plain__convert_topic_rec (fuel : nat) :
  forall t, raises_in plain_error (DataFormatConverter._convert_topic_rec fuel t).
Proof.
  pose proof plain_os_urandom16.
  induction fuel as [|fuel IH]; intros t; simpl; [raises|].
  unfold DataFormatConverter.convert_topic_body. raises_gen ltac:(apply IH).
Qed.

Lemma plain_convert_to_xmind_format v :
  raises_in plain_error (DataFormatConverter.convert_to_xmind_format v).
Proof.
  pose proof (fun t => plain__convert_topic_rec (S (depth t)) t) as H.
  unfold DataFormatConverter.convert_to_xmind_format.
  raises_gen ltac:(apply H).
Qed.

Section Statistics.
Context {S : Type}.

Lemma plain__count_topics_rec (fuel : nat) :
  forall t dep, raises_in plain_error (@XmindLoaderDebugger._count_topics_rec S fuel t dep).
Proof.
  induction fuel as [|fuel IH]; intros t dep; simpl; [raises|].
  unfold XmindLoaderDebugger.count_topics_body. raises.
  apply raises_fold_left; [|raises]. intros acc x Hacc. raises_gen ltac:(apply IH).
Qed.

Lemma plain__analyze_content_structure v :
  raises_in plain_error (@XmindLoaderDebugger._analyze_content_structure S v).
Proof.
  pose proof (fun t dep => plain__count_topics_rec (Datatypes.S (depth t)) t dep) as H.
  unfold XmindLoaderDebugger._analyze_content_structure. raises.
  apply raises_fold_left; [|raises]. intros acc x Hacc. raises_gen ltac:(apply H).
Qed.

End Statistics.

(** *** The methods of the loader *)

Section WithFloatStr.
Context {float_repr : PyFloatStr}.

Lemma never__get_file_cache_key (P : exn -> Prop) p :
  raises_in P (_get_file_cache_key p).
Proof.
  unfold _get_file_cache_key.
  apply (raises_try_except P (fun _ => True)); [intros s e _; exact I|].
  intros e _. apply raises_ret.
Qed.

Lemma never__get_cached_data (P : exn -> Prop) p : raises_in P (_get_cached_data p).
Proof. pose proof (never__get_file_cache_key P). unfold _get_cached_data. raises. Qed.

Lemma plain__set_cached_data p v : raises_in plain_error (_set_cached_data p v).
Proof.
  pose proof (never__get_file_cache_key plain_error). pose proof plain_time_time.
  unfold _set_cached_data. raises.
Qed.

Lemma never__cleanup (P : exn -> Prop) : raises_in P XmindFileLoader._cleanup.
Proof.
  unfold XmindFileLoader._cleanup.
  apply raises_bind; [apply raises_gets|]. intros [d|]; [|apply raises_ret].
  apply raises_bind.
  { intros s e H. unfold liftW, os_path_exists_dir, bind, emit, modify, gets, ret in H.
    simpl in H. discriminate. }
  intros [|]; [|apply raises_ret].
  apply (raises_try_except P (fun _ => True)); [intros s e _; exact I|].
  intros e _. apply raises_ret.
Qed.

(** What [_extract_xmind_file] raises is one of its two kinds. *)
Lemma kinds__extract_xmind_file :
  raises_in (fun e => e = XmindLoadError "BAD_ZIP_FILE"
                      \/ e = XmindLoadError "EXTRACTION_FAILED")
    XmindFileLoader._extract_xmind_file.
Proof.
  unfold XmindFileLoader._extract_xmind_file.
  apply (raises_try_except _ (fun _ => True)); [intros s e _; exact I|].
  intros e _. destruct e; apply raises_raise; auto.
Qed.

Lemma plain_start_debug f : raises_in plain_error (XmindLoaderDebugger.start_debug f).
Proof.
  pose proof plain_time_time. pose proof plain_os_path_getsize.
  unfold XmindLoaderDebugger.start_debug. raises.
Qed.

Lemma plain_log_extract_time t fl :
  raises_in plain_error (XmindLoaderDebugger.log_extract_time t fl).
Proof. pose proof plain_time_time. unfold XmindLoaderDebugger.log_extract_time. raises. Qed.

Lemma plain_log_parse_time t v :
  raises_in plain_error (XmindLoaderDebugger.log_parse_time t v).
Proof.
  pose proof plain_time_time.
  pose proof (@plain__analyze_content_structure Proc v).
  unfold XmindLoaderDebugger.log_parse_time. raises.
Qed.

(** An [XmindLoadError] raised inside the [try] of [load] is of one of
    three kinds. *)
Abbreviation inner_error :=
  (fun e : exn => is_XmindLoadError e = true ->
                  e = XmindLoadError "FILE_VALIDATION"
                  \/ e = XmindLoadError "BAD_ZIP_FILE"
                  \/ e = XmindLoadError "EXTRACTION_FAILED").

Lemma plain_inner {S A} (m : M S A) : raises_in plain_error m -> raises_in inner_error m.
Proof.
  apply raises_weaken. intros e He Hx. unfold plain_error in He. congruence.
Qed.

(** Everything after the call of [start_debug]. *)
Lemma load_rest_raises (debug : bool) :
  raises_in load_error_kind
    (file <- gets (fun p => xmind_file (self p)) ;;
     cached_data <- liftW (_get_cached_data file) ;;
     match cached_data with
     | Some entry =>
         set_content_data (data entry) ;;
         gets (fun p => content_data (self p))
     | None =>
         try_except
           (file <- gets (fun p => xmind_file (self p)) ;;
            valid <- liftW (validate_xmind_file file) ;;
            raise_if (negb valid) (XmindLoadError "FILE_VALIDATION") ;;
            extract_start <- liftW time_time ;;
            extract_dir <- XmindFileLoader._extract_xmind_file ;;
            dir_found <- liftW (os_path_exists_dir extract_dir) ;;
            files <- (if dir_found then liftW (os_listdir extract_dir) else ret []) ;;
            (if debug then XmindLoaderDebugger.log_extract_time extract_start files
             else ret tt) ;;
            parse_start <- liftW time_time ;;
            content <- liftW (ContentJsonParser.parse_content_json extract_dir) ;;
            (if debug then XmindLoaderDebugger.log_parse_time parse_start content
             else ret tt) ;;
            converted <- liftW (DataFormatConverter.convert_to_xmind_format content) ;;
            set_content_data converted ;;
            file <- gets (fun p => xmind_file (self p)) ;;
            result <- gets (fun p => content_data (self p)) ;;
            liftW (_set_cached_data file result) ;;
            XmindFileLoader._cleanup ;;
            gets (fun p => content_data (self p)))
           (fun e =>
              if is_XmindLoadError e then XmindFileLoader._cleanup ;; raise e
              else XmindFileLoader._cleanup ;; raise (XmindLoadError "LOAD_FAILED"))
     end).
Proof.
  apply raises_bind; [apply raises_gets|intros file].
  apply raises_bind; [apply raises_liftW, never__get_cached_data|intros [entry|]].
  { raises. }
  apply (raises_try_except _ inner_error).
  - apply raises_bind; [apply raises_gets|intros file'].
    apply raises_bind; [apply raises_liftW, validate_never_raises|intros valid].
    apply raises_bind.
    { apply raises_raise_if. intros _. now left. }
    intros _.
    apply raises_bind; [apply plain_inner, raises_liftW, plain_time_time|intros t0].
    apply raises_bind.
    { apply (raises_weaken _ _ _ (fun e H _ => or_intror H) kinds__extract_xmind_file). }
    intros d.
    apply raises_bind; [apply plain_inner, raises_liftW, plain_os_path_exists_dir|intros found].
    apply raises_bind.
    { apply plain_inner. destruct found; [apply raises_liftW, plain_os_listdir|apply raises_ret]. }
    intros files.
    apply raises_bind.
    { apply plain_inner. destruct debug; [apply plain_log_extract_time|apply raises_ret]. }
    intros _.
    apply raises_bind; [apply plain_inner, raises_liftW, plain_time_time|intros t1].
    apply raises_bind; [apply plain_inner, raises_liftW, plain_parse_content_json|intros c].
    apply raises_bind.
    { apply plain_inner. destruct debug; [apply plain_log_parse_time|apply raises_ret]. }
    intros _.
    apply raises_bind; [apply plain_inner, raises_liftW, plain_convert_to_xmind_format|].
    intros converted.
    apply raises_bind; [raises|intros _].
    apply raises_bind; [apply raises_gets|intros f2].
    apply raises_bind; [apply raises_gets|intros r].
    apply raises_bind; [apply plain_inner, raises_liftW, plain__set_cached_data|intros _].
    apply raises_bind; [apply never__cleanup|intros _]. apply raises_gets.
  - intros e He. destruct (is_XmindLoadError e) eqn:Ex.
    + apply raises_bind; [apply never__cleanup|intros _]. apply raises_raise.
      destruct (He eq_refl) as [-> | [-> | ->]]; unfold load_error_kind; auto.
    + apply raises_bind; [apply never__cleanup|intros _]. apply raises_raise.
      unfold load_error_kind. auto.
Qed.

(** X12: what [load] raises is an [XmindLoadError] of one of four kinds:
    [FILE_VALIDATION], [BAD_ZIP_FILE], [EXTRACTION_FAILED] or
    [LOAD_FAILED]; no other exception gets out of it.  (When the debugger
    runs, the file is taken to exist: see X16.) *)
Theorem X12_load_raises_only_its_kinds (debug : bool) (p : Proc) (e : exn) :
  (instrumented debug (self p) = true -> fs (world p) (xmind_file (self p)) <> None) ->
  fst (XmindFileLoader.load debug p) = Raise e ->
  load_error_kind e.
Proof.
  intros Hdbg. unfold XmindFileLoader.load. rewrite bind_run.
  assert (Hfirst : exists u,
            fst ((if debug then
                    file <- gets (fun p => xmind_file (self p)) ;;
                    XmindLoaderDebugger.start_debug file
                  else ret tt) p) = Return u).
  { destruct debug; [|eexists; reflexivity].
    rewrite bind_run. cbn [gets fst snd].
    apply start_debug_returns. intros Hen. apply Hdbg.
    unfold instrumented. now rewrite Hen. }
  destruct Hfirst as [u Hu].
  match goal with
  | |- fst (match ?m with _ => _ end) = _ -> _ => destruct m as [[u'|e'] s1]
  end; [|discriminate].
  apply (load_rest_raises debug s1).
Qed.

End WithFloatStr.

(** X12 at work on a sample input. *)
Lemma X12_load_raises_witness :
  load_error_kind (XmindLoadError "LOAD_FAILED")
  /\ fst (XmindFileLoader.load (float_repr := sample_float_str) false
            {| world := world_with NotJson;
               self := XmindFileLoader.__init__ "doc.xmind" false |})
     = Raise (XmindLoadError "LOAD_FAILED").
Proof.
  assert (H : fst (XmindFileLoader.load (float_repr := sample_float_str) false
                     {| world := world_with NotJson;
                        self := XmindFileLoader.__init__ "doc.xmind" false |})
              = Raise (XmindLoadError "LOAD_FAILED")) by (vm_compute; reflexivity).
  split; [|exact H].
  apply (X12_load_raises_only_its_kinds (float_repr := sample_float_str) false
           {| world := world_with NotJson;
              self := XmindFileLoader.__init__ "doc.xmind" false |}).
  - intros Hi. discriminate Hi.
  - exact H.
Defined.

End Raises.

(* ===================================================================== *)
(** * Extraction and cleanup, step by step *)
(* ===================================================================== *)

Module ExtractCleanup.
Import Effects Frames LoaderFrames Triples Cleanup.

#[local] Arguments dir_exists : simpl never.
#[local] Arguments dir_extract : simpl never.
#[local] Arguments dir_remove : simpl never.
#[local] Arguments dir_files : simpl never.

Lemma dir_files_dir_remove (ds : list (nat * list (string * file_content))) (d d' : nat) :
  d' <> d -> dir_files (dir_remove ds d) d' = dir_files ds d'.
Proof.
  intros Hne. unfold dir_files, dir_remove.
  induction ds as [|[n fl] ds IH]; simpl; [reflexivity|].
  destruct (Nat.eqb_spec n d) as [->|Hn]; simpl.
  - destruct (Nat.eqb_spec d d'); [congruence|exact IH].
  - destruct (Nat.eqb_spec n d'); [reflexivity|exact IH].
Qed.

Lemma dir_exists_app_new (ds : list (nat * list (string * file_content))) (d : nat)
    (fl : list (string * file_content)) :
  dir_exists (ds ++ [(d, fl)]) d = true.
Proof.
  unfold dir_exists. rewrite existsb_app. simpl. rewrite Nat.eqb_refl.
  now rewrite orb_true_r.
Qed.

(** [_cleanup], run. *)
Lemma _cleanup_run (w : World) (l : Loader) :
  XmindFileLoader._cleanup {| world := w; self := l |}
  = (Return tt,
     {| world :=
          match temp_dir l with
          | None => w
          | Some d =>
              if dir_exists (tmp_dirs w) d then
                if rmtree_fails w d
                then set_trace w (trace w ++ [EvExistsDir d; EvRmtree d])
                else set_tmp_dirs (set_trace w (trace w ++ [EvExistsDir d; EvRmtree d]))
                       (dir_remove (tmp_dirs w) d)
              else set_trace w (trace w ++ [EvExistsDir d])
          end;
        self := l |}).
Proof.
  destruct l as [xf [t|] cd dbg]; destruct w as [fs0 ds nx mk fails rk clk cp ur up c mx tr];
    unfold XmindFileLoader._cleanup, bind, gets, liftW, os_path_exists_dir, try_except,
      shutil_rmtree, bind, emit, modify, gets, ret, raise; cbn; [|reflexivity].
  destruct (dir_exists ds t) eqn:Ex; cbn; [|reflexivity].
  destruct (fails t) eqn:Ef; cbn; rewrite <- app_assoc; reflexivity.
Qed.

(** X13: [_cleanup] can be called at any time and any number of times.
    It never raises, whatever [rmtree] does; on a loader that never
    extracted it makes no system call at all; it touches no directory but
    the loader's own; and calling it again right away changes no
    directory. *)
Theorem X13_cleanup_is_safe_to_repeat (p : Proc) :
  let p' := snd (XmindFileLoader._cleanup p) in
  fst (XmindFileLoader._cleanup p) = Return tt
  /\ self p' = self p
  /\ (temp_dir (self p) = None -> p' = p)
  /\ (forall d, temp_dir (self p) <> Some d ->
        dir_files (tmp_dirs (world p')) d = dir_files (tmp_dirs (world p)) d)
  /\ tmp_dirs (world (snd (XmindFileLoader._cleanup p'))) = tmp_dirs (world p').
Proof.
  destruct p as [w l]. cbv zeta. rewrite _cleanup_run. cbn [fst snd self world].
  rewrite _cleanup_run. cbn [fst snd self world].
  split; [reflexivity|]. split; [reflexivity|]. split; [|split].
  - intros H. now rewrite H.
  - intros d Hd. destruct (temp_dir l) as [t|]; [|reflexivity].
    destruct (dir_exists (tmp_dirs w) t); [|destruct w; reflexivity].
    destruct (rmtree_fails w t); [destruct w; reflexivity|].
    destruct w; cbn. apply dir_files_dir_remove. congruence.
  - destruct (temp_dir l) as [t|]; [|reflexivity].
    destruct (dir_exists (tmp_dirs w) t) eqn:Ex.
    + destruct (rmtree_fails w t) eqn:Ef.
      * destruct w; cbn in *. rewrite Ex, Ef. reflexivity.
      * destruct w; cbn in *. rewrite dir_exists_dir_remove, Nat.eqb_refl. reflexivity.
    + destruct w; cbn in *. rewrite Ex. reflexivity.
Qed.

(** X14: what [_extract_xmind_file] does, case by case.  It first asks
    [mkdtemp] for a directory [d].  When that fails nothing is created,
    [self.temp_dir] keeps its value, and the failure is reported.
    Otherwise [d] is recorded in [self.temp_dir] before anything else can
    fail, so the directory exists afterwards and the loader knows it,
    whatever happens next.  The method then returns [d], or reports what
    went wrong: the file is not there, it cannot be opened (a folder, no
    permission), it is not a zip archive, or the extraction broke off.  A
    failure is reported as [BAD_ZIP_FILE] when the exception is
    [BadZipFile] and as [EXTRACTION_FAILED] otherwise.  Once the archive
    is open, [d] (fresh) holds what the extraction has written, also when
    the extraction broke off.  The cache is not touched. *)
Theorem X14_extract_outcome (p : Proc) :
  let d := tmp_next (world p) in
  let p' := snd (XmindFileLoader._extract_xmind_file p) in
  let failed e := Raise (XmindLoadError (extraction_error_kind e)) in
  fst (XmindFileLoader._extract_xmind_file p)
  = match mkdtemp_error (world p) d with
    | Some e => failed e
    | None =>
        match fs (world p) (xmind_file (self p)) with
        | None => failed FileNotFoundError
        | Some f =>
            match open_error f with
            | Some e => failed e
            | None =>
                match zip f with
                | None => failed BadZipFile
                | Some a =>
                    match extractall_error a with
                    | None => Return d
                    | Some e => failed e
                    end
                end
            end
        end
    end
  /\ match mkdtemp_error (world p) d with
     | Some _ =>
         temp_dir (self p') = temp_dir (self p)
         /\ tmp_dirs (world p') = tmp_dirs (world p)
     | None =>
         temp_dir (self p') = Some d
         /\ dir_exists (tmp_dirs (world p')) d = true
         /\ forall f a,
              fs (world p) (xmind_file (self p)) = Some f ->
              open_error f = None -> zip f = Some a ->
              dir_exists (tmp_dirs (world p)) d = false ->
              dir_files (tmp_dirs (world p')) d = Some (write_all [] (written a))
     end
  /\ _file_cache (world p') = _file_cache (world p).
Proof.
  destruct p as [w [xf td cd dbg]].
  destruct w as [fs0 ds nx mk fails rk clk cp ur up c mx tr]. cbv zeta.
  unfold XmindFileLoader._extract_xmind_file, mkdtemp, ZipFile, extractall,
    set_temp_dir, set_self, liftW, try_except, bind, gets, modify, emit, ret, raise.
  cbn. destruct (mk nx) as [e|] eqn:Em; cbn.
  { destruct e; cbn; repeat split. }
  destruct (fs0 xf) as [f|] eqn:Ef; cbn.
  2:{ repeat split; [apply dir_exists_app_new|discriminate]. }
  destruct (open_error f) as [e|] eqn:Eo; cbn.
  { destruct e; cbn; (repeat split; [apply dir_exists_app_new|]);
      intros f' a' Hf' Ho'; injection Hf' as <-; congruence. }
  destruct (zip f) as [a|] eqn:Ez; cbn.
  2:{ repeat split; [apply dir_exists_app_new|].
      intros f' a' Hf' _ Hz'. injection Hf' as <-. congruence. }
  assert (Hfiles : forall f' a', Some f = Some f' -> open_error f' = None ->
            zip f' = Some a' -> dir_exists ds nx = false ->
            dir_files (dir_extract (ds ++ [(nx, [])]) nx (written a)) nx
            = Some (write_all [] (written a'))).
  { intros f' a' Hf' _ Hz' Hnew. injection Hf' as <-.
    rewrite Ez in Hz'. injection Hz' as <-. now apply dir_files_dir_extract_new. }
  destruct (extractall_error a) as [e|] eqn:Ee; cbn.
  - destruct e; cbn; (repeat split;
      [rewrite dir_exists_dir_extract; apply dir_exists_app_new|exact Hfiles]).
  - repeat split; [rewrite dir_exists_dir_extract; apply dir_exists_app_new|exact Hfiles].
Qed.

End ExtractCleanup.

(* ===================================================================== *)
(** * The debugger and the load *)
(* ===================================================================== *)

Module DebugSwitch.
Import Effects Frames LoaderFrames Triples Cleanup.

Section Rules.
Context {S : Type} (I : S -> Prop).

Lemma agree_refl {A} (m : M S A) : agree I m m.
Proof. intros s _. reflexivity. Qed.

Lemma agree_bind {A B} (m1 m2 : M S A) (k1 k2 : A -> M S B) :
  agree I m1 m2 -> keeps I m2 -> (forall a, agree I (k1 a) (k2 a)) ->
  agree I (bind m1 k1) (bind m2 k2).
Proof.
  intros Hm Hkeep Hk s Hs. unfold bind. rewrite (Hm s Hs). specialize (Hkeep s Hs).
  destruct (m2 s) as [[a|e] s1]; [|reflexivity]. apply Hk, Hkeep.
Qed.

Lemma agree_try_except {A} (m1 m2 : M S A) (h : exn -> M S A) :
  agree I m1 m2 -> agree I (try_except m1 h) (try_except m2 h).
Proof. intros Hm s Hs. unfold try_except. now rewrite (Hm s Hs). Qed.

End Rules.

Lemma keeps_debugger_off {A} (m : M Proc A) :
  preserves proc_env m -> keeps debugger_off m.
Proof.
  intros H s Hs. destruct (H s) as [_ [_ Hflag]].
  unfold debugger_off, on_self, same_debug_flag in *. congruence.
Qed.

Section WithFloatStr.
Context {float_repr : PyFloatStr}.

Lemma start_debug_off (file : string) :
  agree debugger_off (XmindLoaderDebugger.start_debug file) (ret tt).
Proof.
  intros s Hs. unfold XmindLoaderDebugger.start_debug, bind, gets.
  unfold debugger_off in Hs. now rewrite Hs.
Qed.

Lemma log_extract_time_off (t : Z) (files : list string) :
  agree debugger_off (XmindLoaderDebugger.log_extract_time t files) (ret tt).
Proof.
  intros s Hs. unfold XmindLoaderDebugger.log_extract_time, bind, gets.
  unfold debugger_off in Hs. now rewrite Hs.
Qed.

Lemma log_parse_time_off (t : Z) (content : pyval) :
  agree debugger_off (XmindLoaderDebugger.log_parse_time t content) (ret tt).
Proof.
  intros s Hs. unfold XmindLoaderDebugger.log_parse_time, bind, gets.
  unfold debugger_off in Hs. now rewrite Hs.
Qed.

(** One step that both loads make. *)
Ltac same_step :=
  apply agree_bind; [apply agree_refl|apply keeps_debugger_off; pres_proc|intro].

Lemma load_debug_off : agree debugger_off (XmindFileLoader.load true) (XmindFileLoader.load false).
Proof.
  pose proof env__extract_xmind_file. pose proof env__cleanup.
  unfold XmindFileLoader.load. cbv iota.
  apply agree_bind; [|apply keeps_debugger_off; pres_proc|intros _].
  { intros s Hs. rewrite bind_run. cbn [gets fst snd]. now apply start_debug_off. }
  same_step.
  apply agree_bind; [apply agree_refl|apply keeps_debugger_off; pres_proc|intros cached].
  destruct cached as [entry|]; [apply agree_refl|].
  apply agree_try_except.
  do 7 same_step.
  apply agree_bind; [apply log_extract_time_off|apply keeps_debugger_off; pres_proc|intros _].
  do 2 same_step.
  apply agree_bind; [apply log_parse_time_off|apply keeps_debugger_off; pres_proc|intros _].
  apply agree_refl.
Qed.

(** X15: with the debugger switched off, asking for debugging changes
    nothing.  On a loader constructed without [enable_debug], [load(True)]
    does exactly what [load(False)] does: same result or exception, same
    state of the loader, same system calls, same cache.  The module's
    [load] always constructs its loader that way, so its [enable_debug]
    argument has no effect on the data it returns nor on what it does to
    the system. *)
Theorem X15_debug_flag_is_inert (p : Proc) :
  debugger_off p ->
  XmindFileLoader.load true p = XmindFileLoader.load false p
  /\ (forall file w, load file true w = load file false w).
Proof.
  intros Hoff. split; [exact (load_debug_off p Hoff)|].
  intros file w. unfold load.
  now rewrite (load_debug_off {| world := w; self := XmindFileLoader.__init__ file false |}
                 eq_refl).
Qed.

End WithFloatStr.

(** X15 at work on a sample input. *)
Lemma X15_debug_flag_is_inert_witness :
  let p := {| world := world_with (Json sample_document);
              self := XmindFileLoader.__init__ "doc.xmind" false |} in
  XmindFileLoader.load (float_repr := sample_float_str) true p
  = XmindFileLoader.load (float_repr := sample_float_str) false p.
Proof.
  cbv zeta.
  apply (X15_debug_flag_is_inert (float_repr := sample_float_str)
           {| world := world_with (Json sample_document);
              self := XmindFileLoader.__init__ "doc.xmind" false |}).
  reflexivity.
Defined.

End DebugSwitch.

(* ===================================================================== *)
(** * A load that fails *)
(* ===================================================================== *)

Module LoadFailure.
Import Effects Frames LoaderFrames Triples Cleanup CacheFacts CacheRuns CacheClaims.
Import ErrorKinds LoadResults ExtractCleanup.

Section WithFloatStr.
Context {float_repr : PyFloatStr}.

(** X16: with the debugger running, a missing file is not reported as an
    [XmindLoadError].  When [load(True)] is called on a loader constructed
    with [enable_debug] and the file does not exist, the debugger's
    question for the file's size raises [FileNotFoundError] before the
    [try] of [load] is entered: that exception gets out as it is, after a
    single system call, with the cache, the temporary directories and
    [content_data] untouched. *)
Theorem X16_size_query_escapes_load (debug : bool) (p : Proc) :
  instrumented debug (self p) = true ->
  fs (world p) (xmind_file (self p)) = None ->
  let p' := snd (XmindFileLoader.load debug p) in
  fst (XmindFileLoader.load debug p) = Raise FileNotFoundError
  /\ trace (world p') = trace (world p) ++ [EvGetsize (xmind_file (self p))]
  /\ _file_cache (world p') = _file_cache (world p)
  /\ tmp_dirs (world p') = tmp_dirs (world p)
  /\ content_data (self p') = content_data (self p).
Proof.
  destruct p as [w [xf td cd [en di]]].
  destruct w as [fs0 ds nx mk fails rk clk cp ur up c mx tr].
  unfold instrumented. cbn [self world debugger enable_debug xmind_file fs].
  intros Hi Hf. apply andb_true_iff in Hi as [-> ->]. cbv zeta.
  unfold XmindFileLoader.load. rewrite bind_run.
  unfold XmindLoaderDebugger.start_debug, os_path_getsize, time_time, set_debug_info,
    set_self, liftW, bind, gets, modify, emit, ret, raise.
  cbn. rewrite Hf. cbn. repeat split.
Qed.

(** *** The cache when a load fails *)

(** The steps that leave [content_data], the environment and the cache
    alone. *)
Abbreviation untouched := (rel_and keeps_data (on_world same_cache)).

Lemma untouched__extract_xmind_file : preserves untouched XmindFileLoader._extract_xmind_file.
Proof. unfold XmindFileLoader._extract_xmind_file. pres_proc. Qed.

Lemma untouched__cleanup : preserves untouched XmindFileLoader._cleanup.
Proof. unfold XmindFileLoader._cleanup. pres_proc. Qed.

(** An insertion that raises has not touched the cache. *)
Lemma _set_cached_data_atomic (file : string) (d : pyval) (w : World) :
  match _set_cached_data file d w with
  | (Return _, _) => True
  | (Raise _, w') => _file_cache w' = _file_cache w
  end.
Proof.
  destruct (Nat.eq_dec (_cache_max_size w) 0) as [Hz|Hnz].
  - unfold _set_cached_data.
    unfold bind at 1. unfold gets at 1. unfold bind at 1. unfold gets at 1.
    rewrite Hz. cbn [Nat.leb].
    destruct (py_min _ _) as [oldest|] eqn:Emin.
    + unfold bind, modify. rewrite _get_file_cache_key_run.
      unfold time_time, bind, gets, modify. exact I.
    + unfold bind, raise. reflexivity.
  - rewrite _set_cached_data_run by lia. exact I.
Qed.

(** The end of the [try] of [load]: when it raises, the cache is as it
    was. *)
Lemma store_tail_atomic (converted : pyval) (s : Proc) :
  match (set_content_data converted ;;
         file <- gets (fun p => xmind_file (self p)) ;;
         result <- gets (fun p => content_data (self p)) ;;
         liftW (_set_cached_data file result) ;;
         XmindFileLoader._cleanup ;;
         gets (fun p => content_data (self p))) s with
  | (Return _, _) => True
  | (Raise _, s') => _file_cache (world s') = _file_cache (world s)
  end.
Proof.
  destruct s as [w l]. unfold set_content_data, set_self.
  rewrite bind_run. cbn [modify fst snd world self].
  rewrite bind_run. cbn [gets fst snd world self xmind_file content_data].
  rewrite bind_run. cbn [gets fst snd world self xmind_file content_data].
  rewrite bind_run. unfold liftW at 1. cbn [world self].
  pose proof (_set_cached_data_atomic (xmind_file l) converted w) as Hat.
  destruct (_set_cached_data (xmind_file l) converted w) as [[u|e] w1]; [|exact Hat].
  rewrite bind_run, _cleanup_run. exact I.
Qed.

(** X17: a load that fails leaves the cache as it was.  Whatever way
    [load] raises, the cache holds exactly the entries it held before the
    call: nothing was inserted and nothing evicted.  When the capacity of
    the cache is positive, as in the source, [content_data] is as it was
    too, so the loader still gives the result of its last successful
    load. *)
Theorem X17_failed_load_leaves_the_cache (debug : bool) (p : Proc) :
  match XmindFileLoader.load debug p with
  | (Return _, _) => True
  | (Raise _, p') =>
      _file_cache (world p') = _file_cache (world p)
      /\ (0 < _cache_max_size (world p) -> content_data (self p') = content_data (self p))
  end.
Proof.
  set (K := fun s : Proc => untouched p s).
  set (Kc := fun s : Proc =>
               _file_cache (world s) = _file_cache (world p)
               /\ (0 < _cache_max_size (world p) ->
                   content_data (self s) = content_data (self p))).
  set (Q := fun (o : outcome pyval) (s : Proc) =>
              match o with Return _ => True | Raise _ => Kc s end).
  assert (Kstep : forall s s', K s -> untouched s s' -> K s').
  { intros s s' H1 H2. unfold K. etransitivity; eassumption. }
  assert (KKc : forall s, K s -> Kc s).
  { intros s [[Hc _] Hcache]. split; [exact Hcache|]. intros _. exact Hc. }
  assert (H : hoare K (XmindFileLoader.load debug) Q).
  2:{ specialize (H p). unfold Q in H.
      destruct (XmindFileLoader.load debug p) as [[doc|e] p']; [exact I|].
      apply H. unfold K. reflexivity. }
  pose proof untouched__extract_xmind_file. pose proof untouched__cleanup.
  unfold XmindFileLoader.load.
  apply (hoare_bind_stable untouched K); [pres_proc|exact Kstep|intros e s Hs; now apply KKc|].
  intros _.
  apply (hoare_bind_stable untouched K); [pres_proc|exact Kstep|intros e s Hs; now apply KKc|].
  intros file.
  apply (hoare_bind_stable untouched K); [pres_proc|exact Kstep|intros e s Hs; now apply KKc|].
  intros [entry|].
  { intros s _. exact I. }
  apply (hoare_try_except K Q Q).
  - do 11 (apply (hoare_bind_stable untouched K);
             [pres_proc|exact Kstep|intros e s Hs; now apply KKc|intro]).
    apply (hoare_bind_stable untouched K);
      [pres_proc|exact Kstep|intros e s Hs; now apply KKc|intros converted].
    intros s Hs. pose proof (store_tail_atomic converted s) as Hat.
    match goal with
    | |- Q (fst ?m) (snd ?m) => destruct m as [[r|e] s'] eqn:Erun
    end; [exact I|]. cbn [fst snd]. unfold Q, Kc.
    destruct Hs as [[Hc (_ & _ & _ & _ & Hmax & _)] Hcache].
    unfold on_world, same_cache in Hcache. split; [congruence|].
    intros Hpos. exfalso.
    assert (Hpos' : 0 < _cache_max_size (world s)) by lia.
    destruct (store_and_return converted s Hpos') as (p' & en & Hrun & _).
    rewrite Hrun in Erun. discriminate.
  - intros r s Hs. exact Hs.
  - intros e.
    assert (Hafter : forall (e' : exn) (s : Proc), Kc s ->
              Q (fst ((XmindFileLoader._cleanup ;; (raise e' : M Proc pyval)) s))
                (snd ((XmindFileLoader._cleanup ;; (raise e' : M Proc pyval)) s))).
    { intros e' [w l] [Hc Hd]. rewrite bind_run, _cleanup_run. cbn [fst snd raise].
      unfold Q, Kc. cbn [world self] in *. split; [|exact Hd].
      rewrite <- Hc.
      destruct (temp_dir l) as [t|]; [|reflexivity].
      destruct (dir_exists (tmp_dirs w) t); [|destruct w; reflexivity].
      destruct (rmtree_fails w t); destruct w; reflexivity. }
    destruct (is_XmindLoadError e); intros s Hs; apply Hafter; exact Hs.
Qed.

End WithFloatStr.

(** X16 at work on a sample input. *)
Lemma X16_size_query_escapes_witness :
  fst (XmindFileLoader.load (float_repr := sample_float_str) true
         {| world := bare_world; self := XmindFileLoader.__init__ "missing.xmind" true |})
  = Raise FileNotFoundError.
Proof.
  apply (X16_size_query_escapes_load (float_repr := sample_float_str) true
           {| world := bare_world; self := XmindFileLoader.__init__ "missing.xmind" true |});
    reflexivity.
Defined.

End LoadFailure.

(* ===================================================================== *)
(** * More about the cache *)
(* ===================================================================== *)

Module CacheExtras.
Import Effects CacheFacts CacheRuns CacheClaims LoadResults.

(** *** Keys *)

Lemma append_inv_head (a b c : string) : (a ++ b = a ++ c)%string -> b = c.
Proof. induction a as [|x a IH]; simpl; [auto|]. intros [= H]. now apply IH. Qed.

Lemma to_int_proper (z : Z) :
  Z.to_int z <> Decimal.Pos Decimal.Nil /\ Z.to_int z <> Decimal.Neg Decimal.Nil.
Proof.
  destruct z as [|q|q]; simpl; split; try discriminate;
    intros [= H]; exact (DecimalPos.Unsigned.to_uint_nonnil q H).
Qed.

(** [str] of an [int] tells the integers apart. *)
Lemma int_str_inj (z z' : Z) : int_str z = int_str z' -> z = z'.
Proof.
  unfold int_str. intros H. apply DecimalZ.to_int_inj.
  destruct (to_int_proper z) as [Hp Hn]. destruct (to_int_proper z') as [Hp' Hn'].
  pose proof (NilZero.isi _ Hp Hn) as E. pose proof (NilZero.isi _ Hp' Hn') as E'.
  rewrite H in E. congruence.
Qed.

Section WithFloatStr.
Context {float_repr : PyFloatStr}.

Lemma fingerprint_at (w w' : World) (file : string) :
  fs w' file = fs w file -> fingerprint w' file = fingerprint w file.
Proof. intros H. unfold fingerprint. now rewrite H. Qed.

(** X18: what was inserted is found again.  After [_set_cached_data] for
    a path, a lookup for the same path, made while the file's entry in the
    file system and the cache are what the insertion left, returns an
    entry holding exactly the data that was inserted, stamped with the
    time of the insertion.  (The capacity of the cache is positive, as in
    the source.) *)
Theorem X18_cache_insert_then_lookup (file : string) (d : pyval) (w w2 : World) :
  0 < _cache_max_size w ->
  fs w2 file = fs w file ->
  _file_cache w2 = _file_cache (snd (_set_cached_data file d w)) ->
  fst (_set_cached_data file d w) = Return tt
  /\ fst (_get_cached_data file w2)
     = Return (Some {| data := d; timestamp := clock w (clock_pos w) |}).
Proof.
  intros Hpos Hfs Hcache. rewrite _set_cached_data_run in * by exact Hpos.
  split; [reflexivity|].
  rewrite _get_cached_data_run. cbn [fst]. rewrite Hcache, (fingerprint_at _ _ _ Hfs).
  replace (_file_cache _) with
    (dict_set (evicted w) (fingerprint w file)
       {| data := d; timestamp := clock w (clock_pos w) |})
    by (destruct w; reflexivity).
  now rewrite dict_get_set.
Qed.

(** X19: a path that names no file can hit the cache.  The key of a
    missing file is its path, and the key of a file that exists is its
    path followed by its modification time and size; nothing keeps the two
    apart.  So when an entry is cached for a file, a load of the path that
    is spelled like that file's key, and names no file, is a cache hit: it
    returns the cached document of the other file, without any
    validation. *)
Theorem X19_cache_key_of_a_missing_path
    (file : string) (w : World) (e : cache_entry) (debug : bool) :
  dict_get (_file_cache w) (fingerprint w file) = Some e ->
  fs w (fingerprint w file) = None ->
  fst (_get_cached_data (fingerprint w file) w) = fst (_get_cached_data file w)
  /\ fst (XmindFileLoader.load debug
            {| world := w; self := XmindFileLoader.__init__ (fingerprint w file) false |})
     = Return (data e).
Proof.
  intros Hget Hnone.
  assert (Hkey : fingerprint w (fingerprint w file) = fingerprint w file).
  { unfold fingerprint at 1. now rewrite Hnone. }
  split.
  - rewrite !_get_cached_data_run. cbn [fst]. now rewrite Hkey.
  - destruct (load_hit debug w (XmindFileLoader.__init__ (fingerprint w file) false) e)
      as (p' & Hrun & _).
    + cbn [xmind_file XmindFileLoader.__init__]. now rewrite Hkey.
    + cbn. rewrite andb_false_r. discriminate.
    + now rewrite Hrun.
Qed.

(** X20: what the cache key tells apart.  The key is made of the path,
    the modification time and the size, and of nothing else: two states of
    a file with the same modification time and size have the same key,
    whatever the file holds, so a lookup cannot tell them apart; a change
    of the size alone gives a different key. *)
Theorem X20_cache_key_sensitivity (file : string) (w w' : World) (f f' : File) :
  fs w file = Some f ->
  fs w' file = Some f' ->
  st_mtime f' = st_mtime f ->
  (st_size f' = st_size f ->
   fingerprint w' file = fingerprint w file
   /\ (_file_cache w' = _file_cache w ->
       fst (_get_cached_data file w') = fst (_get_cached_data file w)))
  /\ (st_size f' <> st_size f -> fingerprint w' file <> fingerprint w file).
Proof.
  intros Hf Hf' Hm. unfold fingerprint. rewrite Hf, Hf', Hm. split.
  - intros Hs. rewrite Hs. split; [reflexivity|].
    intros Hc. rewrite !_get_cached_data_run. cbn [fst]. unfold fingerprint.
    now rewrite Hf, Hf', Hm, Hs, Hc.
  - intros Hs Hk. apply Hs.
    apply append_inv_head in Hk. apply (append_inv_head "_") in Hk.
    apply append_inv_head in Hk. apply (append_inv_head "_") in Hk.
    now apply int_str_inj.
Qed.

End WithFloatStr.

(** X18 at work on a sample input. *)
Lemma X18_cache_insert_then_lookup_witness :
  fst (_get_cached_data (float_repr := sample_float_str) "doc.xmind"
         (snd (_set_cached_data (float_repr := sample_float_str) "doc.xmind"
                 sample_document (world_with NotJson))))
  = Return (Some {| data := sample_document; timestamp := 0 |}).
Proof.
  apply (X18_cache_insert_then_lookup (float_repr := sample_float_str)
           "doc.xmind" sample_document (world_with NotJson)).
  - simpl. lia.
  - reflexivity.
  - reflexivity.
Defined.

(** X19 at work on a sample input. *)
Lemma X19_cache_key_of_a_missing_path_witness :
  let w := snd (_set_cached_data (float_repr := sample_float_str) "doc.xmind"
                  sample_document (world_with NotJson)) in
  fs w "doc.xmind_0.0_2048" = None
  /\ fst (XmindFileLoader.load (float_repr := sample_float_str) false
            {| world := w;
               self := XmindFileLoader.__init__ "doc.xmind_0.0_2048" false |})
     = Return sample_document.
Proof.
  cbv zeta. split; [reflexivity|].
  apply (X19_cache_key_of_a_missing_path (float_repr := sample_float_str) "doc.xmind"
           (snd (_set_cached_data (float_repr := sample_float_str) "doc.xmind"
                   sample_document (world_with NotJson)))
           {| data := sample_document; timestamp := 0 |} false).
  - vm_compute. reflexivity.
  - reflexivity.
Defined.

(** X20 at work on a sample input. *)
Lemma X20_cache_key_sensitivity_witness :
  let bigger := {| st_mtime := S754_zero false; st_size := 2049; open_error := None; zip := None |} in
  fingerprint (float_repr := sample_float_str) (world_with (Json sample_document)) "doc.xmind"
  = fingerprint (float_repr := sample_float_str) (world_with NotJson) "doc.xmind"
  /\ fingerprint (float_repr := sample_float_str) (world_of "doc.xmind" bigger) "doc.xmind"
     <> fingerprint (float_repr := sample_float_str) (world_with NotJson) "doc.xmind".
Proof.
  cbv zeta. split.
  - apply (X20_cache_key_sensitivity (float_repr := sample_float_str) "doc.xmind"
             (world_with NotJson) (world_with (Json sample_document))
             (sample_file NotJson) (sample_file (Json sample_document)));
      reflexivity.
  - apply (X20_cache_key_sensitivity (float_repr := sample_float_str) "doc.xmind"
             (world_with NotJson)
             (world_of "doc.xmind"
                {| st_mtime := S754_zero false; st_size := 2049; open_error := None; zip := None |})
             (sample_file NotJson)
             {| st_mtime := S754_zero false; st_size := 2049; open_error := None; zip := None |});
      try reflexivity.
    simpl. discriminate.
Defined.

End CacheExtras.

(* ===================================================================== *)
(** * The validation, and the debugger's statistics *)
(* ===================================================================== *)

Module ValidationExtras.
Import Effects Frames ErrorKinds.

(** X21: [validate_xmind_file] answers, it never raises.  Its answer is
    [True] exactly when the file exists, its name ends in [.xmind]
    (whatever the case of the letters), its size is not zero, it opens as
    a zip archive, [testzip] finds no corrupt member and [content.json] is
    among the names; in every other case, a missing file included, it is
    [False].  It changes no file, directory or cache entry, and a file
    that is missing or has another extension is never asked for its size
    nor opened: the only system call is the test for existence. *)
Theorem X21_validate_answers_without_raising (path : string) (w : World) :
  let w' := snd (validate_xmind_file path w) in
  fst (validate_xmind_file path w) = Return (archive_ok w path)
  /\ same_env w w' /\ same_cache w w' /\ same_dirs w w'
  /\ (fs w path = None \/ endswith (lower path) ".xmind" = false ->
      archive_ok w path = false /\ trace w' = trace w ++ [EvExists path]).
Proof.
  cbv zeta. split; [apply validate_verdict|].
  split; [apply env_validate_xmind_file|].
  split; [apply cache_validate_xmind_file|].
  split; [apply dirs_validate_xmind_file|].
  destruct w as [fs0 ds nx mk fails rk clk cp ur up c mx tr].
  unfold validate_xmind_file, archive_ok, try_except, bind, os_path_exists,
    os_path_getsize, ZipFile, raise_if, emit, modify, gets, ret, raise.
  cbn. intros [Hf|He].
  - rewrite Hf. cbn. split; reflexivity.
  - destruct (fs0 path) as [f|] eqn:Ef; cbn; [|split; reflexivity].
    rewrite He. cbn. split; reflexivity.
Qed.

End ValidationExtras.

Module StatisticsExtras.
Import XmindLoaderDebugger CountTopicsFacts.

Section Generic.
Context {St : Type}.

Lemma dict_mem_get {V} (d : list (string * V)) (k : string) :
  dict_mem d k = match dict_get d k with Some _ => true | None => false end.
Proof. reflexivity. Qed.

(** A topic with no ["topics"] counts for one, whatever it holds under
    ["children"]. *)
Lemma _count_topics_flat (t : list (string * pyval)) (dep : nat) (s : St) :
  dict_mem t "topics" = false ->
  _count_topics (PyDict t) dep s = (Return (1, dep), s).
Proof.
  intros H. unfold _count_topics. cbn [_count_topics_rec].
  unfold count_topics_body, py_contains_str, bind, ret. now rewrite H.
Qed.

Lemma analyze_sheets_modern (sheets : list pyval) :
  Forall modern_sheet sheets ->
  forall (acc : M St (nat * nat * nat)) (n c : nat) (s : St),
    acc s = (Return (n, c, 0), s) ->
    fold_left
      (fun acc sheet =>
         structure <- acc ;;
         has_topic <- py_contains_str "topic" sheet ;;
         if has_topic then
           topic <- py_getitem_str "topic" sheet ;;
           topic_stats <- _count_topics topic 0 ;;
           ret (fst (fst structure),
                snd (fst structure) + fst topic_stats,
                Nat.max (snd structure) (snd topic_stats))
         else ret structure)
      sheets acc s
    = (Return (n, c + sheets_with_topic sheets, 0), s).
Proof.
  induction 1 as [|x xs (sd & -> & Hx) _ IH]; intros acc n c s Hacc.
  - simpl. unfold sheets_with_topic. simpl. now rewrite Nat.add_0_r.
  - cbn [fold_left].
    unfold sheets_with_topic. cbn [filter]. rewrite dict_mem_get.
    destruct (dict_get sd "topic") as [topic|] eqn:Et.
    + destruct topic as [| | | | | |t]; try contradiction.
      cbn [List.length]. rewrite <- Nat.add_succ_comm.
      apply IH. unfold bind at 1. rewrite Hacc.
      unfold py_contains_str, py_getitem_str, bind, ret. rewrite dict_mem_get, Et.
      rewrite (_count_topics_flat t 0 s Hx). cbn. now rewrite Nat.add_1_r.
    + apply IH. unfold bind at 1. rewrite Hacc.
      unfold py_contains_str, bind, ret. rewrite dict_mem_get, Et. reflexivity.
Qed.

(** X22: the debugger's statistics do not see the children of a modern
    archive.  [_count_topics] follows the key [topics], which the raw
    payload of a modern archive does not use: there the children are under
    [children.attached].  So for an object payload whose sheets are of
    that kind the debugger records the number of sheets, one topic for
    each sheet that has a [topic], and depth 0, however deep the topics
    nest; and for a payload in list form whose sheets are objects it
    records zero sheets, zero topics and depth 0. *)
Theorem X22_statistics_ignore_attached_children
    (content : pyval) (sheets : list pyval) (s : St) :
  (exists d, content = PyDict d /\ dict_get d "sheets" = Some (PyList sheets)
             /\ Forall modern_sheet sheets)
  \/ (content = PyList sheets /\ Forall (fun x => is_dict x = true) sheets) ->
  _analyze_content_structure content s
  = (Return (match content with
             | PyDict _ => (List.length sheets, sheets_with_topic sheets, 0)
             | _ => (0, 0, 0)
             end), s).
Proof.
  intros [(d & -> & Hd & Hs)|[-> Hs]].
  - unfold _analyze_content_structure.
    assert (Ht : truthy (PyDict d) = true) by (destruct d; [discriminate|reflexivity]).
    pose proof (analyze_sheets_modern sheets Hs (ret (List.length sheets, 0, 0))
                  (List.length sheets) 0 s eq_refl) as H.
    cbn [Nat.add] in H. rewrite <- H, Ht.
    unfold py_contains_str at 1. unfold py_getitem_str at 1.
    rewrite dict_mem_get, Hd. reflexivity.
  - unfold _analyze_content_structure.
    destruct sheets as [|x xs]; [reflexivity|].
    change (truthy (PyList (x :: xs))) with true. cbv iota.
    unfold py_contains_str, bind, ret.
    assert (E : existsb (fun x0 => match x0 with PyStr s0 => String.eqb s0 "sheets"
                                   | _ => false end) (x :: xs) = false).
    { clear -Hs. induction Hs as [|y ys Hy _ IH]; [reflexivity|].
      simpl. destruct y; try discriminate. exact IH. }
    now rewrite E.
Qed.

End Generic.

(** X22 at work on a sample input. *)
Lemma X22_statistics_witness :
  _analyze_content_structure sample_rich_document bare_world
  = (Return (2, 1, 0), bare_world).
Proof.
  apply (X22_statistics_ignore_attached_children sample_rich_document
           [PyDict
              [("id", PyStr "s1"); ("title", PyStr "Sheet 1");
               ("topic",
                PyDict
                  [("id", PyStr "r"); ("title", PyStr "Root");
                   ("notes", PyDict [("plain", PyDict [("content", PyStr "remember")])]);
                   ("markers",
                    PyList [PyStr "flag-red";
                            PyDict [("markerId", PyStr "priority-1")];
                            PyDict [("id", PyStr "star")];
                            PyInt 7]);
                   ("children",
                    PyDict
                      [("attached",
                        PyList
                          [PyDict
                             [("id", PyStr "m"); ("title", PyStr "Middle");
                              ("topics", PyList [PyDict [("id", PyStr "old")]]);
                              ("children",
                               PyDict [("attached",
                                        PyList [PyDict [("id", PyStr "leaf")];
                                                PyDict []])])];
                           PyDict [("title", PyStr "No id")]])])])];
            PyDict [("id", PyStr "s2"); ("title", PyNone)]] bare_world).
  left. eexists. split; [reflexivity|]. split; [reflexivity|].
  repeat constructor; eexists; (split; [reflexivity|]); simpl; auto.
Defined.

End StatisticsExtras.

(* ===================================================================== *)
(** * An invalid file is refused before anything is extracted *)
(* ===================================================================== *)

Module FailFast.
Import Effects Frames LoaderFrames Triples Cleanup CacheFacts CacheRuns CacheClaims.
Import ErrorKinds ExtractCleanup.

Section WithFloatStr.
Context {float_repr : PyFloatStr}.

(** The steps that leave the inputs, the temporary directories and
    [self.temp_dir] alone. *)
Abbreviation still :=
  (rel_and (rel_and proc_env (on_world same_cache))
     (rel_and proc_quiet (on_world same_dirs))).

Lemma quiet_no_mkdtemp (evs : list event) (d : nat) :
  Forall quiet_event evs -> ~ In (EvMkdtemp d) evs.
Proof.
  intros F Hin. rewrite Forall_forall in F. exact (F _ Hin).
Qed.

(** X23: validation comes first.  When a load misses the cache and the
    file does not pass the validation, [load] raises [FILE_VALIDATION]
    without having created a temporary directory: no [mkdtemp] is among
    its system calls, [self.temp_dir] is what it was, and on a loader that
    had no directory the temporary directories are exactly as before.
    (When the debugger runs, the file is taken to exist.) *)
Theorem X23_invalid_file_is_refused_before_extraction (debug : bool) (p : Proc) :
  dict_get (_file_cache (world p)) (fingerprint (world p) (xmind_file (self p))) = None ->
  (instrumented debug (self p) = true -> fs (world p) (xmind_file (self p)) <> None) ->
  archive_ok (world p) (xmind_file (self p)) = false ->
  let p' := snd (XmindFileLoader.load debug p) in
  fst (XmindFileLoader.load debug p) = Raise (XmindLoadError "FILE_VALIDATION")
  /\ temp_dir (self p') = temp_dir (self p)
  /\ (exists evs, trace (world p') = trace (world p) ++ evs
                  /\ forall d, ~ In (EvMkdtemp d) evs)
  /\ (temp_dir (self p) = None -> tmp_dirs (world p') = tmp_dirs (world p)).
Proof.
  intros Hmiss Hdbg Hbad. cbv zeta.
  set (I := fun s : Proc => still p s).
  set (Q1 := fun (o : outcome pyval) (s : Proc) =>
               o = Raise (XmindLoadError "FILE_VALIDATION") /\ I s).
  set (Q := fun (o : outcome pyval) (s : Proc) =>
              o = Raise (XmindLoadError "FILE_VALIDATION")
              /\ temp_dir (self s) = temp_dir (self p)
              /\ (exists evs, trace (world s) = trace (world p) ++ evs
                              /\ forall d, ~ In (EvMkdtemp d) evs)
              /\ (temp_dir (self p) = None -> tmp_dirs (world s) = tmp_dirs (world p))).
  assert (Istep : forall s s', I s -> still s s' -> I s').
  { intros s s' H1 H2. unfold I. etransitivity; eassumption. }
  assert (Hin : forall s, I s ->
            fs (world s) = fs (world p)
            /\ xmind_file (self s) = xmind_file (self p)
            /\ enable_debug (debugger (self s)) = enable_debug (debugger (self p))
            /\ _file_cache (world s) = _file_cache (world p)).
  { intros s [[[(E1 & _) [E2 E3]] E4] _].
    unfold on_self, on_world, same_xmind_file, same_debug_flag, same_cache in *.
    repeat split; congruence. }
  assert (H : hoare I (XmindFileLoader.load debug) Q).
  2:{ apply (H p). unfold I. reflexivity. }
  unfold XmindFileLoader.load.
  apply (hoare_bind_returns still I); [pres_proc|exact Istep| |intros _].
  { intros s Hs. destruct (Hin s Hs) as (H1 & H2 & H3 & _).
    destruct debug; [|eexists; reflexivity].
    rewrite bind_run. cbn [gets fst snd].
    apply start_debug_returns. intros Hen. rewrite H1, H2. apply Hdbg.
    unfold instrumented. now rewrite <- H3, Hen. }
  apply (hoare_bind_value still I _ _ _ (xmind_file (self p)));
    [pres_proc|exact Istep| |].
  { intros s Hs. destruct (Hin s Hs) as (_ & H2 & _). unfold gets. simpl. now rewrite H2. }
  apply (hoare_bind_value still I _ _ _ None); [pres_proc|exact Istep| |].
  { intros s Hs. destruct (Hin s Hs) as (H1 & _ & _ & H4).
    rewrite fst_liftW, _get_cached_data_run. simpl.
    rewrite H4, (fingerprint_ext _ _ _ H1). now rewrite Hmiss. }
  cbv beta iota.
  apply (hoare_try_except I Q1 Q).
  - apply (hoare_bind_value still I _ _ _ (xmind_file (self p)));
      [pres_proc|exact Istep| |].
    { intros s Hs. destruct (Hin s Hs) as (_ & H2 & _). unfold gets. simpl. now rewrite H2. }
    apply (hoare_bind_value still I _ _ _ false); [pres_proc|exact Istep| |].
    { intros s Hs. destruct (Hin s Hs) as (H1 & _). rewrite fst_liftW, validate_verdict.
      now rewrite (archive_ok_ext _ _ _ H1), Hbad. }
    apply (hoare_bind_raises still I _ _ _ (XmindLoadError "FILE_VALIDATION"));
      [pres_proc|exact Istep| |].
    + intros s _. reflexivity.
    + intros s Hs. split; [reflexivity|exact Hs].
  - intros a s [Hs _]. discriminate.
  - intros e [w l] [[= ->] Hs]. cbn [is_XmindLoadError].
    rewrite bind_run, _cleanup_run. cbn [fst snd raise self world]. unfold Q.
    destruct Hs as [_ [[Hq Ht] Hd]].
    unfold on_world, on_self, same_temp_dir, same_dirs in *. cbn [world self] in *.
    destruct Hq as [_ (evs0 & Htr & Fq)].
    split; [reflexivity|]. split; [exact Ht|]. split.
    + destruct (temp_dir l) as [t|].
      * destruct (dir_exists (tmp_dirs w) t).
        -- exists (evs0 ++ [EvExistsDir t; EvRmtree t]). split.
           ++ destruct (rmtree_fails w t); destruct w; cbn in *;
                rewrite Htr; now rewrite <- app_assoc.
           ++ intros d Hd'. apply in_app_or in Hd' as [Hd'|Hd'].
              ** exact (quiet_no_mkdtemp _ _ Fq Hd').
              ** destruct Hd' as [Hd'|[Hd'|[]]]; discriminate.
        -- exists (evs0 ++ [EvExistsDir t]). split.
           ++ destruct w; cbn in *. rewrite Htr. now rewrite <- app_assoc.
           ++ intros d Hd'. apply in_app_or in Hd' as [Hd'|Hd'].
              ** exact (quiet_no_mkdtemp _ _ Fq Hd').
              ** destruct Hd' as [Hd'|[]]; discriminate.
      * exists evs0. split; [exact Htr|]. intros d. now apply quiet_no_mkdtemp.
    + intros Hnone. rewrite Hnone in Ht. rewrite Ht. exact (proj1 Hd).
Qed.

End WithFloatStr.

(** X23 at work on a sample input. *)
Lemma X23_invalid_file_witness :
  let p := {| world := world_of "notes.txt" (sample_file (Json sample_document));
              self := XmindFileLoader.__init__ "notes.txt" false |} in
  fst (XmindFileLoader.load (float_repr := sample_float_str) false p)
  = Raise (XmindLoadError "FILE_VALIDATION")
  /\ tmp_dirs (world (snd (XmindFileLoader.load (float_repr := sample_float_str) false p)))
     = tmp_dirs (world p).
Proof.
  cbv zeta.
  destruct (X23_invalid_file_is_refused_before_extraction (float_repr := sample_float_str)
              false
              {| world := world_of "notes.txt" (sample_file (Json sample_document));
                 self := XmindFileLoader.__init__ "notes.txt" false |})
    as (H1 & _ & _ & H4).
  - reflexivity.
  - intros H. discriminate H.
  - vm_compute. reflexivity.
  - split; [exact H1|]. apply H4. reflexivity.
Defined.

End FailFast.
